(** * Instagram posting adapters: a shallow embedding and its properties

    The five CrewAI tools under [single_instagram_post_creator/tools/]
    (Ayrshare, Buffer, Instagram Graph, Late, Zapier webhook) are
    embedded as Rocq functions in a monad of exceptions and request
    traces, one module per Python class, one definition per method.

    The Python standard library and the [requests] package are not
    part of the repository.  The parts of them the tools call are
    modelled in [Module Py], [Module Json] and [Module requests]; what
    cannot be computed from the arguments (the process environment,
    the clock, the ISO-8601 reader and printer, and the remote
    servers) is a field of [World], so that a statement about every
    world covers every HTTP and transport outcome.

    Conventions.  Arguments have the types of their annotations: a
    [str] is a [string], an [Optional[str]] an [option string].  A
    [str] is held as its UTF-8 encoding: [len] and the slices count
    characters, not bytes, and [strip] removes the white space of
    Unicode; [lower] and [upper] change ASCII letters only.  Instants
    are integers, in microseconds;
    the comparisons the tools make on floats are made exactly.  A
    request is recorded with its method, URL and payload; headers and
    timeouts, which no result depends on, are left out.  Each tool's
    [_run] is [run_result], which returns the dictionary, followed by
    [json.dumps]. *)

From Stdlib Require Import ZArith List String Ascii Bool Lia DecimalString.
Import ListNotations.
Local Open Scope string_scope.
Local Open Scope Z_scope.

(** ** Python strings *)

Module Py.

(** [bool(s)] of a [str]. *)
Definition truthy (s : string) : bool := negb (s =? "")%string.

(** [bool(x)] of an [Optional[str]]. *)
Definition truthy_opt (o : option string) : bool :=
  match o with Some s => truthy s | None => false end.

(** White space as [str.strip()] understands it: the characters for
    which [str.isspace()] holds.  In ASCII these are 9 to 13 and 28 to
    32. *)
Definition is_space (c : ascii) : bool :=
  let n := nat_of_ascii c in
  ((9 <=? n)%nat && (n <=? 13)%nat) || ((28 <=? n)%nat && (n <=? 32)%nat).

(** U+0085 and U+00A0, which UTF-8 writes in two bytes. *)
Definition is_space2 (a b : ascii) : bool :=
  let y := nat_of_ascii b in
  (nat_of_ascii a =? 194)%nat && ((y =? 133)%nat || (y =? 160)%nat).

(** U+1680, U+2000 to U+200A, U+2028, U+2029, U+202F, U+205F and
    U+3000, which UTF-8 writes in three bytes. *)
Definition is_space3 (a b c : ascii) : bool :=
  let x := nat_of_ascii a in
  let y := nat_of_ascii b in
  let z := nat_of_ascii c in
  ((x =? 225)%nat && (y =? 154)%nat && (z =? 128)%nat)
  || ((x =? 226)%nat && (y =? 128)%nat
      && (((128 <=? z)%nat && (z <=? 138)%nat)
          || (z =? 168)%nat || (z =? 169)%nat || (z =? 175)%nat))
  || ((x =? 226)%nat && (y =? 129)%nat && (z =? 159)%nat)
  || ((x =? 227)%nat && (y =? 128)%nat && (z =? 128)%nat).

(** [s] is one white-space character. *)
Definition is_space_char (s : string) : bool :=
  match s with
  | String a EmptyString => is_space a
  | String a (String b EmptyString) => is_space2 a b
  | String a (String b (String c EmptyString)) => is_space3 a b c
  | _ => false
  end.

(** [s.lstrip()] *)
Fixpoint lstrip (s : string) : string :=
  match s with
  | String a r =>
      if is_space a then lstrip r
      else
        match r with
        | String b r2 =>
            if is_space2 a b then lstrip r2
            else
              match r2 with
              | String c r3 => if is_space3 a b c then lstrip r3 else s
              | EmptyString => s
              end
        | EmptyString => s
        end
  | EmptyString => EmptyString
  end.

(** [s.rstrip()]: what follows the first byte is stripped first; the
    whole goes when that leaves one white-space character. *)
Fixpoint rstrip (s : string) : string :=
  match s with
  | String a r =>
      let kept := String a (rstrip r) in
      if is_space_char kept then EmptyString else kept
  | EmptyString => EmptyString
  end.

(** [s.strip()] *)
Definition strip (s : string) : string := rstrip (lstrip s).

(** [s.lstrip(c)] for a one-character set. *)
Fixpoint lstrip_char (c : ascii) (s : string) : string :=
  match s with
  | String d r => if Ascii.eqb d c then lstrip_char c r else s
  | EmptyString => EmptyString
  end.

(** [s.startswith(p)] *)
Fixpoint startswith (p s : string) : bool :=
  match p, s with
  | EmptyString, _ => true
  | String a p', String b s' => Ascii.eqb a b && startswith p' s'
  | String _ _, EmptyString => false
  end.

(** [sub in s] on two strings. *)
Fixpoint contains (sub s : string) : bool :=
  startswith sub s ||
  match s with
  | String _ r => contains sub r
  | EmptyString => false
  end.

(** [s.endswith(p)] *)
Definition endswith (p s : string) : bool :=
  let n := String.length s in
  let k := String.length p in
  (k <=? n)%nat && (String.substring (n - k)%nat k s =? p)%string.

(** In UTF-8 a byte from 128 to 191 continues the character begun
    before it, and every other byte begins one. *)
Definition is_continuation (c : ascii) : bool :=
  let n := nat_of_ascii c in (128 <=? n)%nat && (n <=? 191)%nat.

(** The next byte of [s] continues a character. *)
Definition continues (s : string) : bool :=
  match s with
  | String c _ => is_continuation c
  | EmptyString => false
  end.

(** The number of characters of [s]: one for each byte that ends a
    character, which is a byte that no continuation byte follows. *)
Fixpoint characters (s : string) : nat :=
  match s with
  | String _ r => if continues r then characters r else S (characters r)
  | EmptyString => O
  end.

(** [s[:n]]: the first [n] characters, each with all its bytes. *)
Fixpoint take (n : nat) (s : string) : string :=
  match s with
  | String c r =>
      match n with
      | O => EmptyString
      | S k => String c (if continues r then take n r else take k r)
      end
  | EmptyString => EmptyString
  end.

(** [s[:-1]] of a string that ends in an ASCII character, the only
    use the tools make of it. *)
Definition drop_last (s : string) : string :=
  String.substring 0 (String.length s - 1)%nat s.

(** [s.replace(c, by)] for a one-character pattern. *)
Fixpoint replace_char (c : ascii) (by_ : string) (s : string) : string :=
  match s with
  | String d r =>
      if Ascii.eqb d c then by_ ++ replace_char c by_ r
      else String d (replace_char c by_ r)
  | EmptyString => EmptyString
  end.

Definition lower_ascii (c : ascii) : ascii :=
  let n := nat_of_ascii c in
  if (65 <=? n)%nat && (n <=? 90)%nat then ascii_of_nat (n + 32)%nat else c.

Definition upper_ascii (c : ascii) : ascii :=
  let n := nat_of_ascii c in
  if (97 <=? n)%nat && (n <=? 122)%nat then ascii_of_nat (n - 32)%nat else c.

(** [s.upper()] on ASCII letters. *)
Fixpoint upper (s : string) : string :=
  match s with
  | String c r => String (upper_ascii c) (upper r)
  | EmptyString => EmptyString
  end.

(** [s.lower()] on ASCII letters. *)
Fixpoint lower (s : string) : string :=
  match s with
  | String c r => String (lower_ascii c) (lower r)
  | EmptyString => EmptyString
  end.

(** [sep.join(l)] *)
Fixpoint join (sep : string) (l : list string) : string :=
  match l with
  | [] => ""
  | [x] => x
  | x :: r => x ++ sep ++ join sep r
  end.

(** [str(n)] of an [int]. *)
Definition str_of_Z (z : Z) : string := NilZero.string_of_int (Z.to_int z).

(** [len(s)] *)
Definition len (s : string) : Z := Z.of_nat (characters s).

End Py.

(** The line feed character, written ["\n"] in the Python sources. *)
Definition LF : string := String (ascii_of_nat 10) EmptyString.

(** ** Exceptions

    The exception classes the tools can meet.  The first group is
    [requests.exceptions] ([ConnectTimeout] derives from both
    [ConnectionError] and [Timeout]); [JSONDecodeError] is the one
    raised by [Response.json()], which derives from both
    [RequestException] and [json.JSONDecodeError]; the URL errors also
    derive from [ValueError].  Each carries the text [str(e)] yields;
    the texts of the built-in errors follow CPython's wording. *)

Inductive exn : Type :=
| ConnectionError (msg : string)
| Timeout (msg : string)
| ConnectTimeout (msg : string)
| ReadTimeout (msg : string)
| MissingSchema (msg : string)
| InvalidSchema (msg : string)
| InvalidURL (msg : string)
| RequestException (msg : string)
| JSONDecodeError (msg : string)
| ValueError (msg : string)
| TypeError (msg : string)
| AttributeError (msg : string)
| KeyError (msg : string)
| IndexError (msg : string)
| OtherException (name msg : string).

Module Exn.

(** [str(e)] *)
Definition str (e : exn) : string :=
  match e with
  | ConnectionError m | Timeout m | ConnectTimeout m | ReadTimeout m
  | MissingSchema m
  | InvalidSchema m | InvalidURL m | RequestException m | JSONDecodeError m
  | ValueError m | TypeError m | AttributeError m | KeyError m
  | IndexError m | OtherException _ m => m
  end.

(** [type(e).__name__] *)
Definition name (e : exn) : string :=
  match e with
  | ConnectionError _ => "ConnectionError"
  | Timeout _ => "Timeout"
  | ConnectTimeout _ => "ConnectTimeout"
  | ReadTimeout _ => "ReadTimeout"
  | MissingSchema _ => "MissingSchema"
  | InvalidSchema _ => "InvalidSchema"
  | InvalidURL _ => "InvalidURL"
  | RequestException _ => "RequestException"
  | JSONDecodeError _ => "JSONDecodeError"
  | ValueError _ => "ValueError"
  | TypeError _ => "TypeError"
  | AttributeError _ => "AttributeError"
  | KeyError _ => "KeyError"
  | IndexError _ => "IndexError"
  | OtherException n _ => n
  end.

(** [isinstance(e, requests.exceptions.Timeout)] *)
Definition is_Timeout (e : exn) : bool :=
  match e with Timeout _ | ConnectTimeout _ | ReadTimeout _ => true | _ => false end.

(** [isinstance(e, requests.exceptions.ConnectionError)] *)
Definition is_ConnectionError (e : exn) : bool :=
  match e with ConnectionError _ | ConnectTimeout _ => true | _ => false end.

(** [isinstance(e, requests.exceptions.RequestException)] *)
Definition is_RequestException (e : exn) : bool :=
  match e with
  | ConnectionError _ | Timeout _ | ConnectTimeout _ | ReadTimeout _
  | MissingSchema _ | InvalidSchema _ | InvalidURL _ | RequestException _
  | JSONDecodeError _ => true
  | _ => false
  end.

(** [isinstance(e, json.JSONDecodeError)] *)
Definition is_JSONDecodeError (e : exn) : bool :=
  match e with JSONDecodeError _ => true | _ => false end.

(** [isinstance(e, ValueError)] *)
Definition is_ValueError (e : exn) : bool :=
  match e with
  | ValueError _ | JSONDecodeError _ | MissingSchema _ | InvalidSchema _
  | InvalidURL _ => true
  | _ => false
  end.

(** [isinstance(e, Exception)]: every member of [exn] is one. *)
Definition is_Exception (e : exn) : bool := true.

End Exn.

(** The outcome of evaluating a Python expression or block: a value,
    or a raised exception. *)
Inductive res (A : Type) : Type :=
| Ret (a : A)
| Raise (e : exn).
Arguments Ret {A} a.
Arguments Raise {A} e.

(** ** JSON values and the Python operations on them

    What [Response.json()] yields and what [json.dumps] takes.  An
    object keeps its keys in order; a lookup finds the first binding.
    Numbers are integers: non-integral JSON numbers are outside the
    model. *)

#[local] Set Warnings "-register-all".

Inductive json : Type :=
| JNull
| JBool (b : bool)
| JNum (z : Z)
| JStr (s : string)
| JArr (l : list json)
| JObj (kv : list (string * json)).

Module Json.

Fixpoint lookup (k : string) (kv : list (string * json)) : option json :=
  match kv with
  | [] => None
  | (k', v) :: r => if (k' =? k)%string then Some v else lookup k r
  end.

(** [d[k] = v] on a dict: overwrite in place, or append. *)
Fixpoint set (k : string) (v : json) (kv : list (string * json))
  : list (string * json) :=
  match kv with
  | [] => [(k, v)]
  | (k', v') :: r =>
      if (k' =? k)%string then (k, v) :: r else (k', v') :: set k v r
  end.

(** [type(x).__name__] *)
Definition type_name (x : json) : string :=
  match x with
  | JNull => "NoneType"
  | JBool _ => "bool"
  | JNum _ => "int"
  | JStr _ => "str"
  | JArr _ => "list"
  | JObj _ => "dict"
  end.

(** [bool(x)] *)
Definition truthy (x : json) : bool :=
  match x with
  | JNull => false
  | JBool b => b
  | JNum z => negb (z =? 0)
  | JStr s => Py.truthy s
  | JArr l => match l with [] => false | _ => true end
  | JObj kv => match kv with [] => false | _ => true end
  end.

(** [x == s] for a [str] [s]. *)
Definition eq_str (x : json) (s : string) : bool :=
  match x with JStr t => (t =? s)%string | _ => false end.

(** [isinstance(x, dict)] *)
Definition is_dict (x : json) : bool :=
  match x with JObj _ => true | _ => false end.

(** [k in x] for a [str] [k]: key of a dict, element of a list,
    substring of a string; a [TypeError] on anything else. *)
Definition contains (k : string) (x : json) : res bool :=
  match x with
  | JObj kv => Ret (match lookup k kv with Some _ => true | None => false end)
  | JArr l => Ret (existsb (fun e => eq_str e k) l)
  | JStr s => Ret (Py.contains k s)
  | _ => Raise (TypeError ("argument of type '" ++ type_name x ++ "' is not iterable"))
  end.

(** [x[k]] for a [str] [k]. *)
Definition getitem (k : string) (x : json) : res json :=
  match x with
  | JObj kv =>
      match lookup k kv with
      | Some v => Ret v
      | None => Raise (KeyError ("'" ++ k ++ "'"))
      end
  | JArr _ => Raise (TypeError "list indices must be integers or slices, not str")
  | JStr _ => Raise (TypeError "string indices must be integers, not 'str'")
  | _ => Raise (TypeError ("'" ++ type_name x ++ "' object is not subscriptable"))
  end.

(** [x.get(k, default)]: only a dict has the method. *)
Definition get (k : string) (default : json) (x : json) : res json :=
  match x with
  | JObj kv =>
      Ret (match lookup k kv with Some v => v | None => default end)
  | _ => Raise (AttributeError ("'" ++ type_name x ++ "' object has no attribute 'get'"))
  end.

(** [len(x)] *)
Definition len (x : json) : res Z :=
  match x with
  | JObj kv => Ret (Z.of_nat (List.length kv))
  | JArr l => Ret (Z.of_nat (List.length l))
  | JStr s => Ret (Py.len s)
  | _ => Raise (TypeError ("object of type '" ++ type_name x ++ "' has no len()"))
  end.

(** [x[0]] *)
Definition first (x : json) : res json :=
  match x with
  | JArr (v :: _) => Ret v
  | JArr [] => Raise (IndexError "list index out of range")
  | JStr (String c r) => Ret (JStr (Py.take 1 (String c r)))
  | JStr EmptyString => Raise (IndexError "string index out of range")
  | JObj _ => Raise (KeyError "0")
  | _ => Raise (TypeError ("'" ++ type_name x ++ "' object is not subscriptable"))
  end.

(** The characters of a string, each a string of its own; [current]
    holds the bytes of the character being read. *)
Fixpoint chars_from (current s : string) : list json :=
  match s with
  | String c r =>
      let current := current ++ String c EmptyString in
      if Py.continues r then chars_from current r
      else JStr current :: chars_from EmptyString r
  | EmptyString => []
  end.

Definition chars (s : string) : list json := chars_from EmptyString s.

(** The items [for v in x] visits. *)
Definition iter (x : json) : res (list json) :=
  match x with
  | JArr l => Ret l
  | JObj kv => Ret (map (fun p => JStr (fst p)) kv)
  | JStr s => Ret (chars s)
  | _ => Raise (TypeError ("'" ++ type_name x ++ "' object is not iterable"))
  end.

Definition hex_digit (n : nat) : ascii :=
  if (n <? 10)%nat then ascii_of_nat (48 + n) else ascii_of_nat (87 + n).

(** String escapes of [json.dumps]; bytes above 127 are kept as they
    are (Python writes a [\u] escape for the characters they encode). *)
Fixpoint escape (s : string) : string :=
  match s with
  | EmptyString => EmptyString
  | String c r =>
      let n := nat_of_ascii c in
      (if (n =? 34)%nat then String "\" (String c EmptyString)
       else if (n =? 92)%nat then String "\" (String "\" EmptyString)
       else if (n =? 10)%nat then "\n"
       else if (n =? 13)%nat then "\r"
       else if (n =? 9)%nat then "\t"
       else if (n =? 8)%nat then "\b"
       else if (n =? 12)%nat then "\f"
       else if (n <? 32)%nat then
         "\u00" ++ String (hex_digit (n / 16))
                     (String (hex_digit (n mod 16)) EmptyString)
       else String c EmptyString) ++ escape r
  end.

Definition quote (s : string) : string :=
  String (ascii_of_nat 34) (escape s ++ String (ascii_of_nat 34) EmptyString).

Fixpoint spaces (n : nat) : string :=
  match n with O => "" | S k => String " " (spaces k) end.

Definition newline (indent : option nat) (depth : nat) : string :=
  match indent with
  | None => ""
  | Some n => LF ++ spaces (n * depth)
  end.

Definition item_sep (indent : option nat) (depth : nat) : string :=
  match indent with
  | None => ", "
  | Some _ => "," ++ newline indent depth
  end.

Fixpoint dumps_at (indent : option nat) (depth : nat) (j : json) : string :=
  match j with
  | JNull => "null"
  | JBool true => "true"
  | JBool false => "false"
  | JNum z => Py.str_of_Z z
  | JStr s => quote s
  | JArr [] => "[]"
  | JArr l =>
      "[" ++ newline indent (S depth)
      ++ Py.join (item_sep indent (S depth)) (map (dumps_at indent (S depth)) l)
      ++ newline indent depth ++ "]"
  | JObj [] => "{}"
  | JObj kv =>
      "{" ++ newline indent (S depth)
      ++ Py.join (item_sep indent (S depth))
           (map (fun p => quote (fst p) ++ ": " ++ dumps_at indent (S depth) (snd p)) kv)
      ++ newline indent depth ++ "}"
  end.

(** [json.dumps(j)] and [json.dumps(j, indent=n)] *)
Definition dumps (j : json) : string := dumps_at None 0 j.
Definition dumps_indent (n : nat) (j : json) : string := dumps_at (Some n) 0 j.

(** [repr(x)] of the Python value a JSON text decodes to; a string
    is put between single quotes as it is (Python escapes quotes,
    backslashes and control characters in it). *)
Fixpoint repr (j : json) : string :=
  match j with
  | JNull => "None"
  | JBool true => "True"
  | JBool false => "False"
  | JNum z => Py.str_of_Z z
  | JStr s => "'" ++ s ++ "'"
  | JArr l => "[" ++ Py.join ", " (map repr l) ++ "]"
  | JObj kv =>
      "{" ++ Py.join ", " (map (fun p => "'" ++ fst p ++ "': " ++ repr (snd p)) kv) ++ "}"
  end.

(** [str(x)], as an f-string interpolates it. *)
Definition str (j : json) : string :=
  match j with JStr s => s | _ => repr j end.

(** An [Optional[str]] as a JSON value. *)
Definition of_opt (o : option string) : json :=
  match o with Some s => JStr s | None => JNull end.

End Json.

(** ** The world outside the process *)

(** A [datetime]: naive (a wall-clock reading) or aware (an instant
    and a UTC offset), in microseconds. *)
Inductive datetime : Type :=
| Naive (wall_us : Z)
| Aware (instant_us utcoffset_us : Z).

(** An HTTP request handed to the transport: method, URL and the
    payload ([json=], [data=] or [params=]). *)
Record Request : Type := mkRequest {
  req_method : string;
  req_url : string;
  req_payload : json
}.

(** Why [.json()] yields no value.  The body is not JSON, and
    [requests] raises its [JSONDecodeError]; or the body is JSON and
    the decoder of the standard library gives up on it, with a
    [ValueError] (an integer of more digits than [int] converts) or a
    [RecursionError] (arrays or objects nested too deep), which
    [requests] lets through as they are.  Each carries the text of
    its exception. *)
Inductive refusal : Type :=
| NotJson
| IntegerTooLong (msg : string)
| NestedTooDeep (msg : string).

(** An HTTP response.  [json_value] is what [.json()] decodes, [None]
    when it decodes nothing, for the reason [json_refusal] gives (the
    field is read in that case only).  Neither is tied to [text], so
    every combination a server could send is covered. *)
Record Response : Type := mkResponse {
  status_code : Z;
  text : string;
  json_value : option json;
  content_type : option string;
  json_refusal : refusal
}.

Inductive outcome : Type :=
| Responded (r : Response)
| Failed (e : exn).

(** Everything a tool reads from outside: the process environment,
    the clock (UTC, microseconds since the epoch) and the local UTC
    offset, the [datetime] parsers and printer of the standard
    library, and the servers, which may answer a request differently
    depending on the requests sent before. *)
Record World : Type := mkWorld {
  getenv : string -> option string;
  clock_us : Z;
  local_utcoffset_us : Z;
  fromisoformat : string -> option datetime;
  strptime : string -> string -> option datetime;
  isoformat : datetime -> string;
  transport : list Request -> Request -> outcome
}.

(** ** The monad of a tool run: exceptions, and the trace of requests sent *)

Definition M (A : Type) : Type := list Request -> res A * list Request.

Definition ret {A} (a : A) : M A := fun t => (Ret a, t).

Definition raise {A} (e : exn) : M A := fun t => (Raise e, t).

Definition lift {A} (r : res A) : M A := fun t => (r, t).

Definition bind {A B} (m : M A) (k : A -> M B) : M B :=
  fun t =>
    match m t with
    | (Ret a, t') => k a t'
    | (Raise e, t') => (Raise e, t')
    end.

Definition fmap {A B} (f : A -> B) (m : M A) : M B :=
  bind m (fun a => ret (f a)).

Notation "x <- m ;; k" := (bind m (fun x => k))
  (at level 61, m at next level, right associativity).

(** One [except] clause: the class test and the handler body. *)
Definition clause (A : Type) : Type := (exn -> bool) * (exn -> M A).

Fixpoint dispatch {A} (cs : list (clause A)) (e : exn) : M A :=
  match cs with
  | [] => raise e
  | (cls, h) :: r => if cls e then h e else dispatch r e
  end.

(** [try: m  except C1 as e: h1  except C2 as e: h2 ...]: the first
    clause whose class the exception belongs to runs; with none, the
    exception goes on. *)
Definition try_except {A} (m : M A) (cs : list (clause A)) : M A :=
  fun t =>
    match m t with
    | (Ret a, t') => (Ret a, t')
    | (Raise e, t') => dispatch cs e t'
    end.

(** ** The [requests] package *)

Module requests.

Definition has_http_prefix (url : string) : bool :=
  let u := Py.lower (Py.lstrip url) in
  Py.startswith "http://" u || Py.startswith "https://" u.

(** What [requests] raises before any connection is opened
    ([PreparedRequest.prepare_url] and [Session.get_adapter]): a URL
    with a colon that does not start with [http] is left unprepared
    and finds no connection adapter; one without a scheme is refused;
    any other URL outside [http://] and [https://] fails in one of
    the two places. *)
Definition url_fault (url : string) : option exn :=
  let u := Py.lstrip url in
  if has_http_prefix url then None
  else if Py.contains ":" u then
    if negb (Py.startswith "http" (Py.lower u))
    then Some (InvalidSchema ("No connection adapters were found for '" ++ u ++ "'"))
    else Some (InvalidURL ("Invalid URL '" ++ u ++ "'"))
  else Some (MissingSchema ("Invalid URL '" ++ u
               ++ "': No scheme supplied. Perhaps you meant https://" ++ u ++ "?")).

(** [requests.request(method, url, ...)]: a URL fault is raised
    without touching the network; otherwise the request is sent (it
    joins the trace) and the world answers or fails. *)
Definition request (W : World) (method url : string) (payload : json) : M Response :=
  fun t =>
    match url_fault url with
    | Some e => (Raise e, t)
    | None =>
        let rq := mkRequest method url payload in
        match transport W t rq with
        | Responded r => (Ret r, (t ++ [rq])%list)
        | Failed e => (Raise e, (t ++ [rq])%list)
        end
    end.

Definition get (W : World) := request W "GET".
Definition post (W : World) := request W "POST".
Definition head (W : World) := request W "HEAD".

(** What [response.json()] raises on a body it decodes nothing from. *)
Definition decode_error (r : Response) : exn :=
  match json_refusal r with
  | NotJson => JSONDecodeError "Expecting value: line 1 column 1 (char 0)"
  | IntegerTooLong msg => ValueError msg
  | NestedTooDeep msg => OtherException "RecursionError" msg
  end.

(** [response.json()] *)
Definition json (r : Response) : res json :=
  match json_value r with
  | Some j => Ret j
  | None => Raise (decode_error r)
  end.

(** [response.headers.get('content-type', '')] *)
Definition content_type_or_empty (r : Response) : string :=
  match content_type r with Some s => s | None => "" end.

(** [bool(response.content)] *)
Definition has_content (r : Response) : bool := Py.truthy (text r).

End requests.

(** [d["success"]] read as a condition, for the dictionaries the
    helpers return (each has the key). *)
Definition success_of (d : json) : bool :=
  match d with
  | JObj kv => match Json.lookup "success" kv with Some v => Json.truthy v | None => false end
  | _ => false
  end.

(** The entry [k] of a result dictionary. *)
Definition field (k : string) (d : json) : option json :=
  match d with JObj kv => Json.lookup k kv | _ => None end.

(** [str(x)] of an [Optional[str]], as an f-string interpolates it. *)
Definition str_opt (o : option string) : string :=
  match o with Some s => s | None => "None" end.

(** ** ayrshare_instagram_publisher.py *)

(** The pydantic input schema: each validator returns the value it
    accepts or raises [ValueError]. *)
Module AyrshareInstagramRequest.

(** [validate_schedule_date] *)
Definition validate_schedule_date (W : World) (v : option string)
  : res (option string) :=
  match v with
  | Some s =>
      match strptime W s "%Y-%m-%d" with
      | Some _ => Ret v
      | None => Raise (ValueError "schedule_date must be in YYYY-MM-DD format")
      end
  | None => Ret v
  end.

Definition in_range (lo hi c : ascii) : bool :=
  (nat_of_ascii lo <=? nat_of_ascii c)%nat && (nat_of_ascii c <=? nat_of_ascii hi)%nat.

(** [:[0-5][0-9]$]; [$] also matches before one final line feed. *)
Definition minutes_tail (s : string) : bool :=
  match s with
  | String c (String m1 (String m2 r)) =>
      Ascii.eqb c ":" && in_range "0" "5" m1 && in_range "0" "9" m2
      && ((r =? "")%string || (r =? LF)%string)
  | _ => false
  end.

(** [re.match(r'^([0-1]?[0-9]|2[0-3]):[0-5][0-9]$', s)] *)
Definition match_schedule_time (s : string) : bool :=
  match s with
  | String h1 r1 =>
      (in_range "0" "1" h1
       && match r1 with
          | String h2 r2 => in_range "0" "9" h2 && minutes_tail r2
          | EmptyString => false
          end)
      || (in_range "0" "9" h1 && minutes_tail r1)
      || (Ascii.eqb h1 "2"
          && match r1 with
             | String h2 r2 => in_range "0" "3" h2 && minutes_tail r2
             | EmptyString => false
             end)
  | EmptyString => false
  end.

(** [validate_schedule_time] *)
Definition validate_schedule_time (v : option string) : res (option string) :=
  match v with
  | Some s =>
      if negb (match_schedule_time s)
      then Raise (ValueError "schedule_time must be in HH:MM format (24-hour)")
      else Ret v
  | None => Ret v
  end.

(** [validate_image_url] *)
Definition validate_image_url (v : option string) : res (option string) :=
  match v with
  | Some s =>
      if Py.truthy (Py.strip s) then
        if negb (Py.startswith "http://" s || Py.startswith "https://" s)
        then Raise (ValueError "image_url must be a valid HTTP/HTTPS URL")
        else Ret v
      else Ret v
  | None => Ret v
  end.

End AyrshareInstagramRequest.

Module AyrshareInstagramPublisher.

Definition api_url : string := "https://app.ayrshare.com/api/post".

Definition error_result (message : string) : json :=
  JObj [("status", JStr "error"); ("message", JStr message); ("post_id", JNull)].

(** Line 87: [f"{schedule_date}T{schedule_time}:00Z"] *)
Definition datetime_str (schedule_date schedule_time : option string) : string :=
  str_opt schedule_date ++ "T" ++ str_opt schedule_time ++ ":00Z".

(** Lines 83-105: the schedule block.  [inr] is the early [return],
    [inl] the payload and [is_scheduled] the code goes on with. *)
Definition schedule_block (W : World) (payload : list (string * json))
    (schedule_date schedule_time : option string)
  : (list (string * json) * bool) + json :=
  if Py.truthy_opt schedule_date && Py.truthy_opt schedule_time then
    let datetime_str := datetime_str schedule_date schedule_time in
    match fromisoformat W (Py.replace_char "Z" "+00:00" datetime_str) with
    | Some _ => inl (Json.set "scheduleDate" (JStr datetime_str) payload, true)
    | None =>
        inr (error_result ("Invalid schedule date/time combination: "
                           ++ "Invalid isoformat string: '"
                           ++ Py.replace_char "Z" "+00:00" datetime_str ++ "'"))
    end
  else if Py.truthy_opt schedule_date || Py.truthy_opt schedule_time then
    inr (error_result "Both schedule_date and schedule_time must be provided for scheduling")
  else inl (payload, false).

(** Lines 119-124: the post identifier of a decoded 200 body. *)
Definition extract_post_id (response_data : json) : res json :=
  match Json.contains "id" response_data with
  | Raise e => Raise e
  | Ret true => Json.getitem "id" response_data
  | Ret false =>
      match Json.contains "data" response_data with
      | Raise e => Raise e
      | Ret false => Ret JNull
      | Ret true =>
          match Json.getitem "data" response_data with
          | Raise e => Raise e
          | Ret d => if Json.is_dict d then Json.get "id" JNull d else Ret JNull
          end
      end
  end.

(** Lines 145-150: the message of a 400 response; the bare [except:]
    swallows whatever decoding raises. *)
Definition bad_request_message (response : Response) : string :=
  match requests.json response with
  | Ret error_data =>
      match Json.get "message" (JStr "Bad request - check your parameters") error_data with
      | Ret m => Json.str m
      | Raise _ => "Bad request - invalid parameters or data format"
      end
  | Raise _ => "Bad request - invalid parameters or data format"
  end.

(** Lines 74-81: the payload before scheduling. *)
Definition base_payload (post_text : string) (image_url : option string)
  : list (string * json) :=
  let payload :=
    [("post", JStr (Py.strip post_text)); ("platforms", JArr [JStr "instagram"])] in
  if Py.truthy_opt image_url && Py.truthy (Py.strip (str_opt image_url))
  then Json.set "mediaUrls" (JArr [JStr (Py.strip (str_opt image_url))]) payload
  else payload.

(** Lines 116-170: the result for the answer to the posting call. *)
Definition normalize (is_scheduled : bool) (schedule_date schedule_time : option string)
    (response : Response) : M json :=
  if status_code response =? 200 then
    response_data <- lift (requests.json response) ;;
    post_id <- lift (extract_post_id response_data) ;;
    let success_message :=
      if is_scheduled
      then "Post scheduled successfully for " ++ str_opt schedule_date
           ++ " at " ++ str_opt schedule_time ++ " on Instagram @kskk.2031"
      else "Post published successfully to Instagram @kskk.2031" in
    ret (JObj [("status", JStr "success");
               ("message", JStr success_message);
               ("post_id", post_id);
               ("scheduled", JBool is_scheduled);
               ("schedule_time",
                if is_scheduled
                then JStr (str_opt schedule_date ++ " " ++ str_opt schedule_time)
                else JNull)])
  else if status_code response =? 401 then
    ret (error_result "Authentication failed - invalid API key")
  else if status_code response =? 400 then
    ret (error_result ("API error: " ++ bad_request_message response))
  else if status_code response =? 429 then
    ret (error_result "Rate limit exceeded - please try again later")
  else
    ret (error_result ("API request failed with status code "
                       ++ Py.str_of_Z (status_code response) ++ ": "
                       ++ text response)).

(** The dictionary [_run] serialises: the body of [_run] with every
    [return json.dumps(d)] read as [return d]. *)
Definition run_result (W : World) (post_text : string)
    (image_url schedule_date schedule_time : option string) : M json :=
  try_except
    (match schedule_block W (base_payload post_text image_url)
             schedule_date schedule_time with
     | inr early => ret early
     | inl (payload, is_scheduled) =>
         response <- requests.post W api_url (JObj payload) ;;
         normalize is_scheduled schedule_date schedule_time response
     end)
    [(Exn.is_Timeout, fun _ =>
        ret (error_result
               "Request timed out - please check your internet connection and try again"));
     (Exn.is_ConnectionError, fun _ =>
        ret (error_result "Connection error - unable to reach Ayrshare API"));
     (Exn.is_RequestException, fun e =>
        ret (error_result ("Network error: " ++ Exn.str e)));
     (Exn.is_Exception, fun e =>
        ret (error_result ("Unexpected error: " ++ Exn.str e)))].

(** [AyrshareInstagramPublisher._run] *)
Definition _run (W : World) (post_text : string)
    (image_url schedule_date schedule_time : option string) : M string :=
  fmap Json.dumps (run_result W post_text image_url schedule_date schedule_time).

End AyrshareInstagramPublisher.

(** ** zapier_instagram_webhook.py *)

Module ZapierInstagramWebhookTool.

(** The local constant of [_run]. *)
Definition webhook_url : string := "".

(** Lines 51-53: [f"#{tag.lstrip('#')}"] for each tag. *)
Definition format_hashtag (tag : string) : string := "#" ++ Py.lstrip_char "#" tag.

Definition format_hashtags (hashtags : option (list string)) : list string :=
  match hashtags with
  | Some (t :: r) => map format_hashtag (t :: r)
  | _ => []
  end.

(** Lines 56-58: the caption sent to the webhook. *)
Definition full_content (content : string) (hashtags : option (list string)) : string :=
  match format_hashtags hashtags with
  | [] => content
  | formatted => content ++ " " ++ Py.join " " formatted
  end.

Definition len_opt {A} (l : option (list A)) : Z :=
  match l with Some x => Z.of_nat (List.length x) | None => 0 end.

(** The body of [_run] with the local [webhook_url] as a parameter. *)
Definition run_at (url : string) (W : World) (content preferred_posting_time timezone : string)
    (media_urls hashtags : option (list string)) (brand_name : option string) : M string :=
  let timestamp := isoformat W (Naive (clock_us W + local_utcoffset_us W)) in
  try_except
    (let payload :=
       JObj [("content", JStr (full_content content hashtags));
             ("media_urls",
              JArr (map JStr (match media_urls with Some l => l | None => [] end)));
             ("preferred_posting_time", JStr preferred_posting_time);
             ("timezone", JStr timezone);
             ("account", JStr "@kskk.2031");
             ("post_type", JStr "feed");
             ("brand_name", Json.of_opt brand_name)] in
     response <- requests.post W url payload ;;
     let status := Py.str_of_Z (status_code response) in
     if status_code response =? 200 then
       try_except
         (response_data <- lift (requests.json response) ;;
          ret ("✅ SUCCESS: Instagram post data sent to Zapier webhook successfully!" ++ LF
               ++ "📅 Timestamp: " ++ timestamp ++ LF
               ++ "📱 Account: @kskk.2031" ++ LF
               ++ "⏰ Preferred posting time: " ++ preferred_posting_time
               ++ " " ++ timezone ++ LF
               ++ "📝 Content length: " ++ Py.str_of_Z (Py.len content) ++ " characters" ++ LF
               ++ "📸 Media URLs: " ++ Py.str_of_Z (len_opt media_urls) ++ " items" ++ LF
               ++ "🏷️ Hashtags: " ++ Py.str_of_Z (len_opt hashtags) ++ " items" ++ LF
               ++ "🔗 Webhook response: " ++ Json.str response_data ++ LF
               ++ "🌐 Response status: " ++ status))
         [(Exn.is_JSONDecodeError, fun _ =>
             ret ("✅ SUCCESS: Instagram post data sent to Zapier webhook!" ++ LF
                  ++ "📅 Timestamp: " ++ timestamp ++ LF
                  ++ "📱 Account: @kskk.2031" ++ LF
                  ++ "⏰ Preferred posting time: " ++ preferred_posting_time
                  ++ " " ++ timezone ++ LF
                  ++ "🌐 Response status: " ++ status ++ LF
                  ++ "📄 Response text: " ++ text response))]
     else if status_code response =? 400 then
       ret ("❌ FAILURE: Bad request to Zapier webhook" ++ LF
            ++ "📅 Timestamp: " ++ timestamp ++ LF
            ++ "🌐 Status code: " ++ status ++ LF
            ++ "📄 Error response: " ++ text response ++ LF
            ++ "💡 Suggestion: Check the payload format and required fields")
     else if status_code response =? 401 then
       ret ("❌ FAILURE: Unauthorized access to Zapier webhook" ++ LF
            ++ "📅 Timestamp: " ++ timestamp ++ LF
            ++ "🌐 Status code: " ++ status ++ LF
            ++ "💡 Suggestion: Verify the webhook URL is correct")
     else if status_code response =? 404 then
       ret ("❌ FAILURE: Zapier webhook not found" ++ LF
            ++ "📅 Timestamp: " ++ timestamp ++ LF
            ++ "🌐 Status code: " ++ status ++ LF
            ++ "💡 Suggestion: Verify the webhook URL exists and is active")
     else if status_code response >=? 500 then
       ret ("❌ FAILURE: Zapier server error" ++ LF
            ++ "📅 Timestamp: " ++ timestamp ++ LF
            ++ "🌐 Status code: " ++ status ++ LF
            ++ "📄 Error response: " ++ text response ++ LF
            ++ "💡 Suggestion: Try again later, this may be a temporary Zapier issue")
     else
       ret ("⚠️ WARNING: Unexpected response from Zapier webhook" ++ LF
            ++ "📅 Timestamp: " ++ timestamp ++ LF
            ++ "🌐 Status code: " ++ status ++ LF
            ++ "📄 Response: " ++ text response))
    [(Exn.is_ConnectionError, fun _ =>
        ret ("❌ FAILURE: Connection error to Zapier webhook" ++ LF
             ++ "📅 Timestamp: " ++ timestamp ++ LF
             ++ "🌐 URL: " ++ url ++ LF
             ++ "💡 Suggestion: Check internet connection or webhook URL availability"));
     (Exn.is_Timeout, fun _ =>
        ret ("❌ FAILURE: Request timeout to Zapier webhook" ++ LF
             ++ "📅 Timestamp: " ++ timestamp ++ LF
             ++ "⏱️ Timeout: 30 seconds" ++ LF
             ++ "💡 Suggestion: Try again later or check network connection"));
     (Exn.is_RequestException, fun e =>
        ret ("❌ FAILURE: Request error to Zapier webhook" ++ LF
             ++ "📅 Timestamp: " ++ timestamp ++ LF
             ++ "❗ Error: " ++ Exn.str e ++ LF
             ++ "💡 Suggestion: Check request parameters and network connection"));
     (Exn.is_Exception, fun e =>
        ret ("❌ FAILURE: Unexpected error occurred" ++ LF
             ++ "📅 Timestamp: " ++ timestamp ++ LF
             ++ "❗ Error: " ++ Exn.str e ++ LF
             ++ "💡 Suggestion: Check all input parameters and try again"))].

(** [ZapierInstagramWebhookTool._run] *)
Definition _run : World -> string -> string -> string ->
    option (list string) -> option (list string) -> option string -> M string :=
  run_at webhook_url.

End ZapierInstagramWebhookTool.

(** ** buffer_instagram_tool.py *)

Module BufferInstagramTool.

Definition profiles_url : string := "https://api.bufferapp.com/1/profiles.json".
Definition api_url : string := "https://api.bufferapp.com/1/updates/create.json".

(** [_make_api_request]; the [time.sleep(6.1)] before the call does
    not change what is sent or returned. *)
Definition _make_api_request (W : World) (url : string) (data : json) (method : string)
  : M Response :=
  if (Py.upper method =? "GET")%string
  then requests.get W url data
  else requests.post W url data.

(** Lines 233-236: the first profile whose ["id"] equals [profile_id]. *)
Fixpoint find_profile (profile_id : string) (profiles : list json) : res (option json) :=
  match profiles with
  | [] => Ret None
  | profile :: rest =>
      match Json.get "id" JNull profile with
      | Raise e => Raise e
      | Ret v => if Json.eq_str v profile_id then Ret (Some profile)
                 else find_profile profile_id rest
      end
  end.

(** Line 244: [[p.get("service") for p in profiles]] *)
Fixpoint services (profiles : list json) : res (list json) :=
  match profiles with
  | [] => Ret []
  | p :: rest =>
      match Json.get "service" JNull p with
      | Raise e => Raise e
      | Ret s =>
          match services rest with
          | Raise e => Raise e
          | Ret l => Ret (s :: l)
          end
      end
  end.

(** Lines 253-256: the Instagram profiles, summarised. *)
Fixpoint available_profiles (profiles : list json) : res (list json) :=
  match profiles with
  | [] => Ret []
  | p :: rest =>
      match Json.get "service" JNull p with
      | Raise e => Raise e
      | Ret s =>
          if Json.eq_str s "instagram" then
            match Json.get "id" JNull p, Json.get "formatted_username" JNull p with
            | Ret i, Ret u =>
                match available_profiles rest with
                | Raise e => Raise e
                | Ret l =>
                    Ret (JObj [("id", i); ("service", s); ("username", u)] :: l)
                end
            | Raise e, _ => Raise e
            | _, Raise e => Raise e
            end
          else available_profiles rest
      end
  end.

(** [_verify_profile] *)
Definition _verify_profile (W : World) (access_token profile_id : string) : M json :=
  try_except
    (response <- _make_api_request W profiles_url
                   (JObj [("access_token", JStr access_token)]) "GET" ;;
     if status_code response =? 200 then
       profiles <- lift (requests.json response) ;;
       items <- lift (Json.iter profiles) ;;
       target <- lift (find_profile profile_id items) ;;
       match target with
       | Some target_profile =>
           if Json.truthy target_profile then
             service <- lift (Json.get "service" JNull target_profile) ;;
             if negb (Json.eq_str service "instagram") then
               all <- lift (services items) ;;
               ret (JObj [("success", JBool false);
                          ("error", JStr ("Profile " ++ profile_id
                                          ++ " is not an Instagram profile"));
                          ("actual_service", service);
                          ("available_services", JArr all)])
             else
               name <- lift (Json.get "formatted_username" JNull target_profile) ;;
               ret (JObj [("success", JBool true);
                          ("profile_name", name);
                          ("service", service)])
           else
             avail <- lift (available_profiles items) ;;
             ret (JObj [("success", JBool false);
                        ("error", JStr ("Profile ID " ++ profile_id ++ " not found"));
                        ("available_instagram_profiles", JArr avail)])
       | None =>
           avail <- lift (available_profiles items) ;;
           ret (JObj [("success", JBool false);
                      ("error", JStr ("Profile ID " ++ profile_id ++ " not found"));
                      ("available_instagram_profiles", JArr avail)])
       end
     else
       details <- (if requests.has_content response
                   then lift (requests.json response)
                   else ret (JStr "No response content")) ;;
       ret (JObj [("success", JBool false);
                  ("error", JStr ("Failed to fetch profiles: "
                                  ++ Py.str_of_Z (status_code response)));
                  ("details", details)]))
    [(Exn.is_Exception, fun e =>
        ret (JObj [("success", JBool false);
                   ("error", JStr ("Error verifying profile: " ++ Exn.str e))]))].

(** [_validate_media_url] *)
Definition _validate_media_url (W : World) (media_url : string) : M json :=
  try_except
    (response <- requests.head W media_url JNull ;;
     if negb (status_code response =? 200) then
       ret (JObj [("success", JBool false);
                  ("error", JStr ("Media URL is not accessible: "
                                  ++ Py.str_of_Z (status_code response)));
                  ("url", JStr media_url)])
     else
       let content_type := Py.lower (requests.content_type_or_empty response) in
       if Py.truthy content_type && negb (Py.startswith "image/" content_type) then
         ret (JObj [("success", JBool false);
                    ("error", JStr ("URL does not appear to be an image. Content-Type: "
                                    ++ content_type));
                    ("url", JStr media_url)])
       else ret (JObj [("success", JBool true)]))
    [(Exn.is_RequestException, fun e =>
        ret (JObj [("success", JBool false);
                   ("error", JStr ("Cannot access media URL: " ++ Exn.str e));
                   ("url", JStr media_url)]))].

(** [bool(scheduled_at)] of an [Optional[int]]. *)
Definition truthy_int (o : option Z) : bool :=
  match o with Some z => negb (z =? 0) | None => false end.

(** [int(time.time())] *)
Definition current_time (W : World) : Z := Z.quot (clock_us W) 1000000.

(** Lines 159-203: the result for the answer to the posting call. *)
Definition normalize (text : string) (media : option string) (response : Response)
  : M json :=
  if status_code response =? 200 then
    result_data <- lift (requests.json response) ;;
    has_updates <- lift (Json.contains "updates" result_data) ;;
    updates <- (if has_updates then lift (Json.getitem "updates" result_data)
                else ret (JArr [])) ;;
    n <- (if has_updates then lift (Json.len updates) else ret 0) ;;
    if has_updates && (n >? 0) then
      update <- lift (Json.first updates) ;;
      buffer_id <- lift (Json.get "id" JNull update) ;;
      status <- lift (Json.get "status" JNull update) ;;
      scheduled <- lift (Json.get "scheduled_at" JNull update) ;;
      service <- lift (Json.get "profile_service" JNull update) ;;
      let result :=
        [("success", JBool true);
         ("buffer_id", buffer_id);
         ("status", status);
         ("scheduled_at", scheduled);
         ("profile_service", service);
         ("text_length", JNum (Py.len text));
         ("has_media", JBool (match media with Some _ => true | None => false end));
         ("message", JStr "Post successfully created in Buffer")] in
      has_posted <- lift (Json.contains "posted_at" update) ;;
      posted_at <- (if has_posted then lift (Json.getitem "posted_at" update)
                    else ret JNull) ;;
      if has_posted && Json.truthy posted_at then
        ret (JObj (Json.set "message" (JStr "Post successfully published to Instagram")
                     (Json.set "posted_at" posted_at result)))
      else ret (JObj result)
    else
      ret (JObj [("success", JBool false);
                 ("error", JStr "Unexpected response format from Buffer API");
                 ("response", result_data)])
  else if status_code response =? 429 then
    ret (JObj [("success", JBool false);
               ("error", JStr "Rate limit exceeded. Buffer allows 10 requests per minute.");
               ("retry_after", JStr "Wait 60 seconds before trying again")])
  else
    error_data <- (if requests.has_content response
                   then lift (requests.json response)
                   else ret (JObj [])) ;;
    details <- lift (Json.get "error" (JStr "Unknown error") error_data) ;;
    ret (JObj [("success", JBool false);
               ("error", JStr ("Buffer API error: "
                               ++ Py.str_of_Z (status_code response)));
               ("details", details);
               ("status_code", JNum (status_code response))]).

(** Lines 124-128: the media check, when a media URL is given. *)
Definition media_check (W : World) (media : option string) : M json :=
  if Py.truthy_opt media
  then _validate_media_url W (str_opt media)
  else ret (JObj [("success", JBool true)]).

(** Lines 134-154: the form data of the posting call. *)
Definition build_post_data (access_token profile_id text : string)
    (media : option string) (scheduled_at : option Z) (top : bool)
  : list (string * json) :=
  let post_data :=
    [("access_token", JStr access_token);
     ("profile_ids[]", JStr profile_id);
     ("text", JStr text);
     ("top", JStr (if top then "true" else "false"))] in
  let post_data :=
    if Py.truthy_opt media
    then Json.set "media[link]" (JStr (str_opt media)) post_data
    else post_data in
  match scheduled_at with
  | Some t => if truthy_int scheduled_at
              then Json.set "scheduled_at" (JNum t) post_data
              else post_data
  | None => post_data
  end.

(** Lines 146-149: [scheduled_at] is given and not in the future. *)
Definition past_schedule (W : World) (scheduled_at : option Z) : bool :=
  match scheduled_at with
  | Some t => truthy_int scheduled_at && (t <=? current_time W)
  | None => false
  end.

(** The dictionary [_run] serialises. *)
Definition run_result (W : World) (profile_id text : string) (media : option string)
    (scheduled_at : option Z) (top : bool) : M json :=
  try_except
    (let access_token := getenv W "BUFFER_API_KEY" in
     if negb (Py.truthy_opt access_token) then
       ret (JObj [("success", JBool false);
                  ("error", JStr "BUFFER_API_KEY environment variable is required");
                  ("setup_help",
                   JStr "Set your Buffer API access token as BUFFER_API_KEY environment variable")])
     else if negb (Py.truthy profile_id) || negb (Py.truthy text) then
       ret (JObj [("success", JBool false);
                  ("error", JStr "profile_id and text are required parameters")])
     else
       profile_check <- _verify_profile W (str_opt access_token) profile_id ;;
       if negb (success_of profile_check) then ret profile_check
       else
         media_check <- media_check W media ;;
         if negb (success_of media_check) then ret media_check
         else if past_schedule W scheduled_at then
           ret (JObj [("success", JBool false);
                      ("error",
                       JStr ("Scheduled time must be in the future. Current time: "
                             ++ Py.str_of_Z (current_time W) ++ ", Provided: "
                             ++ Py.str_of_Z (match scheduled_at with
                                             | Some t => t | None => 0 end)))])
         else
           response <- _make_api_request W api_url
                         (JObj (build_post_data (str_opt access_token) profile_id text
                                  media scheduled_at top)) "POST" ;;
           normalize text media response)
    [(Exn.is_RequestException, fun e =>
        ret (JObj [("success", JBool false);
                   ("error", JStr ("Network error connecting to Buffer API: " ++ Exn.str e));
                   ("troubleshooting",
                    JStr "Check your internet connection and Buffer API status")]));
     (Exn.is_Exception, fun e =>
        ret (JObj [("success", JBool false);
                   ("error", JStr ("Unexpected error: " ++ Exn.str e));
                   ("type", JStr (Exn.name e))]))].

(** The posting call of an invocation. *)
Definition posting_request (access_token profile_id text : string)
    (media : option string) (scheduled_at : option Z) (top : bool) : Request :=
  mkRequest "POST" api_url
    (JObj (build_post_data access_token profile_id text media scheduled_at top)).

(** Which serialiser a [return] uses: only the success report of
    line 182 is written with [indent=2]. *)
Definition render (j : json) : string :=
  if success_of j then Json.dumps_indent 2 j else Json.dumps j.

(** [BufferInstagramTool._run] *)
Definition _run (W : World) (profile_id text : string) (media : option string)
    (scheduled_at : option Z) (top : bool) : M string :=
  fmap render (run_result W profile_id text media scheduled_at top).

End BufferInstagramTool.

(** ** instagram_posting_tool.py *)

Module InstagramPostingTool.

Definition graph : string := "https://graph.facebook.com/v18.0/".

(** [error_data.get('error', {}).get('message', 'Unknown error')] after
    [error_data = response.json() if <JSON content type> else {}] *)
Definition error_message (response : Response) : res json :=
  match (if Py.startswith "application/json" (requests.content_type_or_empty response)
         then requests.json response else Ret (JObj [])) with
  | Raise e => Raise e
  | Ret error_data =>
      match Json.get "error" (JObj []) error_data with
      | Raise e => Raise e
      | Ret err => Json.get "message" (JStr "Unknown error") err
      end
  end.

Definition rate_limited : json :=
  JObj [("success", JBool false);
        ("error", JStr "API rate limit exceeded. Please wait before trying again.");
        ("error_code", JStr "RATE_LIMIT_EXCEEDED")].

(** Lines 197-203: the first account with an Instagram business
    account gives the identifier. *)
Fixpoint find_account (accounts : list json) : res (option json) :=
  match accounts with
  | [] => Ret None
  | account :: rest =>
      match Json.contains "instagram_business_account" account with
      | Raise e => Raise e
      | Ret true =>
          match Json.getitem "instagram_business_account" account with
          | Raise e => Raise e
          | Ret iba =>
              match Json.getitem "id" iba with
              | Raise e => Raise e
              | Ret i => Ret (Some i)
              end
          end
      | Ret false => find_account rest
      end
  end.

(** [_get_instagram_account_info] *)
Definition _get_instagram_account_info (W : World) (access_token : string) : M json :=
  try_except
    (response <- requests.get W (graph ++ "me")
                   (JObj [("fields", JStr "accounts{instagram_business_account}");
                          ("access_token", JStr access_token)]) ;;
     if status_code response =? 429 then ret rate_limited
     else if negb (status_code response =? 200) then
       m <- lift (error_message response) ;;
       ret (JObj [("success", JBool false);
                  ("error", JStr ("Failed to get account info: " ++ Json.str m));
                  ("error_code", JStr "API_ERROR");
                  ("status_code", JNum (status_code response))])
     else
       data <- lift (requests.json response) ;;
       a <- lift (Json.get "accounts" (JObj []) data) ;;
       accounts <- lift (Json.get "data" (JArr []) a) ;;
       items <- lift (Json.iter accounts) ;;
       found <- lift (find_account items) ;;
       match found with
       | Some instagram_account_id =>
           ret (JObj [("success", JBool true); ("account_id", instagram_account_id)])
       | None =>
           ret (JObj [("success", JBool false);
                      ("error", JStr "No Instagram Business Account found. Make sure your Instagram account is connected to a Facebook Page and is a Business account.");
                      ("error_code", JStr "NO_INSTAGRAM_ACCOUNT")])
       end)
    [(Exn.is_Timeout, fun _ =>
        ret (JObj [("success", JBool false);
                   ("error", JStr "Request timed out while getting account info");
                   ("error_code", JStr "TIMEOUT_ERROR")]));
     (Exn.is_Exception, fun e =>
        ret (JObj [("success", JBool false);
                   ("error", JStr ("Error getting account info: " ++ Exn.str e));
                   ("error_code", JStr "ACCOUNT_INFO_ERROR")]))].

(** [_create_media_container] *)
Definition _create_media_container (W : World) (instagram_account_id : json)
    (post_type caption : string) (image_url : option string) (access_token : string)
  : M json :=
  try_except
    (let url := graph ++ Json.str instagram_account_id ++ "/media" in
     let params := [("access_token", JStr access_token); ("caption", JStr caption)] in
     if (post_type =? "image")%string then
       let params :=
         Json.set "media_type" (JStr "IMAGE")
           (Json.set "image_url" (Json.of_opt image_url) params) in
       response <- requests.post W url (JObj params) ;;
       if status_code response =? 429 then ret rate_limited
       else if negb (status_code response =? 200) then
         m <- lift (error_message response) ;;
         invalid <- lift (Json.contains "Invalid image URL" m) ;;
         if invalid then
           ret (JObj [("success", JBool false);
                      ("error", JStr "The provided image URL is invalid or inaccessible. Please check the URL and ensure the image is publicly accessible.");
                      ("error_code", JStr "INVALID_IMAGE_URL")])
         else
           ret (JObj [("success", JBool false);
                      ("error", JStr ("Failed to create media container: " ++ Json.str m));
                      ("error_code", JStr "CONTAINER_CREATION_ERROR");
                      ("status_code", JNum (status_code response))])
       else
         data <- lift (requests.json response) ;;
         container_id <- lift (Json.get "id" JNull data) ;;
         if negb (Json.truthy container_id) then
           ret (JObj [("success", JBool false);
                      ("error", JStr "No container ID returned from API");
                      ("error_code", JStr "NO_CONTAINER_ID")])
         else
           ret (JObj [("success", JBool true); ("container_id", container_id)])
     else
       ret (JObj [("success", JBool false);
                  ("error", JStr "Instagram Graph API does not support text-only posts. Please use an image with your caption or consider using Instagram's native posting features.");
                  ("error_code", JStr "TEXT_POSTS_NOT_SUPPORTED")]))
    [(Exn.is_Timeout, fun _ =>
        ret (JObj [("success", JBool false);
                   ("error", JStr "Request timed out while creating media container");
                   ("error_code", JStr "TIMEOUT_ERROR")]));
     (Exn.is_Exception, fun e =>
        ret (JObj [("success", JBool false);
                   ("error", JStr ("Error creating media container: " ++ Exn.str e));
                   ("error_code", JStr "CONTAINER_ERROR")]))].

(** [bool(scheduled_publish_time)] of an [Optional[int]]. *)
Definition truthy_int (o : option Z) : bool :=
  match o with Some z => negb (z =? 0) | None => false end.

(** [_publish_media] *)
Definition _publish_media (W : World) (instagram_account_id container_id : json)
    (access_token : string) (scheduled_publish_time : option Z) : M json :=
  try_except
    (let url := graph ++ Json.str instagram_account_id ++ "/media_publish" in
     let params := [("creation_id", container_id); ("access_token", JStr access_token)] in
     let params :=
       match scheduled_publish_time with
       | Some t =>
           if truthy_int scheduled_publish_time
           then Json.set "scheduled_publish_time" (JNum t)
                  (Json.set "published" (JStr "false") params)
           else params
       | None => params
       end in
     response <- requests.post W url (JObj params) ;;
     if status_code response =? 429 then ret rate_limited
     else if negb (status_code response =? 200) then
       m <- lift (error_message response) ;;
       ret (JObj [("success", JBool false);
                  ("error", JStr ("Failed to publish media: " ++ Json.str m));
                  ("error_code", JStr "PUBLISH_ERROR");
                  ("status_code", JNum (status_code response))])
     else
       data <- lift (requests.json response) ;;
       media_id <- lift (Json.get "id" JNull data) ;;
       let result :=
         [("success", JBool true);
          ("message", JStr (if negb (truthy_int scheduled_publish_time)
                            then "Post published successfully"
                            else "Post scheduled successfully"));
          ("media_id", media_id);
          ("instagram_post_url",
           if Json.truthy media_id
           then JStr ("https://www.instagram.com/p/" ++ Json.str media_id ++ "/")
           else JNull)] in
       match scheduled_publish_time with
       | Some t =>
           if truthy_int scheduled_publish_time
           then ret (JObj (Json.set "scheduled_time"
                             (JStr (isoformat W (Aware (t * 1000000) 0))) result))
           else ret (JObj result)
       | None => ret (JObj result)
       end)
    [(Exn.is_Timeout, fun _ =>
        ret (JObj [("success", JBool false);
                   ("error", JStr "Request timed out while publishing media");
                   ("error_code", JStr "TIMEOUT_ERROR")]));
     (Exn.is_Exception, fun e =>
        ret (JObj [("success", JBool false);
                   ("error", JStr ("Error publishing media: " ++ Exn.str e));
                   ("error_code", JStr "PUBLISH_MEDIA_ERROR")]))].

(** [int(dt.timestamp())]: a naive [datetime] is read in local time. *)
Definition int_timestamp (W : World) (dt : datetime) : Z :=
  match dt with
  | Aware i _ => Z.quot i 1000000
  | Naive w => Z.quot (w - local_utcoffset_us W) 1000000
  end.

(** Line 93: [schedule_time.replace('Z', '+00:00')] *)
Definition iso_argument (schedule_time : string) : string :=
  Py.replace_char "Z" "+00:00" schedule_time.

(** Seventy-five days, in seconds. *)
Definition max_advance : Z := 75 * 24 * 60 * 60.

(** Lines 89-119: the schedule block.  [inr] is the early [return],
    [inl] the value of [scheduled_publish_time] afterwards.  The
    comparisons with the float [current_time] are made in
    microseconds. *)
Definition schedule_block (W : World) (schedule_time : option string)
  : option Z + json :=
  if Py.truthy_opt schedule_time then
    match fromisoformat W (iso_argument (str_opt schedule_time)) with
    | Some dt =>
        let scheduled_publish_time := int_timestamp W dt in
        if scheduled_publish_time * 1000000 <=? clock_us W then
          inr (JObj [("success", JBool false);
                     ("error", JStr "Scheduled time must be in the future");
                     ("error_code", JStr "INVALID_SCHEDULE_TIME")])
        else if scheduled_publish_time * 1000000 >? clock_us W + max_advance * 1000000 then
          inr (JObj [("success", JBool false);
                     ("error", JStr "Cannot schedule posts more than 75 days in advance");
                     ("error_code", JStr "SCHEDULE_TOO_FAR")])
        else inl (Some scheduled_publish_time)
    | None =>
        inr (JObj [("success", JBool false);
                   ("error",
                    JStr ("Invalid schedule_time format. Use ISO format (e.g., '2024-12-25T10:00:00Z'): "
                          ++ "Invalid isoformat string: '"
                          ++ iso_argument (str_opt schedule_time) ++ "'"));
                   ("error_code", JStr "INVALID_DATETIME_FORMAT")])
    end
  else inl None.

(** The dictionary [_run] serialises. *)
Definition run_result (W : World) (post_type caption access_token : string)
    (image_url schedule_time : option string) : M json :=
  try_except
    (if negb ((post_type =? "text")%string || (post_type =? "image")%string) then
       ret (JObj [("success", JBool false);
                  ("error", JStr "Invalid post_type. Must be 'text' or 'image'");
                  ("error_code", JStr "INVALID_POST_TYPE")])
     else if (post_type =? "image")%string && negb (Py.truthy_opt image_url) then
       ret (JObj [("success", JBool false);
                  ("error", JStr "image_url is required for image posts");
                  ("error_code", JStr "MISSING_IMAGE_URL")])
     else
       match schedule_block W schedule_time with
       | inr early => ret early
       | inl scheduled_publish_time =>
           user_info <- _get_instagram_account_info W access_token ;;
           if negb (success_of user_info) then ret user_info
           else
             instagram_account_id <- lift (Json.getitem "account_id" user_info) ;;
             container_result <-
               _create_media_container W instagram_account_id post_type caption
                 image_url access_token ;;
             if negb (success_of container_result) then ret container_result
             else
               container_id <- lift (Json.getitem "container_id" container_result) ;;
               _publish_media W instagram_account_id container_id access_token
                 scheduled_publish_time
       end)
    [(Exn.is_RequestException, fun e =>
        ret (JObj [("success", JBool false);
                   ("error", JStr ("Network error occurred: " ++ Exn.str e));
                   ("error_code", JStr "NETWORK_ERROR")]));
     (Exn.is_Exception, fun e =>
        ret (JObj [("success", JBool false);
                   ("error", JStr ("Unexpected error occurred: " ++ Exn.str e));
                   ("error_code", JStr "UNEXPECTED_ERROR")]))].

(** [InstagramPostingTool._run] *)
Definition _run (W : World) (post_type caption access_token : string)
    (image_url schedule_time : option string) : M string :=
  fmap Json.dumps (run_result W post_type caption access_token image_url schedule_time).

End InstagramPostingTool.

(** ** late_instagram_tool.py *)

Module LateInstagramTool.

Definition base_url : string := "https://api.getlate.io".

(** Lines 57-61: the [debug_info] of the environment check. *)
Definition debug_info (W : World) : json :=
  let api_key := getenv W "LATE_API_KEY" in
  let account_id := getenv W "LATE_ACCOUNT_ID" in
  JObj [("api_key_found", JBool (Py.truthy_opt api_key));
        ("account_id_found", JBool (Py.truthy_opt account_id));
        ("api_key_length",
         JNum (if Py.truthy_opt api_key then Py.len (str_opt api_key) else 0))].

(** [_check_environment_variables] *)
Definition _check_environment_variables (W : World) : json :=
  let api_key := getenv W "LATE_API_KEY" in
  let account_id := getenv W "LATE_ACCOUNT_ID" in
  let debug_info := debug_info W in
  if negb (Py.truthy_opt api_key) then
    JObj [("success", JBool false);
          ("error_message", JStr "LATE_API_KEY environment variable is not set or empty. Please set your Late API key.");
          ("debug_info", debug_info);
          ("troubleshooting", JStr "1. Check your environment variables, 2. Ensure LATE_API_KEY is correctly set, 3. Verify API key is not expired")]
  else if Py.len (Py.strip (str_opt api_key)) <? 10 then
    JObj [("success", JBool false);
          ("error_message", JStr "LATE_API_KEY appears to be invalid (too short). Please check your API key.");
          ("debug_info", debug_info);
          ("troubleshooting", JStr "1. Verify API key is complete, 2. Check for extra spaces, 3. Get a new API key from Late.io dashboard")]
  else
    JObj [("success", JBool true);
          ("api_key", Json.of_opt api_key);
          ("default_account_id", Json.of_opt account_id);
          ("debug_info", debug_info)].

Definition count {A} (l : option (list A)) : Z :=
  match l with Some x => Z.of_nat (List.length x) | None => 0 end.

(** [bool(l)] of an [Optional[List[str]]]. *)
Definition truthy_list {A} (l : option (list A)) : bool :=
  match l with Some (_ :: _) => true | _ => false end.

(** [_validate_inputs] *)
Definition _validate_inputs (post_type content : string) (media_urls : option (list string))
  : json :=
  if negb ((post_type =? "feed")%string || (post_type =? "story")%string
           || (post_type =? "reel")%string) then
    JObj [("success", JBool false);
          ("error_message", JStr ("Invalid post_type '" ++ post_type
                                  ++ "'. Must be 'feed', 'story', or 'reel'."));
          ("troubleshooting", JStr "Use 'feed' for regular posts, 'story' for Instagram stories, or 'reel' for video content")]
  else if negb (Py.truthy content) || negb (Py.truthy (Py.strip content)) then
    JObj [("success", JBool false);
          ("error_message", JStr "Content cannot be empty. Please provide caption text for your post.");
          ("troubleshooting", JStr "Add at least a brief caption or description for your Instagram post")]
  else if Py.len content >? 2200 then
    JObj [("success", JBool false);
          ("error_message", JStr ("Content is too long (" ++ Py.str_of_Z (Py.len content)
                                  ++ " characters). Instagram captions should be under 2200 characters."));
          ("troubleshooting", JStr "Shorten your caption or split into multiple posts")]
  else if truthy_list media_urls && (count media_urls >? 10) then
    JObj [("success", JBool false);
          ("error_message", JStr ("Too many media URLs (" ++ Py.str_of_Z (count media_urls)
                                  ++ "). Instagram allows maximum 10 images per post."));
          ("troubleshooting", JStr "Reduce the number of images to 10 or fewer")]
  else JObj [("success", JBool true)].

(** Lines 123-127: each mention whose tag is not yet in the text is
    appended after a space. *)
Fixpoint add_mentions (formatted_content : string) (mentions : list string) : string :=
  match mentions with
  | [] => formatted_content
  | mention :: rest =>
      let mention_tag := "@" ++ mention in
      add_mentions
        (if negb (Py.contains mention_tag formatted_content)
         then formatted_content ++ " " ++ mention_tag
         else formatted_content)
        rest
  end.

(** Lines 131-135: the hashtags not in the text, in order. *)
Fixpoint hashtag_list (formatted_content : string) (hashtags : list string) : list string :=
  match hashtags with
  | [] => []
  | tag :: rest =>
      let hashtag := "#" ++ tag in
      if negb (Py.contains hashtag formatted_content)
      then hashtag :: hashtag_list formatted_content rest
      else hashtag_list formatted_content rest
  end.

(** [_format_content] *)
Definition _format_content (content : string) (hashtags mentions : option (list string))
  : string :=
  let formatted_content := Py.strip content in
  let formatted_content :=
    match mentions with
    | Some l => add_mentions formatted_content l
    | None => formatted_content
    end in
  match hashtags with
  | Some l =>
      match hashtag_list formatted_content l with
      | [] => formatted_content
      | hl => formatted_content ++ LF ++ LF ++ Py.join " " hl
      end
  | None => formatted_content
  end.

(** Lines 187-191: the provider's message of a response with status
    400 or more. *)
Definition api_error_message (response : Response) : string :=
  match requests.json response with
  | Ret error_data =>
      match Json.get "error" (JStr "Unknown API error") error_data with
      | Ret dflt =>
          match Json.get "message" dflt error_data with
          | Ret m => Json.str m
          | Raise _ => "HTTP " ++ Py.str_of_Z (status_code response) ++ " error"
          end
      | Raise _ => "HTTP " ++ Py.str_of_Z (status_code response) ++ " error"
      end
  | Raise _ => "HTTP " ++ Py.str_of_Z (status_code response) ++ " error"
  end.

(** [_make_api_request] *)
Definition _make_api_request (W : World) (method endpoint : string) (data : json)
    (api_key : json) : M json :=
  let full_url := base_url ++ endpoint in
  try_except
    (response <- (if (Py.upper method =? "GET")%string
                  then requests.get W full_url JNull
                  else requests.post W full_url data) ;;
     if status_code response =? 401 then
       ret (JObj [("success", JBool false);
                  ("error_message", JStr "Authentication failed. Your API key may be invalid or expired.");
                  ("status_code", JNum (status_code response));
                  ("troubleshooting", JStr "1. Check your LATE_API_KEY, 2. Verify it's not expired, 3. Generate a new key from Late.io dashboard")])
     else if status_code response =? 403 then
       ret (JObj [("success", JBool false);
                  ("error_message", JStr "Access forbidden. Your account may not have permission for this action.");
                  ("status_code", JNum (status_code response));
                  ("troubleshooting", JStr "1. Check your Late.io subscription, 2. Verify Instagram account is properly connected, 3. Check account permissions")])
     else if status_code response =? 429 then
       ret (JObj [("success", JBool false);
                  ("error_message", JStr "Rate limit exceeded. Too many requests made recently.");
                  ("status_code", JNum (status_code response));
                  ("troubleshooting", JStr "Wait a few minutes before trying again, or upgrade your Late.io plan for higher limits")])
     else if status_code response >=? 400 then
       ret (JObj [("success", JBool false);
                  ("error_message", JStr ("API Error: " ++ api_error_message response));
                  ("status_code", JNum (status_code response));
                  ("raw_response",
                   JStr (if Py.truthy (text response) then Py.take 500 (text response) else ""));
                  ("troubleshooting", JStr "Check the error details above and verify your request parameters")])
     else
       response_data <-
         try_except
           (if Py.truthy (text response) then lift (requests.json response)
            else ret (JObj []))
           [(Exn.is_JSONDecodeError, fun _ =>
               ret (JObj [("raw_response", JStr (text response))]))] ;;
       ret (JObj [("success", JBool true);
                  ("data", response_data);
                  ("status_code", JNum (status_code response))]))
    [(Exn.is_Timeout, fun _ =>
        ret (JObj [("success", JBool false);
                   ("error_message", JStr "Request timed out. Late.io API may be slow or unreachable.");
                   ("troubleshooting", JStr "1. Check your internet connection, 2. Try again in a few minutes, 3. Check Late.io status page")]));
     (Exn.is_ConnectionError, fun _ =>
        ret (JObj [("success", JBool false);
                   ("error_message", JStr "Connection error. Cannot reach Late.io API.");
                   ("troubleshooting", JStr "1. Check your internet connection, 2. Verify Late.io service status, 3. Check firewall settings")]));
     (Exn.is_Exception, fun e =>
        ret (JObj [("success", JBool false);
                   ("error_message", JStr ("Unexpected error: " ++ Exn.str e));
                   ("troubleshooting", JStr "This is an unexpected error. Please try again or contact support.")]))].

(** A day, in microseconds. *)
Definition day_us : Z := 86400000000.

(** Lines 239-242: what is handed to [datetime.fromisoformat]. *)
Definition iso_argument (schedule_time : string) : string :=
  if Py.endswith "Z" schedule_time
  then Py.drop_last schedule_time ++ "+00:00"
  else schedule_time.

(** [_validate_schedule_time].  Comparing a naive [datetime] with the
    aware [now] raises [TypeError], which the function's only clause,
    [except ValueError], lets through.  The [parsed_time] entry of the
    success dictionary is never read and is left out. *)
Definition _validate_schedule_time (W : World) (schedule_time : option string) : res json :=
  if negb (Py.truthy_opt schedule_time) then
    Ret (JObj [("success", JBool true); ("is_scheduled", JBool false)])
  else
    let s := str_opt schedule_time in
    let arg := iso_argument s in
    match fromisoformat W arg with
    | None =>
        Ret (JObj [("success", JBool false);
                   ("error_message", JStr ("Invalid schedule time format: "
                                           ++ "Invalid isoformat string: '" ++ arg ++ "'"));
                   ("troubleshooting", JStr "Use ISO format like '2024-12-25T10:30:00Z' or '2024-12-25T10:30:00'")])
    | Some (Naive _) =>
        Raise (TypeError "can't compare offset-naive and offset-aware datetimes")
    | Some (Aware i off) =>
        if i <=? clock_us W then
          Ret (JObj [("success", JBool false);
                     ("error_message",
                      JStr ("Schedule time must be in the future. Provided time: " ++ s
                            ++ ", Current time: " ++ isoformat W (Aware (clock_us W) 0)));
                     ("troubleshooting", JStr "Use a future date/time for scheduling")])
        else if (i - clock_us W) / day_us >? 365 then
          Ret (JObj [("success", JBool false);
                     ("error_message", JStr "Schedule time is too far in the future (max 365 days)");
                     ("troubleshooting", JStr "Choose a date within the next year")])
        else
          Ret (JObj [("success", JBool true);
                     ("is_scheduled", JBool true);
                     ("formatted_time", JStr (isoformat W (Aware i off)))])
    end.

(** Line 298: [account_id or default_account_id] *)
Definition final_account_id (account_id : option string) (default_account_id : json)
  : json :=
  if Py.truthy_opt account_id then Json.of_opt account_id else default_account_id.

(** Lines 323-338: the JSON body of the posting call. *)
Definition build_post_data (formatted_content : string) (account : json)
    (media_urls : option (list string)) (is_scheduled : bool) (formatted_time : json)
  : list (string * json) :=
  let post_data :=
    [("text", JStr formatted_content);
     ("platforms", JObj [("instagram", JObj [("account_id", account)])])] in
  let post_data :=
    if truthy_list media_urls
    then Json.set "media"
           (JArr (map (fun url => JObj [("url", JStr url)])
                    (match media_urls with Some l => l | None => [] end)))
           post_data
    else post_data in
  if is_scheduled then Json.set "publish_at" formatted_time post_data else post_data.

(** Lines 353-379: the success report. *)
Definition success_response (W : World) (env_debug_info response_data post_id account : json)
    (formatted_content : string) (media_urls : option (list string))
    (is_scheduled : bool) (formatted_time : json) (post_type : string) : json :=
  let status := if is_scheduled then "scheduled" else "published" in
  JObj
    [("success", JBool true);
     ("message", JStr ("Instagram post " ++ status ++ " successfully!"));
     ("post_details",
      JObj [("post_id", post_id);
            ("account_id", account);
            ("status", JStr status);
            ("content_preview",
             JStr (if Py.len formatted_content >? 100
                   then Py.take 100 formatted_content ++ "..."
                   else formatted_content));
            ("media_count",
             JNum (if truthy_list media_urls then count media_urls else 0));
            ("scheduled_for", if is_scheduled then formatted_time else JNull);
            ("post_type", JStr post_type)]);
     ("api_response",
      JObj [("late_post_id", post_id); ("full_response", response_data)]);
     ("debug_info",
      JObj [("api_endpoint_used", JStr "/v1/posts");
            ("request_timestamp", JStr (isoformat W (Aware (clock_us W) 0)));
            ("environment_check", env_debug_info)])].

(** Lines 384-399: the report of the outermost [except]. *)
Definition unexpected_error (W : World) (account_id : option string) (content : string)
    (media_urls : option (list string)) (schedule_time : option string)
    (post_type : string) (e : exn) : json :=
  JObj
    [("success", JBool false);
     ("error_message", JStr ("Unexpected error in tool execution: " ++ Exn.str e));
     ("error_type", JStr (Exn.name e));
     ("troubleshooting", JStr "This is an internal error. Please check your inputs and try again.");
     ("debug_info",
      JObj [("error_occurred_at", JStr (isoformat W (Aware (clock_us W) 0)));
            ("inputs_received",
             JObj [("account_id", Json.of_opt account_id);
                   ("content_length",
                    JNum (if Py.truthy content then Py.len content else 0));
                   ("media_count",
                    JNum (if truthy_list media_urls then count media_urls else 0));
                   ("has_schedule", JBool (Py.truthy_opt schedule_time));
                   ("post_type", JStr post_type)])])].

(** The dictionary [_run] serialises. *)
Definition run_result (W : World) (account_id : option string) (content : string)
    (media_urls : option (list string)) (schedule_time : option string)
    (post_type : string) (hashtags mentions : option (list string)) : M json :=
  try_except
    (let env_check := _check_environment_variables W in
     if negb (success_of env_check) then ret env_check
     else
       api_key <- lift (Json.getitem "api_key" env_check) ;;
       default_account_id <- lift (Json.get "default_account_id" JNull env_check) ;;
       let account := final_account_id account_id default_account_id in
       if negb (Json.truthy account) then
         debug_info <- lift (Json.getitem "debug_info" env_check) ;;
         ret (JObj [("success", JBool false);
                    ("error_message", JStr "No account ID provided. Set LATE_ACCOUNT_ID environment variable or provide account_id parameter.");
                    ("debug_info", debug_info);
                    ("troubleshooting", JStr "1. Set LATE_ACCOUNT_ID in environment, 2. Or provide account_id parameter, 3. Get account ID from Late.io dashboard")])
       else
         let validation := _validate_inputs post_type content media_urls in
         if negb (success_of validation) then ret validation
         else
           time_validation <- lift (_validate_schedule_time W schedule_time) ;;
           if negb (success_of time_validation) then ret time_validation
           else
             s <- lift (Json.get "is_scheduled" (JBool false) time_validation) ;;
             let is_scheduled := Json.truthy s in
             let formatted_content := _format_content content hashtags mentions in
             formatted_time <- lift (Json.get "formatted_time" JNull time_validation) ;;
             let post_data :=
               build_post_data formatted_content account media_urls
                 is_scheduled formatted_time in
             result <- _make_api_request W "POST" "/v1/posts" (JObj post_data) api_key ;;
             if negb (success_of result) then ret result
             else
               response_data <- lift (Json.getitem "data" result) ;;
               post_id <- lift (Json.get "id" (JStr "unknown") response_data) ;;
               debug_info <- lift (Json.getitem "debug_info" env_check) ;;
               ret (success_response W debug_info response_data post_id account
                      formatted_content media_urls is_scheduled formatted_time post_type))
    [(Exn.is_Exception, fun e =>
        ret (unexpected_error W account_id content media_urls schedule_time post_type e))].

(** [LateInstagramTool._run] *)
Definition _run (W : World) (account_id : option string) (content : string)
    (media_urls : option (list string)) (schedule_time : option string)
    (post_type : string) (hashtags mentions : option (list string)) : M string :=
  fmap (Json.dumps_indent 2)
    (run_result W account_id content media_urls schedule_time post_type hashtags mentions).

End LateInstagramTool.

(** ** A concrete world

    An executable instance of the library functions of [World], for
    running the tools on concrete inputs: the proleptic Gregorian
    calendar, an ISO-8601 reader for [YYYY-MM-DDTHH:MM[:SS]] with an
    optional [+HH:MM] or [-HH:MM] offset (the forms the tools'
    documentation shows; Python's reader accepts more), and the
    matching printer. *)

Module Sample.

Definition digit (c : ascii) : option Z :=
  let n := nat_of_ascii c in
  if (48 <=? n)%nat && (n <=? 57)%nat then Some (Z.of_nat (n - 48)) else None.

Fixpoint number_from (acc : Z) (s : string) : option Z :=
  match s with
  | EmptyString => Some acc
  | String c r =>
      match digit c with
      | Some d => number_from (acc * 10 + d) r
      | None => None
      end
  end.

(** A non-empty string of digits, read in base ten. *)
Definition number (s : string) : option Z :=
  match s with
  | EmptyString => None
  | _ => number_from 0 s
  end.

Definition is_leap (y : Z) : bool :=
  ((y mod 4 =? 0) && negb (y mod 100 =? 0)) || (y mod 400 =? 0).

Definition days_in_month (y m : Z) : Z :=
  if m =? 2 then (if is_leap y then 29 else 28)
  else if (m =? 4) || (m =? 6) || (m =? 9) || (m =? 11) then 30
  else 31.

(** Days from 1970-01-01 to the civil date [y-m-d]. *)
Definition days_from_civil (y m d : Z) : Z :=
  let y' := if m <=? 2 then y - 1 else y in
  let era := y' / 400 in
  let yoe := y' - era * 400 in
  let mp := (m + 9) mod 12 in
  let doy := (153 * mp + 2) / 5 + d - 1 in
  let doe := yoe * 365 + yoe / 4 - yoe / 100 + doy in
  era * 146097 + doe - 719468.

(** The civil date of a day count, as (year, month, day). *)
Definition civil_from_days (z : Z) : Z * Z * Z :=
  let z' := z + 719468 in
  let era := z' / 146097 in
  let doe := z' - era * 146097 in
  let yoe := (doe - doe / 1460 + doe / 36524 - doe / 146096) / 365 in
  let doy := doe - (365 * yoe + yoe / 4 - yoe / 100) in
  let mp := (5 * doy + 2) / 153 in
  let d := doy - (153 * mp + 2) / 5 + 1 in
  let m := if mp <? 10 then mp + 3 else mp - 9 in
  let y := yoe + era * 400 + (if m <=? 2 then 1 else 0) in
  (y, m, d).

Definition valid_date (y m d : Z) : bool :=
  (1 <=? y) && (y <=? 9999) && (1 <=? m) && (m <=? 12)
  && (1 <=? d) && (d <=? days_in_month y m).

(** [YYYY-MM-DD] to a day count. *)
Definition parse_date (s : string) : option Z :=
  if ((String.length s =? 10)%nat
      && (String.substring 4 1 s =? "-")%string
      && (String.substring 7 1 s =? "-")%string)
  then
    match number (String.substring 0 4 s), number (String.substring 5 2 s),
          number (String.substring 8 2 s) with
    | Some y, Some m, Some d =>
        if valid_date y m d then Some (days_from_civil y m d) else None
    | _, _, _ => None
    end
  else None.

(** [HH:MM] or [HH:MM:SS] to seconds. *)
Definition parse_clock (s : string) : option Z :=
  let hm :=
    if (String.substring 2 1 s =? ":")%string then
      match number (String.substring 0 2 s), number (String.substring 3 2 s) with
      | Some h, Some m =>
          if (String.length (String.substring 0 5 s) =? 5)%nat && (h <? 24) && (m <? 60)
          then Some (h * 3600 + m * 60) else None
      | _, _ => None
      end
    else None in
  match hm with
  | None => None
  | Some base =>
      if (String.length s =? 5)%nat then Some base
      else if (String.length s =? 8)%nat && (String.substring 5 1 s =? ":")%string then
        match number (String.substring 6 2 s) with
        | Some sec => if sec <? 60 then Some (base + sec) else None
        | None => None
        end
      else None
  end.

(** [+HH:MM] or [-HH:MM] to seconds. *)
Definition parse_offset (s : string) : option Z :=
  if (String.length s =? 6)%nat then
    match parse_clock (String.substring 1 5 s) with
    | Some secs =>
        if (String.substring 0 1 s =? "+")%string then Some secs
        else if (String.substring 0 1 s =? "-")%string then Some (- secs)
        else None
    | None => None
    end
  else None.

(** The position of the offset sign in the time part, if any. *)
Fixpoint sign_index (s : string) (i : nat) : option nat :=
  match s with
  | EmptyString => None
  | String c r =>
      if Ascii.eqb c "+" || Ascii.eqb c "-" then Some i else sign_index r (S i)
  end.

Definition fromisoformat (s : string) : option datetime :=
  match parse_date (String.substring 0 10 s) with
  | None => None
  | Some days =>
      if (String.length s =? 10)%nat then Some (Naive (days * 86400000000))
      else if (String.substring 10 1 s =? "T")%string then
        let rest := String.substring 11 (String.length s - 11) s in
        match sign_index rest 0 with
        | None =>
            match parse_clock rest with
            | Some secs => Some (Naive ((days * 86400 + secs) * 1000000))
            | None => None
            end
        | Some i =>
            match parse_clock (String.substring 0 i rest),
                  parse_offset (String.substring i (String.length rest - i) rest) with
            | Some secs, Some off =>
                Some (Aware ((days * 86400 + secs - off) * 1000000) (off * 1000000))
            | _, _ => None
            end
        end
      else None
  end.

(** [datetime.strptime(s, fmt)] for the one format the schema uses. *)
Definition strptime (s fmt : string) : option datetime :=
  if (fmt =? "%Y-%m-%d")%string then
    match parse_date s with
    | Some days => Some (Naive (days * 86400000000))
    | None => None
    end
  else None.

Definition two_digits (z : Z) : string :=
  if z <? 10 then "0" ++ Py.str_of_Z z else Py.str_of_Z z.

Definition four_digits (z : Z) : string :=
  (if z <? 10 then "000" else if z <? 100 then "00" else if z <? 1000 then "0" else "")
  ++ Py.str_of_Z z.

(** The wall-clock reading [us] printed as [YYYY-MM-DDTHH:MM:SS];
    the fraction of a second is dropped. *)
Definition print_wall (us : Z) : string :=
  let secs := us / 1000000 in
  let days := secs / 86400 in
  let sod := secs mod 86400 in
  let '(y, m, d) := civil_from_days days in
  four_digits y ++ "-" ++ two_digits m ++ "-" ++ two_digits d ++ "T"
  ++ two_digits (sod / 3600) ++ ":" ++ two_digits (sod mod 3600 / 60) ++ ":"
  ++ two_digits (sod mod 60).

Definition print_offset (off_us : Z) : string :=
  let secs := Z.abs off_us / 1000000 in
  (if off_us <? 0 then "-" else "+")
  ++ two_digits (secs / 3600) ++ ":" ++ two_digits (secs mod 3600 / 60).

Definition isoformat (dt : datetime) : string :=
  match dt with
  | Naive w => print_wall w
  | Aware i off => print_wall (i + off) ++ print_offset off
  end.

(** 2025-01-01T00:00:00Z, in microseconds since the epoch. *)
Definition new_year_2025 : Z := 1735689600000000.

(** A world with the clock at the start of 2025 (UTC), no
    environment variables, this module's calendar, and the given
    servers. *)
Definition world (env : string -> option string)
    (net : list Request -> Request -> outcome) : World :=
  mkWorld env new_year_2025 0 fromisoformat strptime isoformat net.

Definition no_env (name : string) : option string := None.

(** Servers that answer every request with the same response. *)
Definition always (r : Response) : list Request -> Request -> outcome :=
  fun _ _ => Responded r.

(** A response with a JSON body. *)
Definition json_response (status : Z) (j : json) : Response :=
  mkResponse status (Json.dumps j) (Some j) (Some "application/json") NotJson.

(** A response with a body that is not JSON. *)
Definition plain_response (status : Z) (body : string) : Response :=
  mkResponse status body None (Some "text/plain") NotJson.

(** A 200 response whose body is the empty JSON object. *)
Definition ok_empty : Response := json_response 200 (JObj []).

(** A 200 response that carries a post identifier. *)
Definition ok_with_id : Response := json_response 200 (JObj [("id", JStr "post-123")]).

(** A 429 response. *)
Definition too_many_requests : Response := plain_response 429 "Too Many Requests".

(** A 429 response with a JSON body. *)
Definition too_many_requests_json : Response :=
  json_response 429 (JObj [("error", JStr "Too many requests")]).

(** [n] copies of [s]. *)
Fixpoint copies (n : nat) (s : string) : string :=
  match n with
  | O => EmptyString
  | S k => s ++ copies k s
  end.

(** U+00A0, the no-break space, in UTF-8. *)
Definition nbsp : string :=
  String (ascii_of_nat 194) (String (ascii_of_nat 160) EmptyString).

(** A 200 response whose body is one JSON integer of 4301 digits: the
    decoder gives up on it. *)
Definition ok_too_long : Response :=
  mkResponse 200 (copies 4301 "1") None (Some "application/json")
    (IntegerTooLong "Exceeds the limit (4300 digits) for integer string conversion: value has 4301 digits; use sys.set_int_max_str_digits() to increase the limit").

Fixpoint find_route (method url : string) (table : list (string * string * Response))
  : option Response :=
  match table with
  | [] => None
  | (m, u, r) :: rest =>
      if ((m =? method) && (u =? url))%string then Some r
      else find_route method url rest
  end.

(** Servers that answer by method and URL, and cannot be reached
    otherwise. *)
Definition route (table : list (string * string * Response))
  : list Request -> Request -> outcome :=
  fun _ rq =>
    match find_route (req_method rq) (req_url rq) table with
    | Some r => Responded r
    | None => Failed (ConnectionError "Connection refused")
    end.

(** Buffer's answers for an account with one Instagram profile,
    [p1]: the profile list, and an update created in the queue. *)
Definition buffer_profiles : Response :=
  json_response 200
    (JArr [JObj [("id", JStr "p1"); ("service", JStr "instagram");
                 ("formatted_username", JStr "@shop")]]).

Definition buffer_created_update : Response :=
  json_response 200
    (JObj [("success", JBool true);
           ("updates", JArr [JObj [("id", JStr "upd-1"); ("status", JStr "buffer")]])]).

(** The Graph API's answers for a page with the Instagram business
    account [1789]: the account lookup, the container and the
    published media. *)
Definition graph_me : Response :=
  json_response 200
    (JObj [("accounts",
            JObj [("data",
                   JArr [JObj [("instagram_business_account",
                                JObj [("id", JStr "1789")])]])])]).

Definition graph_container : Response := json_response 200 (JObj [("id", JStr "c-1")]).

Definition graph_media : Response := json_response 200 (JObj [("id", JStr "m-1")]).

(** Servers for Buffer, for the Graph API, and a Late server that
    accepts every post. *)
Definition buffer_net : list Request -> Request -> outcome :=
  route [("GET", "https://api.bufferapp.com/1/profiles.json", buffer_profiles);
         ("POST", "https://api.bufferapp.com/1/updates/create.json",
          buffer_created_update)].

(** Buffer's profile list, and a rate limit on the posting call. *)
Definition buffer_limited_net : list Request -> Request -> outcome :=
  route [("GET", "https://api.bufferapp.com/1/profiles.json", buffer_profiles);
         ("POST", "https://api.bufferapp.com/1/updates/create.json",
          too_many_requests)].

Definition graph_net : list Request -> Request -> outcome :=
  route [("GET", "https://graph.facebook.com/v18.0/me", graph_me);
         ("POST", "https://graph.facebook.com/v18.0/1789/media", graph_container);
         ("POST", "https://graph.facebook.com/v18.0/1789/media_publish", graph_media)].

(** The Graph API limiting the rate at the container step, and at
    the publish step. *)
Definition graph_container_limited_net : list Request -> Request -> outcome :=
  route [("GET", "https://graph.facebook.com/v18.0/me", graph_me);
         ("POST", "https://graph.facebook.com/v18.0/1789/media", too_many_requests)].

Definition graph_publish_limited_net : list Request -> Request -> outcome :=
  route [("GET", "https://graph.facebook.com/v18.0/me", graph_me);
         ("POST", "https://graph.facebook.com/v18.0/1789/media", graph_container);
         ("POST", "https://graph.facebook.com/v18.0/1789/media_publish",
          too_many_requests)].

(** The environment of a configured Buffer and Late installation. *)
Definition configured_env (name : string) : option string :=
  if (name =? "BUFFER_API_KEY")%string then Some "buffer-access-token"
  else if (name =? "LATE_API_KEY")%string then Some "late-api-key-0123456789"
  else if (name =? "LATE_ACCOUNT_ID")%string then Some "late-account-1"
  else None.

End Sample.

(** ** The request builder in the specification's words *)

Module Spec.

Definition items (l : option (list string)) : list string :=
  match l with Some x => x | None => [] end.

(** The token is not already present in the text. *)
Definition absent (text token : string) : bool := negb (Py.contains token text).

(** Caption, mentions and hashtags as one text: each [@user] token
    not already present is appended, then the [#tag] tokens not
    already present follow as a new paragraph. *)
Definition format_content (content : string) (hashtags mentions : option (list string))
  : string :=
  let text :=
    fold_left
      (fun text user =>
         if absent text ("@" ++ user) then text ++ " " ++ "@" ++ user else text)
      (items mentions) (Py.strip content) in
  match filter (absent text) (map (fun tag => "#" ++ tag) (items hashtags)) with
  | [] => text
  | tokens => text ++ LF ++ LF ++ Py.join " " tokens
  end.

End Spec.

(** ** Statements about runs *)

(** [m] returns a value, whatever was sent before. *)
Definition returns {A} (m : M A) : Prop :=
  forall t, exists a t', m t = (Ret a, t').

(** [m] sends nothing. *)
Definition pure {A} (m : M A) : Prop := forall t, snd (m t) = t.

(** [m] sends nothing, or [rq] and nothing else. *)
Definition sends_at_most {A} (rq : Request) (m : M A) : Prop :=
  forall t, snd (m t) = t \/ snd (m t) = (t ++ [rq])%list.

(** ** What a response carries *)

(** The post identifier Ayrshare's [_run] reads off a JSON object:
    its ["id"], else the ["id"] of its ["data"] object, else [None]. *)
Definition ayrshare_identifier (kv : list (string * json)) : json :=
  match Json.lookup "id" kv with
  | Some v => v
  | None =>
      match Json.lookup "data" kv with
      | Some (JObj inner) =>
          match Json.lookup "id" inner with Some v => v | None => JNull end
      | _ => JNull
      end
  end.

(** The body Late's [_make_api_request] hands back for a response
    below 400: the empty object when there is no text, the decoded
    JSON, the raw text when the body is not JSON; and none when the
    decoder gives up. *)
Definition late_body (r : Response) : option json :=
  if Py.truthy (text r) then
    match json_value r, json_refusal r with
    | Some j, _ => Some j
    | None, NotJson => Some (JObj [("raw_response", JStr (text r))])
    | None, _ => None
    end
  else Some (JObj []).

(** A Buffer response that reports a created update: status 200 and
    an object whose ["updates"] is a list that starts with an
    object. *)
Definition buffer_created (r : Response) (update : list (string * json)) : Prop :=
  status_code r = 200
  /\ exists kv rest,
       json_value r = Some (JObj kv)
       /\ Json.lookup "updates" kv = Some (JArr (JObj update :: rest)).

(** ** How far a run gets *)

(** Buffer: the token is configured, profile and text are given, and
    the profile lookup and the media check succeed, leaving the trace
    [t2]. *)
Definition buffer_preflight (W : World) (access_token profile_id text : string)
    (media : option string) (t t2 : list Request) : Prop :=
  getenv W "BUFFER_API_KEY" = Some access_token
  /\ Py.truthy access_token = true
  /\ Py.truthy profile_id = true
  /\ Py.truthy text = true
  /\ exists profile_check t1 checked,
       BufferInstagramTool._verify_profile W access_token profile_id t
       = (Ret profile_check, t1)
       /\ success_of profile_check = true
       /\ BufferInstagramTool.media_check W media t1 = (Ret checked, t2)
       /\ success_of checked = true.

(** Buffer: the posting call is next. *)
Definition buffer_reaches_posting (W : World) (access_token profile_id text : string)
    (media : option string) (scheduled_at : option Z) (t t2 : list Request) : Prop :=
  buffer_preflight W access_token profile_id text media t t2
  /\ BufferInstagramTool.past_schedule W scheduled_at = false.

(** Late: the environment, the account and the inputs pass their
    checks; and the schedule too, with the validation [tv]. *)
Definition late_inputs_pass (W : World) (account_id : option string)
    (content : string) (media_urls : option (list string)) (post_type : string) : Prop :=
  success_of (LateInstagramTool._check_environment_variables W) = true
  /\ Json.truthy (LateInstagramTool.final_account_id account_id
                    (Json.of_opt (getenv W "LATE_ACCOUNT_ID"))) = true
  /\ success_of (LateInstagramTool._validate_inputs post_type content media_urls) = true.

Definition late_reaches_posting (W : World) (account_id : option string)
    (content : string) (media_urls : option (list string))
    (schedule_time : option string) (post_type : string) (tv : json) : Prop :=
  late_inputs_pass W account_id content media_urls post_type
  /\ LateInstagramTool._validate_schedule_time W schedule_time = Ret tv
  /\ success_of tv = true.

(** The posting call of a Late invocation that passed its checks. *)
Definition late_posting_request (W : World) (account_id : option string)
    (content : string) (media_urls : option (list string))
    (hashtags mentions : option (list string)) (tv : json) : Request :=
  mkRequest "POST" (LateInstagramTool.base_url ++ "/v1/posts")
    (JObj (LateInstagramTool.build_post_data
             (LateInstagramTool._format_content content hashtags mentions)
             (LateInstagramTool.final_account_id account_id
                (Json.of_opt (getenv W "LATE_ACCOUNT_ID")))
             media_urls
             (match field "is_scheduled" tv with
              | Some v => Json.truthy v | None => false end)
             (match field "formatted_time" tv with
              | Some v => v | None => JNull end))).

(** Instagram Graph: the arguments are accepted (with
    [scheduled_publish_time] from the schedule block). *)
Definition instagram_accepts (W : World) (post_type : string)
    (image_url schedule_time : option string) (scheduled_publish_time : option Z) : Prop :=
  ((post_type =? "text") || (post_type =? "image"))%string = true
  /\ ((post_type =? "image")%string && negb (Py.truthy_opt image_url)) = false
  /\ InstagramPostingTool.schedule_block W schedule_time = inl scheduled_publish_time.

(** Instagram Graph: the account lookup found [account] and the
    container step made [container_id] (leaving the trace [t2]): the
    publish call is next. *)
Definition instagram_reaches_publish (W : World) (post_type caption access_token : string)
    (image_url : option string) (account container_id : json)
    (t t2 : list Request) : Prop :=
  exists user_info t1 container_result,
    InstagramPostingTool._get_instagram_account_info W access_token t = (Ret user_info, t1)
    /\ success_of user_info = true
    /\ Json.getitem "account_id" user_info = Ret account
    /\ InstagramPostingTool._create_media_container W account post_type caption image_url
         access_token t1 = (Ret container_result, t2)
    /\ success_of container_result = true
    /\ Json.getitem "container_id" container_result = Ret container_id.

(** ** Whole runs *)

(** On every trace, [m] adds requests [l] to the trace, and [l] and
    the outcome of [m] satisfy [Q]. *)
Definition run_spec {A} (m : M A) (Q : list Request -> res A -> Prop) : Prop :=
  forall t, exists l, snd (m t) = (t ++ l)%list /\ Q l (fst (m t)).

(** [l] is an initial segment of [plan]. *)
Definition initial_segment {A} (l plan : list A) : Prop :=
  exists rest, plan = (l ++ rest)%list.

(** The requests of a Buffer invocation, in order: the profile
    lookup, the probe of the media URL when one is given, and the
    posting call. *)
Definition buffer_plan (access_token profile_id text : string) (media : option string)
    (scheduled_at : option Z) (top : bool) : list Request :=
  mkRequest "GET" BufferInstagramTool.profiles_url
    (JObj [("access_token", JStr access_token)])
  :: (if Py.truthy_opt media then [mkRequest "HEAD" (str_opt media) JNull] else [])
  ++ [BufferInstagramTool.posting_request access_token profile_id text media
        scheduled_at top].

(** The request the webhook tool sends to [url]. *)
Definition zapier_posting_request (url content preferred_posting_time timezone : string)
    (media_urls hashtags : option (list string)) (brand_name : option string) : Request :=
  mkRequest "POST" url
    (JObj [("content", JStr (ZapierInstagramWebhookTool.full_content content hashtags));
           ("media_urls",
            JArr (map JStr (match media_urls with Some l => l | None => [] end)));
           ("preferred_posting_time", JStr preferred_posting_time);
           ("timezone", JStr timezone);
           ("account", JStr "@kskk.2031");
           ("post_type", JStr "feed");
           ("brand_name", Json.of_opt brand_name)]).

(** The first line of the webhook tool's report on the answer [r],
    by its status and, for 200, by what decoding its body gives. *)
Definition zapier_headline (r : Response) : string :=
  let status := status_code r in
  if status =? 200 then
    match json_value r, json_refusal r with
    | Some _, _ => "✅ SUCCESS: Instagram post data sent to Zapier webhook successfully!"
    | None, NotJson => "✅ SUCCESS: Instagram post data sent to Zapier webhook!"
    | None, _ => "❌ FAILURE: Unexpected error occurred"
    end
  else if status =? 400 then "❌ FAILURE: Bad request to Zapier webhook"
  else if status =? 401 then "❌ FAILURE: Unauthorized access to Zapier webhook"
  else if status =? 404 then "❌ FAILURE: Zapier webhook not found"
  else if status >=? 500 then "❌ FAILURE: Zapier server error"
  else "⚠️ WARNING: Unexpected response from Zapier webhook".

(** [d.get(k)] of a dictionary given by its bindings. *)
Definition entry (k : string) (kv : list (string * json)) : json :=
  match Json.lookup k kv with Some v => v | None => JNull end.

(** Buffer servers that list the profile [p1] and answer the posting
    call with [r]. *)
Definition buffer_net_answering (r : Response) : list Request -> Request -> outcome :=
  Sample.route [("GET", "https://api.bufferapp.com/1/profiles.json", Sample.buffer_profiles);
                ("POST", "https://api.bufferapp.com/1/updates/create.json", r)].

(** ** Plain URLs *)

(** A URL that [requests] sends as it is given: [http://] or
    [https://], a host name of lower-case letters, digits, hyphens
    and dots that begins with a letter or a digit, and then nothing,
    or a slash followed by visible ASCII characters. *)
Definition host_start (c : ascii) : bool :=
  let n := nat_of_ascii c in
  ((97 <=? n)%nat && (n <=? 122)%nat) || ((48 <=? n)%nat && (n <=? 57)%nat).

Definition visible (c : ascii) : bool :=
  let n := nat_of_ascii c in (33 <=? n)%nat && (n <=? 126)%nat.

Fixpoint all_visible (s : string) : bool :=
  match s with
  | String c r => visible c && all_visible r
  | EmptyString => true
  end.

Fixpoint host_then_path (s : string) : bool :=
  match s with
  | String c r =>
      if Ascii.eqb c "/" then all_visible r
      else (host_start c || Ascii.eqb c "-" || Ascii.eqb c ".") && host_then_path r
  | EmptyString => true
  end.

Fixpoint after_prefix (p s : string) : option string :=
  match p, s with
  | EmptyString, _ => Some s
  | String a p', String b s' => if Ascii.eqb a b then after_prefix p' s' else None
  | String _ _, EmptyString => None
  end.

Definition after_scheme (url : string) : option string :=
  match after_prefix "https://" url with
  | Some rest => Some rest
  | None => after_prefix "http://" url
  end.

Definition plain_http_url (url : string) : bool :=
  match after_scheme url with
  | Some (String c r) => host_start c && host_then_path r
  | _ => false
  end.

(** All the bytes of [s] are ASCII. *)
Fixpoint is_ascii (s : string) : bool :=
  match s with
  | String c r => (nat_of_ascii c <? 128)%nat && is_ascii r
  | EmptyString => true
  end.

(** ** The Graph API adapter's requests and reports *)

(** The account lookup, the container call for an image post, and the
    publish call, as the adapter sends them. *)
Definition instagram_lookup_request (access_token : string) : Request :=
  mkRequest "GET" "https://graph.facebook.com/v18.0/me"
    (JObj [("fields", JStr "accounts{instagram_business_account}");
           ("access_token", JStr access_token)]).

Definition instagram_container_request (account : json) (caption : string)
    (image_url : option string) (access_token : string) : Request :=
  mkRequest "POST" ("https://graph.facebook.com/v18.0/" ++ Json.str account ++ "/media")
    (JObj [("access_token", JStr access_token);
           ("caption", JStr caption);
           ("image_url", Json.of_opt image_url);
           ("media_type", JStr "IMAGE")]).

Definition instagram_publish_request (account container_id : json) (access_token : string)
    (scheduled_publish_time : option Z) : Request :=
  mkRequest "POST"
    ("https://graph.facebook.com/v18.0/" ++ Json.str account ++ "/media_publish")
    (JObj ([("creation_id", container_id); ("access_token", JStr access_token)]
           ++ match scheduled_publish_time with
              | Some s =>
                  if s =? 0 then []
                  else [("published", JStr "false"); ("scheduled_publish_time", JNum s)]
              | None => []
              end)).

(** The error codes of the adapter's failure reports, but for
    [NETWORK_ERROR]. *)
Definition instagram_error_codes : list string :=
  ["INVALID_POST_TYPE"; "MISSING_IMAGE_URL"; "INVALID_SCHEDULE_TIME"; "SCHEDULE_TOO_FAR";
   "INVALID_DATETIME_FORMAT"; "RATE_LIMIT_EXCEEDED"; "API_ERROR"; "NO_INSTAGRAM_ACCOUNT";
   "TIMEOUT_ERROR"; "ACCOUNT_INFO_ERROR"; "TEXT_POSTS_NOT_SUPPORTED"; "INVALID_IMAGE_URL";
   "CONTAINER_CREATION_ERROR"; "NO_CONTAINER_ID"; "CONTAINER_ERROR"; "PUBLISH_ERROR";
   "PUBLISH_MEDIA_ERROR"; "UNEXPECTED_ERROR"].

(** A failure report: [success] is false, and there are a message and
    one of the error codes. *)
Definition instagram_failure (d : json) : Prop :=
  field "success" d = Some (JBool false)
  /\ exists message code,
       field "error" d = Some (JStr message)
       /\ field "error_code" d = Some (JStr code)
       /\ In code instagram_error_codes.

(** [k in d] for a dictionary given by its bindings. *)
Definition has_key (k : string) (kv : list (string * json)) : bool :=
  match Json.lookup k kv with Some _ => true | None => false end.

(** * Properties *)

(** ** The monad *)

Lemma ret_returns {A} (a : A) : returns (ret a).
Proof. intros t. exists a, t. reflexivity. Qed.

Lemma try_except_returns {A} (m : M A) (cs : list (clause A)) :
  (forall e, returns (dispatch cs e)) -> returns (try_except m cs).
Proof.
  intros H t. unfold try_except.
  destruct (m t) as [[a|e] t'].
  - exists a, t'. reflexivity.
  - apply H.
Qed.

Lemma fmap_returns {A B} (f : A -> B) (m : M A) :
  returns m -> returns (fmap f m).
Proof.
  intros H t. destruct (H t) as (a & t' & E).
  exists (f a), t'. unfold fmap, bind. rewrite E. reflexivity.
Qed.

(** A clause list that ends in [except Exception], with handlers that
    only [return], lets nothing through. *)
Ltac handlers_return :=
  let e := fresh "e" in
  intros e; cbn [dispatch]; cbv [Exn.is_Exception];
  repeat match goal with
         | |- returns (if true then _ else _) => cbv iota
         | |- returns (if ?c then _ else _) => destruct c
         end;
  apply ret_returns.

Lemma ayrshare_returns W post_text image_url schedule_date schedule_time :
  returns (AyrshareInstagramPublisher._run W post_text image_url schedule_date schedule_time).
Proof. apply fmap_returns, try_except_returns. handlers_return. Qed.

Lemma buffer_returns W profile_id text media scheduled_at top :
  returns (BufferInstagramTool._run W profile_id text media scheduled_at top).
Proof. apply fmap_returns, try_except_returns. handlers_return. Qed.

Lemma instagram_returns W post_type caption access_token image_url schedule_time :
  returns (InstagramPostingTool._run W post_type caption access_token image_url schedule_time).
Proof. apply fmap_returns, try_except_returns. handlers_return. Qed.

Lemma late_returns W account_id content media_urls schedule_time post_type hashtags mentions :
  returns (LateInstagramTool._run W account_id content media_urls schedule_time
             post_type hashtags mentions).
Proof. apply fmap_returns, try_except_returns. handlers_return. Qed.

Lemma zapier_returns url W content preferred_posting_time timezone media_urls hashtags brand_name :
  returns (ZapierInstagramWebhookTool.run_at url W content preferred_posting_time timezone
             media_urls hashtags brand_name).
Proof. apply try_except_returns. handlers_return. Qed.

(** ** The transport *)

Lemma url_fault_https (rest : string) : requests.url_fault ("https://" ++ rest) = None.
Proof. reflexivity. Qed.

Lemma request_answered W method url payload t r :
  requests.url_fault url = None ->
  transport W t (mkRequest method url payload) = Responded r ->
  requests.request W method url payload t
  = (Ret r, (t ++ [mkRequest method url payload])%list).
Proof. intros U H. unfold requests.request. rewrite U, H. reflexivity. Qed.

Lemma request_failed W method url payload t e :
  requests.url_fault url = None ->
  transport W t (mkRequest method url payload) = Failed e ->
  requests.request W method url payload t
  = (Raise e, (t ++ [mkRequest method url payload])%list).
Proof. intros U H. unfold requests.request. rewrite U, H. reflexivity. Qed.

(** A request adds at most itself to the trace. *)
Lemma request_trace W method url payload t :
  snd (requests.request W method url payload t) = t
  \/ snd (requests.request W method url payload t)
     = (t ++ [mkRequest method url payload])%list.
Proof.
  unfold requests.request. destruct (requests.url_fault url).
  - left. reflexivity.
  - right. destruct (transport W t _); reflexivity.
Qed.

(** What [.json()] raises is never a timeout. *)
Lemma decode_error_not_timeout (r : Response) :
  Exn.is_Timeout (requests.decode_error r) = false.
Proof. unfold requests.decode_error. destruct (json_refusal r); reflexivity. Qed.

(** ** Python strings *)

(** Only the empty string has no character. *)
Lemma characters_cons (c : ascii) (s : string) : (0 < Py.characters (String c s))%nat.
Proof.
  revert c. induction s as [|d s IH]; intros c.
  - cbn. lia.
  - change (Py.characters (String c (String d s)))
      with (if Py.is_continuation d then Py.characters (String d s)
            else S (Py.characters (String d s))).
    destruct (Py.is_continuation d).
    + exact (IH d).
    + lia.
Qed.

Lemma len_cons (c : ascii) (s : string) : (Py.len (String c s) >? 0) = true.
Proof.
  apply Z.gtb_lt. unfold Py.len. pose proof (characters_cons c s). lia.
Qed.

(** A string put after another adds its characters, when it begins
    with one. *)
Lemma characters_app (a b : string) :
  Py.continues b = false ->
  Py.characters (a ++ b) = (Py.characters a + Py.characters b)%nat.
Proof.
  intros B. induction a as [|c a IH].
  - reflexivity.
  - cbn [append Py.characters]. destruct a as [|d a].
    + cbn [append Py.continues Py.characters]. rewrite B. reflexivity.
    + cbn [append Py.continues] in *. destruct (Py.is_continuation d); rewrite IH; reflexivity.
Qed.

(** A slice [s[:n]] has at most [n] characters. *)
Lemma characters_take (n : nat) (s : string) : (Py.characters (Py.take n s) <= n)%nat.
Proof.
  revert n. induction s as [|c r IH]; intros n.
  - cbn. lia.
  - destruct n as [|k]; [cbn; lia|].
    cbn [Py.take Py.characters].
    destruct r as [|d r'].
    + cbn. lia.
    + cbn [Py.continues]. destruct (Py.is_continuation d) eqn:D.
      * specialize (IH (S k)). cbn [Py.take] in *. cbn [Py.continues]. rewrite D. exact IH.
      * specialize (IH k).
        destruct (Py.continues (Py.take k (String d r'))); lia.
Qed.

Lemma startswith_app_l (p a b : string) :
  Py.startswith p a = true -> Py.startswith p (a ++ b) = true.
Proof.
  revert a. induction p as [|c p IH]; intros a H.
  - reflexivity.
  - destruct a as [|d a]; [discriminate H|].
    simpl in *. apply andb_true_iff in H as [H1 H2].
    rewrite H1. simpl. apply IH, H2.
Qed.

Lemma startswith_self_app (p s : string) : Py.startswith p (p ++ s) = true.
Proof.
  induction p as [|c p IH]; simpl.
  - reflexivity.
  - rewrite Ascii.eqb_refl. exact IH.
Qed.

Lemma contains_unfold (sub s : string) :
  Py.contains sub s
  = Py.startswith sub s
    || match s with String _ r => Py.contains sub r | EmptyString => false end.
Proof. destruct s; reflexivity. Qed.

Lemma contains_app_l (x a b : string) :
  Py.contains x a = true -> Py.contains x (a ++ b) = true.
Proof.
  induction a as [|c a IH]; intros H.
  - simpl in H. rewrite orb_false_r in H.
    destruct x; [|discriminate H].
    rewrite contains_unfold. reflexivity.
  - rewrite contains_unfold in H. apply orb_true_iff in H as [H|H].
    + rewrite contains_unfold, (startswith_app_l _ _ _ H). reflexivity.
    + change (String c a ++ b) with (String c (a ++ b)).
      rewrite contains_unfold, (IH H). apply orb_true_r.
Qed.

Lemma contains_app_r (x a b : string) :
  Py.contains x b = true -> Py.contains x (a ++ b) = true.
Proof.
  intros H. induction a as [|c a IH]; simpl.
  - exact H.
  - rewrite IH. apply orb_true_r.
Qed.

Lemma contains_self_app (x s : string) : Py.contains x (x ++ s) = true.
Proof. rewrite contains_unfold, startswith_self_app. reflexivity. Qed.

Lemma contains_refl (x : string) : Py.contains x x = true.
Proof.
  rewrite contains_unfold.
  replace (Py.startswith x x) with (Py.startswith x (x ++ "")).
  - rewrite startswith_self_app. reflexivity.
  - f_equal. induction x; simpl; congruence.
Qed.

Lemma contains_join (sep x : string) (l : list string) :
  In x l -> Py.contains x (Py.join sep l) = true.
Proof.
  induction l as [|y l IH]; intros H; [destruct H|].
  destruct l as [|z l].
  - destruct H as [->|[]]. apply contains_refl.
  - change (Py.join sep (y :: z :: l)) with (y ++ sep ++ Py.join sep (z :: l)).
    destruct H as [->|H].
    + apply contains_self_app.
    + apply contains_app_r, contains_app_r, IH, H.
Qed.

Lemma lstrip_char_idem (c : ascii) (s : string) :
  Py.lstrip_char c (Py.lstrip_char c s) = Py.lstrip_char c s.
Proof.
  induction s as [|d s IH]; simpl.
  - reflexivity.
  - destruct (Ascii.eqb d c) eqn:E.
    + exact IH.
    + simpl. rewrite E. reflexivity.
Qed.

(** What [lstrip] leaves does not begin with the stripped character. *)
Lemma lstrip_char_head (c : ascii) (s : string) :
  Py.startswith (String c EmptyString) (Py.lstrip_char c s) = false.
Proof.
  induction s as [|d s IH]; simpl.
  - reflexivity.
  - destruct (Ascii.eqb d c) eqn:E.
    + exact IH.
    + simpl. rewrite Ascii.eqb_sym, E. reflexivity.
Qed.

(** ** Traces *)

Lemma pure_ret {A} (a : A) : pure (ret a).
Proof. intros t. reflexivity. Qed.

Lemma pure_lift {A} (r : res A) : pure (lift r).
Proof. intros t. reflexivity. Qed.

Lemma pure_raise {A} (e : exn) : pure (@raise A e).
Proof. intros t. reflexivity. Qed.

Lemma pure_bind {A B} (m : M A) (k : A -> M B) :
  pure m -> (forall a, pure (k a)) -> pure (bind m k).
Proof.
  intros Hm Hk t. unfold bind. specialize (Hm t).
  destruct (m t) as [[a|e] t']; simpl in *; subst t'.
  - apply Hk.
  - reflexivity.
Qed.

Lemma pure_try_except {A} (m : M A) (cs : list (clause A)) :
  pure m -> (forall e, pure (dispatch cs e)) -> pure (try_except m cs).
Proof.
  intros Hm Hc t. unfold try_except. specialize (Hm t).
  destruct (m t) as [[a|e] t']; simpl in *; subst t'.
  - reflexivity.
  - apply Hc.
Qed.

Lemma sends_bind {A B} (rq : Request) (m : M A) (k : A -> M B) :
  sends_at_most rq m -> (forall a, pure (k a)) -> sends_at_most rq (bind m k).
Proof.
  intros Hm Hk t. unfold bind. specialize (Hm t).
  destruct (m t) as [[a|e] t']; simpl in *.
  - rewrite Hk. exact Hm.
  - exact Hm.
Qed.

Lemma sends_try_except {A} (rq : Request) (m : M A) (cs : list (clause A)) :
  sends_at_most rq m -> (forall e, pure (dispatch cs e)) ->
  sends_at_most rq (try_except m cs).
Proof.
  intros Hm Hc t. unfold try_except. specialize (Hm t).
  destruct (m t) as [[a|e] t']; simpl in *.
  - exact Hm.
  - rewrite Hc. exact Hm.
Qed.

Lemma sends_request W method url payload :
  sends_at_most (mkRequest method url payload) (requests.request W method url payload).
Proof. intros t. apply request_trace. Qed.

(** Handlers that only [return] leave the trace alone. *)
Ltac handlers_pure :=
  let e := fresh "e" in
  intros e; cbn [dispatch];
  repeat match goal with
         | |- pure (if ?c then _ else _) => destruct c
         end;
  first [apply pure_ret | apply pure_raise].

(** Blocks built from [ret], [lift] and [bind] leave the trace alone. *)
Ltac block_pure :=
  repeat first
    [ apply pure_ret | apply pure_lift | apply pure_raise
    | apply pure_bind; [|intros ?]
    | apply pure_try_except; [|handlers_pure]
    | match goal with
      | |- pure (if ?c then _ else _) => destruct c
      | |- pure (match ?x with _ => _ end) => destruct x
      end ].

(** ** The Buffer adapter, step by step *)

Lemma buffer_verify_returns W access_token profile_id :
  returns (BufferInstagramTool._verify_profile W access_token profile_id).
Proof. apply try_except_returns. handlers_return. Qed.

Lemma buffer_verify_sends W access_token profile_id :
  sends_at_most
    (mkRequest "GET" BufferInstagramTool.profiles_url
       (JObj [("access_token", JStr access_token)]))
    (BufferInstagramTool._verify_profile W access_token profile_id).
Proof.
  apply sends_try_except; [|handlers_pure].
  apply sends_bind; [apply sends_request|].
  intros response. block_pure.
Qed.

Lemma buffer_normalize_pure text media response :
  pure (BufferInstagramTool.normalize text media response).
Proof. unfold BufferInstagramTool.normalize. block_pure. Qed.

Section BufferRun.

Variable W : World.
Variables (access_token profile_id text : string).
Variable media : option string.
Variable scheduled_at : option Z.
Variable top : bool.

Hypothesis key_set : getenv W "BUFFER_API_KEY" = Some access_token.
Hypothesis key_truthy : Py.truthy access_token = true.
Hypothesis profile_given : Py.truthy profile_id = true.
Hypothesis text_given : Py.truthy text = true.

Variables (t t1 : list Request) (profile_check : json).
Hypothesis verified :
  BufferInstagramTool._verify_profile W access_token profile_id t = (Ret profile_check, t1).

Lemma buffer_run_lookup_failed :
  success_of profile_check = false ->
  BufferInstagramTool.run_result W profile_id text media scheduled_at top t
  = (Ret profile_check, t1).
Proof.
  intros F. unfold BufferInstagramTool.run_result, try_except, bind.
  rewrite key_set. cbn [Py.truthy_opt str_opt]. rewrite key_truthy, profile_given, text_given.
  cbn [negb orb]. rewrite verified, F. reflexivity.
Qed.

Variables (t2 : list Request) (checked : json).
Hypothesis lookup_ok : success_of profile_check = true.
Hypothesis media_checked : BufferInstagramTool.media_check W media t1 = (Ret checked, t2).

Lemma buffer_run_media_refused :
  success_of checked = false ->
  BufferInstagramTool.run_result W profile_id text media scheduled_at top t
  = (Ret checked, t2).
Proof.
  intros F. unfold BufferInstagramTool.run_result, try_except, bind.
  rewrite key_set. cbn [Py.truthy_opt str_opt]. rewrite key_truthy, profile_given, text_given.
  cbn [negb orb]. rewrite verified, lookup_ok. cbn [negb].
  rewrite media_checked, F. reflexivity.
Qed.

Hypothesis media_ok : success_of checked = true.

Lemma buffer_run_past_schedule :
  BufferInstagramTool.past_schedule W scheduled_at = true ->
  BufferInstagramTool.run_result W profile_id text media scheduled_at top t
  = (Ret (JObj [("success", JBool false);
                ("error",
                 JStr ("Scheduled time must be in the future. Current time: "
                       ++ Py.str_of_Z (BufferInstagramTool.current_time W) ++ ", Provided: "
                       ++ Py.str_of_Z (match scheduled_at with
                                       | Some s => s | None => 0 end)))]), t2).
Proof.
  intros P. unfold BufferInstagramTool.run_result, try_except, bind.
  rewrite key_set. cbn [Py.truthy_opt str_opt]. rewrite key_truthy, profile_given, text_given.
  cbn [negb orb]. rewrite verified, lookup_ok. cbn [negb].
  rewrite media_checked, media_ok. cbn [negb]. rewrite P. reflexivity.
Qed.

Local Notation "'buffer_posting_request'" :=
  (BufferInstagramTool.posting_request access_token profile_id text media scheduled_at top).

Lemma buffer_run_posts :
  BufferInstagramTool.past_schedule W scheduled_at = false ->
  snd (BufferInstagramTool.run_result W profile_id text media scheduled_at top t)
  = (t2 ++ [buffer_posting_request])%list.
Proof.
  intros P. unfold BufferInstagramTool.run_result, try_except, bind.
  rewrite key_set. cbn [Py.truthy_opt str_opt]. rewrite key_truthy, profile_given, text_given.
  cbn [negb orb]. rewrite verified, lookup_ok. cbn [negb].
  rewrite media_checked, media_ok. cbn [negb]. rewrite P.
  unfold BufferInstagramTool._make_api_request.
  change ((Py.upper "POST" =? "GET")%string) with false. cbv iota.
  unfold requests.post, requests.request.
  change (requests.url_fault BufferInstagramTool.api_url) with (@None exn).
  cbv iota.
  change (mkRequest "POST" BufferInstagramTool.api_url _) with buffer_posting_request.
  destruct (transport W t2 buffer_posting_request) as [r|e].
  - pose proof (buffer_normalize_pure text media r (t2 ++ [buffer_posting_request])%list) as N.
    destruct (BufferInstagramTool.normalize text media r _) as [[d|e] t3];
      simpl in N; subst t3.
    + reflexivity.
    + cbn [dispatch]. cbv [Exn.is_Exception].
      destruct (Exn.is_RequestException e); reflexivity.
  - cbn [dispatch]. cbv [Exn.is_Exception].
    destruct (Exn.is_RequestException e); reflexivity.
Qed.

Lemma buffer_run_answered r :
  BufferInstagramTool.past_schedule W scheduled_at = false ->
  transport W t2 buffer_posting_request = Responded r ->
  forall d t3,
    BufferInstagramTool.normalize text media r (t2 ++ [buffer_posting_request])%list
    = (Ret d, t3) ->
    BufferInstagramTool.run_result W profile_id text media scheduled_at top t
    = (Ret d, (t2 ++ [buffer_posting_request])%list).
Proof.
  intros P A d t3 N. unfold BufferInstagramTool.run_result, try_except, bind.
  rewrite key_set. cbn [Py.truthy_opt str_opt]. rewrite key_truthy, profile_given, text_given.
  cbn [negb orb]. rewrite verified, lookup_ok. cbn [negb].
  rewrite media_checked, media_ok. cbn [negb]. rewrite P.
  unfold BufferInstagramTool._make_api_request.
  change ((Py.upper "POST" =? "GET")%string) with false. cbv iota.
  unfold requests.post, requests.request.
  change (requests.url_fault BufferInstagramTool.api_url) with (@None exn).
  cbv iota.
  change (mkRequest "POST" BufferInstagramTool.api_url _) with buffer_posting_request. rewrite A.
  pose proof (buffer_normalize_pure text media r (t2 ++ [buffer_posting_request])%list) as Q.
  rewrite N in *. simpl in Q. subst t3. reflexivity.
Qed.

Lemma buffer_run_normalize_raised r e :
  BufferInstagramTool.past_schedule W scheduled_at = false ->
  transport W t2 buffer_posting_request = Responded r ->
  fst (BufferInstagramTool.normalize text media r (t2 ++ [buffer_posting_request])%list)
  = Raise e ->
  exists d,
    BufferInstagramTool.run_result W profile_id text media scheduled_at top t
    = (Ret d, (t2 ++ [buffer_posting_request])%list)
    /\ field "success" d = Some (JBool false).
Proof.
  intros P A N. unfold BufferInstagramTool.run_result, try_except, bind.
  rewrite key_set. cbn [Py.truthy_opt str_opt]. rewrite key_truthy, profile_given, text_given.
  cbn [negb orb]. rewrite verified, lookup_ok. cbn [negb].
  rewrite media_checked, media_ok. cbn [negb]. rewrite P.
  unfold BufferInstagramTool._make_api_request.
  change ((Py.upper "POST" =? "GET")%string) with false. cbv iota.
  unfold requests.post, requests.request.
  change (requests.url_fault BufferInstagramTool.api_url) with (@None exn).
  cbv iota.
  change (mkRequest "POST" BufferInstagramTool.api_url _) with buffer_posting_request.
  rewrite A.
  pose proof (buffer_normalize_pure text media r (t2 ++ [buffer_posting_request])%list) as Q.
  destruct (BufferInstagramTool.normalize text media r _) as [x t3].
  simpl in N, Q. subst x t3.
  cbn [dispatch]. cbv [Exn.is_Exception].
  destruct (Exn.is_RequestException e); eexists; split; reflexivity.
Qed.

End BufferRun.

(** ** The Ayrshare adapter, step by step *)

Lemma ayrshare_normalize_pure is_scheduled schedule_date schedule_time response :
  pure (AyrshareInstagramPublisher.normalize is_scheduled schedule_date schedule_time response).
Proof. unfold AyrshareInstagramPublisher.normalize. block_pure. Qed.

Section AyrshareRun.

Variable W : World.
Variable post_text : string.
Variables image_url schedule_date schedule_time : option string.
Variable t : list Request.

Lemma ayrshare_run_early early :
  AyrshareInstagramPublisher.schedule_block W
    (AyrshareInstagramPublisher.base_payload post_text image_url)
    schedule_date schedule_time = inr early ->
  AyrshareInstagramPublisher.run_result W post_text image_url schedule_date schedule_time t
  = (Ret early, t).
Proof.
  intros S. unfold AyrshareInstagramPublisher.run_result, try_except.
  rewrite S. reflexivity.
Qed.

Variable payload : list (string * json).
Variable is_scheduled : bool.
Hypothesis scheduled :
  AyrshareInstagramPublisher.schedule_block W
    (AyrshareInstagramPublisher.base_payload post_text image_url)
    schedule_date schedule_time = inl (payload, is_scheduled).

Local Notation "'posting_request'" :=
  (mkRequest "POST" AyrshareInstagramPublisher.api_url (JObj payload)).

(** Once the schedule block is passed the posting call is sent. *)
Lemma ayrshare_run_posts :
  snd (AyrshareInstagramPublisher.run_result W post_text image_url
         schedule_date schedule_time t)
  = (t ++ [posting_request])%list.
Proof.
  unfold AyrshareInstagramPublisher.run_result, try_except, bind.
  rewrite scheduled. unfold requests.post, requests.request.
  change (requests.url_fault AyrshareInstagramPublisher.api_url) with (@None exn).
  cbv iota.
  destruct (transport W t posting_request) as [r|e].
  - pose proof (ayrshare_normalize_pure is_scheduled schedule_date schedule_time r
                  (t ++ [posting_request])%list) as N.
    destruct (AyrshareInstagramPublisher.normalize _ _ _ r _) as [[d|e] t3];
      simpl in N; subst t3.
    + reflexivity.
    + cbn [dispatch]. cbv [Exn.is_Exception].
      destruct (Exn.is_Timeout e), (Exn.is_ConnectionError e),
        (Exn.is_RequestException e); reflexivity.
  - cbn [dispatch]. cbv [Exn.is_Exception].
    destruct (Exn.is_Timeout e), (Exn.is_ConnectionError e),
      (Exn.is_RequestException e); reflexivity.
Qed.

(** The result is the normaliser's, when it returns one. *)
Lemma ayrshare_run_answered r d :
  transport W t posting_request = Responded r ->
  fst (AyrshareInstagramPublisher.normalize is_scheduled schedule_date schedule_time r
         (t ++ [posting_request])%list) = Ret d ->
  AyrshareInstagramPublisher.run_result W post_text image_url schedule_date schedule_time t
  = (Ret d, (t ++ [posting_request])%list).
Proof.
  intros A N. unfold AyrshareInstagramPublisher.run_result, try_except, bind.
  rewrite scheduled. unfold requests.post, requests.request.
  change (requests.url_fault AyrshareInstagramPublisher.api_url) with (@None exn).
  cbv iota. rewrite A.
  pose proof (ayrshare_normalize_pure is_scheduled schedule_date schedule_time r
                (t ++ [posting_request])%list) as Q.
  destruct (AyrshareInstagramPublisher.normalize _ _ _ r _) as [x t3].
  simpl in N, Q. subst x t3. reflexivity.
Qed.

(** And an error result when the normaliser raises. *)
Lemma ayrshare_run_normalize_raised r e :
  transport W t posting_request = Responded r ->
  fst (AyrshareInstagramPublisher.normalize is_scheduled schedule_date schedule_time r
         (t ++ [posting_request])%list) = Raise e ->
  exists message,
    AyrshareInstagramPublisher.run_result W post_text image_url schedule_date schedule_time t
    = (Ret (AyrshareInstagramPublisher.error_result message),
       (t ++ [posting_request])%list).
Proof.
  intros A N. unfold AyrshareInstagramPublisher.run_result, try_except, bind.
  rewrite scheduled. unfold requests.post, requests.request.
  change (requests.url_fault AyrshareInstagramPublisher.api_url) with (@None exn).
  cbv iota. rewrite A.
  pose proof (ayrshare_normalize_pure is_scheduled schedule_date schedule_time r
                (t ++ [posting_request])%list) as Q.
  destruct (AyrshareInstagramPublisher.normalize _ _ _ r _) as [x t3].
  simpl in N, Q. subst x t3.
  cbn [dispatch]. cbv [Exn.is_Exception].
  destruct (Exn.is_Timeout e), (Exn.is_ConnectionError e),
    (Exn.is_RequestException e); eexists; reflexivity.
Qed.

End AyrshareRun.

(** ** The Instagram Graph adapter, step by step *)

Lemma instagram_info_returns W access_token :
  returns (InstagramPostingTool._get_instagram_account_info W access_token).
Proof. apply try_except_returns. handlers_return. Qed.

Lemma instagram_info_sends W access_token :
  sends_at_most
    (mkRequest "GET" (InstagramPostingTool.graph ++ "me")
       (JObj [("fields", JStr "accounts{instagram_business_account}");
              ("access_token", JStr access_token)]))
    (InstagramPostingTool._get_instagram_account_info W access_token).
Proof.
  apply sends_try_except; [|handlers_pure].
  apply sends_bind; [apply sends_request|].
  intros response. block_pure.
Qed.

Section InstagramRun.

Variable W : World.
Variables post_type caption access_token : string.
Variables image_url schedule_time : option string.
Variable t : list Request.

Hypothesis type_ok : ((post_type =? "text") || (post_type =? "image"))%string = true.
Hypothesis image_ok :
  ((post_type =? "image")%string && negb (Py.truthy_opt image_url)) = false.

Lemma instagram_run_schedule_refused early :
  InstagramPostingTool.schedule_block W schedule_time = inr early ->
  InstagramPostingTool.run_result W post_type caption access_token image_url schedule_time t
  = (Ret early, t).
Proof.
  intros S. unfold InstagramPostingTool.run_result, try_except.
  rewrite type_ok, image_ok. cbn [negb]. rewrite S. reflexivity.
Qed.

Variable scheduled_publish_time : option Z.
Hypothesis schedule_ok :
  InstagramPostingTool.schedule_block W schedule_time = inl scheduled_publish_time.

Variables (t1 : list Request) (user_info : json).
Hypothesis looked_up :
  InstagramPostingTool._get_instagram_account_info W access_token t = (Ret user_info, t1).

Lemma instagram_run_lookup_failed :
  success_of user_info = false ->
  InstagramPostingTool.run_result W post_type caption access_token image_url schedule_time t
  = (Ret user_info, t1).
Proof.
  intros F. unfold InstagramPostingTool.run_result, try_except, bind.
  rewrite type_ok, image_ok. cbn [negb]. rewrite schedule_ok, looked_up, F.
  reflexivity.
Qed.

Variables (account : json) (t2 : list Request) (container_result : json).
Hypothesis lookup_ok : success_of user_info = true.
Hypothesis account_found : Json.getitem "account_id" user_info = Ret account.
Hypothesis container_made :
  InstagramPostingTool._create_media_container W account post_type caption image_url
    access_token t1 = (Ret container_result, t2).

Lemma instagram_run_container_failed :
  success_of container_result = false ->
  InstagramPostingTool.run_result W post_type caption access_token image_url schedule_time t
  = (Ret container_result, t2).
Proof.
  intros F. unfold InstagramPostingTool.run_result, try_except, bind.
  rewrite type_ok, image_ok. cbn [negb]. rewrite schedule_ok, looked_up, lookup_ok.
  cbn [negb]. unfold lift. rewrite account_found, container_made, F. reflexivity.
Qed.

Variables (container_id : json) (t3 : list Request) (publish_result : json).
Hypothesis container_ok : success_of container_result = true.
Hypothesis container_found : Json.getitem "container_id" container_result = Ret container_id.
Hypothesis published :
  InstagramPostingTool._publish_media W account container_id access_token
    scheduled_publish_time t2 = (Ret publish_result, t3).

Lemma instagram_run_published :
  InstagramPostingTool.run_result W post_type caption access_token image_url schedule_time t
  = (Ret publish_result, t3).
Proof.
  unfold InstagramPostingTool.run_result, try_except, bind.
  rewrite type_ok, image_ok. cbn [negb]. rewrite schedule_ok, looked_up, lookup_ok.
  cbn [negb]. unfold lift. rewrite account_found, container_made, container_ok.
  cbn [negb]. rewrite container_found, published. reflexivity.
Qed.

End InstagramRun.

(** ** The Late adapter, step by step *)

Lemma late_request_returns W method endpoint data api_key :
  returns (LateInstagramTool._make_api_request W method endpoint data api_key).
Proof. apply try_except_returns. handlers_return. Qed.

Lemma late_request_sends W endpoint data api_key :
  sends_at_most
    (mkRequest "POST" (LateInstagramTool.base_url ++ endpoint) data)
    (LateInstagramTool._make_api_request W "POST" endpoint data api_key).
Proof.
  apply sends_try_except; [|handlers_pure].
  apply sends_bind; [apply sends_request|].
  intros response. block_pure.
Qed.

(** A passed environment check yields the success dictionary. *)
Lemma late_env_ok W :
  success_of (LateInstagramTool._check_environment_variables W) = true ->
  LateInstagramTool._check_environment_variables W
  = JObj [("success", JBool true);
          ("api_key", Json.of_opt (getenv W "LATE_API_KEY"));
          ("default_account_id", Json.of_opt (getenv W "LATE_ACCOUNT_ID"));
          ("debug_info", LateInstagramTool.debug_info W)].
Proof.
  unfold LateInstagramTool._check_environment_variables.
  destruct (negb (Py.truthy_opt (getenv W "LATE_API_KEY"))); [discriminate|].
  destruct (Py.len _ <? 10); [discriminate|]. reflexivity.
Qed.

Lemma success_is_dict d : success_of d = true -> exists kv, d = JObj kv.
Proof. destruct d; try discriminate. eauto. Qed.

Section LateRun.

Variable W : World.
Variable account_id : option string.
Variable content : string.
Variables media_urls : option (list string).
Variable schedule_time : option string.
Variable post_type : string.
Variables hashtags mentions : option (list string).
Variable t : list Request.

Local Notation "'run'" :=
  (LateInstagramTool.run_result W account_id content media_urls schedule_time
     post_type hashtags mentions t).

Lemma late_run_env_failed :
  success_of (LateInstagramTool._check_environment_variables W) = false ->
  run = (Ret (LateInstagramTool._check_environment_variables W), t).
Proof.
  intros F. unfold LateInstagramTool.run_result, try_except. rewrite F. reflexivity.
Qed.

Hypothesis env_ok : success_of (LateInstagramTool._check_environment_variables W) = true.

Local Notation "'account'" :=
  (LateInstagramTool.final_account_id account_id
     (Json.of_opt (getenv W "LATE_ACCOUNT_ID"))).

Lemma late_run_no_account :
  Json.truthy account = false ->
  exists d, run = (Ret d, t) /\ field "success" d = Some (JBool false).
Proof.
  intros F. unfold LateInstagramTool.run_result, try_except, bind.
  rewrite (late_env_ok W env_ok). cbn [success_of Json.lookup Json.truthy negb
    String.eqb Ascii.eqb Bool.eqb lift Json.getitem Json.get].
  rewrite F. cbn [negb]. eexists. split; reflexivity.
Qed.

Hypothesis account_ok : Json.truthy account = true.

Lemma late_run_invalid_inputs :
  success_of (LateInstagramTool._validate_inputs post_type content media_urls) = false ->
  run = (Ret (LateInstagramTool._validate_inputs post_type content media_urls), t).
Proof.
  intros F. unfold LateInstagramTool.run_result, try_except, bind.
  rewrite (late_env_ok W env_ok). cbn [success_of Json.lookup Json.truthy negb
    String.eqb Ascii.eqb Bool.eqb lift Json.getitem Json.get].
  rewrite account_ok. cbn [negb].
  change (match LateInstagramTool._validate_inputs post_type content media_urls with
          | JObj kv => match Json.lookup "success" kv with
                       | Some v => Json.truthy v | None => false end
          | _ => false end)
    with (success_of (LateInstagramTool._validate_inputs post_type content media_urls)).
  rewrite F. reflexivity.
Qed.

Hypothesis inputs_ok :
  success_of (LateInstagramTool._validate_inputs post_type content media_urls) = true.

Variable time_validation : json.
Hypothesis time_validated :
  LateInstagramTool._validate_schedule_time W schedule_time = Ret time_validation.

Lemma late_run_schedule_refused :
  success_of time_validation = false ->
  run = (Ret time_validation, t).
Proof.
  intros F. unfold LateInstagramTool.run_result, try_except, bind.
  rewrite (late_env_ok W env_ok). cbn [success_of Json.lookup Json.truthy negb
    String.eqb Ascii.eqb Bool.eqb lift Json.getitem Json.get].
  rewrite account_ok. cbn [negb].
  change (match LateInstagramTool._validate_inputs post_type content media_urls with
          | JObj kv => match Json.lookup "success" kv with
                       | Some v => Json.truthy v | None => false end
          | _ => false end)
    with (success_of (LateInstagramTool._validate_inputs post_type content media_urls)).
  rewrite inputs_ok. cbn [negb]. rewrite time_validated.
  change (match time_validation with
          | JObj kv => match Json.lookup "success" kv with
                       | Some v => Json.truthy v | None => false end
          | _ => false end)
    with (success_of time_validation).
  rewrite F. reflexivity.
Qed.

Hypothesis time_ok : success_of time_validation = true.

(** Whether the post is scheduled, and for when, as [_run] reads them
    off the validation. *)
Local Notation "'is_scheduled'" :=
  (match field "is_scheduled" time_validation with
   | Some v => Json.truthy v
   | None => false
   end).
Local Notation "'formatted_time'" :=
  (match field "formatted_time" time_validation with
   | Some v => v
   | None => JNull
   end).
Local Notation "'post_data'" :=
  (JObj (LateInstagramTool.build_post_data
           (LateInstagramTool._format_content content hashtags mentions)
           account media_urls is_scheduled formatted_time)).

Variables (result : json) (t1 : list Request).
Hypothesis requested :
  LateInstagramTool._make_api_request W "POST" "/v1/posts" post_data
    (Json.of_opt (getenv W "LATE_API_KEY")) t = (Ret result, t1).

Lemma late_run_request_failed :
  success_of result = false ->
  run = (Ret result, t1).
Proof.
  intros F. unfold LateInstagramTool.run_result, try_except, bind.
  rewrite (late_env_ok W env_ok). cbn [success_of Json.lookup Json.truthy negb
    String.eqb Ascii.eqb Bool.eqb lift Json.getitem Json.get].
  rewrite account_ok. cbn [negb].
  change (match LateInstagramTool._validate_inputs post_type content media_urls with
          | JObj kv => match Json.lookup "success" kv with
                       | Some v => Json.truthy v | None => false end
          | _ => false end)
    with (success_of (LateInstagramTool._validate_inputs post_type content media_urls)).
  rewrite inputs_ok. cbn [negb]. rewrite time_validated.
  destruct (success_is_dict _ time_ok) as (kv & ->).
  change (match Json.lookup "success" kv with
          | Some v => Json.truthy v | None => false end)
    with (success_of (JObj kv)).
  rewrite time_ok. cbn [negb].
  cbn [field] in requested. unfold Json.get at 1 2.
  destruct (Json.lookup "is_scheduled" kv), (Json.lookup "formatted_time" kv);
    cbv beta iota; cbn [Json.truthy];
    rewrite requested;
    change (match result with
            | JObj kv => match Json.lookup "success" kv with
                         | Some v => Json.truthy v | None => false end
            | _ => false end)
      with (success_of result);
    rewrite F; reflexivity.
Qed.

Lemma late_run_request_succeeded response_data :
  success_of result = true ->
  field "data" result = Some response_data ->
  (exists kv,
     response_data = JObj kv
     /\ run
        = (Ret (LateInstagramTool.success_response W (LateInstagramTool.debug_info W)
                  response_data
                  (match Json.lookup "id" kv with Some v => v | None => JStr "unknown" end)
                  account
                  (LateInstagramTool._format_content content hashtags mentions)
                  media_urls is_scheduled formatted_time post_type), t1))
  \/ ((forall kv, response_data <> JObj kv)
      /\ exists d, run = (Ret d, t1) /\ field "success" d = Some (JBool false)).
Proof.
  intros S D.
  assert (R : run
              = try_except
                  (response_data <- lift (Json.getitem "data" result) ;;
                   post_id <- lift (Json.get "id" (JStr "unknown") response_data) ;;
                   ret (LateInstagramTool.success_response W (LateInstagramTool.debug_info W)
                          response_data post_id account
                          (LateInstagramTool._format_content content hashtags mentions)
                          media_urls is_scheduled formatted_time post_type))
                  [(Exn.is_Exception, fun e =>
                      ret (LateInstagramTool.unexpected_error W account_id content
                             media_urls schedule_time post_type e))] t1).
  { unfold LateInstagramTool.run_result, try_except, bind.
    rewrite (late_env_ok W env_ok). cbn [success_of Json.lookup Json.truthy negb
      String.eqb Ascii.eqb Bool.eqb lift Json.getitem Json.get].
    rewrite account_ok. cbn [negb].
    change (match LateInstagramTool._validate_inputs post_type content media_urls with
            | JObj kv => match Json.lookup "success" kv with
                         | Some v => Json.truthy v | None => false end
            | _ => false end)
      with (success_of (LateInstagramTool._validate_inputs post_type content media_urls)).
    rewrite inputs_ok. cbn [negb]. rewrite time_validated.
    destruct (success_is_dict _ time_ok) as (kv & ->).
    change (match Json.lookup "success" kv with
            | Some v => Json.truthy v | None => false end)
      with (success_of (JObj kv)).
    rewrite time_ok. cbn [negb].
    cbn [field] in requested |- *. unfold Json.get at 1 2.
    destruct (Json.lookup "is_scheduled" kv), (Json.lookup "formatted_time" kv);
      cbv beta iota; cbn [Json.truthy];
      rewrite requested;
      change (match result with
              | JObj kv => match Json.lookup "success" kv with
                           | Some v => Json.truthy v | None => false end
              | _ => false end)
        with (success_of result);
      rewrite S; reflexivity. }
  rewrite R. clear R requested.
  destruct (success_is_dict _ S) as (rkv & ->). cbn [field] in D.
  unfold try_except, bind, lift, Json.getitem. rewrite D.
  destruct response_data as [| | | | |dkv];
    [right; split; [discriminate|eexists; split; reflexivity] ..
    |left; exists dkv; split; reflexivity].
Qed.

End LateRun.

(** ** What the helpers make of a response *)

Lemma url_fault_graph (rest : string) :
  requests.url_fault (InstagramPostingTool.graph ++ rest) = None.
Proof. reflexivity. Qed.

Lemma url_fault_late (endpoint : string) :
  requests.url_fault (LateInstagramTool.base_url ++ endpoint) = None.
Proof. reflexivity. Qed.

(** Unfold a helper up to its request and feed it the response. *)
Ltac answered U H :=
  unfold try_except, bind, requests.get, requests.post, requests.head;
  erewrite (request_answered _ _ _ _ _ _ U) by (first [exact H | apply H]).

Lemma instagram_info_rate_limited W access_token t r :
  transport W t
    (mkRequest "GET" (InstagramPostingTool.graph ++ "me")
       (JObj [("fields", JStr "accounts{instagram_business_account}");
              ("access_token", JStr access_token)])) = Responded r ->
  status_code r = 429 ->
  fst (InstagramPostingTool._get_instagram_account_info W access_token t)
  = Ret InstagramPostingTool.rate_limited.
Proof.
  intros H S. unfold InstagramPostingTool._get_instagram_account_info.
  answered (url_fault_graph "me") H. rewrite S. reflexivity.
Qed.

Lemma instagram_container_rate_limited W account caption image_url access_token t r :
  (forall payload,
     transport W t
       (mkRequest "POST" (InstagramPostingTool.graph ++ Json.str account ++ "/media")
          payload) = Responded r) ->
  status_code r = 429 ->
  fst (InstagramPostingTool._create_media_container W account "image" caption image_url
         access_token t)
  = Ret InstagramPostingTool.rate_limited.
Proof.
  intros H S. unfold InstagramPostingTool._create_media_container.
  change (("image" =? "image")%string) with true. cbv iota.
  answered (url_fault_graph (Json.str account ++ "/media")) H.
  rewrite S. reflexivity.
Qed.

Lemma instagram_publish_rate_limited W account container_id access_token scheduled t r :
  (forall payload,
     transport W t
       (mkRequest "POST"
          (InstagramPostingTool.graph ++ Json.str account ++ "/media_publish")
          payload) = Responded r) ->
  status_code r = 429 ->
  fst (InstagramPostingTool._publish_media W account container_id access_token scheduled t)
  = Ret InstagramPostingTool.rate_limited.
Proof.
  intros H S. unfold InstagramPostingTool._publish_media.
  answered (url_fault_graph (Json.str account ++ "/media_publish")) H.
  rewrite S. reflexivity.
Qed.

Lemma instagram_publish_returns W account container_id access_token scheduled :
  returns (InstagramPostingTool._publish_media W account container_id access_token scheduled).
Proof. apply try_except_returns. handlers_return. Qed.

Lemma instagram_container_returns W account post_type caption image_url access_token :
  returns (InstagramPostingTool._create_media_container W account post_type caption
             image_url access_token).
Proof. apply try_except_returns. handlers_return. Qed.

(** The publish step: success exactly for a 200 response with a JSON
    object, whose ["id"] (or [null]) becomes the media identifier. *)
Lemma instagram_publish_outcome W account container_id access_token scheduled t r :
  (forall payload,
     transport W t
       (mkRequest "POST"
          (InstagramPostingTool.graph ++ Json.str account ++ "/media_publish")
          payload) = Responded r) ->
  exists d,
    fst (InstagramPostingTool._publish_media W account container_id access_token scheduled t)
    = Ret d
    /\ (field "success" d = Some (JBool true)
        <-> status_code r = 200 /\ exists kv, json_value r = Some (JObj kv))
    /\ (forall kv, status_code r = 200 -> json_value r = Some (JObj kv) ->
        field "media_id" d
        = Some (match Json.lookup "id" kv with Some v => v | None => JNull end)).
Proof.
  intros H. unfold InstagramPostingTool._publish_media.
  answered (url_fault_graph (Json.str account ++ "/media_publish")) H.
  destruct (status_code r =? 429) eqn:E429.
  { apply Z.eqb_eq in E429. eexists. split; [reflexivity|]. split.
    - split; [discriminate|]. intros [S _]. congruence.
    - intros kv S. congruence. }
  destruct (status_code r =? 200) eqn:E200; cbn [negb].
  - apply Z.eqb_eq in E200. unfold lift, requests.json.
    destruct (json_value r) as [j|].
    + destruct j as [| | | | |kv];
        try (eexists; split; [reflexivity|]; split;
             [split; [discriminate|intros (_ & kv & K); discriminate K]
             |intros kv _ K; discriminate K]).
      unfold Json.get.
      destruct scheduled as [s|]; [destruct (InstagramPostingTool.truthy_int (Some s))|];
        (eexists; split; [reflexivity|]; split;
         [split; [intros _; split; [exact E200|exists kv; reflexivity]|reflexivity]
         |intros kv' _ K; injection K as <-; reflexivity]).
    + cbn [dispatch]. rewrite decode_error_not_timeout. cbv [Exn.is_Exception].
      eexists. split; [reflexivity|]. split.
      * split; [discriminate|]. intros (_ & kv & K). discriminate K.
      * intros kv _ K. discriminate K.
  - apply Z.eqb_neq in E200. unfold lift.
    destruct (InstagramPostingTool.error_message r) as [m|e];
      [|cbn [dispatch]; cbv [Exn.is_Exception]; destruct (Exn.is_Timeout e)];
      (eexists; split; [reflexivity|]; split;
       [split; [discriminate|intros [S _]; contradiction]
       |intros kv S; contradiction]).
Qed.

(** The container step: here, and only here, a 200 response without
    an identifier is an error. *)
Lemma instagram_container_outcome W account caption image_url access_token t r :
  (forall payload,
     transport W t
       (mkRequest "POST" (InstagramPostingTool.graph ++ Json.str account ++ "/media")
          payload) = Responded r) ->
  exists d,
    fst (InstagramPostingTool._create_media_container W account "image" caption image_url
           access_token t) = Ret d
    /\ (field "success" d = Some (JBool true)
        <-> status_code r = 200
            /\ exists kv v, json_value r = Some (JObj kv)
                            /\ Json.lookup "id" kv = Some v /\ Json.truthy v = true)
    /\ (forall kv v, status_code r = 200 -> json_value r = Some (JObj kv) ->
        Json.lookup "id" kv = Some v -> Json.truthy v = true ->
        field "container_id" d = Some v).
Proof.
  intros H. unfold InstagramPostingTool._create_media_container.
  change (("image" =? "image")%string) with true. cbv iota.
  answered (url_fault_graph (Json.str account ++ "/media")) H.
  destruct (status_code r =? 429) eqn:E429.
  { apply Z.eqb_eq in E429. eexists. split; [reflexivity|]. split.
    - split; [discriminate|]. intros [S _]. congruence.
    - intros kv v S. congruence. }
  destruct (status_code r =? 200) eqn:E200; cbn [negb].
  - apply Z.eqb_eq in E200. unfold lift, requests.json.
    destruct (json_value r) as [j|].
    + destruct j as [| | | | |kv];
        try (eexists; split; [reflexivity|]; split;
             [split; [discriminate|intros (_ & kv & v & K & _); discriminate K]
             |intros kv v _ K; discriminate K]).
      unfold Json.get.
      destruct (Json.lookup "id" kv) as [v|] eqn:L.
      * destruct (Json.truthy v) eqn:T; cbn [negb].
        -- eexists. split; [reflexivity|]. split.
           ++ split; [intros _; split; [exact E200|exists kv, v; auto]|reflexivity].
           ++ intros kv' v' _ K L' _. injection K as <-. rewrite L in L'.
              injection L' as <-. reflexivity.
        -- eexists. split; [reflexivity|]. split.
           ++ split; [discriminate|]. intros (_ & kv' & v' & K & L' & T').
              injection K as <-. rewrite L in L'. injection L' as <-. congruence.
           ++ intros kv' v' _ K L' T'. injection K as <-. rewrite L in L'.
              injection L' as <-. congruence.
      * eexists. split; [reflexivity|]. split.
        -- split; [discriminate|]. intros (_ & kv' & v' & K & L' & _).
           injection K as <-. congruence.
        -- intros kv' v' _ K L'. injection K as <-. congruence.
    + cbn [dispatch]. rewrite decode_error_not_timeout. cbv [Exn.is_Exception].
      eexists. split; [reflexivity|]. split.
      * split; [discriminate|]. intros (_ & kv & v & K & _). discriminate K.
      * intros kv v _ K. discriminate K.
  - apply Z.eqb_neq in E200. unfold lift.
    destruct (InstagramPostingTool.error_message r) as [m|e]; cbn [dispatch].
    + destruct (Json.contains "Invalid image URL" m) as [[|]|e];
        [| |cbn [dispatch]; cbv [Exn.is_Exception]; destruct (Exn.is_Timeout e)];
        (eexists; split; [reflexivity|]; split;
         [split; [discriminate|intros [S _]; contradiction]
         |intros kv v S; contradiction]).
    + cbv [Exn.is_Exception]; destruct (Exn.is_Timeout e);
        (eexists; split; [reflexivity|]; split;
         [split; [discriminate|intros [S _]; contradiction]
         |intros kv v S; contradiction]).
Qed.

Lemma extract_post_id_object (kv : list (string * json)) :
  AyrshareInstagramPublisher.extract_post_id (JObj kv) = Ret (ayrshare_identifier kv).
Proof.
  unfold AyrshareInstagramPublisher.extract_post_id, ayrshare_identifier,
    Json.contains, Json.getitem.
  destruct (Json.lookup "id" kv); [reflexivity|].
  destruct (Json.lookup "data" kv) as [d|]; [|reflexivity].
  destruct d; reflexivity.
Qed.

(** Ayrshare: the normalised result of the posting call. *)
Lemma ayrshare_outcome W post_text image_url schedule_date schedule_time t
    payload is_scheduled r :
  AyrshareInstagramPublisher.schedule_block W
    (AyrshareInstagramPublisher.base_payload post_text image_url)
    schedule_date schedule_time = inl (payload, is_scheduled) ->
  transport W t (mkRequest "POST" AyrshareInstagramPublisher.api_url (JObj payload))
  = Responded r ->
  exists d,
    AyrshareInstagramPublisher.run_result W post_text image_url schedule_date
      schedule_time t
    = (Ret d, (t ++ [mkRequest "POST" AyrshareInstagramPublisher.api_url (JObj payload)])%list)
    /\ (field "status" d = Some (JStr "success")
        <-> status_code r = 200
            /\ exists j id, json_value r = Some j
                            /\ AyrshareInstagramPublisher.extract_post_id j = Ret id)
    /\ (forall j id,
          status_code r = 200 -> json_value r = Some j ->
          AyrshareInstagramPublisher.extract_post_id j = Ret id ->
          field "post_id" d = Some id)
    /\ (field "status" d <> Some (JStr "success") -> field "status" d = Some (JStr "error")).
Proof.
  intros S A.
  pose proof (ayrshare_run_answered W post_text image_url schedule_date schedule_time t
                payload is_scheduled S r) as Ok.
  pose proof (ayrshare_run_normalize_raised W post_text image_url schedule_date
                schedule_time t payload is_scheduled S r) as Bad.
  unfold AyrshareInstagramPublisher.normalize, bind, lift, requests.json in Ok, Bad.
  destruct (status_code r =? 200) eqn:E200.
  - apply Z.eqb_eq in E200.
    destruct (json_value r) as [j|].
    + destruct (AyrshareInstagramPublisher.extract_post_id j) as [id|e] eqn:X.
      * eexists. split; [apply Ok; [exact A|reflexivity]|]. split; [|split].
        -- split; [intros _; split; [exact E200|exists j, id; auto]|reflexivity].
        -- intros j' id' _ J X'. injection J as <-. rewrite X in X'.
           injection X' as <-. reflexivity.
        -- intros N. exfalso. apply N. reflexivity.
      * destruct (Bad e A eq_refl) as (m & R). eexists. split; [exact R|]. split; [|split].
        -- split; [discriminate|]. intros (_ & j' & id & J & X').
           injection J as <-. congruence.
        -- intros j' id' _ J X'. injection J as <-. congruence.
        -- reflexivity.
    + destruct (Bad _ A eq_refl) as (m & R). eexists. split; [exact R|]. split; [|split].
      * split; [discriminate|]. intros (_ & j' & id & J & _). discriminate J.
      * intros j' id' _ J. discriminate J.
      * reflexivity.
  - apply Z.eqb_neq in E200.
    destruct (status_code r =? 401), (status_code r =? 400), (status_code r =? 429);
      (eexists; split; [apply Ok; [exact A|reflexivity]|]; split; [|split];
       [split; [discriminate|intros [F _]; contradiction]
       |intros j id F; contradiction
       |reflexivity]).
Qed.

(** Buffer: a created update is a success that carries its ["id"]. *)
Lemma buffer_normalize_created text media r t update :
  buffer_created r update ->
  exists d,
    BufferInstagramTool.normalize text media r t = (Ret d, t)
    /\ field "success" d = Some (JBool true)
    /\ field "buffer_id" d
       = Some (match Json.lookup "id" update with Some v => v | None => JNull end).
Proof.
  intros (St & kv & rest & J & U).
  unfold BufferInstagramTool.normalize, bind, lift, requests.json.
  rewrite St, J. change (200 =? 200) with true. cbv iota.
  unfold Json.contains, Json.getitem. rewrite U. cbv iota.
  cbn [Json.len Json.first Json.get List.length andb].
  replace (Z.of_nat (S (List.length rest)) >? 0) with true
    by (symmetry; apply Z.gtb_lt; lia).
  cbv iota.
  destruct (Json.lookup "posted_at" update) as [p|]; cbv iota.
  - destruct (Json.truthy p); cbn [andb]; eexists; split; reflexivity || (split; reflexivity).
  - cbn [andb]. eexists. split; [reflexivity|]. split; reflexivity.
Qed.

(** Buffer: nothing else is reported as a success. *)
Lemma buffer_normalize_success_only text media r t d :
  fst (BufferInstagramTool.normalize text media r t) = Ret d ->
  field "success" d = Some (JBool true) ->
  exists update, buffer_created r update.
Proof.
  unfold BufferInstagramTool.normalize, bind, lift, requests.json.
  destruct (status_code r =? 200) eqn:E200.
  - apply Z.eqb_eq in E200.
    destruct (json_value r) as [j|] eqn:J; [|discriminate].
    destruct j as [| | |s|l|kv]; try discriminate.
    + cbn [Json.contains]. destruct (Py.contains "updates" s); cbv iota.
      * cbn [Json.getitem]. discriminate.
      * cbn [andb fst]. intros E. injection E as <-. discriminate.
    + cbn [Json.contains]. destruct (existsb _ l); cbv iota.
      * cbn [Json.getitem]. discriminate.
      * cbn [andb fst]. intros E. injection E as <-. discriminate.
    + cbn [Json.contains Json.getitem].
      destruct (Json.lookup "updates" kv) as [ups|] eqn:U; cbv iota.
      * destruct ups as [| | |s|l|ukv]; try discriminate.
        -- cbn [Json.len]. destruct s as [|c s].
           ++ cbn. intros E. injection E as <-. discriminate.
           ++ rewrite len_cons.
              cbn [andb Json.first Json.get]. discriminate.
        -- cbn [Json.len]. destruct l as [|u rest].
           ++ cbn. intros E. injection E as <-. discriminate.
           ++ replace (Z.of_nat (List.length (u :: rest)) >? 0) with true
                by (symmetry; apply Z.gtb_lt; simpl List.length; lia).
              cbn [andb Json.first].
              destruct u as [| | | | |update]; try discriminate.
              intros _ _. exists update. split; [exact E200|].
              exists kv, rest. auto.
        -- cbn [Json.len]. destruct ukv as [|p rest].
           ++ cbn. intros E. injection E as <-. discriminate.
           ++ replace (Z.of_nat (List.length (p :: rest)) >? 0) with true
                by (symmetry; apply Z.gtb_lt; simpl List.length; lia).
              cbn [andb Json.first]. discriminate.
      * cbn [andb fst]. intros E. injection E as <-. discriminate.
  - destruct (status_code r =? 429).
    + cbn. intros E. injection E as <-. discriminate.
    + destruct (if requests.has_content r then _ else _) as [[ed|e] t'] eqn:C.
      * destruct (Json.get "error" (JStr "Unknown error") ed); [|discriminate].
        cbn. intros E. injection E as <-. discriminate.
      * discriminate.
Qed.

(** Late: what [_make_api_request] makes of a response. *)
Lemma late_request_outcome W data api_key t r :
  transport W t (mkRequest "POST" (LateInstagramTool.base_url ++ "/v1/posts") data)
  = Responded r ->
  exists d,
    LateInstagramTool._make_api_request W "POST" "/v1/posts" data api_key t
    = (Ret d, (t ++ [mkRequest "POST" (LateInstagramTool.base_url ++ "/v1/posts") data])%list)
    /\ (success_of d = true <-> status_code r < 400 /\ late_body r <> None)
    /\ (forall body, status_code r < 400 -> late_body r = Some body ->
        field "data" d = Some body)
    /\ (status_code r = 429 ->
        d = JObj [("success", JBool false);
                  ("error_message",
                   JStr "Rate limit exceeded. Too many requests made recently.");
                  ("status_code", JNum 429);
                  ("troubleshooting", JStr "Wait a few minutes before trying again, or upgrade your Late.io plan for higher limits")]).
Proof.
  intros H. unfold LateInstagramTool._make_api_request.
  change ((Py.upper "POST" =? "GET")%string) with false. cbv iota.
  answered (url_fault_late "/v1/posts") H.
  destruct (status_code r =? 401) eqn:E401.
  { apply Z.eqb_eq in E401. eexists. split; [reflexivity|]. split; [|split].
    - split; [discriminate|lia].
    - intros; lia.
    - lia. }
  destruct (status_code r =? 403) eqn:E403.
  { apply Z.eqb_eq in E403. eexists. split; [reflexivity|]. split; [|split].
    - split; [discriminate|lia].
    - intros; lia.
    - lia. }
  destruct (status_code r =? 429) eqn:E429.
  { apply Z.eqb_eq in E429. eexists. split; [reflexivity|]. split; [|split].
    - split; [discriminate|lia].
    - intros; lia.
    - intros _. rewrite E429. reflexivity. }
  apply Z.eqb_neq in E429.
  destruct (status_code r >=? 400) eqn:E400.
  { apply Z.geb_le in E400. eexists. split; [reflexivity|]. split; [|split].
    - split; [discriminate|lia].
    - intros; lia.
    - intros F. contradiction. }
  assert (L : status_code r < 400).
  { destruct (Z.geb_spec (status_code r) 400); [discriminate|lia]. }
  unfold late_body, lift, requests.json, requests.decode_error.
  destruct (Py.truthy (text r)).
  - destruct (json_value r); [|destruct (json_refusal r)];
      (eexists; split; [reflexivity|]; split; [|split];
       [split; [intros _; split; [exact L|discriminate]|reflexivity]
       |intros body _ B; injection B as <-; reflexivity
       |intros F; contradiction])
      || (eexists; split; [reflexivity|]; split; [|split];
          [split; [discriminate|intros [_ N]; contradiction]
          |intros body _ B; discriminate B
          |intros F; contradiction]).
  - eexists; split; [reflexivity|]; split; [|split];
      [split; [intros _; split; [exact L|discriminate]|reflexivity]
      |intros body _ B; injection B as <-; reflexivity
      |intros F; contradiction].
Qed.

(** Zapier, with a webhook configured: a 429 falls through to the
    last branch. *)
Lemma zapier_rate_limit_is_unexpected url W content preferred_posting_time timezone
    media_urls hashtags brand_name t r :
  requests.url_fault url = None ->
  (forall payload, transport W t (mkRequest "POST" url payload) = Responded r) ->
  status_code r = 429 ->
  fst (ZapierInstagramWebhookTool.run_at url W content preferred_posting_time timezone
         media_urls hashtags brand_name t)
  = Ret ("⚠️ WARNING: Unexpected response from Zapier webhook" ++ LF
         ++ "📅 Timestamp: "
         ++ isoformat W (Naive (clock_us W + local_utcoffset_us W)) ++ LF
         ++ "🌐 Status code: 429" ++ LF
         ++ "📄 Response: " ++ text r).
Proof.
  intros U H S. unfold ZapierInstagramWebhookTool.run_at.
  answered U H. rewrite S. reflexivity.
Qed.

(** Buffer: the result of a run that reaches the posting call. *)
Lemma buffer_outcome W access_token profile_id text media scheduled_at top t t2 r :
  buffer_reaches_posting W access_token profile_id text media scheduled_at t t2 ->
  transport W t2
    (BufferInstagramTool.posting_request access_token profile_id text media scheduled_at top)
  = Responded r ->
  exists d,
    BufferInstagramTool.run_result W profile_id text media scheduled_at top t
    = (Ret d,
       (t2 ++ [BufferInstagramTool.posting_request access_token profile_id text media
                 scheduled_at top])%list)
    /\ (field "success" d = Some (JBool true) <-> exists update, buffer_created r update)
    /\ (forall update, buffer_created r update ->
        field "buffer_id" d
        = Some (match Json.lookup "id" update with Some v => v | None => JNull end))
    /\ (status_code r = 429 ->
        field "error" d
        = Some (JStr "Rate limit exceeded. Buffer allows 10 requests per minute.")).
Proof.
  intros ((K & KT & PT & TT & pc & t1 & mc & V & VS & MC & MS) & P) A.
  set (rq := BufferInstagramTool.posting_request access_token profile_id text media
               scheduled_at top) in *.
  destruct (BufferInstagramTool.normalize text media r (t2 ++ [rq])%list)
    as [[d|e] t3] eqn:N.
  - exists d. split.
    + exact (buffer_run_answered W access_token profile_id text media scheduled_at top
               K KT PT TT t t1 pc V t2 mc VS MC MS r P A d t3 N).
    + split; [split|split].
      * intros S. apply (buffer_normalize_success_only text media r (t2 ++ [rq])%list d);
          [rewrite N; reflexivity|exact S].
      * intros (u & C).
        destruct (buffer_normalize_created text media r (t2 ++ [rq])%list u C)
          as (d' & N' & S' & _).
        rewrite N in N'. injection N' as -> _. exact S'.
      * intros u C.
        destruct (buffer_normalize_created text media r (t2 ++ [rq])%list u C)
          as (d' & N' & _ & I').
        rewrite N in N'. injection N' as -> _. exact I'.
      * intros S. unfold BufferInstagramTool.normalize in N. rewrite S in N.
        injection N as <- _. reflexivity.
  - destruct (buffer_run_normalize_raised W access_token profile_id text media scheduled_at
                top K KT PT TT t t1 pc V t2 mc VS MC MS r e P A) as (d & R & F).
    { subst rq. rewrite N. reflexivity. }
    exists d. split; [exact R|]. split; [split|split].
    + rewrite F. discriminate.
    + intros (u & C).
      destruct (buffer_normalize_created text media r (t2 ++ [rq])%list u C)
        as (d' & N' & _). rewrite N in N'. discriminate N'.
    + intros u C.
      destruct (buffer_normalize_created text media r (t2 ++ [rq])%list u C)
        as (d' & N' & _). rewrite N in N'. discriminate N'.
    + intros S. unfold BufferInstagramTool.normalize in N. rewrite S in N.
      discriminate N.
Qed.

(** Late: the result of a run that reaches the posting call. *)
Lemma late_outcome W account_id content media_urls schedule_time post_type
    hashtags mentions tv t r :
  late_reaches_posting W account_id content media_urls schedule_time post_type tv ->
  transport W t (late_posting_request W account_id content media_urls hashtags mentions tv)
  = Responded r ->
  exists d,
    LateInstagramTool.run_result W account_id content media_urls schedule_time
      post_type hashtags mentions t
    = (Ret d,
       (t ++ [late_posting_request W account_id content media_urls hashtags mentions tv])%list)
    /\ (field "success" d = Some (JBool true)
        <-> status_code r < 400 /\ exists kv, late_body r = Some (JObj kv))
    /\ (forall kv, status_code r < 400 -> late_body r = Some (JObj kv) ->
        field "api_response" d
        = Some (JObj [("late_post_id",
                       match Json.lookup "id" kv with
                       | Some v => v | None => JStr "unknown" end);
                      ("full_response", JObj kv)]))
    /\ (status_code r = 429 ->
        d = JObj [("success", JBool false);
                  ("error_message",
                   JStr "Rate limit exceeded. Too many requests made recently.");
                  ("status_code", JNum 429);
                  ("troubleshooting", JStr "Wait a few minutes before trying again, or upgrade your Late.io plan for higher limits")]).
Proof.
  intros ((E & A & I) & V & S) H.
  destruct (late_request_outcome W _ (Json.of_opt (getenv W "LATE_API_KEY")) t r H)
    as (res & R & Sx & D & RL).
  destruct (success_of res) eqn:SR.
  - assert (L : status_code r < 400) by (apply Sx; reflexivity).
    destruct (late_body r) as [body|] eqn:LB; [|exfalso; apply Sx; auto].
    destruct (late_run_request_succeeded W account_id content media_urls schedule_time
                post_type hashtags mentions t E A I tv V S res _ R body SR (D body L eq_refl))
      as [(kv & B & Run)|(NB & d & Run & F)].
    + eexists. split; [exact Run|]. split; [split|split].
      * intros _. split; [exact L|]. exists kv. rewrite B. reflexivity.
      * reflexivity.
      * intros kv' _ B'. injection B' as B'. rewrite B in B'. injection B' as <-.
        rewrite B. reflexivity.
      * intros X. lia.
    + exists d. split; [exact Run|]. split; [split|split].
      * rewrite F. discriminate.
      * intros (_ & kv & B). injection B as B. destruct (NB kv B).
      * intros kv _ B. injection B as B. destruct (NB kv B).
      * intros X. lia.
  - assert (L : ~ (status_code r < 400 /\ late_body r <> None)).
    { intros L. apply Sx in L. congruence. }
    exists res. split.
    + exact (late_run_request_failed W account_id content media_urls schedule_time
               post_type hashtags mentions t E A I tv V S res _ R SR).
    + split; [split|split].
      * intros F. destruct res as [| | | | |kv]; try discriminate F.
        cbn [field success_of] in F, SR. rewrite F in SR. discriminate SR.
      * intros (X & kv & B). exfalso. apply L. split; [exact X|]. rewrite B. discriminate.
      * intros kv X B. exfalso. apply L. split; [exact X|]. rewrite B. discriminate.
      * exact RL.
Qed.

(** Instagram Graph: the result of a run that reaches the publish
    call. *)
Lemma instagram_outcome W post_type caption access_token image_url schedule_time
    scheduled account container_id t t2 r :
  instagram_accepts W post_type image_url schedule_time scheduled ->
  instagram_reaches_publish W post_type caption access_token image_url account container_id
    t t2 ->
  (forall payload,
     transport W t2
       (mkRequest "POST"
          (InstagramPostingTool.graph ++ Json.str account ++ "/media_publish")
          payload) = Responded r) ->
  exists d t3,
    InstagramPostingTool.run_result W post_type caption access_token image_url
      schedule_time t = (Ret d, t3)
    /\ (field "success" d = Some (JBool true)
        <-> status_code r = 200 /\ exists kv, json_value r = Some (JObj kv))
    /\ (forall kv, status_code r = 200 -> json_value r = Some (JObj kv) ->
        field "media_id" d
        = Some (match Json.lookup "id" kv with Some v => v | None => JNull end))
    /\ (status_code r = 429 -> d = InstagramPostingTool.rate_limited).
Proof.
  intros (T & Im & Sc) (ui & t1 & cr & L & LS & Acc & C & CS & Cid) H.
  destruct (instagram_publish_outcome W account container_id access_token scheduled t2 r H)
    as (d & P & Iff & Id).
  destruct (InstagramPostingTool._publish_media W account container_id access_token
              scheduled t2) as [x t3] eqn:Pub.
  simpl in P. subst x.
  exists d, t3. split.
  - exact (instagram_run_published W post_type caption access_token image_url schedule_time
             t T Im scheduled Sc t1 ui L account t2 cr LS Acc C container_id t3 d CS Cid Pub).
  - split; [exact Iff|]. split; [exact Id|].
    intros S.
    pose proof (instagram_publish_rate_limited W account container_id access_token
                  scheduled t2 r H S) as RL.
    rewrite Pub in RL. simpl in RL. congruence.
Qed.

(** ** C1: a tool run returns *)

(** C1 (amended). For every world (every HTTP or transport outcome
    included) and every argument, [_run] of each of the five tools
    returns a string: no exception leaves [_run].  What reports
    malformed input is not always a returned error, though: the
    validators of Ayrshare's input schema reject an image URL outside
    http(s), a malformed time and a malformed date by raising
    [ValueError]. *)
Theorem run_returns_and_schema_raises :
  forall W : World,
    (forall post_text image_url schedule_date schedule_time,
       returns (AyrshareInstagramPublisher._run W post_text image_url
                  schedule_date schedule_time))
    /\ (forall profile_id text media scheduled_at top,
          returns (BufferInstagramTool._run W profile_id text media scheduled_at top))
    /\ (forall post_type caption access_token image_url schedule_time,
          returns (InstagramPostingTool._run W post_type caption access_token
                     image_url schedule_time))
    /\ (forall account_id content media_urls schedule_time post_type hashtags mentions,
          returns (LateInstagramTool._run W account_id content media_urls schedule_time
                     post_type hashtags mentions))
    /\ (forall content preferred_posting_time timezone media_urls hashtags brand_name,
          returns (ZapierInstagramWebhookTool._run W content preferred_posting_time
                     timezone media_urls hashtags brand_name))
    /\ (forall v,
          Py.truthy (Py.strip v) = true ->
          Py.startswith "http://" v || Py.startswith "https://" v = false ->
          AyrshareInstagramRequest.validate_image_url (Some v)
          = Raise (ValueError "image_url must be a valid HTTP/HTTPS URL"))
    /\ (forall v,
          AyrshareInstagramRequest.match_schedule_time v = false ->
          AyrshareInstagramRequest.validate_schedule_time (Some v)
          = Raise (ValueError "schedule_time must be in HH:MM format (24-hour)"))
    /\ (forall v,
          strptime W v "%Y-%m-%d" = None ->
          AyrshareInstagramRequest.validate_schedule_date W (Some v)
          = Raise (ValueError "schedule_date must be in YYYY-MM-DD format")).
Proof.
  intros W.
  split; [intros; apply ayrshare_returns|].
  split; [intros; apply buffer_returns|].
  split; [intros; apply instagram_returns|].
  split; [intros; apply late_returns|].
  split; [intros; apply zapier_returns|].
  split; [|split].
  - intros v T P. unfold AyrshareInstagramRequest.validate_image_url.
    rewrite T, P. reflexivity.
  - intros v Mt. unfold AyrshareInstagramRequest.validate_schedule_time.
    rewrite Mt. reflexivity.
  - intros v P. unfold AyrshareInstagramRequest.validate_schedule_date.
    rewrite P. reflexivity.
Qed.

Lemma run_returns_and_schema_raises_witness :
  AyrshareInstagramRequest.validate_image_url (Some "ftp://x.png")
  = Raise (ValueError "image_url must be a valid HTTP/HTTPS URL")
  /\ AyrshareInstagramRequest.validate_schedule_time (Some "25:00")
     = Raise (ValueError "schedule_time must be in HH:MM format (24-hour)")
  /\ AyrshareInstagramRequest.validate_schedule_date
       (Sample.world Sample.no_env (Sample.always Sample.ok_with_id)) (Some "2024-02-30")
     = Raise (ValueError "schedule_date must be in YYYY-MM-DD format")
  /\ exists s t,
       AyrshareInstagramPublisher._run
         (Sample.world Sample.no_env (Sample.always Sample.ok_with_id))
         "Hello world" (Some "ftp://x.png") None None [] = (Ret s, t).
Proof.
  destruct (run_returns_and_schema_raises
              (Sample.world Sample.no_env (Sample.always Sample.ok_with_id)))
    as (A & _ & _ & _ & _ & U & Tm & D).
  split; [apply U; reflexivity|].
  split; [apply Tm; reflexivity|].
  split; [apply D; reflexivity|].
  apply A.
Defined.

(** C1, as stated, fails for a malformed image URL given to the
    Ayrshare tool: the schema's validator raises instead of returning
    an error, and [_run] itself, handed the same URL, sends it to the
    provider and reports the provider's success. *)
Lemma malformed_image_url_is_raised_or_posted :
  AyrshareInstagramRequest.validate_image_url (Some "ftp://x.png")
  = Raise (ValueError "image_url must be a valid HTTP/HTTPS URL")
  /\ AyrshareInstagramPublisher.run_result
       (Sample.world Sample.no_env (Sample.always Sample.ok_with_id))
       "Hello world" (Some "ftp://x.png") None None []
     = (Ret (JObj [("status", JStr "success");
                   ("message", JStr "Post published successfully to Instagram @kskk.2031");
                   ("post_id", JStr "post-123");
                   ("scheduled", JBool false);
                   ("schedule_time", JNull)]),
        [mkRequest "POST" "https://app.ayrshare.com/api/post"
           (JObj [("post", JStr "Hello world");
                  ("platforms", JArr [JStr "instagram"]);
                  ("mediaUrls", JArr [JStr "ftp://x.png"])])]).
Proof. split; reflexivity. Qed.

(** ** C2: which responses count as a success *)

(** C2 (amended). In each JSON adapter the result of a run that
    reaches the posting call is a success exactly when the response
    is accepted, and an identifier in the body is passed on unchanged;
    but a body without the identifier is still a success in three of
    them.  Ayrshare: status 200 and a body that decodes and on which
    the identifier lookup does not fault, as on every JSON object,
    whose ["id"] (or ["data"]["id"], or [None]) becomes [post_id];
    anything else is an error.  Late: any status below 400 and a body
    that is empty, or decodes to an object, or is not JSON at all (it
    is then handed on as raw text); the object's ["id"], or
    ["unknown"], becomes the post identifier; a body that decodes to
    something else, or on which the decoder gives up, is a failure.
    Buffer: status 200 and a non-empty ["updates"] list of objects,
    the first one's ["id"] becoming [buffer_id].  Instagram Graph:
    the publish call succeeds on status 200 with any object, whose
    ["id"] (or [None]) becomes [media_id]; only its container step
    demands a non-empty ["id"]. *)
Theorem success_iff_response_accepted :
  (forall W post_text image_url schedule_date schedule_time t payload is_scheduled r,
     AyrshareInstagramPublisher.schedule_block W
       (AyrshareInstagramPublisher.base_payload post_text image_url)
       schedule_date schedule_time = inl (payload, is_scheduled) ->
     transport W t (mkRequest "POST" AyrshareInstagramPublisher.api_url (JObj payload))
     = Responded r ->
     exists d,
       AyrshareInstagramPublisher.run_result W post_text image_url schedule_date
         schedule_time t
       = (Ret d,
          (t ++ [mkRequest "POST" AyrshareInstagramPublisher.api_url (JObj payload)])%list)
       /\ (field "status" d = Some (JStr "success")
           <-> status_code r = 200
               /\ exists j id, json_value r = Some j
                               /\ AyrshareInstagramPublisher.extract_post_id j = Ret id)
       /\ (forall j id,
             status_code r = 200 -> json_value r = Some j ->
             AyrshareInstagramPublisher.extract_post_id j = Ret id ->
             field "post_id" d = Some id)
       /\ (field "status" d <> Some (JStr "success") ->
           field "status" d = Some (JStr "error")))
  /\ (forall kv,
        AyrshareInstagramPublisher.extract_post_id (JObj kv) = Ret (ayrshare_identifier kv))
  /\ (forall W account_id content media_urls schedule_time post_type hashtags mentions
             tv t r,
        late_reaches_posting W account_id content media_urls schedule_time post_type tv ->
        transport W t
          (late_posting_request W account_id content media_urls hashtags mentions tv)
        = Responded r ->
        exists d,
          LateInstagramTool.run_result W account_id content media_urls schedule_time
            post_type hashtags mentions t
          = (Ret d,
             (t ++ [late_posting_request W account_id content media_urls hashtags
                      mentions tv])%list)
          /\ (field "success" d = Some (JBool true)
              <-> status_code r < 400 /\ exists kv, late_body r = Some (JObj kv))
          /\ (forall kv, status_code r < 400 -> late_body r = Some (JObj kv) ->
              field "api_response" d
              = Some (JObj [("late_post_id",
                             match Json.lookup "id" kv with
                             | Some v => v | None => JStr "unknown" end);
                            ("full_response", JObj kv)])))
  /\ (forall W access_token profile_id text media scheduled_at top t t2 r,
        buffer_reaches_posting W access_token profile_id text media scheduled_at t t2 ->
        transport W t2
          (BufferInstagramTool.posting_request access_token profile_id text media
             scheduled_at top) = Responded r ->
        exists d,
          BufferInstagramTool.run_result W profile_id text media scheduled_at top t
          = (Ret d,
             (t2 ++ [BufferInstagramTool.posting_request access_token profile_id text
                       media scheduled_at top])%list)
          /\ (field "success" d = Some (JBool true)
              <-> exists update, buffer_created r update)
          /\ (forall update, buffer_created r update ->
              field "buffer_id" d
              = Some (match Json.lookup "id" update with
                      | Some v => v | None => JNull end)))
  /\ (forall W post_type caption access_token image_url schedule_time scheduled
             account container_id t t2 r,
        instagram_accepts W post_type image_url schedule_time scheduled ->
        instagram_reaches_publish W post_type caption access_token image_url account
          container_id t t2 ->
        (forall payload,
           transport W t2
             (mkRequest "POST"
                (InstagramPostingTool.graph ++ Json.str account ++ "/media_publish")
                payload) = Responded r) ->
        exists d t3,
          InstagramPostingTool.run_result W post_type caption access_token image_url
            schedule_time t = (Ret d, t3)
          /\ (field "success" d = Some (JBool true)
              <-> status_code r = 200 /\ exists kv, json_value r = Some (JObj kv))
          /\ (forall kv, status_code r = 200 -> json_value r = Some (JObj kv) ->
              field "media_id" d
              = Some (match Json.lookup "id" kv with Some v => v | None => JNull end)))
  /\ (forall W account caption image_url access_token t r,
        (forall payload,
           transport W t
             (mkRequest "POST"
                (InstagramPostingTool.graph ++ Json.str account ++ "/media") payload)
           = Responded r) ->
        exists d,
          fst (InstagramPostingTool._create_media_container W account "image" caption
                 image_url access_token t) = Ret d
          /\ (field "success" d = Some (JBool true)
              <-> status_code r = 200
                  /\ exists kv v, json_value r = Some (JObj kv)
                                  /\ Json.lookup "id" kv = Some v
                                  /\ Json.truthy v = true)).
Proof.
  split; [exact ayrshare_outcome|].
  split; [exact extract_post_id_object|].
  split.
  { intros W account_id content media_urls schedule_time post_type hashtags mentions
      tv t r P H.
    destruct (late_outcome W account_id content media_urls schedule_time post_type
                hashtags mentions tv t r P H) as (d & R & S & I & _).
    exists d. auto. }
  split.
  { intros W access_token profile_id text media scheduled_at top t t2 r P H.
    destruct (buffer_outcome W access_token profile_id text media scheduled_at top
                t t2 r P H) as (d & R & S & I & _).
    exists d. auto. }
  split.
  { intros W post_type caption access_token image_url schedule_time scheduled
      account container_id t t2 r A P H.
    destruct (instagram_outcome W post_type caption access_token image_url schedule_time
                scheduled account container_id t t2 r A P H) as (d & t3 & R & S & I & _).
    exists d, t3. auto. }
  intros W account caption image_url access_token t r H.
  destruct (instagram_container_outcome W account caption image_url access_token t r H)
    as (d & R & S & _).
  exists d. auto.
Qed.

Lemma success_iff_response_accepted_witness :
  (exists d,
     AyrshareInstagramPublisher.run_result
       (Sample.world Sample.no_env (Sample.always Sample.ok_with_id))
       "Hello world" None None None []
     = (Ret d,
        [mkRequest "POST" AyrshareInstagramPublisher.api_url
           (JObj (AyrshareInstagramPublisher.base_payload "Hello world" None))])
     /\ field "status" d = Some (JStr "success")
     /\ field "post_id" d = Some (JStr "post-123"))
  /\ (exists d t,
        LateInstagramTool.run_result
          (Sample.world Sample.configured_env (Sample.always Sample.ok_with_id))
          None "Hello world" None None "feed" None None [] = (Ret d, t)
        /\ field "success" d = Some (JBool true)
        /\ field "api_response" d
           = Some (JObj [("late_post_id", JStr "post-123");
                         ("full_response", JObj [("id", JStr "post-123")])]))
  /\ (exists d t,
        BufferInstagramTool.run_result
          (Sample.world Sample.configured_env Sample.buffer_net)
          "p1" "Hello world" None None false [] = (Ret d, t)
        /\ field "success" d = Some (JBool true)
        /\ field "buffer_id" d = Some (JStr "upd-1"))
  /\ (exists d t,
        InstagramPostingTool.run_result (Sample.world Sample.no_env Sample.graph_net)
          "image" "Hello world" "token" (Some "https://example.com/a.png") None []
        = (Ret d, t)
        /\ field "success" d = Some (JBool true)
        /\ field "media_id" d = Some (JStr "m-1"))
  /\ (exists d,
        fst (InstagramPostingTool._create_media_container
               (Sample.world Sample.no_env (Sample.always Sample.ok_empty))
               (JStr "1789") "image" "Hello world" (Some "https://example.com/a.png")
               "token" []) = Ret d
        /\ field "success" d <> Some (JBool true))
  /\ (exists d t,
        LateInstagramTool.run_result
          (Sample.world Sample.configured_env (Sample.always Sample.ok_too_long))
          None "Hello world" None None "feed" None None [] = (Ret d, t)
        /\ field "success" d <> Some (JBool true)).
Proof.
  destruct success_iff_response_accepted as (A & X & L & B & I & C).
  split; [|split; [|split; [|split; [|split]]]].
  - destruct (A (Sample.world Sample.no_env (Sample.always Sample.ok_with_id))
                "Hello world" None None None [] _ false Sample.ok_with_id
                eq_refl eq_refl) as (d & R & S & P & _).
    exists d. split; [exact R|]. split.
    + apply S. split; [reflexivity|].
      exists (JObj [("id", JStr "post-123")]), (JStr "post-123").
      split; [reflexivity|apply X].
    + apply (P (JObj [("id", JStr "post-123")])); [reflexivity|reflexivity|apply X].
  - destruct (L (Sample.world Sample.configured_env (Sample.always Sample.ok_with_id))
                None "Hello world" None None "feed" None None
                (JObj [("success", JBool true); ("is_scheduled", JBool false)])
                [] Sample.ok_with_id) as (d & R & S & Id).
    + repeat split; reflexivity.
    + reflexivity.
    + exists d. eexists. split; [exact R|]. split.
      * apply S. split; [reflexivity|]. eexists. reflexivity.
      * apply (Id [("id", JStr "post-123")]); reflexivity.
  - destruct (B (Sample.world Sample.configured_env Sample.buffer_net)
                "buffer-access-token" "p1" "Hello world" None None false []
                [mkRequest "GET" BufferInstagramTool.profiles_url
                   (JObj [("access_token", JStr "buffer-access-token")])]
                Sample.buffer_created_update) as (d & R & S & Id).
    + split; [|reflexivity].
      repeat (split; [reflexivity|]).
      eexists. eexists. eexists.
      split; [vm_compute; reflexivity|].
      split; [reflexivity|]. split; reflexivity.
    + reflexivity.
    + assert (Cr : buffer_created Sample.buffer_created_update
                     [("id", JStr "upd-1"); ("status", JStr "buffer")]).
      { split; [reflexivity|]. eexists. eexists. split; reflexivity. }
      exists d. eexists. split; [exact R|]. split.
      * apply S. eexists. exact Cr.
      * apply (Id _ Cr).
  - destruct (I (Sample.world Sample.no_env Sample.graph_net)
                "image" "Hello world" "token" (Some "https://example.com/a.png") None None
                (JStr "1789") (JStr "c-1") []
                [mkRequest "GET" "https://graph.facebook.com/v18.0/me"
                   (JObj [("fields", JStr "accounts{instagram_business_account}");
                          ("access_token", JStr "token")]);
                 mkRequest "POST" "https://graph.facebook.com/v18.0/1789/media"
                   (JObj [("access_token", JStr "token");
                          ("caption", JStr "Hello world");
                          ("image_url", JStr "https://example.com/a.png");
                          ("media_type", JStr "IMAGE")])]
                Sample.graph_media) as (d & t3 & R & S & Id).
    + repeat split; reflexivity.
    + eexists. eexists. eexists.
      split; [vm_compute; reflexivity|].
      split; [reflexivity|]. split; [reflexivity|].
      split; [vm_compute; reflexivity|].
      split; reflexivity.
    + intros payload. reflexivity.
    + exists d, t3. split; [exact R|]. split.
      * apply S. split; [reflexivity|]. eexists. reflexivity.
      * apply (Id [("id", JStr "m-1")]); reflexivity.
  - destruct (C (Sample.world Sample.no_env (Sample.always Sample.ok_empty))
                (JStr "1789") "Hello world" (Some "https://example.com/a.png") "token" []
                Sample.ok_empty) as (d & R & S).
    + intros payload. reflexivity.
    + exists d. split; [exact R|].
      intros F. apply S in F. destruct F as (_ & kv & v & J & Lk & _).
      injection J as <-. discriminate Lk.
  - destruct (L (Sample.world Sample.configured_env (Sample.always Sample.ok_too_long))
                None "Hello world" None None "feed" None None
                (JObj [("success", JBool true); ("is_scheduled", JBool false)])
                [] Sample.ok_too_long) as (d & R & S & _).
    + repeat split; reflexivity.
    + reflexivity.
    + exists d. eexists. split; [exact R|].
      intros F. apply S in F. destruct F as (_ & kv & K).
      vm_compute in K. discriminate K.
Defined.

(** C2, as stated, fails in the Ayrshare adapter: a 200 response
    whose body has no identifier is reported as a success, with
    [post_id] null. *)
Lemma ayrshare_success_without_identifier :
  AyrshareInstagramPublisher.run_result
    (Sample.world Sample.no_env (Sample.always Sample.ok_empty))
    "Hello world" None None None []
  = (Ret (JObj [("status", JStr "success");
                ("message", JStr "Post published successfully to Instagram @kskk.2031");
                ("post_id", JNull);
                ("scheduled", JBool false);
                ("schedule_time", JNull)]),
     [mkRequest "POST" "https://app.ayrshare.com/api/post"
        (JObj [("post", JStr "Hello world"); ("platforms", JArr [JStr "instagram"])])]).
Proof. reflexivity. Qed.

(** ** C3: the provider's rate limit *)

Lemma instagram_lookup_rate_limited W post_type caption access_token image_url
    schedule_time scheduled t r :
  instagram_accepts W post_type image_url schedule_time scheduled ->
  transport W t
    (mkRequest "GET" (InstagramPostingTool.graph ++ "me")
       (JObj [("fields", JStr "accounts{instagram_business_account}");
              ("access_token", JStr access_token)])) = Responded r ->
  status_code r = 429 ->
  fst (InstagramPostingTool.run_result W post_type caption access_token image_url
         schedule_time t) = Ret InstagramPostingTool.rate_limited.
Proof.
  intros (T & Im & Sc) H S.
  pose proof (instagram_info_rate_limited W access_token t r H S) as RL.
  destruct (InstagramPostingTool._get_instagram_account_info W access_token t)
    as [x t1] eqn:L.
  simpl in RL. subst x.
  rewrite (instagram_run_lookup_failed W post_type caption access_token image_url
             schedule_time t T Im scheduled Sc t1 _ L eq_refl).
  reflexivity.
Qed.

Lemma instagram_container_step_rate_limited W caption access_token image_url
    schedule_time scheduled t t1 user_info account r :
  instagram_accepts W "image" image_url schedule_time scheduled ->
  InstagramPostingTool._get_instagram_account_info W access_token t = (Ret user_info, t1) ->
  success_of user_info = true ->
  Json.getitem "account_id" user_info = Ret account ->
  (forall payload,
     transport W t1
       (mkRequest "POST" (InstagramPostingTool.graph ++ Json.str account ++ "/media")
          payload) = Responded r) ->
  status_code r = 429 ->
  fst (InstagramPostingTool.run_result W "image" caption access_token image_url
         schedule_time t) = Ret InstagramPostingTool.rate_limited.
Proof.
  intros (T & Im & Sc) L LS Acc H S.
  pose proof (instagram_container_rate_limited W account caption image_url access_token
                t1 r H S) as RL.
  destruct (InstagramPostingTool._create_media_container W account "image" caption
              image_url access_token t1) as [x t2] eqn:C.
  simpl in RL. subst x.
  rewrite (instagram_run_container_failed W "image" caption access_token image_url
             schedule_time t T Im scheduled Sc t1 user_info L account t2 _ LS Acc C eq_refl).
  reflexivity.
Qed.

(** C3 (amended). When the posting call of the Ayrshare, Buffer or
    Late adapter, or any of the three Graph API calls of the Instagram
    adapter, is answered with status 429, the result is an error with
    a rate-limit message; Buffer's alone names the provider and its
    cap.  The Zapier adapter has no branch for 429: from a configured
    webhook it is reported as an unexpected response. *)
Theorem rate_limit_is_an_error_named_by_buffer_only :
  (forall W post_text image_url schedule_date schedule_time t payload is_scheduled r,
     AyrshareInstagramPublisher.schedule_block W
       (AyrshareInstagramPublisher.base_payload post_text image_url)
       schedule_date schedule_time = inl (payload, is_scheduled) ->
     transport W t (mkRequest "POST" AyrshareInstagramPublisher.api_url (JObj payload))
     = Responded r ->
     status_code r = 429 ->
     fst (AyrshareInstagramPublisher.run_result W post_text image_url schedule_date
            schedule_time t)
     = Ret (JObj [("status", JStr "error");
                  ("message", JStr "Rate limit exceeded - please try again later");
                  ("post_id", JNull)]))
  /\ (forall W access_token profile_id text media scheduled_at top t t2 r,
        buffer_reaches_posting W access_token profile_id text media scheduled_at t t2 ->
        transport W t2
          (BufferInstagramTool.posting_request access_token profile_id text media
             scheduled_at top) = Responded r ->
        status_code r = 429 ->
        fst (BufferInstagramTool.run_result W profile_id text media scheduled_at top t)
        = Ret (JObj [("success", JBool false);
                     ("error",
                      JStr "Rate limit exceeded. Buffer allows 10 requests per minute.");
                     ("retry_after", JStr "Wait 60 seconds before trying again")]))
  /\ (forall W account_id content media_urls schedule_time post_type hashtags mentions
             tv t r,
        late_reaches_posting W account_id content media_urls schedule_time post_type tv ->
        transport W t
          (late_posting_request W account_id content media_urls hashtags mentions tv)
        = Responded r ->
        status_code r = 429 ->
        fst (LateInstagramTool.run_result W account_id content media_urls schedule_time
               post_type hashtags mentions t)
        = Ret (JObj [("success", JBool false);
                     ("error_message",
                      JStr "Rate limit exceeded. Too many requests made recently.");
                     ("status_code", JNum 429);
                     ("troubleshooting", JStr "Wait a few minutes before trying again, or upgrade your Late.io plan for higher limits")]))
  /\ (forall W post_type caption access_token image_url schedule_time scheduled t r,
        instagram_accepts W post_type image_url schedule_time scheduled ->
        transport W t
          (mkRequest "GET" (InstagramPostingTool.graph ++ "me")
             (JObj [("fields", JStr "accounts{instagram_business_account}");
                    ("access_token", JStr access_token)])) = Responded r ->
        status_code r = 429 ->
        fst (InstagramPostingTool.run_result W post_type caption access_token image_url
               schedule_time t) = Ret InstagramPostingTool.rate_limited)
  /\ (forall W caption access_token image_url schedule_time scheduled t t1
             user_info account r,
        instagram_accepts W "image" image_url schedule_time scheduled ->
        InstagramPostingTool._get_instagram_account_info W access_token t
        = (Ret user_info, t1) ->
        success_of user_info = true ->
        Json.getitem "account_id" user_info = Ret account ->
        (forall payload,
           transport W t1
             (mkRequest "POST" (InstagramPostingTool.graph ++ Json.str account ++ "/media")
                payload) = Responded r) ->
        status_code r = 429 ->
        fst (InstagramPostingTool.run_result W "image" caption access_token image_url
               schedule_time t) = Ret InstagramPostingTool.rate_limited)
  /\ (forall W post_type caption access_token image_url schedule_time scheduled
             account container_id t t2 r,
        instagram_accepts W post_type image_url schedule_time scheduled ->
        instagram_reaches_publish W post_type caption access_token image_url account
          container_id t t2 ->
        (forall payload,
           transport W t2
             (mkRequest "POST"
                (InstagramPostingTool.graph ++ Json.str account ++ "/media_publish")
                payload) = Responded r) ->
        status_code r = 429 ->
        fst (InstagramPostingTool.run_result W post_type caption access_token image_url
               schedule_time t) = Ret InstagramPostingTool.rate_limited)
  /\ (forall url W content preferred_posting_time timezone media_urls hashtags
             brand_name t r,
        requests.url_fault url = None ->
        (forall payload, transport W t (mkRequest "POST" url payload) = Responded r) ->
        status_code r = 429 ->
        fst (ZapierInstagramWebhookTool.run_at url W content preferred_posting_time
               timezone media_urls hashtags brand_name t)
        = Ret ("⚠️ WARNING: Unexpected response from Zapier webhook" ++ LF
               ++ "📅 Timestamp: "
               ++ isoformat W (Naive (clock_us W + local_utcoffset_us W)) ++ LF
               ++ "🌐 Status code: 429" ++ LF
               ++ "📄 Response: " ++ text r)).
Proof.
  split.
  { intros W post_text image_url schedule_date schedule_time t payload is_scheduled r
      Sc H S.
    rewrite (ayrshare_run_answered W post_text image_url schedule_date schedule_time t
               payload is_scheduled Sc r
               (AyrshareInstagramPublisher.error_result
                  "Rate limit exceeded - please try again later") H).
    - reflexivity.
    - unfold AyrshareInstagramPublisher.normalize. rewrite S. reflexivity. }
  split.
  { intros W access_token profile_id text media scheduled_at top t t2 r
      ((K & KT & PT & TT & pc & t1 & mc & V & VS & MC & MS) & P) H S.
    rewrite (buffer_run_answered W access_token profile_id text media scheduled_at top
               K KT PT TT t t1 pc V t2 mc VS MC MS r P H
               (JObj [("success", JBool false);
                      ("error",
                       JStr "Rate limit exceeded. Buffer allows 10 requests per minute.");
                      ("retry_after", JStr "Wait 60 seconds before trying again")])
               (t2 ++ [BufferInstagramTool.posting_request access_token profile_id text
                         media scheduled_at top])%list).
    - reflexivity.
    - unfold BufferInstagramTool.normalize. rewrite S. reflexivity. }
  split.
  { intros W account_id content media_urls schedule_time post_type hashtags mentions
      tv t r P H S.
    destruct (late_outcome W account_id content media_urls schedule_time post_type
                hashtags mentions tv t r P H) as (d & R & _ & _ & RL).
    rewrite R, <- (RL S). reflexivity. }
  split; [exact instagram_lookup_rate_limited|].
  split; [exact instagram_container_step_rate_limited|].
  split; [|exact zapier_rate_limit_is_unexpected].
  intros W post_type caption access_token image_url schedule_time scheduled
    account container_id t t2 r A P H S.
  destruct (instagram_outcome W post_type caption access_token image_url schedule_time
              scheduled account container_id t t2 r A P H) as (d & t3 & R & _ & _ & RL).
  rewrite R, <- (RL S). reflexivity.
Qed.

Lemma rate_limit_is_an_error_named_by_buffer_only_witness :
  fst (AyrshareInstagramPublisher.run_result
         (Sample.world Sample.no_env (Sample.always Sample.too_many_requests))
         "Hello world" None None None [])
  = Ret (JObj [("status", JStr "error");
               ("message", JStr "Rate limit exceeded - please try again later");
               ("post_id", JNull)])
  /\ fst (LateInstagramTool.run_result
            (Sample.world Sample.configured_env (Sample.always Sample.too_many_requests))
            None "Hello world" None None "feed" None None [])
     = Ret (JObj [("success", JBool false);
                  ("error_message",
                   JStr "Rate limit exceeded. Too many requests made recently.");
                  ("status_code", JNum 429);
                  ("troubleshooting", JStr "Wait a few minutes before trying again, or upgrade your Late.io plan for higher limits")])
  /\ fst (InstagramPostingTool.run_result
            (Sample.world Sample.no_env (Sample.always Sample.too_many_requests))
            "image" "Hello world" "token" (Some "https://example.com/a.png") None [])
     = Ret InstagramPostingTool.rate_limited
  /\ fst (InstagramPostingTool.run_result
            (Sample.world Sample.no_env Sample.graph_container_limited_net)
            "image" "Hello world" "token" (Some "https://example.com/a.png") None [])
     = Ret InstagramPostingTool.rate_limited
  /\ fst (InstagramPostingTool.run_result
            (Sample.world Sample.no_env Sample.graph_publish_limited_net)
            "image" "Hello world" "token" (Some "https://example.com/a.png") None [])
     = Ret InstagramPostingTool.rate_limited
  /\ fst (BufferInstagramTool.run_result
            (Sample.world Sample.configured_env Sample.buffer_limited_net)
            "p1" "Hello world" None None false [])
     = Ret (JObj [("success", JBool false);
                  ("error",
                   JStr "Rate limit exceeded. Buffer allows 10 requests per minute.");
                  ("retry_after", JStr "Wait 60 seconds before trying again")])
  /\ Py.startswith "⚠️ WARNING: Unexpected response"
       (match fst (ZapierInstagramWebhookTool.run_at "https://hooks.zapier.com/hooks/catch/1/"
                     (Sample.world Sample.no_env (Sample.always Sample.too_many_requests))
                     "Hello world" "1:10 PM" "EST" None None None []) with
        | Ret s => s
        | Raise _ => ""
        end) = true.
Proof.
  destruct rate_limit_is_an_error_named_by_buffer_only as (A & B & L & I & C & P & Z).
  split; [|split; [|split; [|split; [|split; [|split]]]]].
  - apply (A (Sample.world Sample.no_env (Sample.always Sample.too_many_requests))
             "Hello world" None None None []
             (AyrshareInstagramPublisher.base_payload "Hello world" None) false
             Sample.too_many_requests);
      reflexivity.
  - apply (L (Sample.world Sample.configured_env (Sample.always Sample.too_many_requests))
             None "Hello world" None None "feed" None None
             (JObj [("success", JBool true); ("is_scheduled", JBool false)])
             [] Sample.too_many_requests); [repeat split; reflexivity|reflexivity..].
  - apply (I (Sample.world Sample.no_env (Sample.always Sample.too_many_requests))
             "image" "Hello world" "token" (Some "https://example.com/a.png") None None
             [] Sample.too_many_requests); [repeat split; reflexivity|reflexivity..].
  - apply (C (Sample.world Sample.no_env Sample.graph_container_limited_net)
             "Hello world" "token" (Some "https://example.com/a.png") None None []
             [mkRequest "GET" "https://graph.facebook.com/v18.0/me"
                (JObj [("fields", JStr "accounts{instagram_business_account}");
                       ("access_token", JStr "token")])]
             (JObj [("success", JBool true); ("account_id", JStr "1789")])
             (JStr "1789") Sample.too_many_requests);
      try reflexivity.
    repeat split; reflexivity.
  - apply (P (Sample.world Sample.no_env Sample.graph_publish_limited_net)
             "image" "Hello world" "token" (Some "https://example.com/a.png") None None
             (JStr "1789") (JStr "c-1") []
             [mkRequest "GET" "https://graph.facebook.com/v18.0/me"
                (JObj [("fields", JStr "accounts{instagram_business_account}");
                       ("access_token", JStr "token")]);
              mkRequest "POST" "https://graph.facebook.com/v18.0/1789/media"
                (JObj [("access_token", JStr "token");
                       ("caption", JStr "Hello world");
                       ("image_url", JStr "https://example.com/a.png");
                       ("media_type", JStr "IMAGE")])]
             Sample.too_many_requests); try reflexivity.
    + repeat split; reflexivity.
    + eexists. eexists. eexists.
      split; [vm_compute; reflexivity|].
      split; [reflexivity|]. split; [reflexivity|].
      split; [vm_compute; reflexivity|].
      split; reflexivity.
  - apply (B (Sample.world Sample.configured_env Sample.buffer_limited_net)
             "buffer-access-token" "p1" "Hello world" None None false []
             [mkRequest "GET" BufferInstagramTool.profiles_url
                (JObj [("access_token", JStr "buffer-access-token")])]
             Sample.too_many_requests); [|reflexivity..].
    split; [|reflexivity].
    repeat (split; [reflexivity|]).
    eexists. eexists. eexists.
    split; [vm_compute; reflexivity|].
    split; [reflexivity|]. split; reflexivity.
  - rewrite (Z "https://hooks.zapier.com/hooks/catch/1/"
               (Sample.world Sample.no_env (Sample.always Sample.too_many_requests))
               "Hello world" "1:10 PM" "EST" None None None [] Sample.too_many_requests);
      [reflexivity|reflexivity|intros; reflexivity|reflexivity].
Defined.

(** C3, as stated, fails: Ayrshare's message for a 429 names neither
    the provider nor a request cap, and a 429 on Buffer's profile
    lookup is reported as a failed lookup, with no rate-limit
    message at all. *)
Lemma rate_limit_message_without_provider :
  AyrshareInstagramPublisher.run_result
    (Sample.world Sample.no_env (Sample.always Sample.too_many_requests))
    "Hello world" None None None []
  = (Ret (JObj [("status", JStr "error");
                ("message", JStr "Rate limit exceeded - please try again later");
                ("post_id", JNull)]),
     [mkRequest "POST" "https://app.ayrshare.com/api/post"
        (JObj [("post", JStr "Hello world"); ("platforms", JArr [JStr "instagram"])])])
  /\ Py.contains "ayrshare" (Py.lower "Rate limit exceeded - please try again later")
     = false
  /\ BufferInstagramTool.run_result
       (Sample.world Sample.configured_env (Sample.always Sample.too_many_requests_json))
       "p1" "Hello world" None None false []
     = (Ret (JObj [("success", JBool false);
                   ("error", JStr "Failed to fetch profiles: 429");
                   ("details", JObj [("error", JStr "Too many requests")])]),
        [mkRequest "GET" "https://api.bufferapp.com/1/profiles.json"
           (JObj [("access_token", JStr "buffer-access-token")])]).
Proof. split; [reflexivity|]. split; [reflexivity|]. vm_compute. reflexivity. Qed.

(** ** C4: a schedule in the past *)

Lemma gtb_false (a b : Z) : a <= b -> (a >? b) = false.
Proof. intros L. destruct (Z.gtb_spec a b); [lia|reflexivity]. Qed.

Lemma buffer_past_schedule_true W s :
  s <> 0 -> s <= BufferInstagramTool.current_time W ->
  BufferInstagramTool.past_schedule W (Some s) = true.
Proof.
  intros N L. unfold BufferInstagramTool.past_schedule, BufferInstagramTool.truthy_int.
  apply andb_true_iff. split.
  - apply negb_true_iff, Z.eqb_neq, N.
  - apply Z.leb_le, L.
Qed.

Lemma buffer_past_schedule_false W s :
  BufferInstagramTool.current_time W < s ->
  BufferInstagramTool.past_schedule W (Some s) = false.
Proof.
  intros L. unfold BufferInstagramTool.past_schedule.
  apply andb_false_iff. right. apply Z.leb_gt, L.
Qed.

Lemma instagram_schedule_block_parsed W schedule_time dt :
  Py.truthy_opt schedule_time = true ->
  fromisoformat W (InstagramPostingTool.iso_argument (str_opt schedule_time)) = Some dt ->
  InstagramPostingTool.schedule_block W schedule_time
  = if InstagramPostingTool.int_timestamp W dt * 1000000 <=? clock_us W then
      inr (JObj [("success", JBool false);
                 ("error", JStr "Scheduled time must be in the future");
                 ("error_code", JStr "INVALID_SCHEDULE_TIME")])
    else if InstagramPostingTool.int_timestamp W dt * 1000000
            >? clock_us W + InstagramPostingTool.max_advance * 1000000 then
      inr (JObj [("success", JBool false);
                 ("error", JStr "Cannot schedule posts more than 75 days in advance");
                 ("error_code", JStr "SCHEDULE_TOO_FAR")])
    else inl (Some (InstagramPostingTool.int_timestamp W dt)).
Proof.
  intros T P. unfold InstagramPostingTool.schedule_block. rewrite T, P. reflexivity.
Qed.

Lemma late_validate_parsed W schedule_time i off :
  Py.truthy_opt schedule_time = true ->
  fromisoformat W (LateInstagramTool.iso_argument (str_opt schedule_time))
  = Some (Aware i off) ->
  LateInstagramTool._validate_schedule_time W schedule_time
  = if i <=? clock_us W then
      Ret (JObj [("success", JBool false);
                 ("error_message",
                  JStr ("Schedule time must be in the future. Provided time: "
                        ++ str_opt schedule_time
                        ++ ", Current time: " ++ isoformat W (Aware (clock_us W) 0)));
                 ("troubleshooting", JStr "Use a future date/time for scheduling")])
    else if (i - clock_us W) / LateInstagramTool.day_us >? 365 then
      Ret (JObj [("success", JBool false);
                 ("error_message",
                  JStr "Schedule time is too far in the future (max 365 days)");
                 ("troubleshooting", JStr "Choose a date within the next year")])
    else
      Ret (JObj [("success", JBool true);
                 ("is_scheduled", JBool true);
                 ("formatted_time", JStr (isoformat W (Aware i off)))]).
Proof.
  intros T P. unfold LateInstagramTool._validate_schedule_time. rewrite T. cbn [negb].
  cbv zeta. rewrite P. reflexivity.
Qed.

(** C4 (amended). Three adapters compare the schedule with the clock
    before the posting call.  Buffer, after its profile and media
    checks, refuses a non-zero [scheduled_at] that is not after the
    current second, and sends the posting call for one that is.
    Instagram Graph refuses, before any request, a schedule whose
    whole-second timestamp is not after the clock, and accepts one
    that is after it by at most 75 days.  Late refuses, before any
    request, a timezone-aware instant that is not after the clock, and
    accepts one that is after it by at most 365 whole days.  Ayrshare
    does not look at the clock: every date and time pair the ISO
    parser accepts is sent as [scheduleDate]. *)
Theorem schedule_checked_against_clock_except_ayrshare :
  (forall W access_token profile_id text media top t t2 s,
     buffer_preflight W access_token profile_id text media t t2 ->
     s <> 0 ->
     s <= BufferInstagramTool.current_time W ->
     BufferInstagramTool.run_result W profile_id text media (Some s) top t
     = (Ret (JObj [("success", JBool false);
                   ("error",
                    JStr ("Scheduled time must be in the future. Current time: "
                          ++ Py.str_of_Z (BufferInstagramTool.current_time W)
                          ++ ", Provided: " ++ Py.str_of_Z s))]), t2))
  /\ (forall W access_token profile_id text media top t t2 s,
        buffer_preflight W access_token profile_id text media t t2 ->
        BufferInstagramTool.current_time W < s ->
        snd (BufferInstagramTool.run_result W profile_id text media (Some s) top t)
        = (t2 ++ [BufferInstagramTool.posting_request access_token profile_id text media
                    (Some s) top])%list)
  /\ (forall W post_type caption access_token image_url schedule_time t dt,
        ((post_type =? "text") || (post_type =? "image"))%string = true ->
        ((post_type =? "image")%string && negb (Py.truthy_opt image_url)) = false ->
        Py.truthy_opt schedule_time = true ->
        fromisoformat W (InstagramPostingTool.iso_argument (str_opt schedule_time))
        = Some dt ->
        InstagramPostingTool.int_timestamp W dt * 1000000 <= clock_us W ->
        InstagramPostingTool.run_result W post_type caption access_token image_url
          schedule_time t
        = (Ret (JObj [("success", JBool false);
                      ("error", JStr "Scheduled time must be in the future");
                      ("error_code", JStr "INVALID_SCHEDULE_TIME")]), t))
  /\ (forall W schedule_time dt,
        Py.truthy_opt schedule_time = true ->
        fromisoformat W (InstagramPostingTool.iso_argument (str_opt schedule_time))
        = Some dt ->
        clock_us W < InstagramPostingTool.int_timestamp W dt * 1000000 ->
        InstagramPostingTool.int_timestamp W dt * 1000000
        <= clock_us W + InstagramPostingTool.max_advance * 1000000 ->
        InstagramPostingTool.schedule_block W schedule_time
        = inl (Some (InstagramPostingTool.int_timestamp W dt)))
  /\ (forall W account_id content media_urls schedule_time post_type hashtags mentions
             t i off,
        late_inputs_pass W account_id content media_urls post_type ->
        Py.truthy_opt schedule_time = true ->
        fromisoformat W (LateInstagramTool.iso_argument (str_opt schedule_time))
        = Some (Aware i off) ->
        i <= clock_us W ->
        LateInstagramTool.run_result W account_id content media_urls schedule_time
          post_type hashtags mentions t
        = (Ret (JObj [("success", JBool false);
                      ("error_message",
                       JStr ("Schedule time must be in the future. Provided time: "
                             ++ str_opt schedule_time
                             ++ ", Current time: "
                             ++ isoformat W (Aware (clock_us W) 0)));
                      ("troubleshooting", JStr "Use a future date/time for scheduling")]),
           t))
  /\ (forall W schedule_time i off,
        Py.truthy_opt schedule_time = true ->
        fromisoformat W (LateInstagramTool.iso_argument (str_opt schedule_time))
        = Some (Aware i off) ->
        clock_us W < i ->
        (i - clock_us W) / LateInstagramTool.day_us <= 365 ->
        LateInstagramTool._validate_schedule_time W schedule_time
        = Ret (JObj [("success", JBool true);
                     ("is_scheduled", JBool true);
                     ("formatted_time", JStr (isoformat W (Aware i off)))]))
  /\ (forall W post_text image_url schedule_date schedule_time t dt,
        Py.truthy_opt schedule_date = true ->
        Py.truthy_opt schedule_time = true ->
        fromisoformat W
          (Py.replace_char "Z" "+00:00"
             (AyrshareInstagramPublisher.datetime_str schedule_date schedule_time))
        = Some dt ->
        snd (AyrshareInstagramPublisher.run_result W post_text image_url schedule_date
               schedule_time t)
        = (t ++ [mkRequest "POST" AyrshareInstagramPublisher.api_url
                   (JObj (Json.set "scheduleDate"
                            (JStr (AyrshareInstagramPublisher.datetime_str schedule_date
                                     schedule_time))
                            (AyrshareInstagramPublisher.base_payload post_text
                               image_url)))])%list).
Proof.
  split.
  { intros W access_token profile_id text media top t t2 s
      (K & KT & PT & TT & pc & t1 & mc & V & VS & MC & MS) N L.
    exact (buffer_run_past_schedule W access_token profile_id text media (Some s) top
             K KT PT TT t t1 pc V t2 mc VS MC MS (buffer_past_schedule_true W s N L)). }
  split.
  { intros W access_token profile_id text media top t t2 s
      (K & KT & PT & TT & pc & t1 & mc & V & VS & MC & MS) L.
    exact (buffer_run_posts W access_token profile_id text media (Some s) top
             K KT PT TT t t1 pc V t2 mc VS MC MS (buffer_past_schedule_false W s L)). }
  split.
  { intros W post_type caption access_token image_url schedule_time t dt T Im Tr P L.
    apply (instagram_run_schedule_refused W post_type caption access_token image_url
             schedule_time t T Im).
    rewrite (instagram_schedule_block_parsed W schedule_time dt Tr P).
    apply Z.leb_le in L. rewrite L. reflexivity. }
  split.
  { intros W schedule_time dt Tr P L1 L2.
    rewrite (instagram_schedule_block_parsed W schedule_time dt Tr P).
    apply Z.leb_gt in L1. rewrite L1.
    rewrite (gtb_false _ _ L2). reflexivity. }
  split.
  { intros W account_id content media_urls schedule_time post_type hashtags mentions
      t i off (E & A & I) Tr P L.
    apply (late_run_schedule_refused W account_id content media_urls schedule_time
             post_type hashtags mentions t E A I).
    - rewrite (late_validate_parsed W schedule_time i off Tr P).
      apply Z.leb_le in L. rewrite L. reflexivity.
    - reflexivity. }
  split.
  { intros W schedule_time i off Tr P L1 L2.
    rewrite (late_validate_parsed W schedule_time i off Tr P).
    apply Z.leb_gt in L1. rewrite L1.
    rewrite (gtb_false _ _ L2). reflexivity. }
  intros W post_text image_url schedule_date schedule_time t dt Td Tt P.
  apply (ayrshare_run_posts W post_text image_url schedule_date schedule_time t _ true).
  unfold AyrshareInstagramPublisher.schedule_block. rewrite Td, Tt.
  cbn [andb]. cbv zeta. rewrite P. reflexivity.
Qed.

Lemma schedule_checked_against_clock_except_ayrshare_witness :
  BufferInstagramTool.run_result (Sample.world Sample.configured_env Sample.buffer_net)
    "p1" "Hello world" None (Some 1000) false []
  = (Ret (JObj [("success", JBool false);
                ("error",
                 JStr "Scheduled time must be in the future. Current time: 1735689600, Provided: 1000")]),
     [mkRequest "GET" BufferInstagramTool.profiles_url
        (JObj [("access_token", JStr "buffer-access-token")])])
  /\ snd (BufferInstagramTool.run_result
            (Sample.world Sample.configured_env Sample.buffer_net)
            "p1" "Hello world" None (Some 1893456000) false [])
     = [mkRequest "GET" BufferInstagramTool.profiles_url
          (JObj [("access_token", JStr "buffer-access-token")]);
        BufferInstagramTool.posting_request "buffer-access-token" "p1" "Hello world" None
          (Some 1893456000) false]
  /\ InstagramPostingTool.run_result (Sample.world Sample.no_env Sample.graph_net)
       "image" "Hello world" "token" (Some "https://example.com/a.png")
       (Some "2024-06-01T10:00:00Z") []
     = (Ret (JObj [("success", JBool false);
                   ("error", JStr "Scheduled time must be in the future");
                   ("error_code", JStr "INVALID_SCHEDULE_TIME")]), [])
  /\ InstagramPostingTool.schedule_block (Sample.world Sample.no_env Sample.graph_net)
       (Some "2025-02-01T10:00:00Z")
     = inl (Some 1738404000)
  /\ LateInstagramTool.run_result
       (Sample.world Sample.configured_env (Sample.always Sample.ok_with_id))
       None "Hello world" None (Some "2024-06-01T10:00:00Z") "feed" None None []
     = (Ret (JObj [("success", JBool false);
                   ("error_message",
                    JStr "Schedule time must be in the future. Provided time: 2024-06-01T10:00:00Z, Current time: 2025-01-01T00:00:00+00:00");
                   ("troubleshooting", JStr "Use a future date/time for scheduling")]),
        [])
  /\ LateInstagramTool._validate_schedule_time
       (Sample.world Sample.configured_env (Sample.always Sample.ok_with_id))
       (Some "2025-06-01T10:00:00Z")
     = Ret (JObj [("success", JBool true);
                  ("is_scheduled", JBool true);
                  ("formatted_time", JStr "2025-06-01T10:00:00+00:00")])
  /\ snd (AyrshareInstagramPublisher.run_result
            (Sample.world Sample.no_env (Sample.always Sample.ok_with_id))
            "Hello world" None (Some "2020-01-01") (Some "10:00") [])
     = [mkRequest "POST" AyrshareInstagramPublisher.api_url
          (JObj [("post", JStr "Hello world");
                 ("platforms", JArr [JStr "instagram"]);
                 ("scheduleDate", JStr "2020-01-01T10:00:00Z")])].
Proof.
  destruct schedule_checked_against_clock_except_ayrshare
    as (B1 & B2 & I1 & I2 & L1 & L2 & A).
  assert (P : buffer_preflight (Sample.world Sample.configured_env Sample.buffer_net)
                "buffer-access-token" "p1" "Hello world" None []
                [mkRequest "GET" BufferInstagramTool.profiles_url
                   (JObj [("access_token", JStr "buffer-access-token")])]).
  { repeat (split; [reflexivity|]).
    eexists. eexists. eexists.
    split; [vm_compute; reflexivity|].
    split; [reflexivity|]. split; reflexivity. }
  split; [|split; [|split; [|split; [|split; [|split]]]]].
  - apply (B1 _ _ _ _ _ false _ _ 1000 P); [discriminate|].
    vm_compute. discriminate.
  - apply (B2 _ _ _ _ _ false _ _ 1893456000 P). reflexivity.
  - apply (I1 (Sample.world Sample.no_env Sample.graph_net) "image" "Hello world" "token"
             (Some "https://example.com/a.png") (Some "2024-06-01T10:00:00Z") []
             (Aware 1717236000000000 0)); try reflexivity.
    vm_compute. discriminate.
  - apply (I2 (Sample.world Sample.no_env Sample.graph_net) (Some "2025-02-01T10:00:00Z")
             (Aware 1738404000000000 0)); try reflexivity.
    vm_compute. discriminate.
  - apply (L1 (Sample.world Sample.configured_env (Sample.always Sample.ok_with_id))
             None "Hello world" None (Some "2024-06-01T10:00:00Z") "feed" None None []
             1717236000000000 0); try reflexivity.
    + repeat split; reflexivity.
    + vm_compute. discriminate.
  - apply (L2 (Sample.world Sample.configured_env (Sample.always Sample.ok_with_id))
             (Some "2025-06-01T10:00:00Z") 1748772000000000 0); try reflexivity.
    vm_compute. discriminate.
  - apply (A (Sample.world Sample.no_env (Sample.always Sample.ok_with_id))
             "Hello world" None (Some "2020-01-01") (Some "10:00") []
             (Aware 1577872800000000 0)); reflexivity.
Defined.

(** C4, as stated, fails in the Ayrshare adapter: with the clock at
    the start of 2025 a post scheduled for the first of January 2020
    is sent to the provider and reported as scheduled. *)
Lemma ayrshare_schedules_in_the_past :
  clock_us (Sample.world Sample.no_env (Sample.always Sample.ok_with_id))
  = 1735689600000000
  /\ Sample.fromisoformat "2020-01-01T10:00:00+00:00" = Some (Aware 1577872800000000 0)
  /\ AyrshareInstagramPublisher.run_result
       (Sample.world Sample.no_env (Sample.always Sample.ok_with_id))
       "Hello world" None (Some "2020-01-01") (Some "10:00") []
     = (Ret (JObj [("status", JStr "success");
                   ("message",
                    JStr "Post scheduled successfully for 2020-01-01 at 10:00 on Instagram @kskk.2031");
                   ("post_id", JStr "post-123");
                   ("scheduled", JBool true);
                   ("schedule_time", JStr "2020-01-01 10:00")]),
        [mkRequest "POST" "https://app.ayrshare.com/api/post"
           (JObj [("post", JStr "Hello world");
                  ("platforms", JArr [JStr "instagram"]);
                  ("scheduleDate", JStr "2020-01-01T10:00:00Z")])]).
Proof. split; [reflexivity|]. split; reflexivity. Qed.

(** Two inputs the amended claim does not speak of.  Buffer reads
    [scheduled_at = 0] as no schedule at all, and posts at once.  Late
    cannot compare a schedule without a UTC offset with the clock: the
    [TypeError] ends in the outermost handler, although the tool's own
    hint offers that format. *)
Lemma buffer_zero_schedule_is_no_schedule :
  forall W, BufferInstagramTool.past_schedule W (Some 0) = false.
Proof. intros W. reflexivity. Qed.

Lemma late_naive_schedule_is_unexpected_error :
  LateInstagramTool._validate_schedule_time
    (Sample.world Sample.configured_env (Sample.always Sample.ok_with_id))
    (Some "2025-06-01T10:30:00")
  = Raise (TypeError "can't compare offset-naive and offset-aware datetimes")
  /\ field "error_message"
       (match fst (LateInstagramTool.run_result
                     (Sample.world Sample.configured_env (Sample.always Sample.ok_with_id))
                     None "Hello world" None (Some "2025-06-01T10:30:00") "feed"
                     None None []) with
        | Ret d => d
        | Raise _ => JNull
        end)
     = Some (JStr "Unexpected error in tool execution: can't compare offset-naive and offset-aware datetimes").
Proof. split; vm_compute; reflexivity. Qed.

(** ** C5: nothing is sent for a request that cannot be made *)

Lemma buffer_missing_field W profile_id text media scheduled_at top t :
  Py.truthy profile_id = false \/ Py.truthy text = false ->
  exists d,
    BufferInstagramTool.run_result W profile_id text media scheduled_at top t = (Ret d, t)
    /\ field "success" d = Some (JBool false).
Proof.
  intros H. unfold BufferInstagramTool.run_result, try_except.
  destruct (negb (Py.truthy_opt (getenv W "BUFFER_API_KEY"))).
  - eexists. split; reflexivity.
  - assert (E : negb (Py.truthy profile_id) || negb (Py.truthy text) = true).
    { destruct H as [-> | ->]; [reflexivity|apply orb_true_r]. }
    rewrite E. eexists. split; reflexivity.
Qed.

Lemma late_env_failed_is_error W :
  success_of (LateInstagramTool._check_environment_variables W) = false ->
  field "success" (LateInstagramTool._check_environment_variables W) = Some (JBool false).
Proof.
  unfold LateInstagramTool._check_environment_variables.
  destruct (negb (Py.truthy_opt (getenv W "LATE_API_KEY"))); [reflexivity|].
  destruct (Py.len _ <? 10); [reflexivity|discriminate].
Qed.

Lemma late_blank_content_invalid post_type content media_urls :
  Py.truthy (Py.strip content) = false ->
  success_of (LateInstagramTool._validate_inputs post_type content media_urls) = false
  /\ field "success" (LateInstagramTool._validate_inputs post_type content media_urls)
     = Some (JBool false).
Proof.
  intros B. unfold LateInstagramTool._validate_inputs.
  destruct (negb _); [split; reflexivity|].
  rewrite B. rewrite orb_true_r. split; reflexivity.
Qed.

Lemma late_missing_content W account_id content media_urls schedule_time post_type
    hashtags mentions t :
  Py.truthy (Py.strip content) = false ->
  exists d,
    LateInstagramTool.run_result W account_id content media_urls schedule_time
      post_type hashtags mentions t = (Ret d, t)
    /\ field "success" d = Some (JBool false).
Proof.
  intros B.
  destruct (success_of (LateInstagramTool._check_environment_variables W)) eqn:E.
  - destruct (Json.truthy (LateInstagramTool.final_account_id account_id
                             (Json.of_opt (getenv W "LATE_ACCOUNT_ID")))) eqn:A.
    + destruct (late_blank_content_invalid post_type content media_urls B) as (F & S).
      eexists. split; [|exact S].
      exact (late_run_invalid_inputs W account_id content media_urls schedule_time
               post_type hashtags mentions t E A F).
    + exact (late_run_no_account W account_id content media_urls schedule_time
               post_type hashtags mentions t E A).
  - eexists. split; [|exact (late_env_failed_is_error W E)].
    exact (late_run_env_failed W account_id content media_urls schedule_time
             post_type hashtags mentions t E).
Qed.

Lemma late_missing_account W account_id content media_urls schedule_time post_type
    hashtags mentions t :
  Py.truthy_opt account_id = false ->
  Py.truthy_opt (getenv W "LATE_ACCOUNT_ID") = false ->
  exists d,
    LateInstagramTool.run_result W account_id content media_urls schedule_time
      post_type hashtags mentions t = (Ret d, t)
    /\ field "success" d = Some (JBool false).
Proof.
  intros A D.
  destruct (success_of (LateInstagramTool._check_environment_variables W)) eqn:E.
  - apply (late_run_no_account W account_id content media_urls schedule_time
             post_type hashtags mentions t E).
    unfold LateInstagramTool.final_account_id. rewrite A.
    destruct (getenv W "LATE_ACCOUNT_ID"); [exact D|reflexivity].
  - eexists. split; [|exact (late_env_failed_is_error W E)].
    exact (late_run_env_failed W account_id content media_urls schedule_time
             post_type hashtags mentions t E).
Qed.

Lemma instagram_missing_image W caption access_token image_url schedule_time t :
  Py.truthy_opt image_url = false ->
  InstagramPostingTool.run_result W "image" caption access_token image_url schedule_time t
  = (Ret (JObj [("success", JBool false);
                ("error", JStr "image_url is required for image posts");
                ("error_code", JStr "MISSING_IMAGE_URL")]), t).
Proof.
  intros F. unfold InstagramPostingTool.run_result, try_except. rewrite F. reflexivity.
Qed.

Lemma instagram_invalid_post_type W post_type caption access_token image_url
    schedule_time t :
  ((post_type =? "text") || (post_type =? "image"))%string = false ->
  InstagramPostingTool.run_result W post_type caption access_token image_url
    schedule_time t
  = (Ret (JObj [("success", JBool false);
                ("error", JStr "Invalid post_type. Must be 'text' or 'image'");
                ("error_code", JStr "INVALID_POST_TYPE")]), t).
Proof.
  intros F. unfold InstagramPostingTool.run_result, try_except. rewrite F. reflexivity.
Qed.

(** C5 (amended). Buffer (empty [profile_id] or [text]), Late (blank
    [content], or no account identifier from the argument or the
    environment) and Instagram Graph ([post_type] outside its two
    values, or an image post without [image_url]) return an error
    result and send nothing.  And in Buffer and Instagram Graph a
    failed profile or business-account lookup ends the run with the
    lookup's own result: the trace holds at most the lookup request,
    so the posting call is never attempted. *)
Theorem missing_input_or_failed_lookup_posts_nothing :
  (forall W profile_id text media scheduled_at top t,
     Py.truthy profile_id = false \/ Py.truthy text = false ->
     exists d,
       BufferInstagramTool.run_result W profile_id text media scheduled_at top t
       = (Ret d, t)
       /\ field "success" d = Some (JBool false))
  /\ (forall W account_id content media_urls schedule_time post_type hashtags mentions t,
        Py.truthy (Py.strip content) = false
        \/ (Py.truthy_opt account_id = false
            /\ Py.truthy_opt (getenv W "LATE_ACCOUNT_ID") = false) ->
        exists d,
          LateInstagramTool.run_result W account_id content media_urls schedule_time
            post_type hashtags mentions t = (Ret d, t)
          /\ field "success" d = Some (JBool false))
  /\ (forall W post_type caption access_token image_url schedule_time t,
        ((post_type =? "text") || (post_type =? "image"))%string = false
        \/ (post_type = "image" /\ Py.truthy_opt image_url = false) ->
        exists d,
          InstagramPostingTool.run_result W post_type caption access_token image_url
            schedule_time t = (Ret d, t)
          /\ field "success" d = Some (JBool false))
  /\ (forall W access_token profile_id text media scheduled_at top t,
        getenv W "BUFFER_API_KEY" = Some access_token ->
        Py.truthy access_token = true ->
        Py.truthy profile_id = true ->
        Py.truthy text = true ->
        success_of (match fst (BufferInstagramTool._verify_profile W access_token
                                 profile_id t) with
                    | Ret d => d
                    | Raise _ => JNull
                    end) = false ->
        BufferInstagramTool.run_result W profile_id text media scheduled_at top t
        = BufferInstagramTool._verify_profile W access_token profile_id t
        /\ (snd (BufferInstagramTool.run_result W profile_id text media scheduled_at top t)
            = t
            \/ snd (BufferInstagramTool.run_result W profile_id text media scheduled_at
                      top t)
               = (t ++ [mkRequest "GET" BufferInstagramTool.profiles_url
                          (JObj [("access_token", JStr access_token)])])%list))
  /\ (forall W post_type caption access_token image_url schedule_time scheduled t,
        instagram_accepts W post_type image_url schedule_time scheduled ->
        success_of (match fst (InstagramPostingTool._get_instagram_account_info W
                                 access_token t) with
                    | Ret d => d
                    | Raise _ => JNull
                    end) = false ->
        InstagramPostingTool.run_result W post_type caption access_token image_url
          schedule_time t
        = InstagramPostingTool._get_instagram_account_info W access_token t
        /\ (snd (InstagramPostingTool.run_result W post_type caption access_token
                   image_url schedule_time t) = t
            \/ snd (InstagramPostingTool.run_result W post_type caption access_token
                      image_url schedule_time t)
               = (t ++ [mkRequest "GET" (InstagramPostingTool.graph ++ "me")
                          (JObj [("fields", JStr "accounts{instagram_business_account}");
                                 ("access_token", JStr access_token)])])%list)).
Proof.
  split; [exact buffer_missing_field|].
  split.
  { intros W account_id content media_urls schedule_time post_type hashtags mentions t
      [B|[A D]].
    - apply late_missing_content, B.
    - apply late_missing_account; assumption. }
  split.
  { intros W post_type caption access_token image_url schedule_time t [F|[-> F]].
    - eexists. split; [apply instagram_invalid_post_type, F|reflexivity].
    - eexists. split; [apply instagram_missing_image, F|reflexivity]. }
  split.
  { intros W access_token profile_id text media scheduled_at top t K KT PT TT F.
    destruct (buffer_verify_returns W access_token profile_id t) as (pc & t1 & V).
    pose proof (buffer_verify_sends W access_token profile_id t) as Sd.
    rewrite V in F, Sd |- *. simpl in F, Sd.
    rewrite (buffer_run_lookup_failed W access_token profile_id text media scheduled_at
               top K KT PT TT t t1 pc V F).
    split; [reflexivity|exact Sd]. }
  intros W post_type caption access_token image_url schedule_time scheduled t
    (T & Im & Sc) F.
  destruct (instagram_info_returns W access_token t) as (ui & t1 & L).
  pose proof (instagram_info_sends W access_token t) as Sd.
  rewrite L in F, Sd |- *. simpl in F, Sd.
  rewrite (instagram_run_lookup_failed W post_type caption access_token image_url
             schedule_time t T Im scheduled Sc t1 ui L F).
  split; [reflexivity|exact Sd].
Qed.

Lemma missing_input_or_failed_lookup_posts_nothing_witness :
  (exists d,
     BufferInstagramTool.run_result (Sample.world Sample.configured_env Sample.buffer_net)
       "p1" "" None None false [] = (Ret d, [])
     /\ field "success" d = Some (JBool false))
  /\ (exists d,
        LateInstagramTool.run_result
          (Sample.world Sample.configured_env (Sample.always Sample.ok_with_id))
          None "   " None None "feed" None None [] = (Ret d, [])
        /\ field "success" d = Some (JBool false))
  /\ (exists d,
        InstagramPostingTool.run_result (Sample.world Sample.no_env Sample.graph_net)
          "image" "Hello world" "token" None None [] = (Ret d, [])
        /\ field "success" d = Some (JBool false))
  /\ BufferInstagramTool.run_result
       (Sample.world Sample.configured_env (Sample.always Sample.ok_empty))
       "p1" "Hello world" None None false []
     = BufferInstagramTool._verify_profile
         (Sample.world Sample.configured_env (Sample.always Sample.ok_empty))
         "buffer-access-token" "p1" []
  /\ InstagramPostingTool.run_result
       (Sample.world Sample.no_env (Sample.always Sample.ok_empty))
       "image" "Hello world" "token" (Some "https://example.com/a.png") None []
     = InstagramPostingTool._get_instagram_account_info
         (Sample.world Sample.no_env (Sample.always Sample.ok_empty)) "token" [].
Proof.
  destruct missing_input_or_failed_lookup_posts_nothing as (B0 & L0 & I0 & B1 & I1).
  split; [|split; [|split; [|split]]].
  - apply B0. right. reflexivity.
  - apply L0. left. reflexivity.
  - apply I0. right. split; reflexivity.
  - apply (B1 (Sample.world Sample.configured_env (Sample.always Sample.ok_empty))
             "buffer-access-token" "p1" "Hello world" None None false []);
      reflexivity.
  - apply (I1 (Sample.world Sample.no_env (Sample.always Sample.ok_empty))
             "image" "Hello world" "token" (Some "https://example.com/a.png") None None []).
    + repeat split; reflexivity.
    + reflexivity.
Defined.

(** C5, as stated, fails: the Ayrshare adapter sends a post whose
    required text is empty, and the Instagram Graph adapter, given an
    empty caption and an empty access token, calls the Graph API. *)
Lemma empty_required_field_is_sent :
  AyrshareInstagramPublisher.run_result
    (Sample.world Sample.no_env (Sample.always Sample.ok_with_id)) "" None None None []
  = (Ret (JObj [("status", JStr "success");
                ("message", JStr "Post published successfully to Instagram @kskk.2031");
                ("post_id", JStr "post-123");
                ("scheduled", JBool false);
                ("schedule_time", JNull)]),
     [mkRequest "POST" "https://app.ayrshare.com/api/post"
        (JObj [("post", JStr ""); ("platforms", JArr [JStr "instagram"])])])
  /\ snd (InstagramPostingTool.run_result (Sample.world Sample.no_env Sample.graph_net)
            "image" "" "" (Some "https://example.com/a.png") None [])
     = [mkRequest "GET" "https://graph.facebook.com/v18.0/me"
          (JObj [("fields", JStr "accounts{instagram_business_account}");
                 ("access_token", JStr "")]);
        mkRequest "POST" "https://graph.facebook.com/v18.0/1789/media"
          (JObj [("access_token", JStr ""); ("caption", JStr "");
                 ("image_url", JStr "https://example.com/a.png");
                 ("media_type", JStr "IMAGE")]);
        mkRequest "POST" "https://graph.facebook.com/v18.0/1789/media_publish"
          (JObj [("creation_id", JStr "c-1"); ("access_token", JStr "")])].
Proof. split; [reflexivity|]. vm_compute. reflexivity. Qed.

(** ** C6: a media URL outside http(s) *)

Lemma url_fault_is_request_exception url e :
  requests.url_fault url = Some e -> Exn.is_RequestException e = true.
Proof.
  unfold requests.url_fault.
  destruct (requests.has_http_prefix url); [discriminate|].
  destruct (Py.contains ":" (Py.lstrip url)).
  - destruct (negb _); intros E; injection E as <-; reflexivity.
  - intros E. injection E as <-. reflexivity.
Qed.

Lemma buffer_media_url_fault W media t e :
  requests.url_fault media = Some e ->
  BufferInstagramTool._validate_media_url W media t
  = (Ret (JObj [("success", JBool false);
                ("error", JStr ("Cannot access media URL: " ++ Exn.str e));
                ("url", JStr media)]), t).
Proof.
  intros U. unfold BufferInstagramTool._validate_media_url, try_except, bind,
    requests.head, requests.request.
  rewrite U. cbn [dispatch]. rewrite (url_fault_is_request_exception media e U).
  reflexivity.
Qed.

Lemma late_validate_inputs_ignores_urls post_type content (urls urls' : list string) :
  List.length urls = List.length urls' ->
  LateInstagramTool._validate_inputs post_type content (Some urls)
  = LateInstagramTool._validate_inputs post_type content (Some urls').
Proof.
  intros L. unfold LateInstagramTool._validate_inputs, LateInstagramTool.count.
  rewrite L.
  replace (LateInstagramTool.truthy_list (Some urls))
    with (LateInstagramTool.truthy_list (Some urls')); [reflexivity|].
  destruct urls, urls'; try discriminate L; reflexivity.
Qed.

(** C6 (amended). Of the adapters that take media URLs, only the
    input schema of Ayrshare checks the scheme: its validator refuses
    every non-blank [image_url] that starts with neither [http://] nor
    [https://], by raising [ValueError] with the text "image_url must
    be a valid HTTP/HTTPS URL".  Buffer refuses a URL that [requests]
    cannot send, after the profile lookup and before the posting
    call, with "Cannot access media URL" and the transport's reason.
    Late's [_validate_inputs] does not read the URLs: its verdict is
    the same for any two lists of equal length. *)
Theorem url_scheme_checked_by_ayrshare_schema_only :
  (forall v,
     Py.truthy (Py.strip v) = true ->
     Py.startswith "http://" v || Py.startswith "https://" v = false ->
     AyrshareInstagramRequest.validate_image_url (Some v)
     = Raise (ValueError "image_url must be a valid HTTP/HTTPS URL"))
  /\ (forall W access_token profile_id text media scheduled_at top t t1 profile_check e,
        getenv W "BUFFER_API_KEY" = Some access_token ->
        Py.truthy access_token = true ->
        Py.truthy profile_id = true ->
        Py.truthy text = true ->
        BufferInstagramTool._verify_profile W access_token profile_id t
        = (Ret profile_check, t1) ->
        success_of profile_check = true ->
        Py.truthy media = true ->
        requests.url_fault media = Some e ->
        BufferInstagramTool.run_result W profile_id text (Some media) scheduled_at top t
        = (Ret (JObj [("success", JBool false);
                      ("error", JStr ("Cannot access media URL: " ++ Exn.str e));
                      ("url", JStr media)]), t1))
  /\ (forall post_type content urls urls',
        List.length urls = List.length urls' ->
        LateInstagramTool._validate_inputs post_type content (Some urls)
        = LateInstagramTool._validate_inputs post_type content (Some urls')).
Proof.
  split; [|split].
  - intros v T P. unfold AyrshareInstagramRequest.validate_image_url.
    rewrite T, P. reflexivity.
  - intros W access_token profile_id text media scheduled_at top t t1 pc e
      K KT PT TT V VS M U.
    apply (buffer_run_media_refused W access_token profile_id text (Some media)
             scheduled_at top K KT PT TT t t1 pc V t1 _ VS); [|reflexivity].
    unfold BufferInstagramTool.media_check. cbn [Py.truthy_opt str_opt]. rewrite M.
    apply buffer_media_url_fault, U.
  - exact late_validate_inputs_ignores_urls.
Qed.

Lemma url_scheme_checked_by_ayrshare_schema_only_witness :
  AyrshareInstagramRequest.validate_image_url (Some "ftp://x.png")
  = Raise (ValueError "image_url must be a valid HTTP/HTTPS URL")
  /\ BufferInstagramTool.run_result (Sample.world Sample.configured_env Sample.buffer_net)
       "p1" "Hello world" (Some "ftp://x.png") None false []
     = (Ret (JObj [("success", JBool false);
                   ("error",
                    JStr "Cannot access media URL: No connection adapters were found for 'ftp://x.png'");
                   ("url", JStr "ftp://x.png")]),
        [mkRequest "GET" BufferInstagramTool.profiles_url
           (JObj [("access_token", JStr "buffer-access-token")])])
  /\ LateInstagramTool._validate_inputs "feed" "Hello world" (Some ["ftp://x.png"])
     = LateInstagramTool._validate_inputs "feed" "Hello world"
         (Some ["https://example.com/a.png"]).
Proof.
  destruct url_scheme_checked_by_ayrshare_schema_only as (A & B & L).
  split; [apply A; reflexivity|]. split.
  - apply (B (Sample.world Sample.configured_env Sample.buffer_net)
             "buffer-access-token" "p1" "Hello world" "ftp://x.png" None false [] _
             (JObj [("success", JBool true);
                    ("profile_name", JStr "@shop");
                    ("service", JStr "instagram")])
             (InvalidSchema "No connection adapters were found for 'ftp://x.png'"));
      try reflexivity.
  - apply L. reflexivity.
Defined.

(** C6, as stated, fails in the Late adapter: [ftp://x.png] passes
    [_validate_inputs] and goes out in the posting call. *)
Lemma late_posts_media_url_of_any_scheme :
  LateInstagramTool._validate_inputs "feed" "Hello world" (Some ["ftp://x.png"])
  = JObj [("success", JBool true)]
  /\ snd (LateInstagramTool.run_result
            (Sample.world Sample.configured_env (Sample.always Sample.ok_with_id))
            None "Hello world" (Some ["ftp://x.png"]) None "feed" None None [])
     = [mkRequest "POST" "https://api.getlate.io/v1/posts"
          (JObj [("text", JStr "Hello world");
                 ("platforms",
                  JObj [("instagram", JObj [("account_id", JStr "late-account-1")])]);
                 ("media", JArr [JObj [("url", JStr "ftp://x.png")]])])]
  /\ field "success"
       (match fst (LateInstagramTool.run_result
                     (Sample.world Sample.configured_env (Sample.always Sample.ok_with_id))
                     None "Hello world" (Some ["ftp://x.png"]) None "feed" None None [])
        with
        | Ret d => d
        | Raise _ => JNull
        end) = Some (JBool true).
Proof. split; [reflexivity|]. split; vm_compute; reflexivity. Qed.

(** ** C7: caption, mentions and hashtags as one text *)

Lemma add_mentions_fold (text : string) (mentions : list string) :
  LateInstagramTool.add_mentions text mentions
  = fold_left
      (fun text user =>
         if Spec.absent text ("@" ++ user) then text ++ " " ++ "@" ++ user else text)
      mentions text.
Proof.
  revert text. induction mentions as [|m rest IH]; intros text; simpl.
  - reflexivity.
  - rewrite IH. reflexivity.
Qed.

Lemma hashtag_list_filter (text : string) (hashtags : list string) :
  LateInstagramTool.hashtag_list text hashtags
  = filter (Spec.absent text) (map (fun tag => "#" ++ tag) hashtags).
Proof.
  induction hashtags as [|tag rest IH]; simpl.
  - reflexivity.
  - unfold Spec.absent at 1. simpl.
    destruct (negb (Py.contains (String "#" tag) text)); rewrite IH; reflexivity.
Qed.

Lemma add_mentions_keeps (x text : string) (mentions : list string) :
  Py.contains x text = true ->
  Py.contains x (LateInstagramTool.add_mentions text mentions) = true.
Proof.
  revert text. induction mentions as [|m rest IH]; intros text H; simpl.
  - exact H.
  - apply IH. destruct (negb _); [apply contains_app_l|]; exact H.
Qed.

Lemma add_mentions_present (user text : string) (mentions : list string) :
  In user mentions ->
  Py.contains ("@" ++ user) (LateInstagramTool.add_mentions text mentions) = true.
Proof.
  revert text. induction mentions as [|m rest IH]; intros text H; [destruct H|].
  destruct H as [->|H]; [|apply IH, H].
  simpl. apply add_mentions_keeps.
  destruct (Py.contains (String "@" user) text) eqn:E; simpl.
  - exact E.
  - apply contains_app_r.
    change (Py.contains (String "@" user) (" " ++ String "@" user) = true).
    apply contains_app_r, contains_refl.
Qed.

Lemma add_mentions_nothing (text : string) (mentions : list string) :
  (forall user, In user mentions -> Py.contains ("@" ++ user) text = true) ->
  LateInstagramTool.add_mentions text mentions = text.
Proof.
  induction mentions as [|m rest IH]; intros H; simpl.
  - reflexivity.
  - change (String "@" m) with ("@" ++ m). rewrite (H m (or_introl eq_refl)). simpl.
    apply IH. intros user I. apply H. right. exact I.
Qed.

Lemma hashtag_list_nothing (text : string) (hashtags : list string) :
  (forall tag, In tag hashtags -> Py.contains ("#" ++ tag) text = true) ->
  LateInstagramTool.hashtag_list text hashtags = [].
Proof.
  induction hashtags as [|tag rest IH]; intros H; simpl.
  - reflexivity.
  - change (String "#" tag) with ("#" ++ tag). rewrite (H tag (or_introl eq_refl)). simpl.
    apply IH. intros t I. apply H. right. exact I.
Qed.

Lemma hashtag_list_complete (text tag : string) (hashtags : list string) :
  In tag hashtags ->
  Py.contains ("#" ++ tag) text = false ->
  In ("#" ++ tag) (LateInstagramTool.hashtag_list text hashtags).
Proof.
  induction hashtags as [|h rest IH]; intros I E; [destruct I|].
  simpl. destruct I as [->|I].
  - change (String "#" tag) with ("#" ++ tag). rewrite E. simpl. left. reflexivity.
  - destruct (negb _); [right|]; apply IH; assumption.
Qed.

Lemma format_content_refines (content : string) (hashtags mentions : option (list string)) :
  LateInstagramTool._format_content content hashtags mentions
  = Spec.format_content content hashtags mentions.
Proof.
  unfold LateInstagramTool._format_content, Spec.format_content.
  assert (M : match mentions with
              | Some l => LateInstagramTool.add_mentions (Py.strip content) l
              | None => Py.strip content
              end
              = fold_left
                  (fun text user =>
                     if Spec.absent text ("@" ++ user)
                     then text ++ " " ++ "@" ++ user else text)
                  (Spec.items mentions) (Py.strip content)).
  { destruct mentions; [apply add_mentions_fold|reflexivity]. }
  rewrite M. destruct hashtags as [l|]; simpl.
  - rewrite hashtag_list_filter. reflexivity.
  - reflexivity.
Qed.

Lemma format_content_has_mention (content : string) (hashtags mentions : option (list string))
    (user : string) :
  In user (Spec.items mentions) ->
  Py.contains ("@" ++ user)
    (LateInstagramTool._format_content content hashtags mentions) = true.
Proof.
  intros I. unfold LateInstagramTool._format_content.
  destruct mentions as [ms|]; [|destruct I]. simpl in I.
  pose proof (add_mentions_present user (Py.strip content) ms I) as P.
  destruct hashtags as [hs|]; [|exact P].
  destruct (LateInstagramTool.hashtag_list _ hs); [exact P|].
  apply contains_app_l, P.
Qed.

Lemma format_content_has_hashtag (content : string) (hashtags mentions : option (list string))
    (tag : string) :
  In tag (Spec.items hashtags) ->
  Py.contains ("#" ++ tag)
    (LateInstagramTool._format_content content hashtags mentions) = true.
Proof.
  intros I. unfold LateInstagramTool._format_content.
  destruct hashtags as [hs|]; [|destruct I]. simpl in I.
  set (text := match mentions with
               | Some l => LateInstagramTool.add_mentions (Py.strip content) l
               | None => Py.strip content
               end).
  destruct (Py.contains ("#" ++ tag) text) eqn:E.
  - destruct (LateInstagramTool.hashtag_list text hs); [exact E|].
    apply contains_app_l, E.
  - pose proof (hashtag_list_complete text tag hs I E) as C.
    destruct (LateInstagramTool.hashtag_list text hs) as [|h hl] eqn:L; [destruct C|].
    apply contains_app_r, contains_app_r, contains_app_r, contains_join, C.
Qed.

Lemma format_content_nothing_to_add (content : string) (hashtags mentions : option (list string)) :
  (forall user, In user (Spec.items mentions) ->
                Py.contains ("@" ++ user) (Py.strip content) = true) ->
  (forall tag, In tag (Spec.items hashtags) ->
               Py.contains ("#" ++ tag) (Py.strip content) = true) ->
  LateInstagramTool._format_content content hashtags mentions = Py.strip content.
Proof.
  intros Hm Hh. unfold LateInstagramTool._format_content.
  assert (M : match mentions with
              | Some l => LateInstagramTool.add_mentions (Py.strip content) l
              | None => Py.strip content
              end = Py.strip content).
  { destruct mentions; [apply add_mentions_nothing, Hm|reflexivity]. }
  rewrite M. destruct hashtags as [hs|]; [|reflexivity].
  rewrite (hashtag_list_nothing _ hs Hh). reflexivity.
Qed.

(** C7 (amended). Late's [_format_content] is the builder the
    specification describes: the stripped caption, then [ @user] for
    each mention whose token is not yet in the text, then, as a new
    paragraph, the [#tag] tokens that are not in that text.
    Afterwards every mention and hashtag token is in the text, and a
    caption that had them all comes back stripped and otherwise
    unchanged.  The Zapier builder knows no mentions and appends every
    hashtag (with one leading [#]) after a space on the same line,
    present in the caption or not. *)
Theorem late_appends_missing_tokens_zapier_appends_all :
  (forall content hashtags mentions,
     LateInstagramTool._format_content content hashtags mentions
     = Spec.format_content content hashtags mentions)
  /\ (forall content hashtags mentions user,
        In user (Spec.items mentions) ->
        Py.contains ("@" ++ user)
          (LateInstagramTool._format_content content hashtags mentions) = true)
  /\ (forall content hashtags mentions tag,
        In tag (Spec.items hashtags) ->
        Py.contains ("#" ++ tag)
          (LateInstagramTool._format_content content hashtags mentions) = true)
  /\ (forall content hashtags mentions,
        (forall user, In user (Spec.items mentions) ->
                      Py.contains ("@" ++ user) (Py.strip content) = true) ->
        (forall tag, In tag (Spec.items hashtags) ->
                     Py.contains ("#" ++ tag) (Py.strip content) = true) ->
        LateInstagramTool._format_content content hashtags mentions = Py.strip content)
  /\ (forall content tag rest,
        ZapierInstagramWebhookTool.full_content content (Some (tag :: rest))
        = content ++ " "
          ++ Py.join " " (map ZapierInstagramWebhookTool.format_hashtag (tag :: rest))).
Proof.
  split; [exact format_content_refines|].
  split; [exact format_content_has_mention|].
  split; [exact format_content_has_hashtag|].
  split; [exact format_content_nothing_to_add|].
  intros. reflexivity.
Qed.

Lemma late_appends_missing_tokens_zapier_appends_all_witness :
  LateInstagramTool._format_content "  Launch day #sale @shop " (Some ["sale"; "new"])
    (Some ["shop"; "friend"])
  = "Launch day #sale @shop @friend" ++ LF ++ LF ++ "#new"
  /\ Py.contains "@friend"
       (LateInstagramTool._format_content "  Launch day #sale @shop " (Some ["sale"; "new"])
          (Some ["shop"; "friend"])) = true
  /\ Py.contains "#new"
       (LateInstagramTool._format_content "  Launch day #sale @shop " (Some ["sale"; "new"])
          (Some ["shop"; "friend"])) = true
  /\ LateInstagramTool._format_content " Launch day #sale @shop " (Some ["sale"])
       (Some ["shop"])
     = "Launch day #sale @shop".
Proof.
  destruct late_appends_missing_tokens_zapier_appends_all as (R & Hm & Hh & Hn & _).
  split; [rewrite R; reflexivity|].
  split; [apply Hm; simpl; auto|].
  split; [apply Hh; simpl; auto|].
  apply (Hn " Launch day #sale @shop " (Some ["sale"]) (Some ["shop"])).
  - intros user [<-|[]]. reflexivity.
  - intros tag [<-|[]]. reflexivity.
Defined.

(** C7, as stated, fails in the Zapier adapter, which has no native
    hashtag field either: a hashtag already in the caption is appended
    again, and on the same line. *)
Lemma zapier_appends_present_hashtag :
  ZapierInstagramWebhookTool.full_content "Launch day #sale" (Some ["sale"])
  = "Launch day #sale #sale".
Proof. reflexivity. Qed.

(** ** C8: formatting a hashtag twice *)

Lemma format_hashtag_idem (tag : string) :
  ZapierInstagramWebhookTool.format_hashtag (ZapierInstagramWebhookTool.format_hashtag tag)
  = ZapierInstagramWebhookTool.format_hashtag tag.
Proof.
  unfold ZapierInstagramWebhookTool.format_hashtag. simpl.
  rewrite lstrip_char_idem. reflexivity.
Qed.

Lemma format_hashtags_map (l : list string) :
  ZapierInstagramWebhookTool.format_hashtags (Some l)
  = map ZapierInstagramWebhookTool.format_hashtag l.
Proof. destruct l; reflexivity. Qed.

Lemma hashtag_list_tokens (text : string) (hashtags : list string) (h : string) :
  In h (LateInstagramTool.hashtag_list text hashtags) ->
  exists tag, In tag hashtags /\ h = "#" ++ tag.
Proof.
  induction hashtags as [|tag rest IH]; simpl; [intros []|].
  destruct (negb (Py.contains (String "#" tag) text)).
  - intros [<-|H].
    + exists tag. auto.
    + destruct (IH H) as (t & I & E). exists t. auto.
  - intros H. destruct (IH H) as (t & I & E). exists t. auto.
Qed.

(** C8 (amended). In the Zapier adapter hashtag formatting is
    idempotent: a formatted tag has exactly one leading [#], and
    formatting a tag, or a whole tag list, a second time changes
    nothing.  The Late adapter does not strip: every token it appends
    is [#] followed by the tag exactly as given. *)
Theorem hashtag_formatting_idempotent_in_zapier :
  (forall tag,
     Py.startswith "#" (ZapierInstagramWebhookTool.format_hashtag tag) = true
     /\ Py.startswith "##" (ZapierInstagramWebhookTool.format_hashtag tag) = false
     /\ ZapierInstagramWebhookTool.format_hashtag
          (ZapierInstagramWebhookTool.format_hashtag tag)
        = ZapierInstagramWebhookTool.format_hashtag tag)
  /\ (forall hashtags,
        ZapierInstagramWebhookTool.format_hashtags
          (Some (ZapierInstagramWebhookTool.format_hashtags hashtags))
        = ZapierInstagramWebhookTool.format_hashtags hashtags)
  /\ (forall text hashtags h,
        In h (LateInstagramTool.hashtag_list text hashtags) ->
        exists tag, In tag hashtags /\ h = "#" ++ tag).
Proof.
  split; [|split].
  - intros tag. split; [reflexivity|]. split.
    + unfold ZapierInstagramWebhookTool.format_hashtag.
      change (Py.startswith "##" ("#" ++ Py.lstrip_char "#" tag))
        with (Py.startswith "#" (Py.lstrip_char "#" tag)).
      apply lstrip_char_head.
    + apply format_hashtag_idem.
  - intros [l|]; [|reflexivity].
    rewrite !format_hashtags_map, map_map.
    apply map_ext. intros. apply format_hashtag_idem.
  - apply hashtag_list_tokens.
Qed.

Lemma hashtag_formatting_idempotent_in_zapier_witness :
  ZapierInstagramWebhookTool.format_hashtags (Some ["#travel"; "##food"; "sun"])
  = ["#travel"; "#food"; "#sun"]
  /\ ZapierInstagramWebhookTool.format_hashtags (Some ["#travel"; "#food"; "#sun"])
     = ["#travel"; "#food"; "#sun"]
  /\ exists tag, In tag ["#travel"] /\ "##travel" = "#" ++ tag.
Proof.
  split; [reflexivity|]. split.
  - exact (proj1 (proj2 hashtag_formatting_idempotent_in_zapier)
             (Some ["#travel"; "##food"; "sun"])).
  - apply (proj2 (proj2 hashtag_formatting_idempotent_in_zapier) "Hello" ["#travel"]).
    simpl. left. reflexivity.
Defined.

(** C8, as stated, fails in the Late adapter: a tag that already
    begins with [#] comes out with a doubled prefix. *)
Lemma late_doubles_hash_prefix :
  LateInstagramTool.hashtag_list "Hello" ["#travel"] = ["##travel"]
  /\ LateInstagramTool._format_content "Hello" (Some ["#travel"]) None
     = "Hello" ++ LF ++ LF ++ "##travel".
Proof. split; reflexivity. Qed.

(** ** C9: a date without a time, or a time without a date *)

(** C9. The one adapter with separate schedule date and schedule time
    fields is Ayrshare's.  When exactly one of the two is supplied
    (not [None] and not empty) [_run] returns the error "Both
    schedule_date and schedule_time must be provided for scheduling"
    and sends nothing: the trace of requests is unchanged. *)
Theorem ayrshare_partial_schedule_rejected :
  forall W post_text image_url schedule_date schedule_time t,
    xorb (Py.truthy_opt schedule_date) (Py.truthy_opt schedule_time) = true ->
    AyrshareInstagramPublisher.run_result W post_text image_url schedule_date schedule_time t
    = (Ret (AyrshareInstagramPublisher.error_result
              "Both schedule_date and schedule_time must be provided for scheduling"), t)
    /\ AyrshareInstagramPublisher._run W post_text image_url schedule_date schedule_time t
       = (Ret (Json.dumps (AyrshareInstagramPublisher.error_result
                 "Both schedule_date and schedule_time must be provided for scheduling")), t).
Proof.
  intros W post_text image_url d tm t H.
  assert (E : AyrshareInstagramPublisher.run_result W post_text image_url d tm t
              = (Ret (AyrshareInstagramPublisher.error_result
                   "Both schedule_date and schedule_time must be provided for scheduling"), t)).
  { unfold AyrshareInstagramPublisher.run_result, try_except,
      AyrshareInstagramPublisher.schedule_block.
    destruct (Py.truthy_opt d), (Py.truthy_opt tm); try discriminate H; reflexivity. }
  split; [exact E|].
  unfold AyrshareInstagramPublisher._run, fmap, bind. rewrite E. reflexivity.
Qed.

Lemma ayrshare_partial_schedule_rejected_witness :
  AyrshareInstagramPublisher.run_result
    (Sample.world Sample.no_env (Sample.always Sample.ok_with_id))
    "Hello world" None (Some "2030-01-01") None []
  = (Ret (JObj [("status", JStr "error");
                ("message",
                 JStr "Both schedule_date and schedule_time must be provided for scheduling");
                ("post_id", JNull)]), [])
  /\ AyrshareInstagramPublisher.run_result
       (Sample.world Sample.no_env (Sample.always Sample.ok_with_id))
       "Hello world" None None (Some "10:30") []
     = (Ret (JObj [("status", JStr "error");
                   ("message",
                    JStr "Both schedule_date and schedule_time must be provided for scheduling");
                   ("post_id", JNull)]), []).
Proof.
  split.
  - exact (proj1 (ayrshare_partial_schedule_rejected
                    (Sample.world Sample.no_env (Sample.always Sample.ok_with_id))
                    "Hello world" None (Some "2030-01-01") None [] eq_refl)).
  - exact (proj1 (ayrshare_partial_schedule_rejected
                    (Sample.world Sample.no_env (Sample.always Sample.ok_with_id))
                    "Hello world" None None (Some "10:30") [] eq_refl)).
Defined.

(** ** C10: the webhook adapter as shipped *)

(** C10. With the shipped [webhook_url = ""], every invocation of the
    Zapier adapter ends in the [except RequestException] clause:
    [requests] refuses the empty URL ([MissingSchema]) before anything
    is sent, so the trace is unchanged and the result is the "Request
    error" failure report, whatever the arguments and the world. *)
Theorem zapier_shipped_always_fails :
  forall W content preferred_posting_time timezone media_urls hashtags brand_name t,
    ZapierInstagramWebhookTool._run W content preferred_posting_time timezone
      media_urls hashtags brand_name t
    = (Ret ("❌ FAILURE: Request error to Zapier webhook" ++ LF
            ++ "📅 Timestamp: "
            ++ isoformat W (Naive (clock_us W + local_utcoffset_us W)) ++ LF
            ++ "❗ Error: Invalid URL '': No scheme supplied. Perhaps you meant https://?"
            ++ LF
            ++ "💡 Suggestion: Check request parameters and network connection"),
       t).
Proof. intros. reflexivity. Qed.

(** * Further properties of the adapters *)

(** ** Whole runs *)

Lemma spec_weaken {A} (m : M A) (Q Q' : list Request -> res A -> Prop) :
  run_spec m Q -> (forall l r, Q l r -> Q' l r) -> run_spec m Q'.
Proof.
  intros H I t. destruct (H t) as (l & E & q). exists l. split; [exact E|apply I, q].
Qed.

Lemma spec_ret {A} (a : A) (Q : list Request -> res A -> Prop) :
  Q [] (Ret a) -> run_spec (ret a) Q.
Proof. intros H t. exists []. rewrite app_nil_r. split; [reflexivity|exact H]. Qed.

Lemma spec_raise {A} (e : exn) (Q : list Request -> res A -> Prop) :
  Q [] (Raise e) -> run_spec (raise e) Q.
Proof. intros H t. exists []. rewrite app_nil_r. split; [reflexivity|exact H]. Qed.

Lemma spec_lift {A} (r : res A) (Q : list Request -> res A -> Prop) :
  Q [] r -> run_spec (lift r) Q.
Proof. intros H t. exists []. rewrite app_nil_r. split; [reflexivity|exact H]. Qed.

Lemma spec_bind {A B} (m : M A) (k : A -> M B)
    (Q1 : list Request -> res A -> Prop) (Q : list Request -> res B -> Prop) :
  run_spec m Q1 ->
  (forall l1 e, Q1 l1 (Raise e) -> Q l1 (Raise e)) ->
  (forall l1 a, Q1 l1 (Ret a) -> run_spec (k a) (fun l2 r => Q (l1 ++ l2)%list r)) ->
  run_spec (bind m k) Q.
Proof.
  intros Hm He Hk t. destruct (Hm t) as (l1 & E1 & q1). unfold bind.
  destruct (m t) as [[a|e] t1]; cbn in *; subst t1.
  - destruct (Hk l1 a q1 (t ++ l1)%list) as (l2 & E2 & q2).
    exists (l1 ++ l2)%list. rewrite app_assoc. split; assumption.
  - exists l1. split; [reflexivity|apply He, q1].
Qed.

Lemma spec_bind_lift {A B} (r : res A) (k : A -> M B)
    (Q : list Request -> res B -> Prop) :
  (forall e, r = Raise e -> Q [] (Raise e)) ->
  (forall a, r = Ret a -> run_spec (k a) Q) ->
  run_spec (bind (lift r) k) Q.
Proof.
  intros He Hk t. unfold bind, lift. destruct r as [a|e].
  - apply (Hk a eq_refl).
  - exists []. rewrite app_nil_r. split; [reflexivity|apply (He e eq_refl)].
Qed.

Lemma spec_try_except {A} (m : M A) (cs : list (clause A))
    (Q1 Q : list Request -> res A -> Prop) :
  run_spec m Q1 ->
  (forall l1 a, Q1 l1 (Ret a) -> Q l1 (Ret a)) ->
  (forall l1 e, Q1 l1 (Raise e) ->
     run_spec (dispatch cs e) (fun l2 r => Q (l1 ++ l2)%list r)) ->
  run_spec (try_except m cs) Q.
Proof.
  intros Hm Hr Hh t. destruct (Hm t) as (l1 & E1 & q1). unfold try_except.
  destruct (m t) as [[a|e] t1]; cbn in *; subst t1.
  - exists l1. split; [reflexivity|apply Hr, q1].
  - destruct (Hh l1 e q1 (t ++ l1)%list) as (l2 & E2 & q2).
    exists (l1 ++ l2)%list. rewrite app_assoc. split; assumption.
Qed.

Lemma spec_fmap {A B} (f : A -> B) (m : M A)
    (Q : list Request -> res A -> Prop) :
  run_spec m Q ->
  run_spec (fmap f m)
    (fun l r => match r with
                | Ret b => exists a, b = f a /\ Q l (Ret a)
                | Raise e => Q l (Raise e)
                end).
Proof.
  intros H t. destruct (H t) as (l & E & q). unfold fmap, bind, ret.
  destruct (m t) as [[a|e] t1]; cbn in *; subst t1; exists l; split; eauto.
Qed.

(** A request is refused before it is sent, or sent and then
    answered or failed. *)
Lemma spec_request W method url payload :
  run_spec (requests.request W method url payload)
    (fun l r =>
       (l = [] /\ exists e, requests.url_fault url = Some e /\ r = Raise e)
       \/ (l = [mkRequest method url payload] /\ requests.url_fault url = None)).
Proof.
  intros t. unfold requests.request. destruct (requests.url_fault url) as [e|].
  - exists []. rewrite app_nil_r. split; [reflexivity|]. left. eauto.
  - destruct (transport W t _); exists [mkRequest method url payload];
      (split; [reflexivity|right; split; reflexivity]).
Qed.

(** ** Dictionaries *)

Lemma lookup_set_same (k : string) (v : json) (kv : list (string * json)) :
  Json.lookup k (Json.set k v kv) = Some v.
Proof.
  induction kv as [|[k' v'] r IH]; cbn.
  - rewrite String.eqb_refl. reflexivity.
  - destruct (k' =? k)%string eqn:E; cbn.
    + rewrite String.eqb_refl. reflexivity.
    + rewrite E. exact IH.
Qed.

Lemma lookup_set_other (k k' : string) (v : json) (kv : list (string * json)) :
  k <> k' -> Json.lookup k' (Json.set k v kv) = Json.lookup k' kv.
Proof.
  intros N. induction kv as [|[k0 v0] r IH]; cbn.
  - destruct (k =? k')%string eqn:E; [apply String.eqb_eq in E; contradiction|reflexivity].
  - destruct (k0 =? k)%string eqn:E; cbn.
    + apply String.eqb_eq in E. subst k0.
      destruct (k =? k')%string eqn:E'; [apply String.eqb_eq in E'; contradiction|reflexivity].
    + destruct (k0 =? k')%string; [reflexivity|exact IH].
Qed.

Lemma keys_set (k : string) (v : json) (kv : list (string * json)) (x : string) :
  In x (map fst (Json.set k v kv)) -> x = k \/ In x (map fst kv).
Proof.
  induction kv as [|[k0 v0] r IH]; cbn.
  - intros [H|[]]. left. symmetry. exact H.
  - destruct (k0 =? k)%string eqn:E; cbn.
    + intros [H|H]; [left; symmetry; exact H|right; right; exact H].
    + intros [H|H]; [right; left; exact H|].
      destruct (IH H) as [I|I]; [left; exact I|right; right; exact I].
Qed.

Lemma strip_truthy (s : string) : Py.truthy (Py.strip s) = true -> Py.truthy s = true.
Proof. destruct s; [discriminate|reflexivity]. Qed.

(** ** Strings *)

Lemma string_app_assoc (a b c : string) : ((a ++ b) ++ c = a ++ b ++ c)%string.
Proof. induction a as [|x a IH]; cbn; [reflexivity|rewrite IH; reflexivity]. Qed.

Lemma string_app_length (a b : string) :
  String.length (a ++ b) = (String.length a + String.length b)%nat.
Proof. induction a as [|x a IH]; cbn; [reflexivity|rewrite IH; reflexivity]. Qed.

Lemma string_app_nil_r (a : string) : (a ++ "")%string = a.
Proof. induction a as [|x a IH]; cbn; [reflexivity|rewrite IH; reflexivity]. Qed.

(** ** Traces of blocks that send once *)

Lemma trace_try_bind {A B} (m : M A) (k : A -> M B) (cs : list (clause B))
    (t : list Request) :
  (forall a, pure (k a)) -> (forall e, pure (dispatch cs e)) ->
  snd (try_except (bind m k) cs t) = snd (m t).
Proof.
  intros K H. unfold try_except, bind. destruct (m t) as [[a|e] t1]; cbn.
  - specialize (K a t1). destruct (k a t1) as [[b|e] t2]; cbn in *; subst t2.
    + reflexivity.
    + apply H.
  - apply H.
Qed.

Lemma request_sent W method url payload t :
  requests.url_fault url = None ->
  snd (requests.request W method url payload t)
  = (t ++ [mkRequest method url payload])%list.
Proof.
  intros U. unfold requests.request. rewrite U.
  destruct (transport W t _); reflexivity.
Qed.

Lemma request_refused W method url payload t e :
  requests.url_fault url = Some e ->
  requests.request W method url payload t = (Raise e, t).
Proof. intros U. unfold requests.request. rewrite U. reflexivity. Qed.

Lemma initial_segment_nil {A} (plan : list A) : initial_segment [] plan.
Proof. exists plan. reflexivity. Qed.

Lemma initial_segment_cons {A} (x : A) (l plan : list A) :
  initial_segment l plan -> initial_segment (x :: l) (x :: plan).
Proof. intros (rest & ->). exists rest. reflexivity. Qed.

(** ** The schema's time pattern *)

Lemma digit_in_range (lo hi c : ascii) :
  (48 <= nat_of_ascii lo)%nat -> (nat_of_ascii hi <= 57)%nat ->
  AyrshareInstagramRequest.in_range lo hi c = true ->
  Sample.digit c = Some (Z.of_nat (nat_of_ascii c - 48))
  /\ (nat_of_ascii lo <= nat_of_ascii c <= nat_of_ascii hi)%nat.
Proof.
  intros L H I. unfold AyrshareInstagramRequest.in_range in I.
  apply andb_true_iff in I. destruct I as [I1 I2].
  apply Nat.leb_le in I1. apply Nat.leb_le in I2.
  unfold Sample.digit.
  assert (E : ((48 <=? nat_of_ascii c)%nat && (nat_of_ascii c <=? 57)%nat) = true).
  { apply andb_true_iff. split; apply Nat.leb_le; lia. }
  rewrite E. split; [reflexivity|lia].
Qed.

Lemma digit_value (c : ascii) (d : Z) :
  Sample.digit c = Some d ->
  (48 <= nat_of_ascii c <= 57)%nat /\ d = Z.of_nat (nat_of_ascii c - 48).
Proof.
  unfold Sample.digit.
  destruct ((48 <=? nat_of_ascii c)%nat && (nat_of_ascii c <=? 57)%nat) eqn:E;
    [|discriminate].
  intros H. injection H as <-. apply andb_true_iff in E. destruct E as [E1 E2].
  apply Nat.leb_le in E1. apply Nat.leb_le in E2. split; [lia|reflexivity].
Qed.

Lemma in_range_of_digit (lo hi c : ascii) (d : Z) :
  Sample.digit c = Some d ->
  Z.of_nat (nat_of_ascii lo) - 48 <= d <= Z.of_nat (nat_of_ascii hi) - 48 ->
  AyrshareInstagramRequest.in_range lo hi c = true.
Proof.
  intros D B. apply digit_value in D. destruct D as [R ->].
  unfold AyrshareInstagramRequest.in_range.
  apply andb_true_iff. split; apply Nat.leb_le; lia.
Qed.

Lemma digit_two (c : ascii) : Sample.digit c = Some 2 -> c = "2"%char.
Proof.
  intros D. apply digit_value in D. destruct D as [R E].
  assert (N : nat_of_ascii c = 50%nat) by lia.
  rewrite <- (ascii_nat_embedding c), N. reflexivity.
Qed.

Lemma minutes_tail_reads (s : string) :
  AyrshareInstagramRequest.minutes_tail s = true <->
  exists m1 m2 tail m,
    s = String ":" (String m1 (String m2 tail))
    /\ (tail = "" \/ tail = LF)
    /\ Sample.number (String m1 (String m2 "")) = Some m
    /\ m <= 59.
Proof.
  split.
  - destruct s as [|c [|m1 [|m2 tail]]]; try discriminate.
    cbn [AyrshareInstagramRequest.minutes_tail]. intros H.
    apply andb_true_iff in H. destruct H as [H T].
    apply andb_true_iff in H. destruct H as [H M2].
    apply andb_true_iff in H. destruct H as [C M1].
    apply Ascii.eqb_eq in C. subst c.
    apply digit_in_range in M1; [|cbn; lia..]. destruct M1 as [D1 R1].
    apply digit_in_range in M2; [|cbn; lia..]. destruct M2 as [D2 R2].
    cbn in R1, R2.
    exists m1, m2, tail.
    exists (Z.of_nat (nat_of_ascii m1 - 48) * 10 + Z.of_nat (nat_of_ascii m2 - 48)).
    split; [reflexivity|]. split.
    { apply orb_true_iff in T. destruct T as [T|T]; apply String.eqb_eq in T; auto. }
    split; [|lia].
    unfold Sample.number. cbn [Sample.number_from]. rewrite D1, D2. f_equal; lia.
  - intros (m1 & m2 & tail & m & -> & T & N & B).
    unfold Sample.number in N. cbn [Sample.number_from] in N.
    destruct (Sample.digit m1) as [d1|] eqn:D1; [|discriminate].
    destruct (Sample.digit m2) as [d2|] eqn:D2; [|discriminate].
    injection N as <-.
    pose proof (digit_value _ _ D1) as [R1 E1].
    pose proof (digit_value _ _ D2) as [R2 E2].
    cbn [AyrshareInstagramRequest.minutes_tail].
    rewrite (in_range_of_digit "0" "5" m1 d1 D1) by (cbn; lia).
    rewrite (in_range_of_digit "0" "9" m2 d2 D2) by (cbn; lia).
    destruct T as [-> | ->]; reflexivity.
Qed.

Lemma match_schedule_time_reads (v : string) :
  AyrshareInstagramRequest.match_schedule_time v = true <->
  exists hh rest h,
    v = hh ++ rest
    /\ (String.length hh = 1 \/ String.length hh = 2)%nat
    /\ Sample.number hh = Some h
    /\ h <= 23
    /\ AyrshareInstagramRequest.minutes_tail rest = true.
Proof.
  split.
  - destruct v as [|h1 r1]; [discriminate|].
    cbn [AyrshareInstagramRequest.match_schedule_time]. intros H.
    apply orb_true_iff in H. destruct H as [H|H];
      [apply orb_true_iff in H; destruct H as [H|H]|].
    + apply andb_true_iff in H. destruct H as [H1 H].
      destruct r1 as [|h2 r2]; [discriminate|].
      apply andb_true_iff in H. destruct H as [H2 T].
      apply digit_in_range in H1; [|cbn; lia..]. destruct H1 as [D1 R1].
      apply digit_in_range in H2; [|cbn; lia..]. destruct H2 as [D2 R2].
      cbn in R1, R2.
      exists (String h1 (String h2 "")), r2,
        (Z.of_nat (nat_of_ascii h1 - 48) * 10 + Z.of_nat (nat_of_ascii h2 - 48)).
      split; [reflexivity|]. split; [right; reflexivity|].
      split; [|split; [lia|exact T]].
      unfold Sample.number. cbn [Sample.number_from]. rewrite D1, D2. f_equal; lia.
    + apply andb_true_iff in H. destruct H as [H1 T].
      apply digit_in_range in H1; [|cbn; lia..]. destruct H1 as [D1 R1]. cbn in R1.
      exists (String h1 ""), r1, (Z.of_nat (nat_of_ascii h1 - 48)).
      split; [reflexivity|]. split; [left; reflexivity|].
      split; [|split; [lia|exact T]].
      unfold Sample.number. cbn [Sample.number_from]. rewrite D1. f_equal.
    + apply andb_true_iff in H. destruct H as [H1 H].
      destruct r1 as [|h2 r2]; [discriminate|].
      apply andb_true_iff in H. destruct H as [H2 T].
      apply Ascii.eqb_eq in H1. subst h1.
      apply digit_in_range in H2; [|cbn; lia..]. destruct H2 as [D2 R2]. cbn in R2.
      exists (String "2" (String h2 "")), r2, (20 + Z.of_nat (nat_of_ascii h2 - 48)).
      split; [reflexivity|]. split; [right; reflexivity|].
      split; [|split; [lia|exact T]].
      unfold Sample.number. cbn [Sample.number_from]. rewrite D2. reflexivity.
  - intros (hh & rest & h & -> & L & N & B & T).
    destruct hh as [|h1 [|h2 [|h3 r]]]; cbn in L; try lia.
    + unfold Sample.number in N. cbn [Sample.number_from] in N.
      destruct (Sample.digit h1) as [d1|] eqn:D1; [|discriminate].
      injection N as <-.
      pose proof (digit_value _ _ D1) as [R1 E1].
      cbn [append AyrshareInstagramRequest.match_schedule_time].
      rewrite (in_range_of_digit "0" "9" h1 d1 D1) by (cbn; lia).
      rewrite T. cbn. rewrite orb_true_r. reflexivity.
    + unfold Sample.number in N. cbn [Sample.number_from] in N.
      destruct (Sample.digit h1) as [d1|] eqn:D1; [|discriminate].
      destruct (Sample.digit h2) as [d2|] eqn:D2; [|discriminate].
      injection N as <-.
      pose proof (digit_value _ _ D1) as [R1 E1].
      pose proof (digit_value _ _ D2) as [R2 E2].
      cbn [append AyrshareInstagramRequest.match_schedule_time].
      rewrite T.
      destruct (Z_le_gt_dec d1 1) as [S1|S1].
      * rewrite (in_range_of_digit "0" "1" h1 d1 D1) by (cbn; lia).
        rewrite (in_range_of_digit "0" "9" h2 d2 D2) by (cbn; lia).
        reflexivity.
      * assert (D1' : Sample.digit h1 = Some 2) by (rewrite D1; f_equal; lia).
        rewrite (digit_two h1 D1').
        rewrite (in_range_of_digit "0" "3" h2 d2 D2) by (cbn; lia).
        cbn. rewrite !orb_true_r. reflexivity.
Qed.

(** X1 (ayrshare_instagram_publisher.py, validate_schedule_time).  The
    schema accepts a schedule time exactly when it is a 24-hour clock
    reading: one or two digits of hours up to 23, a colon, two digits
    of minutes up to 59, and nothing else but at most one final line
    feed.  Every other string raises the schema's ValueError. *)
Theorem schedule_time_accepted_iff_24_hour_clock (v : string) :
  (AyrshareInstagramRequest.validate_schedule_time (Some v) = Ret (Some v)
   <-> exists hh mm tail h m,
         v = hh ++ ":" ++ mm ++ tail
         /\ (tail = "" \/ tail = LF)
         /\ (String.length hh = 1 \/ String.length hh = 2)%nat
         /\ String.length mm = 2%nat
         /\ Sample.number hh = Some h /\ h <= 23
         /\ Sample.number mm = Some m /\ m <= 59)
  /\ (AyrshareInstagramRequest.validate_schedule_time (Some v) <> Ret (Some v) ->
      AyrshareInstagramRequest.validate_schedule_time (Some v)
      = Raise (ValueError "schedule_time must be in HH:MM format (24-hour)")).
Proof.
  assert (V : AyrshareInstagramRequest.validate_schedule_time (Some v) = Ret (Some v)
              <-> AyrshareInstagramRequest.match_schedule_time v = true).
  { unfold AyrshareInstagramRequest.validate_schedule_time.
    destruct (AyrshareInstagramRequest.match_schedule_time v); cbn;
      split; intros H; try reflexivity; discriminate. }
  split.
  - rewrite V, match_schedule_time_reads. split.
    + intros (hh & rest & h & -> & L & N & B & T).
      apply minutes_tail_reads in T.
      destruct T as (m1 & m2 & tail & m & -> & T & M & BM).
      exists hh, (String m1 (String m2 "")), tail, h, m.
      repeat split; try assumption.
    + intros (hh & mm & tail & h & m & -> & T & L & LM & N & B & M & BM).
      destruct mm as [|m1 [|m2 [|m3 r]]]; cbn in LM; try lia.
      exists hh, (String ":" (String m1 (String m2 tail))), h.
      repeat split; try assumption.
      apply minutes_tail_reads. exists m1, m2, tail, m. repeat split; assumption.
  - unfold AyrshareInstagramRequest.validate_schedule_time.
    destruct (AyrshareInstagramRequest.match_schedule_time v); cbn; intros H;
      [contradiction H|]; reflexivity.
Qed.

Lemma schedule_time_accepted_iff_24_hour_clock_witness :
  AyrshareInstagramRequest.validate_schedule_time (Some "9:05") = Ret (Some "9:05")
  /\ AyrshareInstagramRequest.validate_schedule_time (Some "24:00")
     = Raise (ValueError "schedule_time must be in HH:MM format (24-hour)").
Proof.
  split.
  - apply (proj1 (schedule_time_accepted_iff_24_hour_clock "9:05")).
    exists "9", "05", "", 9, 5.
    repeat split; try reflexivity; try (left; reflexivity); lia.
  - apply (proj2 (schedule_time_accepted_iff_24_hour_clock "24:00")).
    vm_compute. discriminate.
Defined.

(** ** The Ayrshare request and its reports *)

(** X2 (ayrshare_instagram_publisher.py, _run, lines 73-113).  When the
    schedule block lets a run through, exactly one request is sent, a
    POST to the Ayrshare endpoint, and its JSON body holds: the
    stripped caption; the platform list; the stripped image URL as a
    one-element list exactly when the URL is not blank; the schedule
    instant [<date>T<time>:00Z] exactly when both date and time are
    given; and no other key. *)
Theorem ayrshare_request_payload W post_text image_url schedule_date schedule_time
    payload is_scheduled t :
  AyrshareInstagramPublisher.schedule_block W
    (AyrshareInstagramPublisher.base_payload post_text image_url)
    schedule_date schedule_time = inl (payload, is_scheduled) ->
  snd (AyrshareInstagramPublisher.run_result W post_text image_url schedule_date
         schedule_time t)
  = (t ++ [mkRequest "POST" "https://app.ayrshare.com/api/post" (JObj payload)])%list
  /\ Json.lookup "post" payload = Some (JStr (Py.strip post_text))
  /\ Json.lookup "platforms" payload = Some (JArr [JStr "instagram"])
  /\ Json.lookup "mediaUrls" payload
     = match image_url with
       | Some u => if Py.truthy (Py.strip u) then Some (JArr [JStr (Py.strip u)]) else None
       | None => None
       end
  /\ is_scheduled = Py.truthy_opt schedule_date && Py.truthy_opt schedule_time
  /\ Json.lookup "scheduleDate" payload
     = (if is_scheduled
        then Some (JStr (str_opt schedule_date ++ "T" ++ str_opt schedule_time ++ ":00Z"))
        else None)
  /\ (forall k, In k (map fst payload) ->
      In k ["post"; "platforms"; "mediaUrls"; "scheduleDate"]).
Proof.
  intros H. split.
  { apply (ayrshare_run_posts W post_text image_url schedule_date schedule_time t
             payload is_scheduled H). }
  assert (B : forall k, In k (map fst (AyrshareInstagramPublisher.base_payload
                                         post_text image_url)) ->
                        In k ["post"; "platforms"; "mediaUrls"]).
  { intros k. unfold AyrshareInstagramPublisher.base_payload.
    destruct (Py.truthy_opt image_url && _); cbn; intuition. }
  assert (M : Json.lookup "mediaUrls"
                (AyrshareInstagramPublisher.base_payload post_text image_url)
              = match image_url with
                | Some u =>
                    if Py.truthy (Py.strip u) then Some (JArr [JStr (Py.strip u)]) else None
                | None => None
                end).
  { unfold AyrshareInstagramPublisher.base_payload.
    destruct image_url as [u|]; cbn [Py.truthy_opt str_opt andb]; [|reflexivity].
    destruct (Py.truthy (Py.strip u)) eqn:S.
    - rewrite (strip_truthy u S). reflexivity.
    - rewrite andb_false_r. reflexivity. }
  assert (P : Json.lookup "post"
                (AyrshareInstagramPublisher.base_payload post_text image_url)
              = Some (JStr (Py.strip post_text))
              /\ Json.lookup "platforms"
                   (AyrshareInstagramPublisher.base_payload post_text image_url)
                 = Some (JArr [JStr "instagram"])
              /\ Json.lookup "scheduleDate"
                   (AyrshareInstagramPublisher.base_payload post_text image_url)
                 = None).
  { unfold AyrshareInstagramPublisher.base_payload.
    destruct (Py.truthy_opt image_url && _); repeat split; reflexivity. }
  destruct P as (P1 & P2 & P3).
  unfold AyrshareInstagramPublisher.schedule_block in H.
  destruct (Py.truthy_opt schedule_date && Py.truthy_opt schedule_time) eqn:S.
  - destruct (fromisoformat W _); [|discriminate].
    injection H as <- <-.
    rewrite !lookup_set_other by discriminate. rewrite lookup_set_same.
    repeat split; try assumption; try reflexivity.
    intros k I. apply keys_set in I. destruct I as [->|I]; [cbn; auto|].
    apply B in I. cbn in *. intuition.
  - destruct (Py.truthy_opt schedule_date || Py.truthy_opt schedule_time); [discriminate|].
    injection H as <- <-.
    repeat split; try assumption; try reflexivity.
    intros k I. apply B in I. cbn in *. intuition.
Qed.

Lemma ayrshare_request_payload_witness :
  snd (AyrshareInstagramPublisher.run_result
         (Sample.world Sample.no_env (Sample.always Sample.ok_with_id))
         "  Hello world " (Some " https://example.com/a.png ")
         (Some "2025-06-01") (Some "10:00") [])
  = [mkRequest "POST" "https://app.ayrshare.com/api/post"
       (JObj [("post", JStr "Hello world");
              ("platforms", JArr [JStr "instagram"]);
              ("mediaUrls", JArr [JStr "https://example.com/a.png"]);
              ("scheduleDate", JStr "2025-06-01T10:00:00Z")])].
Proof.
  apply (ayrshare_request_payload
           (Sample.world Sample.no_env (Sample.always Sample.ok_with_id))
           "  Hello world " (Some " https://example.com/a.png ")
           (Some "2025-06-01") (Some "10:00")
           [("post", JStr "Hello world");
            ("platforms", JArr [JStr "instagram"]);
            ("mediaUrls", JArr [JStr "https://example.com/a.png"]);
            ("scheduleDate", JStr "2025-06-01T10:00:00Z")] true []).
  reflexivity.
Defined.

(** ** How Ayrshare's answers are classified *)

Section AyrshareAnswered.

Variable W : World.
Variable post_text : string.
Variables image_url schedule_date schedule_time : option string.
Variable t : list Request.
Variable payload : list (string * json).
Variable is_scheduled : bool.

Hypothesis scheduled :
  AyrshareInstagramPublisher.schedule_block W
    (AyrshareInstagramPublisher.base_payload post_text image_url)
    schedule_date schedule_time = inl (payload, is_scheduled).

Local Notation "'posting_request'" :=
  (mkRequest "POST" AyrshareInstagramPublisher.api_url (JObj payload)).
Local Notation "'run'" :=
  (AyrshareInstagramPublisher.run_result W post_text image_url schedule_date
     schedule_time t).

Lemma ayrshare_run_normalized r :
  transport W t posting_request = Responded r ->
  run
  = try_except
      (AyrshareInstagramPublisher.normalize is_scheduled schedule_date schedule_time r)
      [(Exn.is_Timeout, fun _ =>
          ret (AyrshareInstagramPublisher.error_result
                 "Request timed out - please check your internet connection and try again"));
       (Exn.is_ConnectionError, fun _ =>
          ret (AyrshareInstagramPublisher.error_result
                 "Connection error - unable to reach Ayrshare API"));
       (Exn.is_RequestException, fun e =>
          ret (AyrshareInstagramPublisher.error_result ("Network error: " ++ Exn.str e)));
       (Exn.is_Exception, fun e =>
          ret (AyrshareInstagramPublisher.error_result ("Unexpected error: " ++ Exn.str e)))]
      (t ++ [posting_request])%list.
Proof.
  intros H. unfold AyrshareInstagramPublisher.run_result. rewrite scheduled.
  unfold try_except, bind, requests.post, requests.request.
  change (requests.url_fault AyrshareInstagramPublisher.api_url) with (@None exn).
  cbv iota. rewrite H. reflexivity.
Qed.

Lemma ayrshare_run_failed e :
  transport W t posting_request = Failed e ->
  run
  = (Ret (AyrshareInstagramPublisher.error_result
            (if Exn.is_Timeout e
             then "Request timed out - please check your internet connection and try again"
             else if Exn.is_ConnectionError e
             then "Connection error - unable to reach Ayrshare API"
             else if Exn.is_RequestException e
             then "Network error: " ++ Exn.str e
             else "Unexpected error: " ++ Exn.str e)),
     (t ++ [posting_request])%list).
Proof.
  intros H. unfold AyrshareInstagramPublisher.run_result. rewrite scheduled.
  unfold try_except, bind, requests.post, requests.request.
  change (requests.url_fault AyrshareInstagramPublisher.api_url) with (@None exn).
  cbv iota. rewrite H.
  cbn [dispatch]. cbv [Exn.is_Exception].
  destruct (Exn.is_Timeout e), (Exn.is_ConnectionError e), (Exn.is_RequestException e);
    reflexivity.
Qed.

End AyrshareAnswered.

Lemma bad_request_message_cases (r : Response) :
  (forall kv, json_value r = Some (JObj kv) ->
     AyrshareInstagramPublisher.bad_request_message r
     = match Json.lookup "message" kv with
       | Some m => Json.str m
       | None => "Bad request - check your parameters"
       end)
  /\ ((forall kv, json_value r <> Some (JObj kv)) ->
      AyrshareInstagramPublisher.bad_request_message r
      = "Bad request - invalid parameters or data format").
Proof.
  unfold AyrshareInstagramPublisher.bad_request_message, requests.json. split.
  - intros kv ->. cbn. destruct (Json.lookup "message" kv); reflexivity.
  - intros N. destruct (json_value r) as [[| | | | |kv]|]; try reflexivity.
    contradiction (N kv eq_refl).
Qed.

(** X3 (ayrshare_instagram_publisher.py, _run, lines 138-170).  An
    answer to the posting call with status 401 is reported as an
    authentication failure; one with status 400 as an API error whose
    text is the body's ["message"] when the body is a JSON object (a
    default when the object has none, another when the body is not a
    JSON object); any status other than 200, 401, 400 and 429 as a
    failed request quoting the status and the raw body.  Each report
    has status error and a null post_id. *)
Theorem ayrshare_status_classification W post_text image_url schedule_date schedule_time
    t payload is_scheduled r :
  AyrshareInstagramPublisher.schedule_block W
    (AyrshareInstagramPublisher.base_payload post_text image_url)
    schedule_date schedule_time = inl (payload, is_scheduled) ->
  transport W t (mkRequest "POST" AyrshareInstagramPublisher.api_url (JObj payload))
  = Responded r ->
  let result :=
    fst (AyrshareInstagramPublisher.run_result W post_text image_url schedule_date
           schedule_time t) in
  let error message :=
    Ret (JObj [("status", JStr "error"); ("message", JStr message); ("post_id", JNull)]) in
  (status_code r = 401 -> result = error "Authentication failed - invalid API key")
  /\ (forall kv m, status_code r = 400 -> json_value r = Some (JObj kv) ->
      Json.lookup "message" kv = Some m ->
      result = error ("API error: " ++ Json.str m))
  /\ (forall kv, status_code r = 400 -> json_value r = Some (JObj kv) ->
      Json.lookup "message" kv = None ->
      result = error "API error: Bad request - check your parameters")
  /\ (status_code r = 400 -> (forall kv, json_value r <> Some (JObj kv)) ->
      result = error "API error: Bad request - invalid parameters or data format")
  /\ (status_code r <> 200 -> status_code r <> 401 -> status_code r <> 400 ->
      status_code r <> 429 ->
      result = error ("API request failed with status code "
                      ++ Py.str_of_Z (status_code r) ++ ": " ++ text r)).
Proof.
  intros S T result error. subst result error. cbv beta.
  rewrite (ayrshare_run_normalized W post_text image_url schedule_date schedule_time t
             payload is_scheduled S r T).
  unfold try_except, AyrshareInstagramPublisher.normalize.
  repeat split.
  - intros E. rewrite E. reflexivity.
  - intros kv m E J L. rewrite E. cbn.
    rewrite (proj1 (bad_request_message_cases r) kv J), L. reflexivity.
  - intros kv E J L. rewrite E. cbn.
    rewrite (proj1 (bad_request_message_cases r) kv J), L. reflexivity.
  - intros E N. rewrite E. cbn.
    rewrite (proj2 (bad_request_message_cases r) N). reflexivity.
  - intros N1 N2 N3 N4.
    apply Z.eqb_neq in N1, N2, N3, N4. rewrite N1, N2, N3, N4. reflexivity.
Qed.

Lemma ayrshare_status_classification_witness :
  fst (AyrshareInstagramPublisher.run_result
         (Sample.world Sample.no_env
            (Sample.always
               (Sample.json_response 400 (JObj [("message", JStr "Missing platforms")]))))
         "Hello world" None None None [])
  = Ret (JObj [("status", JStr "error");
               ("message", JStr "API error: Missing platforms");
               ("post_id", JNull)])
  /\ fst (AyrshareInstagramPublisher.run_result
            (Sample.world Sample.no_env
               (Sample.always (Sample.plain_response 503 "Service Unavailable")))
            "Hello world" None None None [])
     = Ret (JObj [("status", JStr "error");
                  ("message",
                   JStr "API request failed with status code 503: Service Unavailable");
                  ("post_id", JNull)]).
Proof.
  split.
  - destruct (ayrshare_status_classification
                (Sample.world Sample.no_env
                   (Sample.always
                      (Sample.json_response 400
                         (JObj [("message", JStr "Missing platforms")]))))
                "Hello world" None None None []
                (AyrshareInstagramPublisher.base_payload "Hello world" None) false
                (Sample.json_response 400 (JObj [("message", JStr "Missing platforms")]))
                eq_refl eq_refl) as (_ & H & _).
    apply (H [("message", JStr "Missing platforms")] (JStr "Missing platforms"));
      reflexivity.
  - destruct (ayrshare_status_classification
                (Sample.world Sample.no_env
                   (Sample.always (Sample.plain_response 503 "Service Unavailable")))
                "Hello world" None None None []
                (AyrshareInstagramPublisher.base_payload "Hello world" None) false
                (Sample.plain_response 503 "Service Unavailable")
                eq_refl eq_refl) as (_ & _ & _ & _ & H).
    apply H; discriminate.
Defined.

(** X4 (ayrshare_instagram_publisher.py, _run, lines 172-198).  When
    the posting call fails in transport, the report depends on the
    class of the exception, the first matching clause winning: a
    timeout (a connect timeout included, although it is a connection
    error too) is reported as a time-out; any other connection error
    as unreachable; any other [requests] exception as a network error
    quoting it; anything else as an unexpected error.  A 200 answer
    whose body is not JSON is reported as a network error as well,
    because the decoding error of [requests] is one of its
    exceptions; a body on which the decoder gives up is reported as
    an unexpected error.  In each case the request was sent once. *)
Theorem ayrshare_failure_classification W post_text image_url schedule_date schedule_time
    t payload is_scheduled :
  AyrshareInstagramPublisher.schedule_block W
    (AyrshareInstagramPublisher.base_payload post_text image_url)
    schedule_date schedule_time = inl (payload, is_scheduled) ->
  let posting_request :=
    mkRequest "POST" AyrshareInstagramPublisher.api_url (JObj payload) in
  let run :=
    AyrshareInstagramPublisher.run_result W post_text image_url schedule_date
      schedule_time t in
  let error message :=
    (Ret (JObj [("status", JStr "error"); ("message", JStr message); ("post_id", JNull)]),
     (t ++ [posting_request])%list) in
  (forall e, transport W t posting_request = Failed e ->
     Exn.is_Timeout e = true ->
     run = error "Request timed out - please check your internet connection and try again")
  /\ (forall e, transport W t posting_request = Failed e ->
      Exn.is_Timeout e = false -> Exn.is_ConnectionError e = true ->
      run = error "Connection error - unable to reach Ayrshare API")
  /\ (forall e, transport W t posting_request = Failed e ->
      Exn.is_Timeout e = false -> Exn.is_ConnectionError e = false ->
      Exn.is_RequestException e = true ->
      run = error ("Network error: " ++ Exn.str e))
  /\ (forall e, transport W t posting_request = Failed e ->
      Exn.is_RequestException e = false ->
      run = error ("Unexpected error: " ++ Exn.str e))
  /\ (forall r, transport W t posting_request = Responded r ->
      status_code r = 200 -> json_value r = None -> json_refusal r = NotJson ->
      exists detail, run = error ("Network error: " ++ detail))
  /\ (forall r, transport W t posting_request = Responded r ->
      status_code r = 200 -> json_value r = None -> json_refusal r <> NotJson ->
      exists detail, run = error ("Unexpected error: " ++ detail)).
Proof.
  intros S posting_request run error. subst posting_request run error. cbv beta.
  repeat split.
  - intros e F C.
    rewrite (ayrshare_run_failed W post_text image_url schedule_date schedule_time t
               payload is_scheduled S e F), C. reflexivity.
  - intros e F C1 C2.
    rewrite (ayrshare_run_failed W post_text image_url schedule_date schedule_time t
               payload is_scheduled S e F), C1, C2. reflexivity.
  - intros e F C1 C2 C3.
    rewrite (ayrshare_run_failed W post_text image_url schedule_date schedule_time t
               payload is_scheduled S e F), C1, C2, C3. reflexivity.
  - intros e F C3.
    rewrite (ayrshare_run_failed W post_text image_url schedule_date schedule_time t
               payload is_scheduled S e F).
    destruct e; try discriminate; reflexivity.
  - intros r T E J N.
    rewrite (ayrshare_run_normalized W post_text image_url schedule_date schedule_time t
               payload is_scheduled S r T).
    unfold try_except, AyrshareInstagramPublisher.normalize, bind, lift, requests.json,
      requests.decode_error.
    rewrite E, J, N. cbn. eexists. reflexivity.
  - intros r T E J N.
    rewrite (ayrshare_run_normalized W post_text image_url schedule_date schedule_time t
               payload is_scheduled S r T).
    unfold try_except, AyrshareInstagramPublisher.normalize, bind, lift, requests.json,
      requests.decode_error.
    rewrite E, J. destruct (json_refusal r); [contradiction| |]; cbn; eexists; reflexivity.
Qed.

Lemma ayrshare_failure_classification_witness :
  AyrshareInstagramPublisher.run_result
    (Sample.world Sample.no_env
       (fun _ _ => Failed (ConnectTimeout "Connection to app.ayrshare.com timed out")))
    "Hello world" None None None []
  = (Ret (JObj [("status", JStr "error");
                ("message",
                 JStr "Request timed out - please check your internet connection and try again");
                ("post_id", JNull)]),
     [mkRequest "POST" AyrshareInstagramPublisher.api_url
        (JObj [("post", JStr "Hello world"); ("platforms", JArr [JStr "instagram"])])]).
Proof.
  destruct (ayrshare_failure_classification
              (Sample.world Sample.no_env
                 (fun _ _ =>
                    Failed (ConnectTimeout "Connection to app.ayrshare.com timed out")))
              "Hello world" None None None []
              (AyrshareInstagramPublisher.base_payload "Hello world" None) false eq_refl)
    as (H & _).
  apply (H (ConnectTimeout "Connection to app.ayrshare.com timed out")); reflexivity.
Defined.

(** X5 (ayrshare_instagram_publisher.py, _run, lines 83-136).  A 200
    answer with a JSON object is reported as a success whose
    [scheduled] flag is true exactly when both a schedule date and a
    schedule time were given: then the message and [schedule_time]
    repeat them; otherwise the post is reported as published and
    [schedule_time] is null.  A date and time whose combination the
    ISO reader refuses end the run with an error before anything is
    sent. *)
Theorem ayrshare_success_report W post_text image_url schedule_date schedule_time t :
  let run :=
    AyrshareInstagramPublisher.run_result W post_text image_url schedule_date
      schedule_time t in
  let scheduled := Py.truthy_opt schedule_date && Py.truthy_opt schedule_time in
  (forall payload r kv,
     AyrshareInstagramPublisher.schedule_block W
       (AyrshareInstagramPublisher.base_payload post_text image_url)
       schedule_date schedule_time = inl (payload, scheduled) ->
     transport W t (mkRequest "POST" AyrshareInstagramPublisher.api_url (JObj payload))
     = Responded r ->
     status_code r = 200 -> json_value r = Some (JObj kv) ->
     fst run
     = Ret (JObj [("status", JStr "success");
                  ("message",
                   JStr (if scheduled
                         then "Post scheduled successfully for " ++ str_opt schedule_date
                              ++ " at " ++ str_opt schedule_time
                              ++ " on Instagram @kskk.2031"
                         else "Post published successfully to Instagram @kskk.2031"));
                  ("post_id", ayrshare_identifier kv);
                  ("scheduled", JBool scheduled);
                  ("schedule_time",
                   if scheduled
                   then JStr (str_opt schedule_date ++ " " ++ str_opt schedule_time)
                   else JNull)]))
  /\ (forall payload is_scheduled,
        AyrshareInstagramPublisher.schedule_block W
          (AyrshareInstagramPublisher.base_payload post_text image_url)
          schedule_date schedule_time = inl (payload, is_scheduled) ->
        is_scheduled = scheduled)
  /\ (scheduled = true ->
      fromisoformat W
        (Py.replace_char "Z" "+00:00"
           (str_opt schedule_date ++ "T" ++ str_opt schedule_time ++ ":00Z")) = None ->
      exists detail,
        run = (Ret (JObj [("status", JStr "error");
                          ("message",
                           JStr ("Invalid schedule date/time combination: " ++ detail));
                          ("post_id", JNull)]), t)).
Proof.
  intros run scheduled. subst run. repeat split.
  - intros payload r kv S T E J.
    rewrite (ayrshare_run_normalized W post_text image_url schedule_date schedule_time t
               payload scheduled S r T).
    unfold try_except, AyrshareInstagramPublisher.normalize, bind, lift, requests.json.
    rewrite E, J, Z.eqb_refl. cbv iota. rewrite extract_post_id_object. reflexivity.
  - intros payload is_scheduled S.
    unfold AyrshareInstagramPublisher.schedule_block in S. fold scheduled in S.
    destruct scheduled.
    + destruct (fromisoformat W _); [|discriminate]. injection S as _ <-. reflexivity.
    + destruct (_ || _); [discriminate|]. injection S as _ <-. reflexivity.
  - intros B F. eexists.
    apply ayrshare_run_early.
    unfold AyrshareInstagramPublisher.schedule_block. fold scheduled. rewrite B.
    unfold AyrshareInstagramPublisher.datetime_str. rewrite F. reflexivity.
Qed.

Lemma ayrshare_success_report_witness :
  fst (AyrshareInstagramPublisher.run_result
         (Sample.world Sample.no_env (Sample.always Sample.ok_with_id))
         "Hello world" None None None [])
  = Ret (JObj [("status", JStr "success");
               ("message", JStr "Post published successfully to Instagram @kskk.2031");
               ("post_id", JStr "post-123");
               ("scheduled", JBool false);
               ("schedule_time", JNull)])
  /\ snd (AyrshareInstagramPublisher.run_result
            (Sample.world Sample.no_env (Sample.always Sample.ok_with_id))
            "Hello world" None (Some "2025-02-30") (Some "10:00") [])
     = [].
Proof.
  split.
  - destruct (ayrshare_success_report
                (Sample.world Sample.no_env (Sample.always Sample.ok_with_id))
                "Hello world" None None None []) as (H & _).
    apply (H (AyrshareInstagramPublisher.base_payload "Hello world" None)
             Sample.ok_with_id [("id", JStr "post-123")]); reflexivity.
  - destruct (ayrshare_success_report
                (Sample.world Sample.no_env (Sample.always Sample.ok_with_id))
                "Hello world" None (Some "2025-02-30") (Some "10:00") [])
      as (_ & _ & H).
    destruct (H eq_refl eq_refl) as (detail & E). rewrite E. reflexivity.
Defined.

(** ** The webhook tool *)

Section ZapierRun.

Variable url : string.
Variable W : World.
Variables content preferred_posting_time timezone : string.
Variables media_urls hashtags : option (list string).
Variable brand_name : option string.
Variable t : list Request.

Local Notation "'run'" :=
  (ZapierInstagramWebhookTool.run_at url W content preferred_posting_time timezone
     media_urls hashtags brand_name t).
Local Notation "'posting_request'" :=
  (zapier_posting_request url content preferred_posting_time timezone media_urls
     hashtags brand_name).
Local Notation "'timestamp'" := (isoformat W (Naive (clock_us W + local_utcoffset_us W))).

Lemma zapier_run_refused e :
  requests.url_fault url = Some e ->
  run = (Ret ("❌ FAILURE: Request error to Zapier webhook" ++ LF
              ++ "📅 Timestamp: " ++ timestamp ++ LF
              ++ "❗ Error: " ++ Exn.str e ++ LF
              ++ "💡 Suggestion: Check request parameters and network connection"), t).
Proof.
  intros U. unfold ZapierInstagramWebhookTool.run_at, try_except, bind, requests.post,
    requests.request. rewrite U. cbn [dispatch].
  unfold requests.url_fault in U.
  destruct (requests.has_http_prefix url); [discriminate|].
  destruct (Py.contains ":" (Py.lstrip url));
    [destruct (negb (Py.startswith "http" (Py.lower (Py.lstrip url))))|];
    injection U as <-; reflexivity.
Qed.

Hypothesis url_ok : requests.url_fault url = None.

Lemma zapier_run_failed e :
  transport W t posting_request = Failed e ->
  run
  = (Ret (if Exn.is_ConnectionError e then
            "❌ FAILURE: Connection error to Zapier webhook" ++ LF
            ++ "📅 Timestamp: " ++ timestamp ++ LF
            ++ "🌐 URL: " ++ url ++ LF
            ++ "💡 Suggestion: Check internet connection or webhook URL availability"
          else if Exn.is_Timeout e then
            "❌ FAILURE: Request timeout to Zapier webhook" ++ LF
            ++ "📅 Timestamp: " ++ timestamp ++ LF
            ++ "⏱️ Timeout: 30 seconds" ++ LF
            ++ "💡 Suggestion: Try again later or check network connection"
          else if Exn.is_RequestException e then
            "❌ FAILURE: Request error to Zapier webhook" ++ LF
            ++ "📅 Timestamp: " ++ timestamp ++ LF
            ++ "❗ Error: " ++ Exn.str e ++ LF
            ++ "💡 Suggestion: Check request parameters and network connection"
          else
            "❌ FAILURE: Unexpected error occurred" ++ LF
            ++ "📅 Timestamp: " ++ timestamp ++ LF
            ++ "❗ Error: " ++ Exn.str e ++ LF
            ++ "💡 Suggestion: Check all input parameters and try again"),
     (t ++ [posting_request])%list).
Proof.
  intros F. unfold ZapierInstagramWebhookTool.run_at, try_except, bind, requests.post,
    requests.request. rewrite url_ok.
  unfold zapier_posting_request in F. rewrite F.
  cbn [dispatch]. cbv [Exn.is_Exception].
  destruct (Exn.is_ConnectionError e), (Exn.is_Timeout e), (Exn.is_RequestException e);
    reflexivity.
Qed.

Lemma zapier_run_answered r :
  transport W t posting_request = Responded r ->
  exists rest,
    run
    = (Ret (zapier_headline r
            ++ LF ++ "📅 Timestamp: " ++ timestamp ++ LF ++ rest),
       (t ++ [posting_request])%list).
Proof.
  intros A. unfold ZapierInstagramWebhookTool.run_at, try_except, bind, requests.post,
    requests.request. rewrite url_ok.
  unfold zapier_posting_request in A. rewrite A.
  unfold zapier_headline, lift, requests.json, requests.decode_error, ret. cbv zeta.
  destruct (status_code r =? 200).
  { destruct (json_value r); [|destruct (json_refusal r)];
      cbn [dispatch Exn.is_JSONDecodeError Exn.is_ConnectionError Exn.is_Timeout
             Exn.is_RequestException raise];
      cbv [Exn.is_Exception]; eexists; reflexivity. }
  destruct (status_code r =? 400); [eexists; reflexivity|].
  destruct (status_code r =? 401); [eexists; reflexivity|].
  destruct (status_code r =? 404); [eexists; reflexivity|].
  destruct (status_code r >=? 500); eexists; reflexivity.
Qed.

End ZapierRun.

(** X6 (zapier_instagram_webhook.py, _run, lines 46-174).  Whatever
    the webhook URL, the inputs, the answer or the failure, the
    report the tool returns has the same head: a first line that
    starts with one of the three outcome markers, then the timestamp
    line with the local time read before the call. *)
Theorem zapier_report_head url W content preferred_posting_time timezone media_urls
    hashtags brand_name t :
  exists summary rest,
    fst (ZapierInstagramWebhookTool.run_at url W content preferred_posting_time timezone
           media_urls hashtags brand_name t)
    = Ret (summary ++ LF
           ++ "📅 Timestamp: " ++ isoformat W (Naive (clock_us W + local_utcoffset_us W))
           ++ LF ++ rest)
    /\ (Py.startswith "✅ SUCCESS: " summary
        || Py.startswith "❌ FAILURE: " summary
        || Py.startswith "⚠️ WARNING: " summary) = true
    /\ Py.contains LF summary = false.
Proof.
  destruct (requests.url_fault url) as [e|] eqn:U.
  - rewrite (zapier_run_refused url W content preferred_posting_time timezone media_urls
               hashtags brand_name t e U).
    eexists. eexists. split; [reflexivity|]. split; vm_compute; reflexivity.
  - destruct (transport W t
                (zapier_posting_request url content preferred_posting_time timezone
                   media_urls hashtags brand_name)) as [r|e] eqn:T.
    + destruct (zapier_run_answered url W content preferred_posting_time timezone
                  media_urls hashtags brand_name t U r T) as (rest & E).
      rewrite E. eexists. eexists. split; [reflexivity|].
      unfold zapier_headline. cbv zeta.
      destruct (status_code r =? 200);
        [destruct (json_value r); [|destruct (json_refusal r)];
         split; vm_compute; reflexivity|].
      destruct (status_code r =? 400); [split; vm_compute; reflexivity|].
      destruct (status_code r =? 401); [split; vm_compute; reflexivity|].
      destruct (status_code r =? 404); [split; vm_compute; reflexivity|].
      destruct (status_code r >=? 500); split; vm_compute; reflexivity.
    + rewrite (zapier_run_failed url W content preferred_posting_time timezone media_urls
                 hashtags brand_name t U e T).
      destruct (Exn.is_ConnectionError e);
        [eexists; eexists; split; [reflexivity|split; vm_compute; reflexivity]|].
      destruct (Exn.is_Timeout e);
        [eexists; eexists; split; [reflexivity|split; vm_compute; reflexivity]|].
      destruct (Exn.is_RequestException e);
        eexists; eexists; (split; [reflexivity|split; vm_compute; reflexivity]).
Qed.

(** X7 (zapier_instagram_webhook.py, _run, lines 86-145 and 168-174).
    When the webhook answers, the report opens with the headline of
    the answer: for status 200 a success (worded differently when
    the body is not JSON), unless the decoder gives up on the body,
    which only the outermost clause catches and reports as an
    unexpected error; a specific failure for 400, 401, 404 and for
    500 and above; and a warning for every other status.  So the
    report is a success exactly when the status is 200 and the
    decoder does not give up: 201, 204 and the like are reported as
    unexpected. *)
Theorem zapier_success_iff_answer_accepted url W content preferred_posting_time timezone
    media_urls hashtags brand_name t r :
  requests.url_fault url = None ->
  transport W t
    (zapier_posting_request url content preferred_posting_time timezone media_urls
       hashtags brand_name) = Responded r ->
  exists report,
    fst (ZapierInstagramWebhookTool.run_at url W content preferred_posting_time timezone
           media_urls hashtags brand_name t) = Ret report
    /\ Py.startswith (zapier_headline r ++ LF) report = true
    /\ (Py.startswith "✅ SUCCESS" report = true
        <-> status_code r = 200 /\ (json_value r = None -> json_refusal r = NotJson))
    /\ (status_code r = 200 -> json_value r = None -> json_refusal r <> NotJson ->
        Py.startswith "❌ FAILURE: Unexpected error occurred" report = true)
    /\ (status_code r <> 200 -> status_code r <> 400 -> status_code r <> 401 ->
        status_code r <> 404 -> status_code r < 500 ->
        Py.startswith "⚠️ WARNING: Unexpected response" report = true).
Proof.
  intros U T.
  destruct (zapier_run_answered url W content preferred_posting_time timezone
              media_urls hashtags brand_name t U r T) as (rest & E).
  rewrite E. eexists. split; [reflexivity|]. split; [|split; [|split]].
  - rewrite <- string_app_assoc. apply startswith_self_app.
  - unfold zapier_headline. cbv zeta.
    destruct (status_code r =? 200) eqn:S200.
    { apply Z.eqb_eq in S200.
      destruct (json_value r); [|destruct (json_refusal r)].
      - split; [intros _; split; [exact S200|discriminate]|reflexivity].
      - split; [intros _; split; [exact S200|reflexivity]|reflexivity].
      - split; [intros H; vm_compute in H; discriminate|].
        intros [_ H]. discriminate (H eq_refl).
      - split; [intros H; vm_compute in H; discriminate|].
        intros [_ H]. discriminate (H eq_refl). }
    apply Z.eqb_neq in S200.
    destruct (status_code r =? 400);
      [split; [intros H; vm_compute in H; discriminate|intros [H _]; contradiction]|].
    destruct (status_code r =? 401);
      [split; [intros H; vm_compute in H; discriminate|intros [H _]; contradiction]|].
    destruct (status_code r =? 404);
      [split; [intros H; vm_compute in H; discriminate|intros [H _]; contradiction]|].
    destruct (status_code r >=? 500);
      (split; [intros H; vm_compute in H; discriminate|intros [H _]; contradiction]).
  - intros S200 J N. unfold zapier_headline. cbv zeta.
    rewrite S200, J. change (200 =? 200) with true. cbv iota.
    destruct (json_refusal r); [contradiction|reflexivity|reflexivity].
  - intros N1 N2 N3 N4 L. unfold zapier_headline. cbv zeta.
    apply Z.eqb_neq in N1, N2, N3, N4. rewrite N1, N2, N3, N4.
    assert (G : (status_code r >=? 500) = false).
    { rewrite Z.geb_leb. apply Z.leb_gt. exact L. }
    rewrite G. reflexivity.
Qed.

Lemma zapier_success_iff_answer_accepted_witness :
  Py.startswith "⚠️ WARNING: Unexpected response"
    (match fst (ZapierInstagramWebhookTool.run_at "https://hooks.zapier.com/hooks/catch/1/"
                  (Sample.world Sample.no_env
                     (Sample.always (Sample.json_response 201 (JObj []))))
                  "Hello world" "1:10 PM" "EST" None None None []) with
     | Ret report => report
     | Raise _ => ""
     end) = true
  /\ Py.startswith "❌ FAILURE: Unexpected error occurred"
       (match fst (ZapierInstagramWebhookTool.run_at
                     "https://hooks.zapier.com/hooks/catch/1/"
                     (Sample.world Sample.no_env (Sample.always Sample.ok_too_long))
                     "Hello world" "1:10 PM" "EST" None None None []) with
        | Ret report => report
        | Raise _ => ""
        end) = true.
Proof.
  split.
  - destruct (zapier_success_iff_answer_accepted "https://hooks.zapier.com/hooks/catch/1/"
                (Sample.world Sample.no_env
                   (Sample.always (Sample.json_response 201 (JObj []))))
                "Hello world" "1:10 PM" "EST" None None None []
                (Sample.json_response 201 (JObj [])) eq_refl eq_refl)
      as (report & E & _ & _ & _ & H).
    rewrite E. apply H; cbn; lia.
  - destruct (zapier_success_iff_answer_accepted "https://hooks.zapier.com/hooks/catch/1/"
                (Sample.world Sample.no_env (Sample.always Sample.ok_too_long))
                "Hello world" "1:10 PM" "EST" None None None []
                Sample.ok_too_long eq_refl eq_refl)
      as (report & E & _ & _ & H & _).
    rewrite E. apply H; [reflexivity|reflexivity|discriminate].
Defined.

(** X8 (zapier_instagram_webhook.py, _run, lines 147-174).  When the
    call to the webhook fails in transport, the report depends on the
    class of the exception, the first matching clause winning: here
    the connection clause comes first, so a connect timeout is
    reported as a connection error (with the URL), any other timeout
    as a timeout, any other [requests] exception as a request error
    that quotes it, and anything else as an unexpected error.  A URL
    the library refuses is reported as a request error without any
    request being sent. *)
Theorem zapier_failure_classification url W content preferred_posting_time timezone
    media_urls hashtags brand_name t :
  let run :=
    ZapierInstagramWebhookTool.run_at url W content preferred_posting_time timezone
      media_urls hashtags brand_name t in
  let posting_request :=
    zapier_posting_request url content preferred_posting_time timezone media_urls
      hashtags brand_name in
  let stamp :=
    "📅 Timestamp: " ++ isoformat W (Naive (clock_us W + local_utcoffset_us W)) in
  (forall e, requests.url_fault url = None ->
     transport W t posting_request = Failed e ->
     Exn.is_ConnectionError e = true ->
     run = (Ret ("❌ FAILURE: Connection error to Zapier webhook" ++ LF
                 ++ stamp ++ LF
                 ++ "🌐 URL: " ++ url ++ LF
                 ++ "💡 Suggestion: Check internet connection or webhook URL availability"),
            (t ++ [posting_request])%list))
  /\ (forall e, requests.url_fault url = None ->
      transport W t posting_request = Failed e ->
      Exn.is_ConnectionError e = false -> Exn.is_Timeout e = true ->
      run = (Ret ("❌ FAILURE: Request timeout to Zapier webhook" ++ LF
                  ++ stamp ++ LF
                  ++ "⏱️ Timeout: 30 seconds" ++ LF
                  ++ "💡 Suggestion: Try again later or check network connection"),
             (t ++ [posting_request])%list))
  /\ (forall e, requests.url_fault url = None ->
      transport W t posting_request = Failed e ->
      Exn.is_ConnectionError e = false -> Exn.is_Timeout e = false ->
      Exn.is_RequestException e = true ->
      run = (Ret ("❌ FAILURE: Request error to Zapier webhook" ++ LF
                  ++ stamp ++ LF
                  ++ "❗ Error: " ++ Exn.str e ++ LF
                  ++ "💡 Suggestion: Check request parameters and network connection"),
             (t ++ [posting_request])%list))
  /\ (forall e, requests.url_fault url = None ->
      transport W t posting_request = Failed e ->
      Exn.is_RequestException e = false ->
      run = (Ret ("❌ FAILURE: Unexpected error occurred" ++ LF
                  ++ stamp ++ LF
                  ++ "❗ Error: " ++ Exn.str e ++ LF
                  ++ "💡 Suggestion: Check all input parameters and try again"),
             (t ++ [posting_request])%list))
  /\ (forall e, requests.url_fault url = Some e ->
      run = (Ret ("❌ FAILURE: Request error to Zapier webhook" ++ LF
                  ++ stamp ++ LF
                  ++ "❗ Error: " ++ Exn.str e ++ LF
                  ++ "💡 Suggestion: Check request parameters and network connection"),
             t)).
Proof.
  intros run posting_request stamp. subst run posting_request stamp.
  repeat split.
  - intros e U F C.
    rewrite (zapier_run_failed url W content preferred_posting_time timezone media_urls
               hashtags brand_name t U e F), C. reflexivity.
  - intros e U F C1 C2.
    rewrite (zapier_run_failed url W content preferred_posting_time timezone media_urls
               hashtags brand_name t U e F), C1, C2. reflexivity.
  - intros e U F C1 C2 C3.
    rewrite (zapier_run_failed url W content preferred_posting_time timezone media_urls
               hashtags brand_name t U e F), C1, C2, C3. reflexivity.
  - intros e U F C3.
    rewrite (zapier_run_failed url W content preferred_posting_time timezone media_urls
               hashtags brand_name t U e F).
    destruct e; try discriminate; reflexivity.
  - intros e U. apply zapier_run_refused. exact U.
Qed.

Lemma zapier_failure_classification_witness :
  Py.startswith "❌ FAILURE: Connection error to Zapier webhook"
    (match fst (ZapierInstagramWebhookTool.run_at "https://hooks.zapier.com/hooks/catch/1/"
                  (Sample.world Sample.no_env
                     (fun _ _ => Failed (ConnectTimeout "timed out")))
                  "Hello world" "1:10 PM" "EST" None None None []) with
     | Ret report => report
     | Raise _ => ""
     end) = true.
Proof.
  destruct (zapier_failure_classification "https://hooks.zapier.com/hooks/catch/1/"
              (Sample.world Sample.no_env (fun _ _ => Failed (ConnectTimeout "timed out")))
              "Hello world" "1:10 PM" "EST" None None None []) as (H & _).
  rewrite (H (ConnectTimeout "timed out") eq_refl eq_refl eq_refl). reflexivity.
Defined.

(** X9 (zapier_instagram_webhook.py, _run, lines 50-83).  A run sends
    exactly one request when the library accepts the webhook URL,
    whatever comes back, and none otherwise.  The request is a POST
    to the webhook with a JSON body of seven keys: the caption
    followed by the formatted hashtags, the media URLs (an empty list
    when none are given), the posting time and timezone as given, the
    fixed account and post type, and the brand name or null.  Without
    hashtags the caption is sent as it is. *)
Theorem zapier_request_payload url W content preferred_posting_time timezone media_urls
    hashtags brand_name t :
  let run :=
    ZapierInstagramWebhookTool.run_at url W content preferred_posting_time timezone
      media_urls hashtags brand_name t in
  let sent :=
    mkRequest "POST" url
      (JObj [("content",
              JStr (match hashtags with
                    | Some (tag :: tags) =>
                        content ++ " "
                        ++ Py.join " "
                             (map (fun tag => "#" ++ Py.lstrip_char "#" tag) (tag :: tags))
                    | _ => content
                    end));
             ("media_urls",
              JArr (map JStr (match media_urls with Some l => l | None => [] end)));
             ("preferred_posting_time", JStr preferred_posting_time);
             ("timezone", JStr timezone);
             ("account", JStr "@kskk.2031");
             ("post_type", JStr "feed");
             ("brand_name", match brand_name with Some b => JStr b | None => JNull end)]) in
  (requests.url_fault url = None -> snd run = (t ++ [sent])%list)
  /\ (requests.url_fault url <> None -> snd run = t).
Proof.
  intros run sent.
  assert (E : sent = zapier_posting_request url content preferred_posting_time timezone
                       media_urls hashtags brand_name).
  { unfold sent, zapier_posting_request. f_equal. f_equal. f_equal. f_equal. f_equal.
    destruct hashtags as [[|tag tags]|]; reflexivity. }
  rewrite E. subst run. clear sent E. split.
  - intros U.
    destruct (transport W t
                (zapier_posting_request url content preferred_posting_time timezone
                   media_urls hashtags brand_name)) as [r|e] eqn:T.
    + destruct (zapier_run_answered url W content preferred_posting_time timezone
                  media_urls hashtags brand_name t U r T) as (rest & R).
      rewrite R. reflexivity.
    + rewrite (zapier_run_failed url W content preferred_posting_time timezone media_urls
                 hashtags brand_name t U e T). reflexivity.
  - intros U. destruct (requests.url_fault url) as [e|] eqn:F; [|contradiction].
    rewrite (zapier_run_refused url W content preferred_posting_time timezone media_urls
               hashtags brand_name t e F). reflexivity.
Qed.

Lemma zapier_request_payload_witness :
  snd (ZapierInstagramWebhookTool.run_at "https://hooks.zapier.com/hooks/catch/1/"
         (Sample.world Sample.no_env (Sample.always Sample.ok_empty))
         "Launch day" "1:10 PM" "EST" None (Some ["sale"; "#new"]) None [])
  = [mkRequest "POST" "https://hooks.zapier.com/hooks/catch/1/"
       (JObj [("content", JStr "Launch day #sale #new");
              ("media_urls", JArr []);
              ("preferred_posting_time", JStr "1:10 PM");
              ("timezone", JStr "EST");
              ("account", JStr "@kskk.2031");
              ("post_type", JStr "feed");
              ("brand_name", JNull)])]
  /\ snd (ZapierInstagramWebhookTool._run
            (Sample.world Sample.no_env (Sample.always Sample.ok_empty))
            "Launch day" "1:10 PM" "EST" None (Some ["sale"]) None [])
     = [].
Proof.
  split.
  - destruct (zapier_request_payload "https://hooks.zapier.com/hooks/catch/1/"
                (Sample.world Sample.no_env (Sample.always Sample.ok_empty))
                "Launch day" "1:10 PM" "EST" None (Some ["sale"; "#new"]) None [])
      as (H & _).
    rewrite (H eq_refl). reflexivity.
  - destruct (zapier_request_payload ZapierInstagramWebhookTool.webhook_url
                (Sample.world Sample.no_env (Sample.always Sample.ok_empty))
                "Launch day" "1:10 PM" "EST" None (Some ["sale"]) None [])
      as (_ & H).
    apply H. discriminate.
Defined.

(** ** The Buffer adapter: requests, in order *)

Lemma buffer_verify_trace W access_token profile_id t :
  snd (BufferInstagramTool._verify_profile W access_token profile_id t)
  = (t ++ [mkRequest "GET" BufferInstagramTool.profiles_url
             (JObj [("access_token", JStr access_token)])])%list.
Proof.
  unfold BufferInstagramTool._verify_profile.
  rewrite trace_try_bind; [|intros response; block_pure|handlers_pure].
  apply request_sent. reflexivity.
Qed.

Lemma buffer_media_probe_trace W media_url t :
  requests.url_fault media_url = None ->
  snd (BufferInstagramTool._validate_media_url W media_url t)
  = (t ++ [mkRequest "HEAD" media_url JNull])%list.
Proof.
  intros U. unfold BufferInstagramTool._validate_media_url.
  rewrite trace_try_bind; [|intros response; block_pure|handlers_pure].
  apply request_sent. exact U.
Qed.

Lemma buffer_media_check_cases W media t :
  (Py.truthy_opt media = false
   /\ BufferInstagramTool.media_check W media t = (Ret (JObj [("success", JBool true)]), t))
  \/ (Py.truthy_opt media = true
      /\ exists d, BufferInstagramTool.media_check W media t = (Ret d, t)
                   /\ success_of d = false)
  \/ (Py.truthy_opt media = true
      /\ snd (BufferInstagramTool.media_check W media t)
         = (t ++ [mkRequest "HEAD" (str_opt media) JNull])%list).
Proof.
  unfold BufferInstagramTool.media_check.
  destruct (Py.truthy_opt media) eqn:M; [|left; split; reflexivity].
  right. destruct (requests.url_fault (str_opt media)) as [e|] eqn:U.
  - left. split; [reflexivity|]. eexists. split.
    + apply buffer_media_url_fault. exact U.
    + reflexivity.
  - right. split; [reflexivity|]. apply buffer_media_probe_trace. exact U.
Qed.

Section BufferStages.

Variable W : World.
Variables (access_token profile_id text : string).
Variable media : option string.
Variable scheduled_at : option Z.
Variable top : bool.

Hypothesis key_set : getenv W "BUFFER_API_KEY" = Some access_token.
Hypothesis key_truthy : Py.truthy access_token = true.
Hypothesis profile_given : Py.truthy profile_id = true.
Hypothesis text_given : Py.truthy text = true.

Variables (t t1 : list Request) (profile_check : json).
Hypothesis verified :
  BufferInstagramTool._verify_profile W access_token profile_id t = (Ret profile_check, t1).
Hypothesis lookup_ok : success_of profile_check = true.

(** An exception of the media check that is not one of [requests]
    reaches the handlers of [_run]. *)
Lemma buffer_run_media_raised e t2 :
  BufferInstagramTool.media_check W media t1 = (Raise e, t2) ->
  BufferInstagramTool.run_result W profile_id text media scheduled_at top t
  = (Ret (if Exn.is_RequestException e
          then JObj [("success", JBool false);
                     ("error",
                      JStr ("Network error connecting to Buffer API: " ++ Exn.str e));
                     ("troubleshooting",
                      JStr "Check your internet connection and Buffer API status")]
          else JObj [("success", JBool false);
                     ("error", JStr ("Unexpected error: " ++ Exn.str e));
                     ("type", JStr (Exn.name e))]), t2).
Proof.
  intros R. unfold BufferInstagramTool.run_result, try_except, bind.
  rewrite key_set. cbn [Py.truthy_opt str_opt]. rewrite key_truthy, profile_given, text_given.
  cbn [negb orb]. rewrite verified, lookup_ok. cbn [negb].
  rewrite R. cbn [dispatch]. cbv [Exn.is_Exception].
  destruct (Exn.is_RequestException e); reflexivity.
Qed.

End BufferStages.

(** X10 (buffer_instagram_tool.py, _run with _verify_profile,
    _validate_media_url and _make_api_request).  The requests of a
    Buffer invocation are always an initial segment of one plan: the
    GET of the profile list with the access token, then a HEAD of
    the media URL if one is given, then the POST that creates the
    update.  So a run sends at most three requests, never posts
    before the lookup (and the probe), and never repeats a call.
    Without an access token in the environment, or with an empty
    profile or text, nothing is sent at all. *)
Theorem buffer_requests_follow_plan W profile_id text media scheduled_at top t :
  exists l,
    snd (BufferInstagramTool.run_result W profile_id text media scheduled_at top t)
    = (t ++ l)%list
    /\ initial_segment l
         (buffer_plan (str_opt (getenv W "BUFFER_API_KEY")) profile_id text media
            scheduled_at top)
    /\ (Py.truthy_opt (getenv W "BUFFER_API_KEY") = false
        \/ Py.truthy profile_id = false \/ Py.truthy text = false -> l = []).
Proof.
  destruct (getenv W "BUFFER_API_KEY") as [access_token|] eqn:K;
    [destruct (Py.truthy access_token) eqn:KT|].
  2,3: exists []; rewrite app_nil_r; split;
         [unfold BufferInstagramTool.run_result, try_except; rewrite K;
          cbn [Py.truthy_opt negb]; try rewrite KT; reflexivity
         |split; [apply initial_segment_nil|reflexivity]].
  destruct (Py.truthy profile_id) eqn:P; [destruct (Py.truthy text) eqn:X|].
  2,3: exists []; rewrite app_nil_r; split;
         [unfold BufferInstagramTool.run_result, try_except; rewrite K;
          cbn [Py.truthy_opt negb]; rewrite KT, P; try rewrite X; reflexivity
         |split; [apply initial_segment_nil|reflexivity]].
  cbn [str_opt Py.truthy_opt]. rewrite KT.
  assert (Done : forall l : list Request,
            snd (BufferInstagramTool.run_result W profile_id text media scheduled_at top t)
            = (t ++ l)%list ->
            initial_segment l
              (buffer_plan access_token profile_id text media scheduled_at top) ->
            exists l,
              snd (BufferInstagramTool.run_result W profile_id text media scheduled_at
                     top t) = (t ++ l)%list
              /\ initial_segment l
                   (buffer_plan access_token profile_id text media scheduled_at top)
              /\ (true = false \/ true = false \/ true = false -> l = [])).
  { intros l E I. exists l. split; [exact E|]. split; [exact I|].
    intros [H|[H|H]]; discriminate. }
  set (lookup := mkRequest "GET" BufferInstagramTool.profiles_url
                   (JObj [("access_token", JStr access_token)])).
  pose proof (buffer_verify_trace W access_token profile_id t) as VT.
  destruct (buffer_verify_returns W access_token profile_id t) as (pc & t1 & V).
  rewrite V in VT. cbn [snd] in VT. fold lookup in VT. subst t1.
  destruct (success_of pc) eqn:S.
  2:{ apply (Done [lookup]); [|apply initial_segment_cons, initial_segment_nil].
      rewrite (buffer_run_lookup_failed W access_token profile_id text media scheduled_at
                 top K KT P X t _ pc V S). reflexivity. }
  destruct (buffer_media_check_cases W media (t ++ [lookup])%list)
    as [(M & C)|[(M & d & C & F)|(M & C)]].
  - (* no media: the posting call is next *)
    destruct (BufferInstagramTool.past_schedule W scheduled_at) eqn:PS.
    + apply (Done [lookup]); [|apply initial_segment_cons, initial_segment_nil].
      rewrite (buffer_run_past_schedule W access_token profile_id text media scheduled_at
                 top K KT P X t _ pc V _ _ S C eq_refl PS). reflexivity.
    + apply (Done [lookup;
                   BufferInstagramTool.posting_request access_token profile_id text media
                     scheduled_at top]); [|].
      * rewrite (buffer_run_posts W access_token profile_id text media scheduled_at
                   top K KT P X t _ pc V _ _ S C eq_refl PS).
        rewrite <- app_assoc. reflexivity.
      * unfold buffer_plan. fold lookup. rewrite M. exists []. reflexivity.
  - (* the media URL is refused before it is probed *)
    apply (Done [lookup]); [|apply initial_segment_cons, initial_segment_nil].
    rewrite (buffer_run_media_refused W access_token profile_id text media scheduled_at
               top K KT P X t _ pc V _ _ S C F). reflexivity.
  - (* the media URL is probed *)
    set (probe := mkRequest "HEAD" (str_opt media) JNull) in *.
    assert (I2 : initial_segment [lookup; probe]
                   (buffer_plan access_token profile_id text media scheduled_at top)).
    { unfold buffer_plan. fold lookup. rewrite M. fold probe. eexists. reflexivity. }
    destruct (BufferInstagramTool.media_check W media (t ++ [lookup])%list)
      as [[checked|e] t2] eqn:MC; cbn [snd] in C; subst t2.
    + destruct (success_of checked) eqn:SC.
      * destruct (BufferInstagramTool.past_schedule W scheduled_at) eqn:PS.
        -- apply (Done [lookup; probe]); [|exact I2].
           rewrite (buffer_run_past_schedule W access_token profile_id text media
                      scheduled_at top K KT P X t _ pc V _ _ S MC SC PS).
           cbn [snd]. rewrite <- app_assoc. reflexivity.
        -- apply (Done [lookup; probe;
                        BufferInstagramTool.posting_request access_token profile_id text
                          media scheduled_at top]); [|].
           ++ rewrite (buffer_run_posts W access_token profile_id text media scheduled_at
                         top K KT P X t _ pc V _ _ S MC SC PS).
              rewrite <- !app_assoc. reflexivity.
           ++ unfold buffer_plan. fold lookup. rewrite M. fold probe.
              exists []. reflexivity.
      * apply (Done [lookup; probe]); [|exact I2].
        rewrite (buffer_run_media_refused W access_token profile_id text media
                   scheduled_at top K KT P X t _ pc V _ _ S MC SC).
        cbn [snd]. rewrite <- app_assoc. reflexivity.
    + apply (Done [lookup; probe]); [|exact I2].
      rewrite (buffer_run_media_raised W access_token profile_id text media scheduled_at
                 top K KT P X t _ pc V S e _ MC).
      cbn [snd]. rewrite <- app_assoc. reflexivity.
Qed.

(** ** The Buffer adapter: the profile lookup and the media probe *)

Lemma find_profile_objects (profile_id : string) (profiles : list (list (string * json))) :
  BufferInstagramTool.find_profile profile_id (map JObj profiles)
  = Ret (option_map JObj
           (find (fun p => Json.eq_str (entry "id" p) profile_id) profiles)).
Proof.
  induction profiles as [|p rest IH]; [reflexivity|].
  cbn [map BufferInstagramTool.find_profile Json.get find]. fold (entry "id" p).
  destruct (Json.eq_str (entry "id" p) profile_id); [reflexivity|exact IH].
Qed.

Lemma services_objects (profiles : list (list (string * json))) :
  BufferInstagramTool.services (map JObj profiles)
  = Ret (map (entry "service") profiles).
Proof.
  induction profiles as [|p rest IH]; [reflexivity|].
  cbn [map BufferInstagramTool.services Json.get]. rewrite IH. reflexivity.
Qed.

Lemma available_profiles_objects (profiles : list (list (string * json))) :
  BufferInstagramTool.available_profiles (map JObj profiles)
  = Ret (map (fun p => JObj [("id", entry "id" p);
                             ("service", entry "service" p);
                             ("username", entry "formatted_username" p)])
           (filter (fun p => Json.eq_str (entry "service" p) "instagram") profiles)).
Proof.
  induction profiles as [|p rest IH]; [reflexivity|].
  cbn [map BufferInstagramTool.available_profiles Json.get filter].
  fold (entry "service" p).
  destruct (Json.eq_str (entry "service" p) "instagram"); rewrite IH; reflexivity.
Qed.

Lemma matched_profile_truthy (profile_id : string) (profiles : list (list (string * json)))
    (p : list (string * json)) :
  find (fun p => Json.eq_str (entry "id" p) profile_id) profiles = Some p ->
  Json.truthy (JObj p) = true.
Proof.
  intros F. apply find_some in F. destruct F as [_ E].
  destruct p; [discriminate|reflexivity].
Qed.

Section BufferLookup.

Variable W : World.
Variables access_token profile_id : string.
Variable t : list Request.

Local Notation "'lookup'" :=
  (mkRequest "GET" BufferInstagramTool.profiles_url
     (JObj [("access_token", JStr access_token)])).

Lemma buffer_verify_answered r :
  transport W t lookup = Responded r ->
  BufferInstagramTool._verify_profile W access_token profile_id t
  = try_except
      (if status_code r =? 200 then
         profiles <- lift (requests.json r) ;;
         items <- lift (Json.iter profiles) ;;
         target <- lift (BufferInstagramTool.find_profile profile_id items) ;;
         match target with
         | Some target_profile =>
             if Json.truthy target_profile then
               service <- lift (Json.get "service" JNull target_profile) ;;
               if negb (Json.eq_str service "instagram") then
                 all <- lift (BufferInstagramTool.services items) ;;
                 ret (JObj [("success", JBool false);
                            ("error", JStr ("Profile " ++ profile_id
                                            ++ " is not an Instagram profile"));
                            ("actual_service", service);
                            ("available_services", JArr all)])
               else
                 name <- lift (Json.get "formatted_username" JNull target_profile) ;;
                 ret (JObj [("success", JBool true);
                            ("profile_name", name);
                            ("service", service)])
             else
               avail <- lift (BufferInstagramTool.available_profiles items) ;;
               ret (JObj [("success", JBool false);
                          ("error", JStr ("Profile ID " ++ profile_id ++ " not found"));
                          ("available_instagram_profiles", JArr avail)])
         | None =>
             avail <- lift (BufferInstagramTool.available_profiles items) ;;
             ret (JObj [("success", JBool false);
                        ("error", JStr ("Profile ID " ++ profile_id ++ " not found"));
                        ("available_instagram_profiles", JArr avail)])
         end
       else
         details <- (if requests.has_content r
                     then lift (requests.json r)
                     else ret (JStr "No response content")) ;;
         ret (JObj [("success", JBool false);
                    ("error", JStr ("Failed to fetch profiles: "
                                    ++ Py.str_of_Z (status_code r)));
                    ("details", details)]))
      [(Exn.is_Exception, fun e =>
          ret (JObj [("success", JBool false);
                     ("error", JStr ("Error verifying profile: " ++ Exn.str e))]))]
      (t ++ [lookup])%list.
Proof.
  intros T. unfold BufferInstagramTool._verify_profile, BufferInstagramTool._make_api_request.
  change ((Py.upper "GET" =? "GET")%string) with true. cbv iota.
  unfold try_except, bind at 1, requests.get, requests.request.
  change (requests.url_fault BufferInstagramTool.profiles_url) with (@None exn).
  cbv iota. rewrite T. reflexivity.
Qed.

Lemma buffer_verify_failed e :
  transport W t lookup = Failed e ->
  BufferInstagramTool._verify_profile W access_token profile_id t
  = (Ret (JObj [("success", JBool false);
                ("error", JStr ("Error verifying profile: " ++ Exn.str e))]),
     (t ++ [lookup])%list).
Proof.
  intros T. unfold BufferInstagramTool._verify_profile, BufferInstagramTool._make_api_request.
  change ((Py.upper "GET" =? "GET")%string) with true. cbv iota.
  unfold try_except, bind, requests.get, requests.request.
  change (requests.url_fault BufferInstagramTool.profiles_url) with (@None exn).
  cbv iota. rewrite T. reflexivity.
Qed.

End BufferLookup.

(** X11 (buffer_instagram_tool.py, _verify_profile, lines 228-262).
    When the profile list arrives (status 200, a JSON list of
    objects), the lookup goes by the first profile whose ["id"]
    equals the profile id given: if its service is instagram the
    lookup succeeds and reports its formatted user name; if its
    service is anything else the lookup fails, names that service
    and lists the services of all profiles; and if no profile has
    that id the lookup fails and lists what Instagram profiles there
    are, each with its id, service and user name.  Later profiles
    with the same id are never looked at. *)
Theorem buffer_lookup_goes_by_first_match W access_token profile_id t r profiles :
  transport W t
    (mkRequest "GET" "https://api.bufferapp.com/1/profiles.json"
       (JObj [("access_token", JStr access_token)])) = Responded r ->
  status_code r = 200 ->
  json_value r = Some (JArr (map JObj profiles)) ->
  fst (BufferInstagramTool._verify_profile W access_token profile_id t)
  = Ret (match find (fun p => Json.eq_str (entry "id" p) profile_id) profiles with
         | Some p =>
             if Json.eq_str (entry "service" p) "instagram" then
               JObj [("success", JBool true);
                     ("profile_name", entry "formatted_username" p);
                     ("service", entry "service" p)]
             else
               JObj [("success", JBool false);
                     ("error",
                      JStr ("Profile " ++ profile_id ++ " is not an Instagram profile"));
                     ("actual_service", entry "service" p);
                     ("available_services", JArr (map (entry "service") profiles))]
         | None =>
             JObj [("success", JBool false);
                   ("error", JStr ("Profile ID " ++ profile_id ++ " not found"));
                   ("available_instagram_profiles",
                    JArr (map (fun p => JObj [("id", entry "id" p);
                                              ("service", entry "service" p);
                                              ("username", entry "formatted_username" p)])
                            (filter (fun p => Json.eq_str (entry "service" p) "instagram")
                               profiles)))]
         end).
Proof.
  intros T S J.
  rewrite (buffer_verify_answered W access_token profile_id t r T).
  unfold try_except, bind, lift, requests.json. rewrite S, J. cbn [Z.eqb Pos.eqb Json.iter].
  rewrite find_profile_objects.
  destruct (find _ profiles) as [p|] eqn:F; cbn [option_map].
  - rewrite (matched_profile_truthy profile_id profiles p F).
    cbn [Json.get]. fold (entry "service" p).
    destruct (Json.eq_str (entry "service" p) "instagram"); cbn [negb].
    + reflexivity.
    + rewrite services_objects. reflexivity.
  - rewrite available_profiles_objects. reflexivity.
Qed.

Lemma buffer_lookup_goes_by_first_match_witness :
  fst (BufferInstagramTool._verify_profile
         (Sample.world Sample.configured_env
            (Sample.always
               (Sample.json_response 200
                  (JArr [JObj [("id", JStr "p0"); ("service", JStr "twitter")];
                         JObj [("id", JStr "p1"); ("service", JStr "facebook")];
                         JObj [("id", JStr "p1"); ("service", JStr "instagram")]]))))
         "buffer-access-token" "p1" [])
  = Ret (JObj [("success", JBool false);
               ("error", JStr "Profile p1 is not an Instagram profile");
               ("actual_service", JStr "facebook");
               ("available_services",
                JArr [JStr "twitter"; JStr "facebook"; JStr "instagram"])]).
Proof.
  apply (buffer_lookup_goes_by_first_match
           (Sample.world Sample.configured_env
              (Sample.always
                 (Sample.json_response 200
                    (JArr [JObj [("id", JStr "p0"); ("service", JStr "twitter")];
                           JObj [("id", JStr "p1"); ("service", JStr "facebook")];
                           JObj [("id", JStr "p1"); ("service", JStr "instagram")]]))))
           "buffer-access-token" "p1" []
           (Sample.json_response 200
              (JArr [JObj [("id", JStr "p0"); ("service", JStr "twitter")];
                     JObj [("id", JStr "p1"); ("service", JStr "facebook")];
                     JObj [("id", JStr "p1"); ("service", JStr "instagram")]]))
           [[("id", JStr "p0"); ("service", JStr "twitter")];
            [("id", JStr "p1"); ("service", JStr "facebook")];
            [("id", JStr "p1"); ("service", JStr "instagram")]]);
    reflexivity.
Defined.

Lemma after_prefix_app (p s rest : string) :
  after_prefix p s = Some rest -> s = p ++ rest.
Proof.
  revert s. induction p as [|a p IH]; intros s H.
  - cbn in H. injection H as <-. reflexivity.
  - destruct s as [|b s]; [discriminate H|]. cbn [after_prefix] in H.
    destruct (Ascii.eqb a b) eqn:E; [|discriminate H].
    apply Ascii.eqb_eq in E. subst b. cbn [append]. f_equal. apply IH, H.
Qed.

(** [requests] raises nothing on a plain URL. *)
Lemma plain_http_url_sendable (url : string) :
  plain_http_url url = true -> requests.url_fault url = None.
Proof.
  unfold plain_http_url, after_scheme. intros H.
  destruct (after_prefix "https://" url) as [rest|] eqn:S.
  - apply after_prefix_app in S. subst url. reflexivity.
  - destruct (after_prefix "http://" url) as [rest|] eqn:P; [|discriminate H].
    apply after_prefix_app in P. subst url. reflexivity.
Qed.

(** X12 (buffer_instagram_tool.py, _validate_media_url).  A plain
    media URL (http or https, a host name, and nothing more or a path
    of visible ASCII characters) is probed with one HEAD request, and
    when the server answers the probe succeeds exactly when the
    answer has status 200 and its content type is absent, empty, or
    starts with [image/] in any letter case.  A different status is
    reported with the status, a different content type with the type
    in lower case, and both reports name the URL. *)
Theorem buffer_media_probe_accepts_images W media_url t r :
  plain_http_url media_url = true ->
  transport W t (mkRequest "HEAD" media_url JNull) = Responded r ->
  let header := match content_type r with Some s => s | None => "" end in
  let content_type := Py.lower header in
  exists d,
    BufferInstagramTool._validate_media_url W media_url t
    = (Ret d, (t ++ [mkRequest "HEAD" media_url JNull])%list)
    /\ (success_of d = true
        <-> status_code r = 200
            /\ (content_type = "" \/ Py.startswith "image/" content_type = true))
    /\ (status_code r <> 200 ->
        d = JObj [("success", JBool false);
                  ("error", JStr ("Media URL is not accessible: "
                                  ++ Py.str_of_Z (status_code r)));
                  ("url", JStr media_url)])
    /\ (status_code r = 200 -> content_type <> "" ->
        Py.startswith "image/" content_type = false ->
        exists shown,
          d = JObj [("success", JBool false);
                    ("error", JStr ("URL does not appear to be an image. Content-Type: "
                                    ++ shown));
                    ("url", JStr media_url)]
          /\ (is_ascii header = true -> shown = content_type)).
Proof.
  intros P T header content_type.
  pose proof (plain_http_url_sendable media_url P) as U.
  unfold BufferInstagramTool._validate_media_url, try_except, bind, requests.head.
  rewrite (request_answered _ _ _ _ _ _ U T).
  unfold requests.content_type_or_empty. fold header. fold content_type.
  destruct (status_code r =? 200) eqn:S; cbn [negb].
  - apply Z.eqb_eq in S.
    destruct (Py.truthy content_type) eqn:C; cbn [andb].
    + assert (NE : content_type <> "").
      { intros E. rewrite E in C. discriminate. }
      destruct (Py.startswith "image/" content_type) eqn:I; cbn [negb];
        eexists; (split; [reflexivity|]).
      * split; [split; [intros _; split; [exact S|right; reflexivity]|reflexivity]|].
        split; [intros N; contradiction|intros _ _ F; discriminate].
      * split; [split; [discriminate|intros (_ & [E|E]); [contradiction|discriminate]]|].
        split; [intros N; contradiction|].
        intros _ _ _. eexists. split; [reflexivity|intros _; reflexivity].
    + assert (E : content_type = "").
      { destruct content_type; [reflexivity|discriminate]. }
      eexists. split; [reflexivity|].
      split; [split; [intros _; split; [exact S|left; exact E]|reflexivity]|].
      split; [intros N; contradiction|intros _ N; contradiction].
  - apply Z.eqb_neq in S.
    eexists. split; [reflexivity|].
    split; [split; [discriminate|intros (E & _); contradiction]|].
    split; [intros _; reflexivity|intros E; contradiction].
Qed.

Lemma buffer_media_probe_accepts_images_witness :
  success_of
    (match fst (BufferInstagramTool._validate_media_url
                  (Sample.world Sample.no_env
                     (Sample.always (mkResponse 200 "" None (Some "Image/PNG") NotJson)))
                  "https://example.com/a.png" []) with
     | Ret d => d
     | Raise _ => JNull
     end) = true.
Proof.
  destruct (buffer_media_probe_accepts_images
              (Sample.world Sample.no_env
                 (Sample.always (mkResponse 200 "" None (Some "Image/PNG") NotJson)))
              "https://example.com/a.png" []
              (mkResponse 200 "" None (Some "Image/PNG") NotJson) eq_refl eq_refl)
    as (d & E & I & _).
  rewrite E. apply I. split; [reflexivity|right; reflexivity].
Defined.

(** ** The Buffer adapter: the posting call and its reports *)

Section BufferPosting.

Variable W : World.
Variables (access_token profile_id text : string).
Variable media : option string.
Variable scheduled_at : option Z.
Variable top : bool.
Variables t t2 : list Request.

Hypothesis reaches :
  buffer_reaches_posting W access_token profile_id text media scheduled_at t t2.

Local Notation "'posting_request'" :=
  (BufferInstagramTool.posting_request access_token profile_id text media scheduled_at top).
Local Notation "'run'" :=
  (BufferInstagramTool.run_result W profile_id text media scheduled_at top t).

Lemma buffer_run_normalized r :
  transport W t2 posting_request = Responded r ->
  run
  = try_except (BufferInstagramTool.normalize text media r)
      [(Exn.is_RequestException, fun e =>
          ret (JObj [("success", JBool false);
                     ("error",
                      JStr ("Network error connecting to Buffer API: " ++ Exn.str e));
                     ("troubleshooting",
                      JStr "Check your internet connection and Buffer API status")]));
       (Exn.is_Exception, fun e =>
          ret (JObj [("success", JBool false);
                     ("error", JStr ("Unexpected error: " ++ Exn.str e));
                     ("type", JStr (Exn.name e))]))]
      (t2 ++ [posting_request])%list.
Proof.
  intros T.
  destruct reaches as ((K & KT & P & X & pc & t1 & checked & V & S & MC & SC) & PS).
  unfold BufferInstagramTool.run_result, try_except, bind.
  rewrite K. cbn [Py.truthy_opt str_opt]. rewrite KT, P, X.
  cbn [negb orb]. rewrite V, S. cbn [negb]. rewrite MC, SC. cbn [negb]. rewrite PS.
  unfold BufferInstagramTool._make_api_request.
  change ((Py.upper "POST" =? "GET")%string) with false. cbv iota.
  unfold requests.post, requests.request.
  change (requests.url_fault BufferInstagramTool.api_url) with (@None exn).
  cbv iota.
  change (mkRequest "POST" BufferInstagramTool.api_url _) with posting_request.
  rewrite T. reflexivity.
Qed.

Lemma buffer_run_posting_failed e :
  transport W t2 posting_request = Failed e ->
  run
  = (Ret (if Exn.is_RequestException e
          then JObj [("success", JBool false);
                     ("error",
                      JStr ("Network error connecting to Buffer API: " ++ Exn.str e));
                     ("troubleshooting",
                      JStr "Check your internet connection and Buffer API status")]
          else JObj [("success", JBool false);
                     ("error", JStr ("Unexpected error: " ++ Exn.str e));
                     ("type", JStr (Exn.name e))]),
     (t2 ++ [posting_request])%list).
Proof.
  intros T.
  destruct reaches as ((K & KT & P & X & pc & t1 & checked & V & S & MC & SC) & PS).
  unfold BufferInstagramTool.run_result, try_except, bind.
  rewrite K. cbn [Py.truthy_opt str_opt]. rewrite KT, P, X.
  cbn [negb orb]. rewrite V, S. cbn [negb]. rewrite MC, SC. cbn [negb]. rewrite PS.
  unfold BufferInstagramTool._make_api_request.
  change ((Py.upper "POST" =? "GET")%string) with false. cbv iota.
  unfold requests.post, requests.request.
  change (requests.url_fault BufferInstagramTool.api_url) with (@None exn).
  cbv iota.
  change (mkRequest "POST" BufferInstagramTool.api_url _) with posting_request.
  rewrite T. cbn [dispatch]. cbv [Exn.is_Exception].
  destruct (Exn.is_RequestException e); reflexivity.
Qed.

End BufferPosting.

(** X13 (buffer_instagram_tool.py, _run, lines 159-203).  How an
    answer to the posting call that does not report a created update
    is classified.  With a status other than 200 and 429 the report
    is a Buffer API error that repeats the status, with the body's
    ["error"] as details when the body is a JSON object that has one
    and the words Unknown error when it has none or the body is
    empty; but a body that is not empty and not JSON is reported as
    a network error, and one on which the decoder gives up, or that
    decodes to a list, as an unexpected error.  With status 200, a
    JSON object without updates is reported as an unexpected response
    format, and handed back. *)
Theorem buffer_answer_classification W access_token profile_id caption media scheduled_at top
    t t2 r :
  buffer_reaches_posting W access_token profile_id caption media scheduled_at t t2 ->
  transport W t2
    (BufferInstagramTool.posting_request access_token profile_id caption media
       scheduled_at top) = Responded r ->
  let result :=
    fst (BufferInstagramTool.run_result W profile_id caption media scheduled_at top t) in
  let api_error details :=
    Ret (JObj [("success", JBool false);
               ("error", JStr ("Buffer API error: " ++ Py.str_of_Z (status_code r)));
               ("details", details);
               ("status_code", JNum (status_code r))]) in
  (status_code r <> 200 -> status_code r <> 429 -> text r = "" ->
   result = api_error (JStr "Unknown error"))
  /\ (forall kv, status_code r <> 200 -> status_code r <> 429 -> text r <> "" ->
      json_value r = Some (JObj kv) ->
      result = api_error (match Json.lookup "error" kv with
                          | Some details => details
                          | None => JStr "Unknown error"
                          end))
  /\ (status_code r <> 200 -> status_code r <> 429 -> text r <> "" ->
      json_value r = None -> json_refusal r = NotJson ->
      exists detail,
        result
        = Ret (JObj [("success", JBool false);
                     ("error",
                      JStr ("Network error connecting to Buffer API: " ++ detail));
                     ("troubleshooting",
                      JStr "Check your internet connection and Buffer API status")]))
  /\ (status_code r <> 200 -> status_code r <> 429 -> text r <> "" ->
      json_value r = None -> json_refusal r <> NotJson ->
      exists detail kind,
        result
        = Ret (JObj [("success", JBool false);
                     ("error", JStr ("Unexpected error: " ++ detail));
                     ("type", JStr kind)])
        /\ (kind = "ValueError" \/ kind = "RecursionError"))
  /\ (forall l, status_code r <> 200 -> status_code r <> 429 -> text r <> "" ->
      json_value r = Some (JArr l) ->
      result
      = Ret (JObj [("success", JBool false);
                   ("error",
                    JStr "Unexpected error: 'list' object has no attribute 'get'");
                   ("type", JStr "AttributeError")]))
  /\ (forall kv, status_code r = 200 -> json_value r = Some (JObj kv) ->
      Json.lookup "updates" kv = None \/ Json.lookup "updates" kv = Some (JArr []) ->
      result
      = Ret (JObj [("success", JBool false);
                   ("error", JStr "Unexpected response format from Buffer API");
                   ("response", JObj kv)])).
Proof.
  intros R T result api_error. subst result api_error. cbv beta.
  rewrite (buffer_run_normalized W access_token profile_id caption media scheduled_at top
             t t2 R r T).
  unfold try_except, BufferInstagramTool.normalize, requests.has_content.
  assert (NE : text r <> "" -> Py.truthy (text r) = true).
  { intros N. destruct (text r); [contradiction|reflexivity]. }
  repeat split.
  - intros N1 N2 E. apply Z.eqb_neq in N1, N2. rewrite N1, N2, E. reflexivity.
  - intros kv N1 N2 E J. apply Z.eqb_neq in N1, N2. rewrite N1, N2, (NE E).
    unfold bind, lift, requests.json. rewrite J. cbn [Json.get fst].
    destruct (Json.lookup "error" kv); reflexivity.
  - intros N1 N2 E J N. apply Z.eqb_neq in N1, N2. rewrite N1, N2, (NE E).
    unfold bind, lift, requests.json, requests.decode_error. rewrite J, N. cbn.
    eexists. reflexivity.
  - intros N1 N2 E J N. apply Z.eqb_neq in N1, N2. rewrite N1, N2, (NE E).
    unfold bind, lift, requests.json, requests.decode_error. rewrite J.
    destruct (json_refusal r); [contradiction| |]; cbn; eexists; eexists;
      (split; [reflexivity|auto]).
  - intros l N1 N2 E J. apply Z.eqb_neq in N1, N2. rewrite N1, N2, (NE E).
    unfold bind, lift, requests.json. rewrite J. reflexivity.
  - intros kv E J U. rewrite E, Z.eqb_refl.
    unfold bind, lift, requests.json. rewrite J.
    unfold Json.contains, Json.getitem.
    destruct U as [U|U]; rewrite U; reflexivity.
Qed.

Lemma sample_buffer_reaches_posting (r : Response) (text : string) :
  Py.truthy text = true ->
  buffer_reaches_posting (Sample.world Sample.configured_env (buffer_net_answering r))
    "buffer-access-token" "p1" text None None []
    [mkRequest "GET" BufferInstagramTool.profiles_url
       (JObj [("access_token", JStr "buffer-access-token")])].
Proof.
  intros X. split; [|reflexivity].
  split; [reflexivity|]. split; [reflexivity|]. split; [reflexivity|].
  split; [exact X|].
  eexists. eexists. eexists.
  split; [vm_compute; reflexivity|].
  split; [reflexivity|]. split; reflexivity.
Qed.

Lemma buffer_answer_classification_witness :
  fst (BufferInstagramTool.run_result
         (Sample.world Sample.configured_env
            (buffer_net_answering
               (Sample.json_response 403 (JObj [("error", JStr "Plan limit reached")]))))
         "p1" "Hello world" None None false [])
  = Ret (JObj [("success", JBool false);
               ("error", JStr "Buffer API error: 403");
               ("details", JStr "Plan limit reached");
               ("status_code", JNum 403)])
  /\ field "troubleshooting"
       (match fst (BufferInstagramTool.run_result
                     (Sample.world Sample.configured_env
                        (buffer_net_answering (Sample.plain_response 502 "Bad Gateway")))
                     "p1" "Hello world" None None false []) with
        | Ret d => d
        | Raise _ => JNull
        end)
     = Some (JStr "Check your internet connection and Buffer API status").
Proof.
  split.
  - destruct (buffer_answer_classification
                (Sample.world Sample.configured_env
                   (buffer_net_answering
                      (Sample.json_response 403
                         (JObj [("error", JStr "Plan limit reached")]))))
                "buffer-access-token" "p1" "Hello world" None None false [] _
                (Sample.json_response 403 (JObj [("error", JStr "Plan limit reached")]))
                (sample_buffer_reaches_posting _ "Hello world" eq_refl) eq_refl)
      as (_ & H & _).
    apply (H [("error", JStr "Plan limit reached")]); try discriminate; reflexivity.
  - destruct (buffer_answer_classification
                (Sample.world Sample.configured_env
                   (buffer_net_answering (Sample.plain_response 502 "Bad Gateway")))
                "buffer-access-token" "p1" "Hello world" None None false [] _
                (Sample.plain_response 502 "Bad Gateway")
                (sample_buffer_reaches_posting _ "Hello world" eq_refl) eq_refl)
      as (_ & _ & H & _).
    destruct H as (detail & E);
      [discriminate|discriminate|discriminate|reflexivity|reflexivity|].
    rewrite E. reflexivity.
Defined.

(** X14 (buffer_instagram_tool.py, _run, lines 159-182).  The report
    of a created update: the update's id, status, schedule and
    service as Buffer returned them (null where absent), the number
    of characters of the caption as given, and whether a media
    argument was passed at all.  The update counts as published, with the publication
    time added at the end of the report, exactly when it carries a
    ["posted_at"] that is not empty; otherwise it is reported as
    created in Buffer. *)
Theorem buffer_success_report W access_token profile_id caption media scheduled_at top
    t t2 r update :
  buffer_reaches_posting W access_token profile_id caption media scheduled_at t t2 ->
  transport W t2
    (BufferInstagramTool.posting_request access_token profile_id caption media
       scheduled_at top) = Responded r ->
  buffer_created r update ->
  let posted := Json.truthy (entry "posted_at" update) in
  fst (BufferInstagramTool.run_result W profile_id caption media scheduled_at top t)
  = Ret (JObj ([("success", JBool true);
                ("buffer_id", entry "id" update);
                ("status", entry "status" update);
                ("scheduled_at", entry "scheduled_at" update);
                ("profile_service", entry "profile_service" update);
                ("text_length", JNum (Py.len caption));
                ("has_media", JBool (match media with Some _ => true | None => false end));
                ("message",
                 JStr (if posted
                       then "Post successfully published to Instagram"
                       else "Post successfully created in Buffer"))]
               ++ (if posted then [("posted_at", entry "posted_at" update)] else []))).
Proof.
  intros R T (St & kv & rest & J & U) posted.
  rewrite (buffer_run_normalized W access_token profile_id caption media scheduled_at top
             t t2 R r T).
  unfold try_except, BufferInstagramTool.normalize, bind, lift, requests.json.
  rewrite St, J, Z.eqb_refl.
  unfold Json.contains at 1. unfold Json.getitem at 1. rewrite U.
  cbn [Json.len List.length Json.first Json.get andb].
  replace (Z.of_nat (S (Datatypes.length rest)) >? 0) with true
    by (symmetry; apply Z.gtb_lt; lia).
  cbv iota.
  fold (entry "id" update) (entry "status" update) (entry "scheduled_at" update)
    (entry "profile_service" update).
  unfold Json.contains, Json.getitem, posted, entry.
  destruct (Json.lookup "posted_at" update) as [v|]; cbn [andb ret fst Json.truthy].
  - destruct (Json.truthy v); reflexivity.
  - reflexivity.
Qed.

Lemma buffer_success_report_witness :
  fst (BufferInstagramTool.run_result
         (Sample.world Sample.configured_env
            (buffer_net_answering
               (Sample.json_response 200
                  (JObj [("updates",
                          JArr [JObj [("id", JStr "upd-1");
                                      ("posted_at", JNum 1735689700)]])]))))
         "p1" "café" None None false [])
  = Ret (JObj [("success", JBool true);
               ("buffer_id", JStr "upd-1");
               ("status", JNull);
               ("scheduled_at", JNull);
               ("profile_service", JNull);
               ("text_length", JNum 4);
               ("has_media", JBool false);
               ("message", JStr "Post successfully published to Instagram");
               ("posted_at", JNum 1735689700)]).
Proof.
  apply (buffer_success_report
           (Sample.world Sample.configured_env
              (buffer_net_answering
                 (Sample.json_response 200
                    (JObj [("updates",
                            JArr [JObj [("id", JStr "upd-1");
                                        ("posted_at", JNum 1735689700)]])]))))
           "buffer-access-token" "p1" "café" None None false [] _
           (Sample.json_response 200
              (JObj [("updates",
                      JArr [JObj [("id", JStr "upd-1");
                                  ("posted_at", JNum 1735689700)]])]))
           [("id", JStr "upd-1"); ("posted_at", JNum 1735689700)]
           (sample_buffer_reaches_posting _ "café" eq_refl) eq_refl).
  split; [reflexivity|]. eexists. eexists. split; reflexivity.
Defined.

(** X15 (buffer_instagram_tool.py, _run lines 134-154 and 173).  The
    form data of the posting call: the access token, the profile id,
    the caption as given and the queue position as the word true or
    false; the media link exactly when the media argument is a
    non-empty string, and the schedule exactly when the timestamp is
    given and not zero; nothing else.  So an empty media string and
    a zero timestamp are sent as if they had not been given. *)
Theorem buffer_form_data access_token profile_id caption media scheduled_at top :
  let data :=
    BufferInstagramTool.build_post_data access_token profile_id caption media
      scheduled_at top in
  BufferInstagramTool.posting_request access_token profile_id caption media scheduled_at top
  = mkRequest "POST" "https://api.bufferapp.com/1/updates/create.json" (JObj data)
  /\ Json.lookup "access_token" data = Some (JStr access_token)
  /\ Json.lookup "profile_ids[]" data = Some (JStr profile_id)
  /\ Json.lookup "text" data = Some (JStr caption)
  /\ Json.lookup "top" data = Some (JStr (if top then "true" else "false"))
  /\ Json.lookup "media[link]" data
     = match media with
       | Some m => if (m =? "")%string then None else Some (JStr m)
       | None => None
       end
  /\ Json.lookup "scheduled_at" data
     = match scheduled_at with
       | Some s => if s =? 0 then None else Some (JNum s)
       | None => None
       end
  /\ (forall k, In k (map fst data) ->
      In k ["access_token"; "profile_ids[]"; "text"; "top"; "media[link]"; "scheduled_at"]).
Proof.
  intros data. subst data. unfold BufferInstagramTool.build_post_data.
  split; [reflexivity|].
  destruct media as [m|]; cbn [Py.truthy_opt str_opt];
    [unfold Py.truthy; destruct (m =? "")%string eqn:M; cbn [negb]|];
    (destruct scheduled_at as [s|]; cbn [BufferInstagramTool.truthy_int];
     [destruct (s =? 0); cbn [negb]|]);
    cbn [Json.set Json.lookup String.eqb Ascii.eqb Bool.eqb map fst];
    repeat split; try reflexivity; try discriminate;
    try (intros k I; cbn in *; intuition).
Qed.

(** X16 (buffer_instagram_tool.py, _run, _verify_profile and
    _validate_media_url: the except clauses).  A transport failure is
    reported by the stage it happens in.  At the profile lookup every
    exception is caught by the lookup itself and reported as an error
    verifying the profile.  At the probe of the media URL an
    exception of [requests] is reported as a media URL that cannot be
    accessed, and any other exception falls through to [_run], which
    reports an unexpected error with the exception's type.  Only at
    the posting call is an exception of [requests] reported as a
    network error connecting to Buffer.  No later request is sent. *)
Theorem buffer_failure_by_stage W access_token profile_id caption media scheduled_at top t :
  getenv W "BUFFER_API_KEY" = Some access_token ->
  Py.truthy access_token = true ->
  Py.truthy profile_id = true ->
  Py.truthy caption = true ->
  let run := BufferInstagramTool.run_result W profile_id caption media scheduled_at top t in
  let lookup :=
    mkRequest "GET" "https://api.bufferapp.com/1/profiles.json"
      (JObj [("access_token", JStr access_token)]) in
  (forall e, transport W t lookup = Failed e ->
     run = (Ret (JObj [("success", JBool false);
                       ("error", JStr ("Error verifying profile: " ++ Exn.str e))]),
            (t ++ [lookup])%list))
  /\ (forall profile_check m e,
        BufferInstagramTool._verify_profile W access_token profile_id t
        = (Ret profile_check, (t ++ [lookup])%list) ->
        success_of profile_check = true ->
        media = Some m -> Py.truthy m = true -> requests.url_fault m = None ->
        transport W (t ++ [lookup])%list (mkRequest "HEAD" m JNull) = Failed e ->
        run
        = (Ret (if Exn.is_RequestException e
                then JObj [("success", JBool false);
                           ("error", JStr ("Cannot access media URL: " ++ Exn.str e));
                           ("url", JStr m)]
                else JObj [("success", JBool false);
                           ("error", JStr ("Unexpected error: " ++ Exn.str e));
                           ("type", JStr (Exn.name e))]),
           (t ++ [lookup; mkRequest "HEAD" m JNull])%list))
  /\ (forall t2 e,
        buffer_reaches_posting W access_token profile_id caption media scheduled_at t t2 ->
        transport W t2
          (BufferInstagramTool.posting_request access_token profile_id caption media
             scheduled_at top) = Failed e ->
        run
        = (Ret (if Exn.is_RequestException e
                then JObj [("success", JBool false);
                           ("error",
                            JStr ("Network error connecting to Buffer API: "
                                  ++ Exn.str e));
                           ("troubleshooting",
                            JStr "Check your internet connection and Buffer API status")]
                else JObj [("success", JBool false);
                           ("error", JStr ("Unexpected error: " ++ Exn.str e));
                           ("type", JStr (Exn.name e))]),
           (t2 ++ [BufferInstagramTool.posting_request access_token profile_id caption
                     media scheduled_at top])%list)).
Proof.
  intros K KT P X run lookup. subst run. split; [|split].
  - intros e F.
    apply (buffer_run_lookup_failed W access_token profile_id caption media scheduled_at
             top K KT P X t _ _
             (buffer_verify_failed W access_token profile_id t e F)).
    reflexivity.
  - intros pc m e V S -> M U F.
    assert (MC : BufferInstagramTool.media_check W (Some m) (t ++ [lookup])%list
                 = (if Exn.is_RequestException e
                    then Ret (JObj [("success", JBool false);
                                    ("error",
                                     JStr ("Cannot access media URL: " ++ Exn.str e));
                                    ("url", JStr m)])
                    else Raise e,
                    ((t ++ [lookup]) ++ [mkRequest "HEAD" m JNull])%list)).
    { unfold BufferInstagramTool.media_check. cbn [Py.truthy_opt str_opt]. rewrite M.
      unfold BufferInstagramTool._validate_media_url, try_except, bind, requests.head.
      rewrite (request_failed _ _ _ _ _ _ U F). cbn [dispatch].
      destruct (Exn.is_RequestException e); reflexivity. }
    replace (t ++ [lookup; mkRequest "HEAD" m JNull])%list
      with ((t ++ [lookup]) ++ [mkRequest "HEAD" m JNull])%list
      by (rewrite <- app_assoc; reflexivity).
    destruct (Exn.is_RequestException e) eqn:C.
    + apply (buffer_run_media_refused W access_token profile_id caption (Some m)
               scheduled_at top K KT P X t _ pc V _ _ S MC). reflexivity.
    + rewrite (buffer_run_media_raised W access_token profile_id caption (Some m)
                 scheduled_at top K KT P X t _ pc V S e _ MC), C. reflexivity.
  - intros t2 e R F.
    apply (buffer_run_posting_failed W access_token profile_id caption media scheduled_at
             top t t2 R e F).
Qed.

Lemma buffer_failure_by_stage_witness :
  BufferInstagramTool.run_result
    (Sample.world Sample.configured_env
       (fun _ _ => Failed (ConnectionError "Connection refused")))
    "p1" "Hello world" None None false []
  = (Ret (JObj [("success", JBool false);
                ("error", JStr "Error verifying profile: Connection refused")]),
     [mkRequest "GET" "https://api.bufferapp.com/1/profiles.json"
        (JObj [("access_token", JStr "buffer-access-token")])]).
Proof.
  destruct (buffer_failure_by_stage
              (Sample.world Sample.configured_env
                 (fun _ _ => Failed (ConnectionError "Connection refused")))
              "buffer-access-token" "p1" "Hello world" None None false []
              eq_refl eq_refl eq_refl eq_refl) as (H & _).
  apply (H (ConnectionError "Connection refused")). reflexivity.
Defined.

(** ** The Graph API adapter: reports and requests of every run *)

Ltac known_code := cbn [In instagram_error_codes]; repeat first [left; reflexivity | right].

Ltac failure_report :=
  split; [reflexivity|]; eexists; eexists;
  split; [reflexivity|]; split; [reflexivity|known_code].

Lemma instagram_info_report W access_token t :
  exists d,
    InstagramPostingTool._get_instagram_account_info W access_token t
    = (Ret d, (t ++ [instagram_lookup_request access_token])%list)
    /\ ((exists account,
           d = JObj [("success", JBool true); ("account_id", account)])
        \/ instagram_failure d).
Proof.
  unfold InstagramPostingTool._get_instagram_account_info, try_except, bind,
    requests.get, requests.request.
  change (requests.url_fault (InstagramPostingTool.graph ++ "me")) with (@None exn).
  cbv iota.
  change (mkRequest "GET" (InstagramPostingTool.graph ++ "me") _)
    with (instagram_lookup_request access_token).
  destruct (transport W t (instagram_lookup_request access_token)) as [r|e].
  - destruct (status_code r =? 429);
      [eexists; split; [reflexivity|right; failure_report]|].
    destruct (negb (status_code r =? 200)).
    + unfold lift. destruct (InstagramPostingTool.error_message r) as [m|e];
        [|cbn [dispatch]; cbv [Exn.is_Exception]; destruct (Exn.is_Timeout e)];
        (eexists; split; [reflexivity|right; failure_report]).
    + unfold lift.
      destruct (requests.json r) as [data|e];
        [|cbn [dispatch]; cbv [Exn.is_Exception]; destruct (Exn.is_Timeout e);
          (eexists; split; [reflexivity|right; failure_report])].
      destruct (Json.get "accounts" (JObj []) data) as [a|e];
        [|cbn [dispatch]; cbv [Exn.is_Exception]; destruct (Exn.is_Timeout e);
          (eexists; split; [reflexivity|right; failure_report])].
      destruct (Json.get "data" (JArr []) a) as [accounts|e];
        [|cbn [dispatch]; cbv [Exn.is_Exception]; destruct (Exn.is_Timeout e);
          (eexists; split; [reflexivity|right; failure_report])].
      destruct (Json.iter accounts) as [items|e];
        [|cbn [dispatch]; cbv [Exn.is_Exception]; destruct (Exn.is_Timeout e);
          (eexists; split; [reflexivity|right; failure_report])].
      destruct (InstagramPostingTool.find_account items) as [[i|]|e];
        [| |cbn [dispatch]; cbv [Exn.is_Exception]; destruct (Exn.is_Timeout e);
            (eexists; split; [reflexivity|right; failure_report])].
      * eexists. split; [reflexivity|]. left. eexists. reflexivity.
      * eexists. split; [reflexivity|]. right. failure_report.
  - cbn [dispatch]. cbv [Exn.is_Exception]. destruct (Exn.is_Timeout e);
      (eexists; split; [reflexivity|right; failure_report]).
Qed.

Lemma instagram_container_report W account caption image_url access_token t :
  exists d,
    InstagramPostingTool._create_media_container W account "image" caption image_url
      access_token t
    = (Ret d,
       (t ++ [instagram_container_request account caption image_url access_token])%list)
    /\ ((exists container_id,
           d = JObj [("success", JBool true); ("container_id", container_id)])
        \/ instagram_failure d).
Proof.
  unfold InstagramPostingTool._create_media_container.
  change (("image" =? "image")%string) with true. cbv iota.
  unfold try_except, bind, requests.post, requests.request.
  rewrite (url_fault_graph (Json.str account ++ "/media")).
  change (mkRequest "POST" (InstagramPostingTool.graph ++ Json.str account ++ "/media") _)
    with (instagram_container_request account caption image_url access_token).
  destruct (transport W t _) as [r|e].
  - destruct (status_code r =? 429);
      [eexists; split; [reflexivity|right; failure_report]|].
    destruct (negb (status_code r =? 200)).
    + unfold lift. destruct (InstagramPostingTool.error_message r) as [m|e];
        [|cbn [dispatch]; cbv [Exn.is_Exception]; destruct (Exn.is_Timeout e);
          (eexists; split; [reflexivity|right; failure_report])].
      destruct (Json.contains "Invalid image URL" m) as [[|]|e];
        [| |cbn [dispatch]; cbv [Exn.is_Exception]; destruct (Exn.is_Timeout e)];
        (eexists; split; [reflexivity|right; failure_report]).
    + unfold lift.
      destruct (requests.json r) as [data|e];
        [|cbn [dispatch]; cbv [Exn.is_Exception]; destruct (Exn.is_Timeout e);
          (eexists; split; [reflexivity|right; failure_report])].
      destruct (Json.get "id" JNull data) as [c|e];
        [|cbn [dispatch]; cbv [Exn.is_Exception]; destruct (Exn.is_Timeout e);
          (eexists; split; [reflexivity|right; failure_report])].
      destruct (negb (Json.truthy c)).
      * eexists. split; [reflexivity|]. right. failure_report.
      * eexists. split; [reflexivity|]. left. eexists. reflexivity.
  - cbn [dispatch]. cbv [Exn.is_Exception]. destruct (Exn.is_Timeout e);
      (eexists; split; [reflexivity|right; failure_report]).
Qed.

Lemma instagram_text_container W account post_type caption image_url access_token t :
  (post_type =? "image")%string = false ->
  InstagramPostingTool._create_media_container W account post_type caption image_url
    access_token t
  = (Ret (JObj [("success", JBool false);
                ("error", JStr "Instagram Graph API does not support text-only posts. Please use an image with your caption or consider using Instagram's native posting features.");
                ("error_code", JStr "TEXT_POSTS_NOT_SUPPORTED")]), t).
Proof.
  intros E. unfold InstagramPostingTool._create_media_container, try_except.
  rewrite E. reflexivity.
Qed.

Lemma instagram_publish_params container_id access_token scheduled :
  match scheduled with
  | Some s =>
      if InstagramPostingTool.truthy_int scheduled
      then Json.set "scheduled_publish_time" (JNum s)
             (Json.set "published" (JStr "false")
                [("creation_id", container_id); ("access_token", JStr access_token)])
      else [("creation_id", container_id); ("access_token", JStr access_token)]
  | None => [("creation_id", container_id); ("access_token", JStr access_token)]
  end
  = ([("creation_id", container_id); ("access_token", JStr access_token)]
     ++ match scheduled with
        | Some s =>
            if s =? 0 then []
            else [("published", JStr "false"); ("scheduled_publish_time", JNum s)]
        | None => []
        end)%list.
Proof.
  destruct scheduled as [s|]; [|reflexivity].
  cbn [InstagramPostingTool.truthy_int]. destruct (s =? 0); reflexivity.
Qed.

Lemma instagram_publish_sent W account container_id access_token scheduled t :
  InstagramPostingTool._publish_media W account container_id access_token scheduled t
  = try_except
      (match transport W t
               (instagram_publish_request account container_id access_token scheduled) with
       | Responded response =>
           fun t' =>
             (if status_code response =? 429 then ret InstagramPostingTool.rate_limited
              else if negb (status_code response =? 200) then
                m <- lift (InstagramPostingTool.error_message response) ;;
                ret (JObj [("success", JBool false);
                           ("error", JStr ("Failed to publish media: " ++ Json.str m));
                           ("error_code", JStr "PUBLISH_ERROR");
                           ("status_code", JNum (status_code response))])
              else
                data <- lift (requests.json response) ;;
                media_id <- lift (Json.get "id" JNull data) ;;
                let result :=
                  [("success", JBool true);
                   ("message", JStr (if negb (InstagramPostingTool.truthy_int scheduled)
                                     then "Post published successfully"
                                     else "Post scheduled successfully"));
                   ("media_id", media_id);
                   ("instagram_post_url",
                    if Json.truthy media_id
                    then JStr ("https://www.instagram.com/p/" ++ Json.str media_id ++ "/")
                    else JNull)] in
                match scheduled with
                | Some s =>
                    if InstagramPostingTool.truthy_int scheduled
                    then ret (JObj (Json.set "scheduled_time"
                                      (JStr (isoformat W (Aware (s * 1000000) 0))) result))
                    else ret (JObj result)
                | None => ret (JObj result)
                end)
               (t' ++ [instagram_publish_request account container_id access_token
                         scheduled])%list
       | Failed e =>
           fun t' =>
             (Raise e,
              (t' ++ [instagram_publish_request account container_id access_token
                        scheduled])%list)
       end)
      [(Exn.is_Timeout, fun _ =>
          ret (JObj [("success", JBool false);
                     ("error", JStr "Request timed out while publishing media");
                     ("error_code", JStr "TIMEOUT_ERROR")]));
       (Exn.is_Exception, fun e =>
          ret (JObj [("success", JBool false);
                     ("error", JStr ("Error publishing media: " ++ Exn.str e));
                     ("error_code", JStr "PUBLISH_MEDIA_ERROR")]))]
      t.
Proof.
  unfold InstagramPostingTool._publish_media, instagram_publish_request.
  rewrite <- (instagram_publish_params container_id access_token scheduled).
  unfold try_except, bind at 1, requests.post, requests.request.
  rewrite (url_fault_graph (Json.str account ++ "/media_publish")).
  change (InstagramPostingTool.graph ++ Json.str account ++ "/media_publish")
    with ("https://graph.facebook.com/v18.0/" ++ Json.str account ++ "/media_publish").
  destruct (transport W t _); reflexivity.
Qed.

Lemma instagram_publish_report W account container_id access_token scheduled t :
  exists d,
    InstagramPostingTool._publish_media W account container_id access_token scheduled t
    = (Ret d,
       (t ++ [instagram_publish_request account container_id access_token scheduled])%list)
    /\ (field "success" d = Some (JBool true) \/ instagram_failure d).
Proof.
  rewrite instagram_publish_sent. unfold try_except.
  destruct (transport W t _) as [r|e].
  - destruct (status_code r =? 429);
      [eexists; split; [reflexivity|right; failure_report]|].
    destruct (negb (status_code r =? 200)).
    + unfold bind, lift. destruct (InstagramPostingTool.error_message r) as [m|e];
        [|cbn [dispatch]; cbv [Exn.is_Exception]; destruct (Exn.is_Timeout e)];
        (eexists; split; [reflexivity|right; failure_report]).
    + unfold bind, lift.
      destruct (requests.json r) as [data|e];
        [|cbn [dispatch]; cbv [Exn.is_Exception]; destruct (Exn.is_Timeout e);
          (eexists; split; [reflexivity|right; failure_report])].
      destruct (Json.get "id" JNull data) as [c|e];
        [|cbn [dispatch]; cbv [Exn.is_Exception]; destruct (Exn.is_Timeout e);
          (eexists; split; [reflexivity|right; failure_report])].
      destruct scheduled as [s|];
        [destruct (InstagramPostingTool.truthy_int (Some s))|];
        (eexists; split; [reflexivity|left; reflexivity]).
  - cbn [dispatch]. cbv [Exn.is_Exception]. destruct (Exn.is_Timeout e);
      (eexists; split; [reflexivity|right; failure_report]).
Qed.

Lemma instagram_schedule_report W schedule_time early :
  InstagramPostingTool.schedule_block W schedule_time = inr early ->
  instagram_failure early.
Proof.
  unfold InstagramPostingTool.schedule_block.
  destruct (Py.truthy_opt schedule_time); [|discriminate].
  destruct (fromisoformat W _) as [dt|].
  - destruct (_ <=? _); [intros E; injection E as <-; failure_report|].
    destruct (_ >? _); [intros E; injection E as <-; failure_report|discriminate].
  - intros E. injection E as <-. failure_report.
Qed.

Lemma instagram_failure_unsuccessful d : instagram_failure d -> success_of d = false.
Proof.
  intros (S & _). destruct d; try reflexivity.
  unfold field in S. unfold success_of. rewrite S. reflexivity.
Qed.

(** Every run, by the stage it ends in. *)
Lemma instagram_run_cases W post_type caption access_token image_url schedule_time t :
  exists d l,
    InstagramPostingTool.run_result W post_type caption access_token image_url
      schedule_time t = (Ret d, (t ++ l)%list)
    /\ (field "success" d = Some (JBool true) \/ instagram_failure d)
    /\ (l = []
        \/ l = [instagram_lookup_request access_token]
        \/ (post_type = "image"
            /\ exists account,
                 l = [instagram_lookup_request access_token;
                      instagram_container_request account caption image_url access_token]
                 \/ exists container_id scheduled,
                      l = [instagram_lookup_request access_token;
                           instagram_container_request account caption image_url
                             access_token;
                           instagram_publish_request account container_id access_token
                             scheduled])).
Proof.
  destruct (((post_type =? "text") || (post_type =? "image"))%string) eqn:TY.
  2:{ eexists. exists []. rewrite app_nil_r. split.
      - unfold InstagramPostingTool.run_result, try_except. rewrite TY. reflexivity.
      - split; [right; failure_report|left; reflexivity]. }
  destruct ((post_type =? "image")%string && negb (Py.truthy_opt image_url)) eqn:IM.
  { eexists. exists []. rewrite app_nil_r. split.
    - unfold InstagramPostingTool.run_result, try_except. rewrite TY, IM. reflexivity.
    - split; [right; failure_report|left; reflexivity]. }
  destruct (InstagramPostingTool.schedule_block W schedule_time) as [scheduled|early] eqn:SB.
  2:{ exists early, []. rewrite app_nil_r. split.
      - apply (instagram_run_schedule_refused W post_type caption access_token image_url
                 schedule_time t TY IM early SB).
      - split; [right; apply (instagram_schedule_report W schedule_time early SB)
               |left; reflexivity]. }
  destruct (instagram_info_report W access_token t) as (ui & IE & [(account & UI)|F]).
  2:{ exists ui, [instagram_lookup_request access_token]. split.
      - apply (instagram_run_lookup_failed W post_type caption access_token image_url
                 schedule_time t TY IM scheduled SB _ ui IE
                 (instagram_failure_unsuccessful ui F)).
      - split; [right; exact F|right; left; reflexivity]. }
  subst ui.
  destruct (Bool.bool_dec (post_type =? "image")%string true) as [PI|PI].
  2:{ apply not_true_is_false in PI.
      eexists. exists [instagram_lookup_request access_token]. split.
      - apply (instagram_run_container_failed W post_type caption access_token image_url
                 schedule_time t TY IM scheduled SB _ _ IE account _ _ eq_refl eq_refl
                 (instagram_text_container W account post_type caption image_url
                    access_token _ PI)).
        reflexivity.
      - split; [right; failure_report|right; left; reflexivity]. }
  apply String.eqb_eq in PI. subst post_type.
  destruct (instagram_container_report W account caption image_url access_token
              (t ++ [instagram_lookup_request access_token])%list)
    as (cr & CE & [(container_id & CR)|F]).
  2:{ exists cr,
        [instagram_lookup_request access_token;
         instagram_container_request account caption image_url access_token].
      split.
      - rewrite (instagram_run_container_failed W "image" caption access_token image_url
                   schedule_time t TY IM scheduled SB _ _ IE account _ cr eq_refl eq_refl
                   CE (instagram_failure_unsuccessful cr F)).
        rewrite <- app_assoc. reflexivity.
      - split; [right; exact F|].
        right. right. split; [reflexivity|]. exists account. left. reflexivity. }
  subst cr.
  destruct (instagram_publish_report W account container_id access_token scheduled
              ((t ++ [instagram_lookup_request access_token])
               ++ [instagram_container_request account caption image_url access_token])%list)
    as (pr & PE & PS).
  exists pr,
    [instagram_lookup_request access_token;
     instagram_container_request account caption image_url access_token;
     instagram_publish_request account container_id access_token scheduled].
  split.
  - rewrite (instagram_run_published W "image" caption access_token image_url
               schedule_time t TY IM scheduled SB _ _ IE account _ _ eq_refl eq_refl CE
               container_id _ pr eq_refl eq_refl PE).
    rewrite <- !app_assoc. reflexivity.
  - split; [exact PS|].
    right. right. split; [reflexivity|]. exists account. right.
    exists container_id, scheduled. reflexivity.
Qed.

(** X17 (instagram_posting_tool.py, _run with its three helpers).  The
    requests of a Graph API invocation follow one plan: the account
    lookup, then the container call, then the publish call, each at
    most once and in this order; the container and the publish call
    go to the same account.
    An invocation whose post type is not image never gets past the
    lookup: the text post type passes validation but no container is
    ever requested for it. *)
Theorem instagram_requests_follow_plan W post_type caption access_token image_url
    schedule_time t :
  exists l,
    snd (InstagramPostingTool.run_result W post_type caption access_token image_url
           schedule_time t) = (t ++ l)%list
    /\ (l = []
        \/ l = [instagram_lookup_request access_token]
        \/ (post_type = "image"
            /\ exists account,
                 l = [instagram_lookup_request access_token;
                      instagram_container_request account caption image_url access_token]
                 \/ exists container_id scheduled,
                      l = [instagram_lookup_request access_token;
                           instagram_container_request account caption image_url
                             access_token;
                           instagram_publish_request account container_id access_token
                             scheduled])).
Proof.
  destruct (instagram_run_cases W post_type caption access_token image_url schedule_time t)
    as (d & l & E & _ & P).
  exists l. rewrite E. split; [reflexivity|exact P].
Qed.

(** X18 (instagram_posting_tool.py, _run with its three helpers).
    Every invocation returns a report whose [success] is a boolean;
    a failure report always has a message and one of eighteen error
    codes.  [NETWORK_ERROR] is not among them: the helpers catch
    every exception of a request themselves, so the clause of [_run]
    for exceptions of [requests] never runs. *)
Theorem instagram_failures_carry_known_codes W post_type caption access_token image_url
    schedule_time t :
  exists d t',
    InstagramPostingTool.run_result W post_type caption access_token image_url
      schedule_time t = (Ret d, t')
    /\ (field "success" d = Some (JBool true)
        \/ (field "success" d = Some (JBool false)
            /\ exists message code,
                 field "error" d = Some (JStr message)
                 /\ field "error_code" d = Some (JStr code)
                 /\ In code instagram_error_codes
                 /\ code <> "NETWORK_ERROR")).
Proof.
  destruct (instagram_run_cases W post_type caption access_token image_url schedule_time t)
    as (d & l & E & S & _).
  exists d, (t ++ l)%list. split; [exact E|].
  destruct S as [S|(S & message & code & M & C & I)]; [left; exact S|].
  right. split; [exact S|]. exists message, code.
  repeat split; try assumption.
  intros ->. cbn in I.
  repeat (destruct I as [I|I]; [discriminate I|]). exact I.
Qed.

(** X19 (instagram_posting_tool.py, _run and _create_media_container,
    lines 242-253).  A text post never succeeds: for post type text
    every invocation returns a failure, whatever the servers answer;
    when the account lookup succeeds the failure says that text-only
    posts are not supported, and only the lookup was sent. *)
Theorem instagram_text_post_never_succeeds W caption access_token image_url schedule_time t :
  exists d l,
    InstagramPostingTool.run_result W "text" caption access_token image_url
      schedule_time t = (Ret d, (t ++ l)%list)
    /\ field "success" d = Some (JBool false)
    /\ (l = [] \/ l = [instagram_lookup_request access_token])
    /\ (forall scheduled account,
          InstagramPostingTool.schedule_block W schedule_time = inl scheduled ->
          fst (InstagramPostingTool._get_instagram_account_info W access_token t)
          = Ret (JObj [("success", JBool true); ("account_id", account)]) ->
          field "error_code" d = Some (JStr "TEXT_POSTS_NOT_SUPPORTED")).
Proof.
  destruct (InstagramPostingTool.schedule_block W schedule_time) as [scheduled|early] eqn:SB.
  2:{ exists early, []. rewrite app_nil_r. split.
      - apply (instagram_run_schedule_refused W "text" caption access_token image_url
                 schedule_time t eq_refl eq_refl early SB).
      - split; [apply (instagram_schedule_report W schedule_time early SB)|].
        split; [left; reflexivity|]. intros s a E. discriminate E. }
  destruct (instagram_info_report W access_token t) as (ui & IE & [(account & UI)|F]).
  2:{ exists ui, [instagram_lookup_request access_token]. split.
      - apply (instagram_run_lookup_failed W "text" caption access_token image_url
                 schedule_time t eq_refl eq_refl scheduled SB _ ui IE
                 (instagram_failure_unsuccessful ui F)).
      - split; [apply F|]. split; [right; reflexivity|].
        intros s a _ E. rewrite IE in E. cbn [fst] in E. injection E as ->.
        destruct F as (F & _). discriminate F. }
  subst ui.
  eexists. exists [instagram_lookup_request access_token]. split.
  - apply (instagram_run_container_failed W "text" caption access_token image_url
             schedule_time t eq_refl eq_refl scheduled SB _ _ IE account _ _ eq_refl eq_refl
             (instagram_text_container W account "text" caption image_url
                access_token _ eq_refl)).
    reflexivity.
  - split; [reflexivity|]. split; [right; reflexivity|]. intros s a _ _. reflexivity.
Qed.

Lemma instagram_text_post_never_succeeds_witness :
  InstagramPostingTool.run_result (Sample.world Sample.no_env Sample.graph_net)
    "text" "Hello world" "token" None None []
  = (Ret (JObj [("success", JBool false);
                ("error", JStr "Instagram Graph API does not support text-only posts. Please use an image with your caption or consider using Instagram's native posting features.");
                ("error_code", JStr "TEXT_POSTS_NOT_SUPPORTED")]),
     [instagram_lookup_request "token"]).
Proof.
  destruct (instagram_text_post_never_succeeds
              (Sample.world Sample.no_env Sample.graph_net)
              "Hello world" "token" None None []) as (d & l & E & _ & _ & H).
  rewrite E. specialize (H None (JStr "1789") eq_refl eq_refl).
  vm_compute in E. injection E as <- <-. reflexivity.
Defined.

(** ** The Graph API adapter: what the lookup makes of an answer *)

Section InstagramLookup.

Variable W : World.
Variable access_token : string.
Variable t : list Request.

Lemma instagram_info_answered r :
  transport W t (instagram_lookup_request access_token) = Responded r ->
  InstagramPostingTool._get_instagram_account_info W access_token t
  = try_except
      (if status_code r =? 429 then ret InstagramPostingTool.rate_limited
       else if negb (status_code r =? 200) then
         m <- lift (InstagramPostingTool.error_message r) ;;
         ret (JObj [("success", JBool false);
                    ("error", JStr ("Failed to get account info: " ++ Json.str m));
                    ("error_code", JStr "API_ERROR");
                    ("status_code", JNum (status_code r))])
       else
         data <- lift (requests.json r) ;;
         a <- lift (Json.get "accounts" (JObj []) data) ;;
         accounts <- lift (Json.get "data" (JArr []) a) ;;
         items <- lift (Json.iter accounts) ;;
         found <- lift (InstagramPostingTool.find_account items) ;;
         match found with
         | Some instagram_account_id =>
             ret (JObj [("success", JBool true); ("account_id", instagram_account_id)])
         | None =>
             ret (JObj [("success", JBool false);
                        ("error", JStr "No Instagram Business Account found. Make sure your Instagram account is connected to a Facebook Page and is a Business account.");
                        ("error_code", JStr "NO_INSTAGRAM_ACCOUNT")])
         end)
      [(Exn.is_Timeout, fun _ =>
          ret (JObj [("success", JBool false);
                     ("error", JStr "Request timed out while getting account info");
                     ("error_code", JStr "TIMEOUT_ERROR")]));
       (Exn.is_Exception, fun e =>
          ret (JObj [("success", JBool false);
                     ("error", JStr ("Error getting account info: " ++ Exn.str e));
                     ("error_code", JStr "ACCOUNT_INFO_ERROR")]))]
      (t ++ [instagram_lookup_request access_token])%list.
Proof.
  intros T. unfold InstagramPostingTool._get_instagram_account_info.
  unfold try_except, bind at 1, requests.get, requests.request.
  change (requests.url_fault (InstagramPostingTool.graph ++ "me")) with (@None exn).
  cbv iota.
  change (mkRequest "GET" (InstagramPostingTool.graph ++ "me") _)
    with (instagram_lookup_request access_token).
  rewrite T. reflexivity.
Qed.

Lemma instagram_info_failed e :
  transport W t (instagram_lookup_request access_token) = Failed e ->
  InstagramPostingTool._get_instagram_account_info W access_token t
  = (Ret (if Exn.is_Timeout e
          then JObj [("success", JBool false);
                     ("error", JStr "Request timed out while getting account info");
                     ("error_code", JStr "TIMEOUT_ERROR")]
          else JObj [("success", JBool false);
                     ("error", JStr ("Error getting account info: " ++ Exn.str e));
                     ("error_code", JStr "ACCOUNT_INFO_ERROR")]),
     (t ++ [instagram_lookup_request access_token])%list).
Proof.
  intros T. unfold InstagramPostingTool._get_instagram_account_info.
  unfold try_except, bind, requests.get, requests.request.
  change (requests.url_fault (InstagramPostingTool.graph ++ "me")) with (@None exn).
  cbv iota.
  change (mkRequest "GET" (InstagramPostingTool.graph ++ "me") _)
    with (instagram_lookup_request access_token).
  rewrite T. cbn [dispatch]. cbv [Exn.is_Exception].
  destruct (Exn.is_Timeout e); reflexivity.
Qed.

End InstagramLookup.

Lemma find_account_objects (accounts : list (list (string * json))) :
  InstagramPostingTool.find_account (map JObj accounts)
  = match find (has_key "instagram_business_account") accounts with
    | Some account =>
        match Json.getitem "id" (entry "instagram_business_account" account) with
        | Ret i => Ret (Some i)
        | Raise e => Raise e
        end
    | None => Ret None
    end.
Proof.
  induction accounts as [|a rest IH]; [reflexivity|].
  cbn [map InstagramPostingTool.find_account find Json.contains Json.getitem].
  unfold has_key at 1, entry.
  destruct (Json.lookup "instagram_business_account" a) as [iba|] eqn:L.
  - cbv beta iota. rewrite L. reflexivity.
  - exact IH.
Qed.

(** X20 (instagram_posting_tool.py, _get_instagram_account_info, lines
    193-209).  When the lookup is answered with status 200 and a JSON
    object, the account is taken from the first entry of
    [accounts.data] that has an ["instagram_business_account"]: its
    ["id"] becomes the account id.  If that first entry's business
    account has no ["id"], the lookup fails with an error about the
    missing key, even when a later entry is complete.  If no entry
    has a business account, or the answer has no ["accounts"], the
    lookup fails with the code NO_INSTAGRAM_ACCOUNT. *)
Theorem instagram_lookup_goes_by_first_business_account W access_token t r kv :
  transport W t (instagram_lookup_request access_token) = Responded r ->
  status_code r = 200 ->
  json_value r = Some (JObj kv) ->
  let result := fst (InstagramPostingTool._get_instagram_account_info W access_token t) in
  let no_account :=
    Ret (JObj [("success", JBool false);
               ("error", JStr "No Instagram Business Account found. Make sure your Instagram account is connected to a Facebook Page and is a Business account.");
               ("error_code", JStr "NO_INSTAGRAM_ACCOUNT")]) in
  (Json.lookup "accounts" kv = None -> result = no_account)
  /\ (forall a accounts,
        Json.lookup "accounts" kv = Some (JObj a) ->
        Json.lookup "data" a = Some (JArr (map JObj accounts)) ->
        (find (has_key "instagram_business_account") accounts = None ->
         result = no_account)
        /\ (forall account business i,
              find (has_key "instagram_business_account") accounts = Some account ->
              Json.lookup "instagram_business_account" account = Some (JObj business) ->
              Json.lookup "id" business = Some i ->
              result = Ret (JObj [("success", JBool true); ("account_id", i)]))
        /\ (forall account business,
              find (has_key "instagram_business_account") accounts = Some account ->
              Json.lookup "instagram_business_account" account = Some (JObj business) ->
              Json.lookup "id" business = None ->
              result
              = Ret (JObj [("success", JBool false);
                           ("error", JStr "Error getting account info: 'id'");
                           ("error_code", JStr "ACCOUNT_INFO_ERROR")]))).
Proof.
  intros T S J result no_account. subst result no_account.
  rewrite (instagram_info_answered W access_token t r T).
  unfold try_except, bind, lift, requests.json. rewrite S, J.
  cbn [Z.eqb Pos.eqb negb Json.get].
  split.
  - intros A. rewrite A. reflexivity.
  - intros a accounts A D. rewrite A. cbn [Json.get]. rewrite D. cbn [Json.iter].
    rewrite find_account_objects.
    split; [|split].
    + intros F. rewrite F. reflexivity.
    + intros account business i F B I. rewrite F. unfold entry. rewrite B.
      cbn [Json.getitem]. rewrite I. reflexivity.
    + intros account business F B I. rewrite F. unfold entry. rewrite B.
      cbn [Json.getitem]. rewrite I. reflexivity.
Qed.

Lemma instagram_lookup_goes_by_first_business_account_witness :
  fst (InstagramPostingTool._get_instagram_account_info
         (Sample.world Sample.no_env
            (Sample.always
               (Sample.json_response 200
                  (JObj [("accounts",
                          JObj [("data",
                                 JArr [JObj [("name", JStr "Page without Instagram")];
                                       JObj [("instagram_business_account",
                                              JObj [("id", JStr "1789")])];
                                       JObj [("instagram_business_account",
                                              JObj [("id", JStr "2000")])]])])]))))
         "token" [])
  = Ret (JObj [("success", JBool true); ("account_id", JStr "1789")]).
Proof.
  destruct (instagram_lookup_goes_by_first_business_account
              (Sample.world Sample.no_env
                 (Sample.always
                    (Sample.json_response 200
                       (JObj [("accounts",
                               JObj [("data",
                                      JArr [JObj [("name", JStr "Page without Instagram")];
                                            JObj [("instagram_business_account",
                                                   JObj [("id", JStr "1789")])];
                                            JObj [("instagram_business_account",
                                                   JObj [("id", JStr "2000")])]])])]))))
              "token" [] _ _ eq_refl eq_refl eq_refl) as (_ & H).
  destruct (H [("data",
                JArr [JObj [("name", JStr "Page without Instagram")];
                      JObj [("instagram_business_account", JObj [("id", JStr "1789")])];
                      JObj [("instagram_business_account", JObj [("id", JStr "2000")])]])]
              [[("name", JStr "Page without Instagram")];
               [("instagram_business_account", JObj [("id", JStr "1789")])];
               [("instagram_business_account", JObj [("id", JStr "2000")])]]
              eq_refl eq_refl) as (_ & G & _).
  apply (G [("instagram_business_account", JObj [("id", JStr "1789")])]
           [("id", JStr "1789")] (JStr "1789")); reflexivity.
Defined.

(** X21 (instagram_posting_tool.py, _get_instagram_account_info, lines
    177-191 and 211-222).  What the lookup reports when it is not
    answered with a 200.  A transport failure is reported as a
    time-out when the exception is a timeout and as an error getting
    the account info otherwise.  An answer with another status than
    429 and 200 is an API error that repeats the status; its message
    is read from the body's [error.message] only when the content
    type says JSON, and is Unknown error when the content type is
    something else, or the body has no ["error"].  A body announced
    as JSON that does not decode is reported as an error getting the
    account info instead. *)
Theorem instagram_lookup_failure_reports W access_token t :
  let result := fst (InstagramPostingTool._get_instagram_account_info W access_token t) in
  (forall e,
     transport W t (instagram_lookup_request access_token) = Failed e ->
     result
     = Ret (if Exn.is_Timeout e
            then JObj [("success", JBool false);
                       ("error", JStr "Request timed out while getting account info");
                       ("error_code", JStr "TIMEOUT_ERROR")]
            else JObj [("success", JBool false);
                       ("error", JStr ("Error getting account info: " ++ Exn.str e));
                       ("error_code", JStr "ACCOUNT_INFO_ERROR")]))
  /\ (forall r,
        transport W t (instagram_lookup_request access_token) = Responded r ->
        status_code r <> 429 -> status_code r <> 200 ->
        let announced_json :=
          Py.startswith "application/json"
            (match content_type r with Some s => s | None => "" end) in
        let api_error message :=
          Ret (JObj [("success", JBool false);
                     ("error", JStr ("Failed to get account info: " ++ message));
                     ("error_code", JStr "API_ERROR");
                     ("status_code", JNum (status_code r))]) in
        (announced_json = false -> result = api_error "Unknown error")
        /\ (forall kv err m,
              announced_json = true -> json_value r = Some (JObj kv) ->
              Json.lookup "error" kv = Some (JObj err) ->
              Json.lookup "message" err = Some m ->
              result = api_error (Json.str m))
        /\ (forall kv,
              announced_json = true -> json_value r = Some (JObj kv) ->
              Json.lookup "error" kv = None ->
              result = api_error "Unknown error")
        /\ (announced_json = true -> json_value r = None ->
            exists detail,
              result
              = Ret (JObj [("success", JBool false);
                           ("error", JStr ("Error getting account info: " ++ detail));
                           ("error_code", JStr "ACCOUNT_INFO_ERROR")]))).
Proof.
  intros result. subst result. split.
  - intros e F. rewrite (instagram_info_failed W access_token t e F). reflexivity.
  - intros r T N1 N2 announced_json api_error. subst api_error. cbv beta.
    rewrite (instagram_info_answered W access_token t r T).
    apply Z.eqb_neq in N1, N2.
    unfold try_except, bind, lift, InstagramPostingTool.error_message,
      requests.content_type_or_empty, requests.json.
    rewrite N1, N2. cbn [negb]. fold announced_json.
    repeat split.
    + intros A. rewrite A. reflexivity.
    + intros kv err m A J E M. rewrite A, J. cbn [Json.get]. rewrite E.
      cbn [Json.get]. rewrite M. reflexivity.
    + intros kv A J E. rewrite A, J. cbn [Json.get]. rewrite E. reflexivity.
    + intros A J. rewrite A, J. cbn [dispatch fst].
      rewrite decode_error_not_timeout. cbv [Exn.is_Exception]. eexists. reflexivity.
Qed.

Lemma instagram_lookup_failure_reports_witness :
  fst (InstagramPostingTool._get_instagram_account_info
         (Sample.world Sample.no_env
            (Sample.always
               (Sample.json_response 400
                  (JObj [("error", JObj [("message", JStr "Invalid OAuth access token.")])]))))
         "token" [])
  = Ret (JObj [("success", JBool false);
               ("error", JStr "Failed to get account info: Invalid OAuth access token.");
               ("error_code", JStr "API_ERROR");
               ("status_code", JNum 400)]).
Proof.
  destruct (instagram_lookup_failure_reports
              (Sample.world Sample.no_env
                 (Sample.always
                    (Sample.json_response 400
                       (JObj [("error",
                               JObj [("message", JStr "Invalid OAuth access token.")])]))))
              "token" []) as (_ & H).
  destruct (H _ eq_refl) as (_ & G & _); [discriminate|discriminate|].
  apply (G [("error", JObj [("message", JStr "Invalid OAuth access token.")])]
           [("message", JStr "Invalid OAuth access token.")]
           (JStr "Invalid OAuth access token.")); reflexivity.
Defined.

(** X22 (instagram_posting_tool.py, _run, lines 89-119).  A schedule
    time that the ISO reader refuses, or one whose whole-second
    timestamp lies more than 75 days after the current time, ends an
    otherwise valid invocation with the matching error code before
    any request is sent; exactly 75 days ahead is still accepted. *)
Theorem instagram_schedule_format_and_horizon W post_type caption access_token image_url
    schedule_time t :
  ((post_type =? "text") || (post_type =? "image"))%string = true ->
  ((post_type =? "image")%string && negb (Py.truthy_opt image_url)) = false ->
  Py.truthy_opt schedule_time = true ->
  let run :=
    InstagramPostingTool.run_result W post_type caption access_token image_url
      schedule_time t in
  let argument := Py.replace_char "Z" "+00:00" (str_opt schedule_time) in
  (fromisoformat W argument = None ->
   exists detail,
     run = (Ret (JObj [("success", JBool false);
                       ("error",
                        JStr ("Invalid schedule_time format. Use ISO format (e.g., '2024-12-25T10:00:00Z'): "
                              ++ detail));
                       ("error_code", JStr "INVALID_DATETIME_FORMAT")]), t))
  /\ (forall dt,
        fromisoformat W argument = Some dt ->
        clock_us W + 75 * 86400 * 1000000
        < InstagramPostingTool.int_timestamp W dt * 1000000 ->
        run = (Ret (JObj [("success", JBool false);
                          ("error",
                           JStr "Cannot schedule posts more than 75 days in advance");
                          ("error_code", JStr "SCHEDULE_TOO_FAR")]), t))
  /\ (forall dt,
        fromisoformat W argument = Some dt ->
        InstagramPostingTool.int_timestamp W dt * 1000000
        = clock_us W + 75 * 86400 * 1000000 ->
        InstagramPostingTool.schedule_block W schedule_time
        = inl (Some (InstagramPostingTool.int_timestamp W dt))).
Proof.
  intros TY IM S run argument. subst run.
  assert (B : forall dt,
             fromisoformat W argument = Some dt ->
             clock_us W + 75 * 86400 * 1000000
             <= InstagramPostingTool.int_timestamp W dt * 1000000 ->
             (InstagramPostingTool.int_timestamp W dt * 1000000 <=? clock_us W) = false).
  { intros dt _ L. apply Z.leb_gt. lia. }
  split; [|split].
  - intros F. eexists.
    apply (instagram_run_schedule_refused W post_type caption access_token image_url
             schedule_time t TY IM).
    unfold InstagramPostingTool.schedule_block. rewrite S.
    unfold InstagramPostingTool.iso_argument. fold argument. rewrite F. reflexivity.
  - intros dt F L.
    apply (instagram_run_schedule_refused W post_type caption access_token image_url
             schedule_time t TY IM).
    unfold InstagramPostingTool.schedule_block. rewrite S.
    unfold InstagramPostingTool.iso_argument. fold argument. rewrite F.
    rewrite (B dt F) by lia.
    replace (_ >? _) with true; [reflexivity|].
    symmetry. apply Z.gtb_lt. unfold InstagramPostingTool.max_advance. lia.
  - intros dt F E.
    unfold InstagramPostingTool.schedule_block. rewrite S.
    unfold InstagramPostingTool.iso_argument. fold argument. rewrite F.
    rewrite (B dt F) by lia.
    replace (_ >? _) with false; [reflexivity|].
    symmetry. apply gtb_false. unfold InstagramPostingTool.max_advance. lia.
Qed.

Lemma instagram_schedule_format_and_horizon_witness :
  InstagramPostingTool.run_result (Sample.world Sample.no_env Sample.graph_net)
    "image" "Hello world" "token" (Some "https://example.com/a.png")
    (Some "2025-03-18T00:00:00Z") []
  = (Ret (JObj [("success", JBool false);
                ("error", JStr "Cannot schedule posts more than 75 days in advance");
                ("error_code", JStr "SCHEDULE_TOO_FAR")]), [])
  /\ InstagramPostingTool.schedule_block (Sample.world Sample.no_env Sample.graph_net)
       (Some "2025-03-17T00:00:00Z")
     = inl (Some 1742169600).
Proof.
  split.
  - destruct (instagram_schedule_format_and_horizon
                (Sample.world Sample.no_env Sample.graph_net)
                "image" "Hello world" "token" (Some "https://example.com/a.png")
                (Some "2025-03-18T00:00:00Z") [] eq_refl eq_refl eq_refl) as (_ & H & _).
    apply (H (Aware 1742256000000000 0)); [reflexivity|vm_compute; reflexivity].
  - destruct (instagram_schedule_format_and_horizon
                (Sample.world Sample.no_env Sample.graph_net)
                "image" "Hello world" "token" (Some "https://example.com/a.png")
                (Some "2025-03-17T00:00:00Z") [] eq_refl eq_refl eq_refl) as (_ & _ & H).
    apply (H (Aware 1742169600000000 0)); reflexivity.
Defined.

Section InstagramContainer.

Variable W : World.
Variable account : json.
Variable caption : string.
Variable image_url : option string.
Variable access_token : string.
Variable t : list Request.

Lemma instagram_container_made r kv container_id :
  transport W t (instagram_container_request account caption image_url access_token)
  = Responded r ->
  status_code r = 200 ->
  json_value r = Some (JObj kv) ->
  Json.lookup "id" kv = Some container_id ->
  Json.truthy container_id = true ->
  InstagramPostingTool._create_media_container W account "image" caption image_url
    access_token t
  = (Ret (JObj [("success", JBool true); ("container_id", container_id)]),
     (t ++ [instagram_container_request account caption image_url access_token])%list).
Proof.
  intros T S J I C. unfold InstagramPostingTool._create_media_container.
  change (("image" =? "image")%string) with true. cbv iota.
  unfold try_except, bind, requests.post, requests.request.
  rewrite (url_fault_graph (Json.str account ++ "/media")).
  change (mkRequest "POST" (InstagramPostingTool.graph ++ Json.str account ++ "/media") _)
    with (instagram_container_request account caption image_url access_token).
  rewrite T, S. cbn [Z.eqb Pos.eqb negb]. unfold lift, requests.json. rewrite J.
  cbn [Json.get]. rewrite I, C. reflexivity.
Qed.

End InstagramContainer.

(** X23 (instagram_posting_tool.py, _run, _create_media_container and
    _publish_media).  How the three steps compose when each is
    answered well.  The account id found by the lookup is the path of
    the container call and of the publish call; the ["id"] of the
    container answer is the [creation_id] of the publish call, which
    carries [published=false] and the timestamp exactly when a
    schedule was accepted; and the report gives the ["id"] of the
    publish answer as media id, the post URL built from it (null if
    there is none), and, for a scheduled post, the schedule as an ISO
    instant in UTC.  Exactly these three requests are sent. *)
Theorem instagram_steps_compose W caption access_token image_url schedule_time scheduled
    t account r2 kv2 container_id r3 kv3 :
  instagram_accepts W "image" image_url schedule_time scheduled ->
  fst (InstagramPostingTool._get_instagram_account_info W access_token t)
  = Ret (JObj [("success", JBool true); ("account_id", account)]) ->
  let lookup := instagram_lookup_request access_token in
  let container := instagram_container_request account caption image_url access_token in
  let publish := instagram_publish_request account container_id access_token scheduled in
  transport W (t ++ [lookup])%list container = Responded r2 ->
  status_code r2 = 200 -> json_value r2 = Some (JObj kv2) ->
  Json.lookup "id" kv2 = Some container_id -> Json.truthy container_id = true ->
  transport W (t ++ [lookup; container])%list publish = Responded r3 ->
  status_code r3 = 200 -> json_value r3 = Some (JObj kv3) ->
  let is_scheduled :=
    match scheduled with Some s => negb (s =? 0) | None => false end in
  InstagramPostingTool.run_result W "image" caption access_token image_url schedule_time t
  = (Ret (JObj ([("success", JBool true);
                 ("message", JStr (if is_scheduled then "Post scheduled successfully"
                                   else "Post published successfully"));
                 ("media_id", entry "id" kv3);
                 ("instagram_post_url",
                  if Json.truthy (entry "id" kv3)
                  then JStr ("https://www.instagram.com/p/" ++ Json.str (entry "id" kv3)
                             ++ "/")
                  else JNull)]
                ++ match scheduled with
                   | Some s =>
                       if s =? 0 then []
                       else [("scheduled_time",
                              JStr (isoformat W (Aware (s * 1000000) 0)))]
                   | None => []
                   end)),
     (t ++ [lookup; container; publish])%list).
Proof.
  intros (TY & IM & SB) IE lookup container publish T2 S2 J2 I2 C2 T3 S3 J3 is_scheduled.
  destruct (instagram_info_report W access_token t) as (ui & IE' & _).
  rewrite IE' in IE. cbn [fst] in IE. injection IE as ->.
  fold lookup in IE'.
  pose proof (instagram_container_made W account caption image_url access_token
                (t ++ [lookup])%list r2 kv2 container_id T2 S2 J2 I2 C2) as CE.
  fold container in CE.
  replace (t ++ [lookup; container; publish])%list
    with (((t ++ [lookup]) ++ [container]) ++ [publish])%list
    by (rewrite <- !app_assoc; reflexivity).
  replace (t ++ [lookup; container])%list with ((t ++ [lookup]) ++ [container])%list in T3
    by (rewrite <- !app_assoc; reflexivity).
  apply (instagram_run_published W "image" caption access_token image_url
           schedule_time t TY IM scheduled SB _ _ IE' account _ _ eq_refl eq_refl CE
           container_id _ _ eq_refl eq_refl).
  rewrite instagram_publish_sent. fold publish. unfold try_except. rewrite T3.
  rewrite S3. cbn [Z.eqb Pos.eqb negb]. unfold bind, lift, requests.json. rewrite J3.
  cbn [Json.get]. fold (entry "id" kv3). subst is_scheduled.
  destruct scheduled as [s|]; [|reflexivity].
  cbn [InstagramPostingTool.truthy_int]. destruct (s =? 0); reflexivity.
Qed.

Lemma instagram_steps_compose_witness :
  InstagramPostingTool.run_result (Sample.world Sample.no_env Sample.graph_net)
    "image" "Hello world" "token" (Some "https://example.com/a.png")
    (Some "2025-02-01T00:00:00Z") []
  = (Ret (JObj [("success", JBool true);
                ("message", JStr "Post scheduled successfully");
                ("media_id", JStr "m-1");
                ("instagram_post_url", JStr "https://www.instagram.com/p/m-1/");
                ("scheduled_time", JStr "2025-02-01T00:00:00+00:00")]),
     [mkRequest "GET" "https://graph.facebook.com/v18.0/me"
        (JObj [("fields", JStr "accounts{instagram_business_account}");
               ("access_token", JStr "token")]);
      mkRequest "POST" "https://graph.facebook.com/v18.0/1789/media"
        (JObj [("access_token", JStr "token");
               ("caption", JStr "Hello world");
               ("image_url", JStr "https://example.com/a.png");
               ("media_type", JStr "IMAGE")]);
      mkRequest "POST" "https://graph.facebook.com/v18.0/1789/media_publish"
        (JObj [("creation_id", JStr "c-1");
               ("access_token", JStr "token");
               ("published", JStr "false");
               ("scheduled_publish_time", JNum 1738368000)])]).
Proof.
  apply (instagram_steps_compose (Sample.world Sample.no_env Sample.graph_net)
           "Hello world" "token" (Some "https://example.com/a.png")
           (Some "2025-02-01T00:00:00Z") (Some 1738368000) [] (JStr "1789")
           Sample.graph_container [("id", JStr "c-1")] (JStr "c-1")
           Sample.graph_media [("id", JStr "m-1")]);
    try reflexivity.
  repeat split; reflexivity.
Defined.

(** ** The Late adapter: the checks before the call *)

(** X24 (late_instagram_tool.py, _check_environment_variables and _run,
    lines 52-84 and 290-292).  The environment check passes exactly
    when LATE_API_KEY is set and has at least ten characters once
    white space is stripped from both ends.  When it does not pass,
    the invocation returns the check's report and sends nothing,
    whatever the arguments.  The report tells an unset or empty key
    from one that is too short, and its debug information gives the
    number of characters of the key as it is set, white space
    included. *)
Theorem late_api_key_check W account_id content media_urls schedule_time post_type
    hashtags mentions t :
  let check := LateInstagramTool._check_environment_variables W in
  (success_of check = true
   <-> exists key, getenv W "LATE_API_KEY" = Some key
                   /\ 10 <= Py.len (Py.strip key))
  /\ (success_of check = false ->
      LateInstagramTool.run_result W account_id content media_urls schedule_time
        post_type hashtags mentions t = (Ret check, t))
  /\ (getenv W "LATE_API_KEY" = None \/ getenv W "LATE_API_KEY" = Some "" ->
      field "error_message" check
      = Some (JStr "LATE_API_KEY environment variable is not set or empty. Please set your Late API key."))
  /\ (forall key,
        getenv W "LATE_API_KEY" = Some key -> key <> "" ->
        Py.len (Py.strip key) < 10 ->
        field "error_message" check
        = Some (JStr "LATE_API_KEY appears to be invalid (too short). Please check your API key.")
        /\ field "debug_info" check
           = Some (JObj [("api_key_found", JBool true);
                         ("account_id_found",
                          JBool (match getenv W "LATE_ACCOUNT_ID" with
                                 | Some a => negb (a =? "")%string
                                 | None => false
                                 end));
                         ("api_key_length", JNum (Py.len key))])).
Proof.
  intros check. subst check. split; [|split; [|split]].
  - unfold LateInstagramTool._check_environment_variables.
    destruct (getenv W "LATE_API_KEY") as [key|] eqn:K; cbn [Py.truthy_opt str_opt negb].
    + destruct (Py.truthy key) eqn:T; cbn [negb].
      * destruct (Z.ltb_spec (Py.len (Py.strip key)) 10).
        -- split; [discriminate|]. intros (k & E & L). injection E as <-. lia.
        -- split; [|reflexivity]. intros _. exists key. split; [reflexivity|lia].
      * split; [discriminate|]. intros (k & E & L). injection E as <-.
        destruct key; [vm_compute in L; destruct (L eq_refl)|discriminate].
    + split; [discriminate|]. intros (k & E & _). discriminate.
  - intros F.
    apply (late_run_env_failed W account_id content media_urls schedule_time post_type
             hashtags mentions t F).
  - unfold LateInstagramTool._check_environment_variables.
    intros [K|K]; rewrite K; reflexivity.
  - intros key K N L.
    unfold LateInstagramTool._check_environment_variables, LateInstagramTool.debug_info.
    rewrite K. cbn [Py.truthy_opt str_opt].
    assert (T : Py.truthy key = true) by (destruct key; [contradiction|reflexivity]).
    rewrite T. cbn [negb].
    replace (Py.len (Py.strip key) <? 10) with true
      by (symmetry; apply Z.ltb_lt; lia).
    split; [reflexivity|].
    destruct (getenv W "LATE_ACCOUNT_ID"); reflexivity.
Qed.

Lemma late_api_key_check_witness :
  LateInstagramTool.run_result
    (Sample.world
       (fun name =>
          if (name =? "LATE_API_KEY")%string
          then Some (Sample.nbsp ++ Sample.copies 9 "鍵" ++ Sample.nbsp)
          else None)
       (Sample.always Sample.ok_with_id))
    (Some "late-account-1") "Hello world" None None "feed" None None []
  = (Ret (JObj [("success", JBool false);
                ("error_message",
                 JStr "LATE_API_KEY appears to be invalid (too short). Please check your API key.");
                ("debug_info",
                 JObj [("api_key_found", JBool true);
                       ("account_id_found", JBool false);
                       ("api_key_length", JNum 11)]);
                ("troubleshooting",
                 JStr "1. Verify API key is complete, 2. Check for extra spaces, 3. Get a new API key from Late.io dashboard")]),
     []).
Proof.
  destruct (late_api_key_check
              (Sample.world
                 (fun name =>
                    if (name =? "LATE_API_KEY")%string
                    then Some (Sample.nbsp ++ Sample.copies 9 "鍵" ++ Sample.nbsp)
                    else None)
                 (Sample.always Sample.ok_with_id))
              (Some "late-account-1") "Hello world" None None "feed" None None [])
    as (_ & H & _).
  rewrite H; reflexivity.
Defined.

Lemma late_known_post_type (post_type : string) :
  ((post_type =? "feed") || (post_type =? "story") || (post_type =? "reel"))%string = true
  <-> In post_type ["feed"; "story"; "reel"].
Proof.
  cbn [In]. rewrite !orb_true_iff, !String.eqb_eq.
  split; [intros [[H|H]|H]; subst; auto|intros [H|[H|[H|[]]]]; subst; auto].
Qed.

Lemma late_not_blank (content : string) :
  negb (Py.truthy content) || negb (Py.truthy (Py.strip content)) = false
  <-> Py.strip content <> "".
Proof.
  destruct content as [|c r]; [cbn; split; [discriminate|intros H; contradiction]|].
  cbn [Py.truthy String.eqb negb orb]. unfold Py.truthy.
  destruct (Py.strip (String c r)); cbn; split; congruence.
Qed.

Lemma late_not_long (content : string) :
  (Py.len content >? 2200) = false <-> Py.len content <= 2200.
Proof.
  destruct (Z.gtb_spec (Py.len content) 2200);
    split; intros; try lia; try reflexivity; discriminate.
Qed.

Lemma late_not_many (media_urls : option (list string)) :
  (LateInstagramTool.truthy_list media_urls
   && (LateInstagramTool.count media_urls >? 10)) = false
  <-> (match media_urls with Some l => List.length l | None => 0%nat end <= 10)%nat.
Proof.
  destruct media_urls as [[|u l]|]; cbn [LateInstagramTool.truthy_list andb];
    try (split; [cbn; lia|reflexivity]).
  cbn [LateInstagramTool.count].
  destruct (Z.gtb_spec (Z.of_nat (List.length (u :: l))) 10);
    split; intros; try lia; try reflexivity; discriminate.
Qed.

Lemma bool_false_iff (b : bool) (P : Prop) : (b = false <-> P) -> (b = true <-> ~ P).
Proof.
  destruct b; intros [F G]; split; intros H; try discriminate; try reflexivity;
    try (intros p; specialize (G p); discriminate);
    try (exfalso; apply H, F; reflexivity).
Qed.

Lemma bool_true_iff (b : bool) (P : Prop) : (b = true <-> P) -> (b = false <-> ~ P).
Proof.
  destruct b; intros [F G]; split; intros H; try discriminate; try reflexivity;
    try (intros p; specialize (G p); discriminate);
    try (exfalso; apply H, F; reflexivity).
Qed.

(** X25 (late_instagram_tool.py, _validate_inputs and _run, lines
    86-116 and 307-310).  The input validation passes exactly when the
    post type is feed, story or reel, the caption is not blank (not
    empty once the white space of Unicode is stripped), the caption
    as given has at most 2200 characters, and there are at most ten
    media URLs.  The checks run in this order and the first that
    fails gives the report: a bad post type is named, a caption that
    is too long is reported with its number of characters, too many
    URLs with their number.  An invocation whose inputs fail the validation
    returns that report and sends nothing. *)
Theorem late_input_validation post_type content media_urls :
  let validation := LateInstagramTool._validate_inputs post_type content media_urls in
  let known := In post_type ["feed"; "story"; "reel"] in
  let urls := match media_urls with Some l => List.length l | None => 0%nat end in
  (success_of validation = true
   <-> known /\ Py.strip content <> "" /\ Py.len content <= 2200
       /\ (urls <= 10)%nat)
  /\ (~ known ->
      field "error_message" validation
      = Some (JStr ("Invalid post_type '" ++ post_type
                    ++ "'. Must be 'feed', 'story', or 'reel'.")))
  /\ (known -> Py.strip content = "" ->
      field "error_message" validation
      = Some (JStr "Content cannot be empty. Please provide caption text for your post."))
  /\ (known -> Py.strip content <> "" -> 2200 < Py.len content ->
      field "error_message" validation
      = Some (JStr ("Content is too long ("
                    ++ Py.str_of_Z (Py.len content)
                    ++ " characters). Instagram captions should be under 2200 characters.")))
  /\ (known -> Py.strip content <> "" -> Py.len content <= 2200 ->
      (10 < urls)%nat ->
      field "error_message" validation
      = Some (JStr ("Too many media URLs (" ++ Py.str_of_Z (Z.of_nat urls)
                    ++ "). Instagram allows maximum 10 images per post.")))
  /\ (forall W account_id schedule_time hashtags mentions t,
        success_of (LateInstagramTool._check_environment_variables W) = true ->
        Json.truthy (LateInstagramTool.final_account_id account_id
                       (Json.of_opt (getenv W "LATE_ACCOUNT_ID"))) = true ->
        success_of validation = false ->
        LateInstagramTool.run_result W account_id content media_urls schedule_time
          post_type hashtags mentions t = (Ret validation, t)).
Proof.
  intros validation known urls. subst validation known urls.
  pose proof (late_known_post_type post_type) as K.
  pose proof (bool_true_iff _ _ K) as NK.
  pose proof (late_not_blank content) as B.
  pose proof (bool_false_iff _ _ B) as NB.
  pose proof (late_not_long content) as C.
  pose proof (bool_false_iff _ _ C) as NC.
  pose proof (late_not_many media_urls) as U.
  pose proof (bool_false_iff _ _ U) as NU.
  assert (UC : LateInstagramTool.count media_urls
               = Z.of_nat (match media_urls with Some l => List.length l | None => 0%nat end)).
  { destruct media_urls; reflexivity. }
  assert (V : forall b1 b2 b3 b4 : bool, forall d1 d2 d3 d4 : json,
            success_of d1 = false -> success_of d2 = false -> success_of d3 = false ->
            success_of d4 = false ->
            (success_of (if negb b1 then d1 else if b2 then d2 else if b3 then d3
                         else if b4 then d4 else JObj [("success", JBool true)]) = true
             <-> b1 = true /\ b2 = false /\ b3 = false /\ b4 = false)).
  { intros [|] [|] [|] [|] d1 d2 d3 d4 S1 S2 S3 S4; cbn [negb];
      try rewrite S1; try rewrite S2; try rewrite S3; try rewrite S4;
      split; try discriminate; try (intros (H1 & H2 & H3 & H4); discriminate);
      intros _; repeat split. }
  split; [|split; [|split; [|split; [|split]]]].
  - unfold LateInstagramTool._validate_inputs. rewrite V by reflexivity.
    rewrite K, B, C, U. reflexivity.
  - intros N. apply NK in N. unfold LateInstagramTool._validate_inputs. rewrite N.
    reflexivity.
  - intros Y E. apply K in Y.
    assert (X : negb (Py.truthy content) || negb (Py.truthy (Py.strip content)) = true).
    { apply NB. intros H. contradiction. }
    unfold LateInstagramTool._validate_inputs. rewrite Y, X. reflexivity.
  - intros Y E L. apply K in Y. apply B in E.
    assert (X : (Py.len content >? 2200) = true) by (apply NC; lia).
    unfold LateInstagramTool._validate_inputs. rewrite Y, E, X. reflexivity.
  - intros Y E L M. apply K in Y. apply B in E. apply C in L.
    assert (X : (LateInstagramTool.truthy_list media_urls
                 && (LateInstagramTool.count media_urls >? 10)) = true)
      by (apply NU; lia).
    unfold LateInstagramTool._validate_inputs. rewrite Y, E, L, X, UC. reflexivity.
  - intros W account_id schedule_time hashtags mentions t E A F.
    apply (late_run_invalid_inputs W account_id content media_urls schedule_time
             post_type hashtags mentions t E A F).
Qed.

Lemma late_input_validation_witness :
  LateInstagramTool.run_result
    (Sample.world Sample.configured_env (Sample.always Sample.ok_with_id))
    None "Hello world"
    (Some ["u1"; "u2"; "u3"; "u4"; "u5"; "u6"; "u7"; "u8"; "u9"; "u10"; "u11"])
    None "feed" None None []
  = (Ret (JObj [("success", JBool false);
                ("error_message",
                 JStr "Too many media URLs (11). Instagram allows maximum 10 images per post.");
                ("troubleshooting", JStr "Reduce the number of images to 10 or fewer")]),
     [])
  /\ LateInstagramTool.run_result
       (Sample.world Sample.configured_env (Sample.always Sample.ok_with_id))
       None (Sample.nbsp ++ Sample.nbsp) None None "feed" None None []
     = (Ret (JObj [("success", JBool false);
                   ("error_message",
                    JStr "Content cannot be empty. Please provide caption text for your post.");
                   ("troubleshooting",
                    JStr "Add at least a brief caption or description for your Instagram post")]),
        [])
  /\ success_of (LateInstagramTool._validate_inputs "feed" (Sample.copies 1101 "é") None)
     = true.
Proof.
  split; [|split].
  - destruct (late_input_validation "feed" "Hello world"
                (Some ["u1"; "u2"; "u3"; "u4"; "u5"; "u6"; "u7"; "u8"; "u9"; "u10"; "u11"]))
      as (_ & _ & _ & _ & _ & H).
    rewrite (H (Sample.world Sample.configured_env (Sample.always Sample.ok_with_id))
               None None None None [] eq_refl eq_refl eq_refl).
    reflexivity.
  - destruct (late_input_validation "feed" (Sample.nbsp ++ Sample.nbsp) None)
      as (_ & _ & _ & _ & _ & H).
    rewrite (H (Sample.world Sample.configured_env (Sample.always Sample.ok_with_id))
               None None None None [] eq_refl eq_refl eq_refl).
    reflexivity.
  - destruct (late_input_validation "feed" (Sample.copies 1101 "é") None) as (H & _).
    apply H. split; [left; reflexivity|]. split; [vm_compute; discriminate|].
    split; [vm_compute; discriminate|cbn; lia].
Defined.

(** ** The Late adapter: the call and the schedule *)

Section LateRequest.

Variable W : World.
Variables data api_key : json.
Variable t : list Request.

Local Notation "'posting_request'" :=
  (mkRequest "POST" "https://api.getlate.io/v1/posts" data).

Lemma late_request_failed e :
  transport W t posting_request = Failed e ->
  LateInstagramTool._make_api_request W "POST" "/v1/posts" data api_key t
  = (Ret (if Exn.is_Timeout e then
            JObj [("success", JBool false);
                  ("error_message", JStr "Request timed out. Late.io API may be slow or unreachable.");
                  ("troubleshooting", JStr "1. Check your internet connection, 2. Try again in a few minutes, 3. Check Late.io status page")]
          else if Exn.is_ConnectionError e then
            JObj [("success", JBool false);
                  ("error_message", JStr "Connection error. Cannot reach Late.io API.");
                  ("troubleshooting", JStr "1. Check your internet connection, 2. Verify Late.io service status, 3. Check firewall settings")]
          else
            JObj [("success", JBool false);
                  ("error_message", JStr ("Unexpected error: " ++ Exn.str e));
                  ("troubleshooting", JStr "This is an unexpected error. Please try again or contact support.")]),
     (t ++ [posting_request])%list).
Proof.
  intros F. unfold LateInstagramTool._make_api_request.
  change ((Py.upper "POST" =? "GET")%string) with false. cbv iota.
  unfold try_except, bind, requests.post, requests.request.
  change (requests.url_fault (LateInstagramTool.base_url ++ "/v1/posts")) with (@None exn).
  cbv iota.
  change (mkRequest "POST" (LateInstagramTool.base_url ++ "/v1/posts") data)
    with posting_request.
  rewrite F. cbn [dispatch]. cbv [Exn.is_Exception].
  destruct (Exn.is_Timeout e), (Exn.is_ConnectionError e); reflexivity.
Qed.

End LateRequest.

Lemma late_api_error_message_cases (r : Response) :
  (forall kv m, json_value r = Some (JObj kv) -> Json.lookup "message" kv = Some m ->
     LateInstagramTool.api_error_message r = Json.str m)
  /\ (forall kv e, json_value r = Some (JObj kv) -> Json.lookup "message" kv = None ->
      Json.lookup "error" kv = Some e ->
      LateInstagramTool.api_error_message r = Json.str e)
  /\ (forall kv, json_value r = Some (JObj kv) -> Json.lookup "message" kv = None ->
      Json.lookup "error" kv = None ->
      LateInstagramTool.api_error_message r = "Unknown API error")
  /\ ((forall kv, json_value r <> Some (JObj kv)) ->
      LateInstagramTool.api_error_message r
      = "HTTP " ++ Py.str_of_Z (status_code r) ++ " error").
Proof.
  unfold LateInstagramTool.api_error_message, requests.json. repeat split.
  - intros kv m J M. rewrite J. cbn [Json.get]. rewrite M.
    destruct (Json.lookup "error" kv); reflexivity.
  - intros kv e J M E. rewrite J. cbn [Json.get]. rewrite M, E. reflexivity.
  - intros kv J M E. rewrite J. cbn [Json.get]. rewrite M, E. reflexivity.
  - intros N. destruct (json_value r) as [[| | | | |kv]|]; try reflexivity.
    contradiction (N kv eq_refl).
Qed.

(** X26 (late_instagram_tool.py, _make_api_request, lines 162-230).
    How the call to Late reports a failure.  Status 401 is an
    authentication failure and 403 a forbidden access, each with its
    own advice.  Any other status from 400 on, 429 apart, is an API
    error that repeats the status and at most the first 500
    characters of the body; its message is the text under the body's
    ["message"], else the text under the body's ["error"], else
    Unknown API error, and for a body that is not a JSON object the
    words HTTP, the status, error.  A transport failure is a time-out
    when the exception is a timeout (a connect timeout included),
    unreachable for any other connection error, and an unexpected
    error that quotes the exception otherwise. *)
Theorem late_api_error_classification W data api_key t :
  let posting_request := mkRequest "POST" "https://api.getlate.io/v1/posts" data in
  let result :=
    fst (LateInstagramTool._make_api_request W "POST" "/v1/posts" data api_key t) in
  (forall r, transport W t posting_request = Responded r ->
     (status_code r = 401 ->
      result
      = Ret (JObj [("success", JBool false);
                   ("error_message", JStr "Authentication failed. Your API key may be invalid or expired.");
                   ("status_code", JNum 401);
                   ("troubleshooting", JStr "1. Check your LATE_API_KEY, 2. Verify it's not expired, 3. Generate a new key from Late.io dashboard")]))
     /\ (status_code r = 403 ->
         result
         = Ret (JObj [("success", JBool false);
                      ("error_message", JStr "Access forbidden. Your account may not have permission for this action.");
                      ("status_code", JNum 403);
                      ("troubleshooting", JStr "1. Check your Late.io subscription, 2. Verify Instagram account is properly connected, 3. Check account permissions")]))
     /\ (400 <= status_code r -> status_code r <> 401 -> status_code r <> 403 ->
         status_code r <> 429 ->
         exists message,
           result
           = Ret (JObj [("success", JBool false);
                        ("error_message", JStr ("API Error: " ++ message));
                        ("status_code", JNum (status_code r));
                        ("raw_response", JStr (Py.take 500 (text r)));
                        ("troubleshooting", JStr "Check the error details above and verify your request parameters")])
           /\ (forall kv m, json_value r = Some (JObj kv) ->
               Json.lookup "message" kv = Some (JStr m) -> message = m)
           /\ (forall kv e, json_value r = Some (JObj kv) ->
               Json.lookup "message" kv = None -> Json.lookup "error" kv = Some (JStr e) ->
               message = e)
           /\ (forall kv, json_value r = Some (JObj kv) ->
               Json.lookup "message" kv = None -> Json.lookup "error" kv = None ->
               message = "Unknown API error")
           /\ ((forall kv, json_value r <> Some (JObj kv)) ->
               message = "HTTP " ++ Py.str_of_Z (status_code r) ++ " error")))
  /\ (forall e, transport W t posting_request = Failed e ->
      (Exn.is_Timeout e = true ->
       field "error_message" (match result with Ret d => d | Raise _ => JNull end)
       = Some (JStr "Request timed out. Late.io API may be slow or unreachable."))
      /\ (Exn.is_Timeout e = false -> Exn.is_ConnectionError e = true ->
          field "error_message" (match result with Ret d => d | Raise _ => JNull end)
          = Some (JStr "Connection error. Cannot reach Late.io API."))
      /\ (Exn.is_Timeout e = false -> Exn.is_ConnectionError e = false ->
          field "error_message" (match result with Ret d => d | Raise _ => JNull end)
          = Some (JStr ("Unexpected error: " ++ Exn.str e)))).
Proof.
  intros posting_request result. subst result. split.
  - intros r T. unfold LateInstagramTool._make_api_request.
    change ((Py.upper "POST" =? "GET")%string) with false. cbv iota.
    unfold try_except, bind, requests.post, requests.request.
    change (requests.url_fault (LateInstagramTool.base_url ++ "/v1/posts"))
      with (@None exn).
    cbv iota.
    change (mkRequest "POST" (LateInstagramTool.base_url ++ "/v1/posts") data)
      with posting_request.
    rewrite T. split; [|split].
    + intros E. rewrite E. reflexivity.
    + intros E. rewrite E. reflexivity.
    + intros G N1 N2 N3. apply Z.eqb_neq in N1, N2, N3. rewrite N1, N2, N3.
      replace (status_code r >=? 400) with true
        by (symmetry; apply Z.geb_le; exact G).
      exists (LateInstagramTool.api_error_message r). split.
      * cbn [fst ret].
        destruct (text r) as [|c s] eqn:X; [reflexivity|].
        change (Py.truthy (String c s)) with true. reflexivity.
      * destruct (late_api_error_message_cases r) as (M1 & M2 & M3 & M4).
        split; [|split; [|split]].
        -- intros kv m J M. exact (M1 kv (JStr m) J M).
        -- intros kv e J M E. exact (M2 kv (JStr e) J M E).
        -- exact M3.
        -- exact M4.
  - intros e F. rewrite (late_request_failed W data api_key t e F). cbn [fst].
    repeat split.
    + intros C. rewrite C. reflexivity.
    + intros C1 C2. rewrite C1, C2. reflexivity.
    + intros C1 C2. rewrite C1, C2. reflexivity.
Qed.

Lemma late_api_error_classification_witness :
  fst (LateInstagramTool._make_api_request
         (Sample.world Sample.configured_env
            (Sample.always
               (Sample.json_response 422 (JObj [("error", JStr "Account not connected")]))))
         "POST" "/v1/posts" (JObj [("text", JStr "Hello world")])
         (JStr "late-api-key-0123456789") [])
  = Ret (JObj [("success", JBool false);
               ("error_message", JStr "API Error: Account not connected");
               ("status_code", JNum 422);
               ("raw_response",
                JStr (Json.dumps (JObj [("error", JStr "Account not connected")])));
               ("troubleshooting", JStr "Check the error details above and verify your request parameters")])
  /\ fst (LateInstagramTool._make_api_request
            (Sample.world Sample.configured_env
               (Sample.always (Sample.plain_response 502 (Sample.copies 600 "é"))))
            "POST" "/v1/posts" (JObj [("text", JStr "Hello world")])
            (JStr "late-api-key-0123456789") [])
     = Ret (JObj [("success", JBool false);
                  ("error_message", JStr "API Error: HTTP 502 error");
                  ("status_code", JNum 502);
                  ("raw_response", JStr (Sample.copies 500 "é"));
                  ("troubleshooting", JStr "Check the error details above and verify your request parameters")]).
Proof.
  split.
  - destruct (late_api_error_classification
                (Sample.world Sample.configured_env
                   (Sample.always
                      (Sample.json_response 422
                         (JObj [("error", JStr "Account not connected")]))))
                (JObj [("text", JStr "Hello world")]) (JStr "late-api-key-0123456789") [])
      as (H & _).
    destruct (H _ eq_refl) as (_ & _ & G).
    destruct G as (message & E & _ & M & _); [cbn; lia|discriminate..|].
    rewrite E.
    rewrite (M [("error", JStr "Account not connected")] "Account not connected"
               eq_refl eq_refl eq_refl).
    reflexivity.
  - destruct (late_api_error_classification
                (Sample.world Sample.configured_env
                   (Sample.always (Sample.plain_response 502 (Sample.copies 600 "é"))))
                (JObj [("text", JStr "Hello world")]) (JStr "late-api-key-0123456789") [])
      as (H & _).
    destruct (H _ eq_refl) as (_ & _ & G).
    destruct G as (message & E & _ & _ & _ & M); [cbn; lia|discriminate..|].
    rewrite E. rewrite M by (intros kv K; discriminate K).
    vm_compute. reflexivity.
Defined.

Lemma substring_at_end (p : string) (c : ascii) :
  String.substring (String.length p) 1 (p ++ String c "") = String c "".
Proof. induction p as [|x p IH]; [reflexivity|exact IH]. Qed.

Lemma substring_without_last (p : string) (c : ascii) :
  String.substring 0 (String.length p) (p ++ String c "") = p.
Proof. induction p as [|x p IH]; [reflexivity|]. cbn. rewrite IH. reflexivity. Qed.

Lemma late_iso_argument_final_z (p : string) :
  LateInstagramTool.iso_argument (p ++ "Z") = p ++ "+00:00".
Proof.
  unfold LateInstagramTool.iso_argument, Py.endswith, Py.drop_last.
  rewrite string_app_length. cbn [String.length].
  replace (String.length p + 1 - 1)%nat with (String.length p) by lia.
  rewrite substring_at_end, substring_without_last.
  replace (1 <=? String.length p + 1)%nat with true
    by (symmetry; apply Nat.leb_le; lia).
  reflexivity.
Qed.

Lemma late_horizon (i now : Z) :
  ((i - now) / LateInstagramTool.day_us >? 365) = true
  <-> 366 * 86400 * 1000000 <= i - now.
Proof.
  unfold LateInstagramTool.day_us. rewrite Z.gtb_lt. split; intros H.
  - assert (366 <= (i - now) / 86400000000) by lia.
    pose proof (Z.mul_div_le (i - now) 86400000000 ltac:(lia)). lia.
  - assert (366 <= (i - now) / 86400000000); [|lia].
    apply Z.div_le_lower_bound; lia.
Qed.

(** X27 (late_instagram_tool.py, _validate_schedule_time and _run, lines
    232-274 and 312-315).  A schedule time that ends in Z is read with
    that final Z replaced by +00:00.  A time the ISO reader refuses is
    reported as an invalid format.  A timezone-aware instant after
    the current time is accepted when it is less than 366 days ahead,
    so up to 365 days and almost 24 hours, and it is then formatted
    for the request; from 366 days on it is reported as too far.  An
    invocation whose schedule is not accepted returns the report and
    sends nothing. *)
Theorem late_schedule_format_and_horizon W schedule_time :
  Py.truthy_opt schedule_time = true ->
  let validation := LateInstagramTool._validate_schedule_time W schedule_time in
  let argument := LateInstagramTool.iso_argument (str_opt schedule_time) in
  (forall p, schedule_time = Some (p ++ "Z") -> argument = p ++ "+00:00")
  /\ (fromisoformat W argument = None ->
      exists detail,
        validation
        = Ret (JObj [("success", JBool false);
                     ("error_message", JStr ("Invalid schedule time format: " ++ detail));
                     ("troubleshooting", JStr "Use ISO format like '2024-12-25T10:30:00Z' or '2024-12-25T10:30:00'")]))
  /\ (forall i off,
        fromisoformat W argument = Some (Aware i off) ->
        clock_us W < i -> i - clock_us W < 366 * 86400 * 1000000 ->
        validation
        = Ret (JObj [("success", JBool true);
                     ("is_scheduled", JBool true);
                     ("formatted_time", JStr (isoformat W (Aware i off)))]))
  /\ (forall i off,
        fromisoformat W argument = Some (Aware i off) ->
        366 * 86400 * 1000000 <= i - clock_us W ->
        validation
        = Ret (JObj [("success", JBool false);
                     ("error_message",
                      JStr "Schedule time is too far in the future (max 365 days)");
                     ("troubleshooting", JStr "Choose a date within the next year")]))
  /\ (forall account_id content media_urls post_type hashtags mentions t d,
        late_inputs_pass W account_id content media_urls post_type ->
        validation = Ret d -> success_of d = false ->
        LateInstagramTool.run_result W account_id content media_urls schedule_time
          post_type hashtags mentions t = (Ret d, t)).
Proof.
  intros T validation argument. subst validation argument.
  split; [|split; [|split; [|split]]].
  - intros p ->. apply late_iso_argument_final_z.
  - intros F. unfold LateInstagramTool._validate_schedule_time. rewrite T.
    cbn [negb]. cbv zeta. rewrite F. eexists. reflexivity.
  - intros i off F L H.
    rewrite (late_validate_parsed W schedule_time i off T F).
    replace (i <=? clock_us W) with false by (symmetry; apply Z.leb_gt; exact L).
    destruct ((i - clock_us W) / LateInstagramTool.day_us >? 365) eqn:E; [|reflexivity].
    apply late_horizon in E. lia.
  - intros i off F H.
    rewrite (late_validate_parsed W schedule_time i off T F).
    replace (i <=? clock_us W) with false by (symmetry; apply Z.leb_gt; lia).
    replace ((i - clock_us W) / LateInstagramTool.day_us >? 365) with true
      by (symmetry; apply late_horizon; exact H).
    reflexivity.
  - intros account_id content media_urls post_type hashtags mentions t d (E & A & I) V F.
    apply (late_run_schedule_refused W account_id content media_urls schedule_time
             post_type hashtags mentions t E A I d V F).
Qed.

Lemma late_schedule_format_and_horizon_witness :
  LateInstagramTool._validate_schedule_time
    (Sample.world Sample.configured_env (Sample.always Sample.ok_with_id))
    (Some "2026-01-01T23:00:00Z")
  = Ret (JObj [("success", JBool true);
               ("is_scheduled", JBool true);
               ("formatted_time", JStr "2026-01-01T23:00:00+00:00")])
  /\ LateInstagramTool.run_result
       (Sample.world Sample.configured_env (Sample.always Sample.ok_with_id))
       None "Hello world" None (Some "2026-01-02T00:00:00Z") "feed" None None []
     = (Ret (JObj [("success", JBool false);
                   ("error_message",
                    JStr "Schedule time is too far in the future (max 365 days)");
                   ("troubleshooting", JStr "Choose a date within the next year")]), []).
Proof.
  split.
  - destruct (late_schedule_format_and_horizon
                (Sample.world Sample.configured_env (Sample.always Sample.ok_with_id))
                (Some "2026-01-01T23:00:00Z") eq_refl) as (_ & _ & H & _).
    apply (H 1767308400000000 0); [reflexivity|reflexivity|vm_compute; reflexivity].
  - destruct (late_schedule_format_and_horizon
                (Sample.world Sample.configured_env (Sample.always Sample.ok_with_id))
                (Some "2026-01-02T00:00:00Z") eq_refl) as (_ & _ & _ & F & H).
    apply H.
    + repeat split; reflexivity.
    + apply (F 1767312000000000 0); [reflexivity|vm_compute; discriminate].
    + reflexivity.
Defined.

(** ** The Late adapter: the text, the request and the report *)

Lemma string_app_cancel (a s : string) : a ++ s = a -> s = "".
Proof.
  intros H. apply (f_equal String.length) in H. rewrite string_app_length in H.
  destruct s; [reflexivity|cbn in H; lia].
Qed.

Lemma string_app_empty (a b : string) : a ++ b = "" -> a = "" /\ b = "".
Proof. destruct a; [intros H; split; [reflexivity|exact H]|discriminate]. Qed.

Lemma add_mentions_appends (text : string) (mentions : list string) :
  exists suffix,
    LateInstagramTool.add_mentions text mentions = text ++ suffix
    /\ (suffix = "" ->
        forall user, In user mentions -> Py.contains ("@" ++ user) text = true).
Proof.
  revert text. induction mentions as [|m rest IH]; intros text.
  - exists "". split; [symmetry; apply string_app_nil_r|]. intros _ user [].
  - cbn [LateInstagramTool.add_mentions].
    destruct (Py.contains ("@" ++ m) text) eqn:E; cbn [negb].
    + destruct (IH text) as (s & A & P). exists s. split; [exact A|].
      intros Z user [<-|I]; [exact E|apply (P Z user I)].
    + destruct (IH (text ++ " " ++ "@" ++ m)) as (s & A & _).
      exists ((" " ++ "@" ++ m) ++ s). split.
      * rewrite A. apply string_app_assoc.
      * intros Z. discriminate Z.
Qed.

Lemma hashtag_list_empty (text : string) (hashtags : list string) :
  LateInstagramTool.hashtag_list text hashtags = [] ->
  forall tag, In tag hashtags -> Py.contains ("#" ++ tag) text = true.
Proof.
  intros H tag I. destruct (Py.contains ("#" ++ tag) text) eqn:E; [reflexivity|].
  pose proof (hashtag_list_complete text tag hashtags I E) as C.
  rewrite H in C. destruct C.
Qed.

(** X28 (late_instagram_tool.py, _format_content).  Formatting only
    appends: the text sent to Late always starts with the stripped
    caption, and it is the stripped caption itself exactly when
    every mention token and every hashtag token is already part of
    it. *)
Theorem late_format_content_only_appends content hashtags mentions :
  (exists suffix,
     LateInstagramTool._format_content content hashtags mentions
     = Py.strip content ++ suffix)
  /\ Py.startswith (Py.strip content)
       (LateInstagramTool._format_content content hashtags mentions) = true
  /\ (LateInstagramTool._format_content content hashtags mentions = Py.strip content
      <-> (forall user, In user (match mentions with Some l => l | None => [] end) ->
             Py.contains ("@" ++ user) (Py.strip content) = true)
          /\ (forall tag, In tag (match hashtags with Some l => l | None => [] end) ->
                Py.contains ("#" ++ tag) (Py.strip content) = true)).
Proof.
  assert (M : exists s,
            match mentions with
            | Some l => LateInstagramTool.add_mentions (Py.strip content) l
            | None => Py.strip content
            end = Py.strip content ++ s
            /\ (s = "" ->
                forall user, In user (match mentions with Some l => l | None => [] end) ->
                             Py.contains ("@" ++ user) (Py.strip content) = true)).
  { destruct mentions as [l|]; [apply add_mentions_appends|].
    exists "". split; [symmetry; apply string_app_nil_r|]. intros _ user []. }
  destruct M as (s & A & P).
  assert (F : exists h,
            LateInstagramTool._format_content content hashtags mentions
            = Py.strip content ++ s ++ h
            /\ (h = "" ->
                forall tag, In tag (match hashtags with Some l => l | None => [] end) ->
                            Py.contains ("#" ++ tag) (Py.strip content ++ s) = true)).
  { unfold LateInstagramTool._format_content. cbv zeta. rewrite A.
    destruct hashtags as [l|].
    - destruct (LateInstagramTool.hashtag_list (Py.strip content ++ s) l) as [|x r] eqn:H.
      + exists "". split; [rewrite string_app_nil_r; reflexivity|].
        intros _. apply hashtag_list_empty. exact H.
      + exists (LF ++ LF ++ Py.join " " (x :: r)). split.
        * rewrite string_app_assoc. reflexivity.
        * intros Z. discriminate Z.
    - exists "". split; [rewrite string_app_nil_r; reflexivity|]. intros _ tag []. }
  destruct F as (h & E & Q).
  split; [exists (s ++ h); exact E|]. split; [rewrite E; apply startswith_self_app|].
  split.
  - intros R. rewrite E in R. apply string_app_cancel, string_app_empty in R.
    destruct R as [-> ->]. split; [apply P; reflexivity|].
    intros tag I. specialize (Q eq_refl tag I). rewrite string_app_nil_r in Q. exact Q.
  - intros [Hm Ht]. apply format_content_nothing_to_add.
    + intros user I. apply Hm. exact I.
    + intros tag I. apply Ht. exact I.
Qed.

Lemma late_format_content_only_appends_witness :
  LateInstagramTool._format_content "  Off to #travel with @sam  "
    (Some ["travel"]) (Some ["sam"])
  = "Off to #travel with @sam".
Proof.
  apply (proj2 (proj2 (late_format_content_only_appends "  Off to #travel with @sam  "
                         (Some ["travel"]) (Some ["sam"])))).
  split; intros x [<-|[]]; reflexivity.
Defined.

Lemma late_request_trace W data api_key t :
  snd (LateInstagramTool._make_api_request W "POST" "/v1/posts" data api_key t)
  = (t ++ [mkRequest "POST" "https://api.getlate.io/v1/posts" data])%list.
Proof.
  unfold LateInstagramTool._make_api_request.
  change ((Py.upper "POST" =? "GET")%string) with false. cbv iota.
  rewrite trace_try_bind; [|intros response; block_pure|handlers_pure].
  apply request_sent. reflexivity.
Qed.

Lemma late_schedule_validation_cases W schedule_time tv :
  LateInstagramTool._validate_schedule_time W schedule_time = Ret tv ->
  success_of tv = true ->
  (Py.truthy_opt schedule_time = false
   /\ tv = JObj [("success", JBool true); ("is_scheduled", JBool false)])
  \/ (Py.truthy_opt schedule_time = true
      /\ exists formatted_time,
           tv = JObj [("success", JBool true);
                      ("is_scheduled", JBool true);
                      ("formatted_time", JStr formatted_time)]).
Proof.
  unfold LateInstagramTool._validate_schedule_time.
  destruct (Py.truthy_opt schedule_time); cbn [negb].
  - cbv zeta. destruct (fromisoformat W _) as [[w|i off]|].
    + discriminate.
    + destruct (i <=? clock_us W); [intros E; injection E as <-; discriminate|].
      destruct (_ >? 365); [intros E; injection E as <-; discriminate|].
      intros E _. injection E as <-. right. split; [reflexivity|]. eexists. reflexivity.
    + intros E. injection E as <-. discriminate.
  - intros E _. injection E as <-. left. split; reflexivity.
Qed.

Section LateStages.

Variable W : World.
Variable account_id : option string.
Variable content : string.
Variables media_urls : option (list string).
Variable schedule_time : option string.
Variable post_type : string.
Variables hashtags mentions : option (list string).
Variable t : list Request.

Hypothesis inputs_pass : late_inputs_pass W account_id content media_urls post_type.

(** An exception of the schedule validation reaches the handler of
    [_run]. *)
Lemma late_run_schedule_raised e :
  LateInstagramTool._validate_schedule_time W schedule_time = Raise e ->
  LateInstagramTool.run_result W account_id content media_urls schedule_time post_type
    hashtags mentions t
  = (Ret (LateInstagramTool.unexpected_error W account_id content media_urls
            schedule_time post_type e), t).
Proof.
  intros R. destruct inputs_pass as (E & A & I).
  unfold LateInstagramTool.run_result, try_except, bind.
  rewrite (late_env_ok W E). cbn [success_of Json.lookup Json.truthy negb
    String.eqb Ascii.eqb Bool.eqb lift Json.getitem Json.get].
  rewrite A. cbn [negb].
  change (match LateInstagramTool._validate_inputs post_type content media_urls with
          | JObj kv => match Json.lookup "success" kv with
                       | Some v => Json.truthy v | None => false end
          | _ => false end)
    with (success_of (LateInstagramTool._validate_inputs post_type content media_urls)).
  rewrite I. cbn [negb]. rewrite R. reflexivity.
Qed.

End LateStages.

(** X29 (late_instagram_tool.py, _run, lines 323-347, with
    _make_api_request).  An invocation sends at most one request, and
    it is always a POST of a JSON object to the posts endpoint of
    Late.  When the checks pass, exactly one is sent, whatever comes
    back, and its body holds: the formatted text; the account id
    under [platforms.instagram], which is the argument when one is
    given and the environment's default otherwise; one [{url}] entry
    for each media URL, in order, when there are any; and the
    formatted schedule under [publish_at] when the post is
    scheduled.  It holds no other key. *)
Theorem late_request_body W account_id content media_urls schedule_time post_type
    hashtags mentions t :
  let run :=
    LateInstagramTool.run_result W account_id content media_urls schedule_time
      post_type hashtags mentions t in
  (exists l,
     snd run = (t ++ l)%list
     /\ (l = []
         \/ exists body,
              l = [mkRequest "POST" "https://api.getlate.io/v1/posts" (JObj body)]))
  /\ (forall tv,
        late_reaches_posting W account_id content media_urls schedule_time post_type tv ->
        exists body,
          snd run
          = (t ++ [mkRequest "POST" "https://api.getlate.io/v1/posts" (JObj body)])%list
          /\ Json.lookup "text" body
             = Some (JStr (LateInstagramTool._format_content content hashtags mentions))
          /\ Json.lookup "platforms" body
             = Some (JObj [("instagram",
                            JObj [("account_id",
                                   match account_id with
                                   | Some a =>
                                       if (a =? "")%string
                                       then Json.of_opt (getenv W "LATE_ACCOUNT_ID")
                                       else JStr a
                                   | None => Json.of_opt (getenv W "LATE_ACCOUNT_ID")
                                   end)])])
          /\ Json.lookup "media" body
             = match media_urls with
               | Some (u :: us) =>
                   Some (JArr (map (fun url => JObj [("url", JStr url)]) (u :: us)))
               | _ => None
               end
          /\ Json.lookup "publish_at" body
             = (if Py.truthy_opt schedule_time then field "formatted_time" tv else None)
          /\ (forall k, In k (map fst body) ->
              In k ["text"; "platforms"; "media"; "publish_at"])).
Proof.
  intros run.
  assert (P : forall tv,
            late_reaches_posting W account_id content media_urls schedule_time post_type
              tv ->
            snd run
            = (t ++ [late_posting_request W account_id content media_urls hashtags
                       mentions tv])%list).
  { intros tv ((E & A & I) & V & S). subst run.
    pose proof (late_request_trace W
                  (req_payload (late_posting_request W account_id content media_urls
                                  hashtags mentions tv))
                  (Json.of_opt (getenv W "LATE_API_KEY")) t) as TR.
    destruct (late_request_returns W "POST" "/v1/posts"
                (req_payload (late_posting_request W account_id content media_urls
                                hashtags mentions tv))
                (Json.of_opt (getenv W "LATE_API_KEY")) t) as (res & t1 & R).
    rewrite R in TR. cbn [snd] in TR. subst t1.
    cbn [req_payload late_posting_request] in R.
    destruct (success_of res) eqn:SR.
    - assert (D : exists rd, field "data" res = Some rd).
      { revert R SR. unfold LateInstagramTool._make_api_request.
        change ((Py.upper "POST" =? "GET")%string) with false. cbv iota.
        unfold try_except, bind, requests.post, requests.request.
        change (requests.url_fault (LateInstagramTool.base_url ++ "/v1/posts"))
          with (@None exn).
        cbv iota.
        destruct (transport W t _) as [r|e].
        - destruct (status_code r =? 401);
            [intros R; injection R as <-; discriminate|].
          destruct (status_code r =? 403);
            [intros R; injection R as <-; discriminate|].
          destruct (status_code r =? 429);
            [intros R; injection R as <-; discriminate|].
          destruct (status_code r >=? 400);
            [intros R; injection R as <-; discriminate|].
          unfold lift, requests.json, requests.decode_error.
          destruct (Py.truthy (text r));
            [destruct (json_value r); [|destruct (json_refusal r)]|];
            cbn [dispatch Exn.is_JSONDecodeError Exn.is_Timeout Exn.is_ConnectionError
                   ret raise];
            cbv [Exn.is_Exception];
            intros R; injection R as <-;
            ((intros F; discriminate F) || (intros _; eexists; reflexivity)).
        - cbn [dispatch]. cbv [Exn.is_Exception].
          destruct (Exn.is_Timeout e), (Exn.is_ConnectionError e);
            intros R; injection R as <-; discriminate. }
      destruct D as (rd & D).
      destruct (late_run_request_succeeded W account_id content media_urls schedule_time
                  post_type hashtags mentions t E A I tv V S res _ R rd SR D)
        as [(kv & _ & Run)|(_ & d & Run & _)]; rewrite Run; reflexivity.
    - rewrite (late_run_request_failed W account_id content media_urls schedule_time
                 post_type hashtags mentions t E A I tv V S res _ R SR).
      reflexivity. }
  split.
  - destruct (success_of (LateInstagramTool._check_environment_variables W)) eqn:E.
    2:{ exists []. rewrite app_nil_r. split; [|left; reflexivity]. subst run.
        rewrite (late_run_env_failed W account_id content media_urls schedule_time
                   post_type hashtags mentions t E). reflexivity. }
    destruct (Json.truthy (LateInstagramTool.final_account_id account_id
                             (Json.of_opt (getenv W "LATE_ACCOUNT_ID")))) eqn:A.
    2:{ exists []. rewrite app_nil_r. split; [|left; reflexivity]. subst run.
        destruct (late_run_no_account W account_id content media_urls schedule_time
                    post_type hashtags mentions t E A) as (d & Run & _).
        rewrite Run. reflexivity. }
    destruct (success_of (LateInstagramTool._validate_inputs post_type content media_urls))
      eqn:I.
    2:{ exists []. rewrite app_nil_r. split; [|left; reflexivity]. subst run.
        rewrite (late_run_invalid_inputs W account_id content media_urls schedule_time
                   post_type hashtags mentions t E A I). reflexivity. }
    destruct (LateInstagramTool._validate_schedule_time W schedule_time) as [tv|e] eqn:V.
    2:{ exists []. rewrite app_nil_r. split; [|left; reflexivity]. subst run.
        rewrite (late_run_schedule_raised W account_id content media_urls schedule_time
                   post_type hashtags mentions t (conj E (conj A I)) e V). reflexivity. }
    destruct (success_of tv) eqn:S.
    2:{ exists []. rewrite app_nil_r. split; [|left; reflexivity]. subst run.
        rewrite (late_run_schedule_refused W account_id content media_urls schedule_time
                   post_type hashtags mentions t E A I tv V S). reflexivity. }
    eexists. split; [apply (P tv); repeat split; assumption|].
    right. eexists. reflexivity.
  - intros tv R. rewrite (P tv R).
    destruct R as (_ & V & S).
    eexists. split; [reflexivity|].
    assert (ACC : LateInstagramTool.final_account_id account_id
                    (Json.of_opt (getenv W "LATE_ACCOUNT_ID"))
                  = match account_id with
                    | Some a =>
                        if (a =? "")%string
                        then Json.of_opt (getenv W "LATE_ACCOUNT_ID")
                        else JStr a
                    | None => Json.of_opt (getenv W "LATE_ACCOUNT_ID")
                    end).
    { unfold LateInstagramTool.final_account_id.
      destruct account_id as [a|]; [|reflexivity].
      cbn [Py.truthy_opt Json.of_opt]. unfold Py.truthy.
      destruct (a =? "")%string; reflexivity. }
    rewrite <- ACC.
    unfold LateInstagramTool.build_post_data.
    destruct (late_schedule_validation_cases W schedule_time tv V S)
      as [(T & ->)|(T & ft & ->)]; rewrite T; cbn [field Json.lookup String.eqb Ascii.eqb
        Bool.eqb Json.truthy];
      destruct media_urls as [[|u us]|]; cbn [LateInstagramTool.truthy_list];
      cbn [Json.set Json.lookup String.eqb Ascii.eqb Bool.eqb map fst];
      repeat split; try reflexivity; intros k K; cbn in *; intuition.
Qed.

Lemma late_request_body_witness :
  snd (LateInstagramTool.run_result
         (Sample.world Sample.configured_env (Sample.always Sample.ok_with_id))
         (Some "acct-7") "Hello world"
         (Some ["https://example.com/a.png"; "https://example.com/b.png"])
         None "feed" (Some ["travel"]) None [])
  = [mkRequest "POST" "https://api.getlate.io/v1/posts"
       (JObj [("text", JStr ("Hello world" ++ LF ++ LF ++ "#travel"));
              ("platforms", JObj [("instagram", JObj [("account_id", JStr "acct-7")])]);
              ("media",
               JArr [JObj [("url", JStr "https://example.com/a.png")];
                     JObj [("url", JStr "https://example.com/b.png")]])])].
Proof.
  destruct (late_request_body
              (Sample.world Sample.configured_env (Sample.always Sample.ok_with_id))
              (Some "acct-7") "Hello world"
              (Some ["https://example.com/a.png"; "https://example.com/b.png"])
              None "feed" (Some ["travel"]) None []) as (_ & H).
  destruct (H (JObj [("success", JBool true); ("is_scheduled", JBool false)]))
    as (body & E & _).
  - repeat split; reflexivity.
  - rewrite E. vm_compute in E. injection E as <-. reflexivity.
Defined.

(** X30 (late_instagram_tool.py, _run, lines 349-381).  The report of
    a post that Late accepted (a status below 400 whose body, as the
    call hands it back, is an object): the post counts as scheduled
    exactly when a schedule time was given, and as published
    otherwise; the post id is the body's ["id"] or the word unknown;
    the preview is the formatted text when it has at most 100
    characters and its first 100 characters followed by three dots
    otherwise, so never more than 103 characters; the media count is
    the number of URLs given. *)
Theorem late_success_report W account_id content media_urls schedule_time post_type
    hashtags mentions tv t r kv :
  late_reaches_posting W account_id content media_urls schedule_time post_type tv ->
  transport W t (late_posting_request W account_id content media_urls hashtags mentions tv)
  = Responded r ->
  status_code r < 400 ->
  late_body r = Some (JObj kv) ->
  let formatted := LateInstagramTool._format_content content hashtags mentions in
  let scheduled := Py.truthy_opt schedule_time in
  let status := if scheduled then "scheduled" else "published" in
  let preview :=
    if Py.len formatted >? 100
    then Py.take 100 formatted ++ "..."
    else formatted in
  exists d,
    fst (LateInstagramTool.run_result W account_id content media_urls schedule_time
           post_type hashtags mentions t) = Ret d
    /\ field "success" d = Some (JBool true)
    /\ field "message" d = Some (JStr ("Instagram post " ++ status ++ " successfully!"))
    /\ field "post_details" d
       = Some (JObj [("post_id", match Json.lookup "id" kv with
                                 | Some v => v
                                 | None => JStr "unknown"
                                 end);
                     ("account_id",
                      LateInstagramTool.final_account_id account_id
                        (Json.of_opt (getenv W "LATE_ACCOUNT_ID")));
                     ("status", JStr status);
                     ("content_preview", JStr preview);
                     ("media_count",
                      JNum (Z.of_nat (match media_urls with
                                      | Some l => List.length l
                                      | None => 0%nat
                                      end)));
                     ("scheduled_for",
                      if scheduled
                      then match field "formatted_time" tv with
                           | Some v => v
                           | None => JNull
                           end
                      else JNull);
                     ("post_type", JStr post_type)])
    /\ Py.len preview <= 103.
Proof.
  intros ((E & A & I) & V & S) T L B formatted scheduled status preview.
  destruct (late_request_outcome W _ (Json.of_opt (getenv W "LATE_API_KEY")) t r T)
    as (res & R & Sx & D & _).
  assert (SR : success_of res = true).
  { apply Sx. split; [exact L|]. rewrite B. discriminate. }
  destruct (late_run_request_succeeded W account_id content media_urls schedule_time
              post_type hashtags mentions t E A I tv V S res _ R (JObj kv) SR (D _ L B))
    as [(kv' & B' & Run)|(NB & _)]; [|destruct (NB kv eq_refl)].
  injection B' as <-.
  rewrite Run. cbn [fst]. eexists. split; [reflexivity|].
  unfold LateInstagramTool.success_response.
  assert (IS : match field "is_scheduled" tv with
               | Some v => Json.truthy v
               | None => false
               end = scheduled).
  { subst scheduled.
    destruct (late_schedule_validation_cases W schedule_time tv V S)
      as [(Ts & ->)|(Ts & ft & ->)]; rewrite Ts; reflexivity. }
  rewrite IS. fold status. fold formatted. fold preview.
  assert (MC : (if LateInstagramTool.truthy_list media_urls
                then LateInstagramTool.count media_urls else 0)
               = Z.of_nat (match media_urls with
                           | Some l => List.length l
                           | None => 0%nat
                           end)).
  { destruct media_urls as [[|u us]|]; reflexivity. }
  rewrite MC.
  split; [reflexivity|]. split; [reflexivity|]. split; [reflexivity|].
  subst preview.
  destruct (Z.gtb_spec (Py.len formatted) 100) as [G|G]; [|lia].
  unfold Py.len. rewrite characters_app by reflexivity.
  pose proof (characters_take 100 formatted) as K.
  change (Py.characters "...") with 3%nat. lia.
Qed.

Lemma late_success_report_witness :
  exists d details,
    fst (LateInstagramTool.run_result
           (Sample.world Sample.configured_env (Sample.always Sample.ok_with_id))
           None (Sample.copies 101 "é") None (Some "2025-06-01T10:30:00Z") "feed"
           None None []) = Ret d
    /\ field "message" d = Some (JStr "Instagram post scheduled successfully!")
    /\ field "post_details" d = Some details
    /\ field "content_preview" details = Some (JStr (Sample.copies 100 "é" ++ "...")).
Proof.
  destruct (late_success_report
              (Sample.world Sample.configured_env (Sample.always Sample.ok_with_id))
              None (Sample.copies 101 "é") None (Some "2025-06-01T10:30:00Z") "feed"
              None None
              (JObj [("success", JBool true);
                     ("is_scheduled", JBool true);
                     ("formatted_time", JStr "2025-06-01T10:30:00+00:00")])
              [] Sample.ok_with_id [("id", JStr "post-123")])
    as (d & E & _ & M & D & _).
  - repeat split; vm_compute; reflexivity.
  - reflexivity.
  - cbn. lia.
  - reflexivity.
  - exists d. eexists. split; [exact E|]. split; [exact M|]. split; [exact D|].
    vm_compute. reflexivity.
Defined.
